(** * Trading journal: the analytics and aggregation engine

    A shallow embedding of the derived-data pipeline of [src/App.js] (the
    current dashboard) and of the earlier variant of the same file kept as
    [unnamed/part_000], with the properties the specification states about
    them.

    The engine is embedded twice.
    - The first embedding takes a JavaScript number as an exact rational
      ([Q], with [None] for [NaN]) and a [Date] as a local calendar day (days
      since 1970-01-01) or the invalid date.  It is what the engine computes
      when no sum is rounded and every day starts at midnight; numeric
      equalities are stated with [==].  The statements about counts,
      classifications, filters, ranges and single entries are made on it.
    - The module [Engine] embeds the aggregators again on doubles (module
      [Double]: every sum and quotient rounded to the nearest double, with the
      infinities and [NaN]) and on dates read in a time zone that may skip
      midnights (module [Zoned]).  The statements about totals that depend on
      the order of the additions, about overflow, about the days the series
      walks and about the arrows of the month menu are made on it.
    - A plain JavaScript object used as a dictionary is a [gmap] over its own
      string keys.  Where the code reads a key of the accumulator before it
      writes it (the calendar index, the daily totals of [Engine]), the names
      every object inherits ([JS.inherited]) are told apart from other keys. *)

From Stdlib Require Import ZArith QArith Qabs Qround String Ascii List Lia.
From stdpp Require Import base list strings gmap sorting pretty.

Local Open Scope Z_scope.

(** * The JavaScript built-ins the engine relies on *)

Module JS.

(** ** Strings *)

(** White space removed by [trim] and ignored by [Number] (the ASCII part). *)
Definition is_space (c : ascii) : bool :=
  match N_of_ascii c with
  | 9 | 10 | 11 | 12 | 13 | 32 => true
  | _ => false
  end%N.

Fixpoint trimStart (s : string) : string :=
  match s with
  | String c s' => if is_space c then trimStart s' else s
  | EmptyString => EmptyString
  end.

Definition trim (s : string) : string :=
  String.rev (trimStart (String.rev (trimStart s))).

(** [s.split(sep)] for a separator of one character: always at least one
    piece, and an empty piece on each side of a leading, trailing or doubled
    separator. *)
Fixpoint split (sep : ascii) (s : string) : list string :=
  match s with
  | EmptyString => [EmptyString]
  | String c s' =>
      if Ascii.eqb c sep then EmptyString :: split sep s'
      else match split sep s' with
           | w :: ws => String c w :: ws
           | [] => [String c EmptyString]
           end
  end.

(** [s.padStart(2, '0')]. *)
Definition padStart2 (s : string) : string :=
  match s with
  | EmptyString => "00"
  | String c EmptyString => String "0" (String c EmptyString)
  | _ => s
  end.

(** [s.toLowerCase()] on ASCII letters. *)
Definition lower_char (c : ascii) : ascii :=
  let n := N_of_ascii c in
  if ((65 <=? n) && (n <=? 90))%N then ascii_of_N (n + 32) else c.

Fixpoint toLowerCase (s : string) : string :=
  match s with
  | EmptyString => EmptyString
  | String c s' => String (lower_char c) (toLowerCase s')
  end.

(** [s.includes(t)]. *)
Definition includes (s t : string) : bool :=
  match String.index 0 t s with
  | Some _ => true
  | None => false
  end.

(** ** Objects *)

(** The names an object literal inherits from [Object.prototype]: read on
    [{}], each gives a function, or the prototype itself for [__proto__] -
    a truthy value that is not a record of the engine. *)
Definition inherited : list string :=
  ["constructor"; "__defineGetter__"; "__defineSetter__"; "hasOwnProperty";
   "__lookupGetter__"; "__lookupSetter__"; "isPrototypeOf"; "propertyIsEnumerable";
   "toString"; "valueOf"; "__proto__"; "toLocaleString"].

(** ** Numbers *)

(** A number: an exact rational, or [None] for [NaN].  The two infinities
    are [None] as well: the engine cannot tell them from [NaN], since a
    [Date] built from either is invalid and no bucket interval holds either.
    [undefined] met in arithmetic or passed to the [Date] constructor converts
    to [NaN], so a missing array element is [None] too. *)
Definition num : Type := option Q.

(** The value of a digit in a radix up to 36. *)
Definition digit_in (radix : Z) (c : ascii) : option Z :=
  let n := Z.of_N (N_of_ascii c) in
  let v :=
    if (48 <=? n) && (n <=? 57) then n - 48
    else if (97 <=? n) && (n <=? 122) then n - 87
    else if (65 <=? n) && (n <=? 90) then n - 55
    else 36 in
  if v <? radix then Some v else None.

Definition digit_of (c : ascii) : option Z := digit_in 10 c.

(** The value of a string made of digits only. *)
Fixpoint digits_val (radix acc : Z) (s : string) : option Z :=
  match s with
  | EmptyString => Some acc
  | String c s' =>
      match digit_in radix c with
      | Some d => digits_val radix (radix * acc + d) s'
      | None => None
      end
  end.

(** At least one digit. *)
Definition digits (radix : Z) (s : string) : option Z :=
  match s with
  | EmptyString => None
  | _ => digits_val radix 0 s
  end.

(** Digits with an optional fraction: [12], [12.], [12.5], [.5]. *)
Definition mantissa (u : string) : num :=
  match split "." u with
  | [i] => inject_Z <$> digits 10 i
  | [i; f] =>
      match i, f with
      | EmptyString, EmptyString => None
      | _, _ =>
          match digits_val 10 0 i, digits_val 10 0 f with
          | Some a, Some b =>
              Some (inject_Z a + inject_Z b / inject_Z (10 ^ Z.of_nat (String.length f)))%Q
          | _, _ => None
          end
      end
  | _ => None
  end.

(** The text before and after the first exponent indicator. *)
Fixpoint cut_exponent (s : string) : string * option string :=
  match s with
  | EmptyString => (EmptyString, None)
  | String c s' =>
      if Ascii.eqb c "e" || Ascii.eqb c "E" then (EmptyString, Some s')
      else let '(m, e) := cut_exponent s' in (String c m, e)
  end.

Definition signed_integer (s : string) : option Z :=
  match s with
  | String "+" d => digits 10 d
  | String "-" d => Z.opp <$> digits 10 d
  | d => digits 10 d
  end.

Definition pow10 (k : Z) : Q :=
  if 0 <=? k then inject_Z (10 ^ k) else (/ inject_Z (10 ^ (- k)))%Q.

(** An unsigned decimal literal.  [Infinity] has no digits and reads as
    [None]. *)
Definition unsigned_literal (u : string) : num :=
  match cut_exponent u with
  | (m, None) => mantissa m
  | (m, Some e) =>
      match mantissa m, signed_integer e with
      | Some q, Some k => Some (q * pow10 k)%Q
      | _, _ => None
      end
  end.

(** A literal with a radix prefix, [0x], [0o] or [0b] in either case; [None]
    when the text has no such prefix. *)
Definition radix_literal (s : string) : option num :=
  match s with
  | String "0" (String p d) =>
      let radix :=
        if Ascii.eqb p "x" || Ascii.eqb p "X" then 16
        else if Ascii.eqb p "o" || Ascii.eqb p "O" then 8
        else if Ascii.eqb p "b" || Ascii.eqb p "B" then 2
        else 0 in
      if radix =? 0 then None else Some (inject_Z <$> digits radix d)
  | _ => None
  end.

(** [Number(s)] on a string: white space trimmed (its ASCII part), the empty
    text is 0, then a radix literal or a signed decimal literal.  The value
    is exact, not rounded to a double. *)
Definition Number (s : string) : num :=
  match trim s with
  | EmptyString => Some 0%Q
  | t =>
      match radix_literal t with
      | Some x => x
      | None =>
          match t with
          | String "+" u => unsigned_literal u
          | String "-" u => Qopp <$> unsigned_literal u
          | u => unsigned_literal u
          end
      end
  end.

(** Element [i] of an array of numbers, as destructuring reads it. *)
Definition elem (l : list num) (i : nat) : num := default None (l !! i).

Definition add (a b : num) : num :=
  match a, b with
  | Some x, Some y => Some (x + y)%Q
  | _, _ => None
  end.

Definition sub (a b : num) : num :=
  match a, b with
  | Some x, Some y => Some (x - y)%Q
  | _, _ => None
  end.

Definition mul (a b : num) : num :=
  match a, b with
  | Some x, Some y => Some (x * y)%Q
  | _, _ => None
  end.

Definition Qltb (x y : Q) : bool := negb (Qle_bool y x).

(** Comparisons: every comparison with [NaN] is false. *)
Definition ge (a b : num) : bool :=
  match a, b with
  | Some x, Some y => Qle_bool y x
  | _, _ => false
  end.

Definition lt (a b : num) : bool :=
  match a, b with
  | Some x, Some y => Qltb x y
  | _, _ => false
  end.

(** [ToIntegerOrInfinity]: truncation towards zero. *)
Definition trunc (q : Q) : Z :=
  if Qle_bool 0 q then Qfloor q else Qceiling q.

(** ** Calendar *)

(** The proleptic Gregorian calendar, in eras of 400 years (146097 days)
    that start on 1 March; day 0 is 1970-01-01. *)

(** Day of the era, from the year of the era (counted from March), the
    month (1..12) and the day of the month. *)
Definition doe_of_civil (yoe m d : Z) : Z :=
  let doy := (153 * (if 2 <? m then m - 3 else m + 9) + 2) / 5 + d - 1 in
  yoe * 365 + yoe / 4 - yoe / 100 + doy.

Definition days_from_civil (y m d : Z) : Z :=
  let y' := if m <=? 2 then y - 1 else y in
  let era := y' / 400 in
  era * 146097 + doe_of_civil (y' - era * 400) m d - 719468.

(** Year within the era (January-based, so 0..400), month and day of the
    month of a day of the era. *)
Definition civil_of_doe (doe : Z) : Z * Z * Z :=
  let yoe := (doe - doe / 1460 + doe / 36524 - doe / 146096) / 365 in
  let doy := doe - (365 * yoe + yoe / 4 - yoe / 100) in
  let mp := (5 * doy + 2) / 153 in
  let d := doy - (153 * mp + 2) / 5 + 1 in
  let m := if mp <? 10 then mp + 3 else mp - 9 in
  (if m <=? 2 then yoe + 1 else yoe, m, d).

(** The civil date of a day number: year, month (1..12), day of month. *)
Definition civil_from_days (n : Z) : Z * Z * Z :=
  let z := n + 719468 in
  let era := z / 146097 in
  let '(y, m, d) := civil_of_doe (z - era * 146097) in
  (y + era * 400, m, d).

(** ** Dates *)

Inductive Date : Type :=
  | Day (n : Z)
  | InvalidDate.

(** The largest day number a [Date] can hold (8.64e15 ms). *)
Definition max_day : Z := 100000000.

(** [new Date(year, month, day)]: arguments are truncated, a year in 0..99
    means 1900 + year, [month] is 0-based and, like [day], may overflow into
    the neighbouring months and years. *)
Definition new_Date (year month day : num) : Date :=
  match year, month, day with
  | Some y, Some m, Some d =>
      let yi := trunc y in
      let mi := trunc m in
      let di := trunc d in
      let yr := if (0 <=? yi) && (yi <=? 99) then 1900 + yi else yi in
      let n := days_from_civil (yr + mi / 12) (mi mod 12 + 1) 1 + (di - 1) in
      if Z.abs n <=? max_day then Day n else InvalidDate
  | _, _, _ => InvalidDate
  end.

Definition of_Z (z : Z) : num := Some (inject_Z z).

Definition getFullYear (d : Date) : num :=
  match d with
  | Day n => of_Z (civil_from_days n).1.1
  | InvalidDate => None
  end.

(** 0-based month. *)
Definition getMonth (d : Date) : num :=
  match d with
  | Day n => of_Z ((civil_from_days n).1.2 - 1)
  | InvalidDate => None
  end.

Definition getDate (d : Date) : num :=
  match d with
  | Day n => of_Z (civil_from_days n).2
  | InvalidDate => None
  end.

(** 0 is Sunday; 1970-01-01 was a Thursday. *)
Definition getDay (d : Date) : option Z :=
  match d with
  | Day n => Some ((n + 4) mod 7)
  | InvalidDate => None
  end.

(** [d1 < d2], [d1 > d2], [d1 <= d2] on dates compare the time values; a
    comparison with the invalid date is false. *)
Definition date_lt (d1 d2 : Date) : bool :=
  match d1, d2 with
  | Day a, Day b => a <? b
  | _, _ => false
  end.

Definition date_gt (d1 d2 : Date) : bool := date_lt d2 d1.

Definition date_le (d1 d2 : Date) : bool :=
  match d1, d2 with
  | Day a, Day b => a <=? b
  | _, _ => false
  end.

Definition date_ge (d1 d2 : Date) : bool := date_le d2 d1.

(** Template-literal rendering of a number that holds an integer or [NaN]. *)
Definition show (x : num) : string :=
  match x with
  | Some q => pretty (Qfloor q)
  | None => "NaN"
  end.

Fixpoint zeros (k : nat) : string :=
  match k with
  | O => EmptyString
  | S k' => String "0" (zeros k')
  end.

(** [x.toFixed(f)]: the decimal rendering of the integer nearest to
    [x * 10^f] (the larger one on a tie, taken on the magnitude), with [f]
    digits after the point.  Magnitudes from 10^21 on, which JavaScript
    prints in exponent notation, are printed in full here. *)
Definition toFixed (x : Q) (f : nat) : string :=
  let n := Qfloor (Qabs x * inject_Z (10 ^ Z.of_nat f) + (1 # 2))%Q in
  let m := pretty n in
  let m := zeros (S f - String.length m) +:+ m in
  let k := (String.length m - f)%nat in
  let body :=
    match f with
    | O => m
    | _ => String.substring 0 k m +:+ "." +:+ String.substring k f m
    end in
  if Qltb x 0 then "-" +:+ body else body.

End JS.


(** * Data model *)

(** A trade record as the store hands it over.  [date] and [time] are the
    raw strings ([""] when absent); [profitLoss] is [None] when the field is
    missing, [null] or not a number. *)
Module Trade.
Record t : Type := mk {
  id : Z;
  date : string;
  time : string;
  side : option string;
  instrument : string;
  result : string;
  riskReward : Q;
  profitLoss : option Q
}.
End Trade.

(** The filter state.  [search] exists in the earlier variant only. *)
Module Filters.
Record t : Type := mk {
  timeRange : string;
  dayOfWeek : string;
  instrument : string;
  search : string
}.
End Filters.

(** The active date range of [App.js]: each bound is a day or [null]. *)
Module DateRange.
Record t : Type := mk {
  start : option Z;
  end_ : option Z
}.
End DateRange.

(** [trade.profitLoss || 0]. *)
Definition or0 (x : option Q) : Q := default 0%Q x.

(** * Date and time utilities (shared by both variants) *)

Definition startOfDay (date : JS.Date) : JS.Date :=
  JS.new_Date (JS.getFullYear date) (JS.getMonth date) (JS.getDate date).

Definition parseISODate (value : string) : option JS.Date :=
  if decide (value = EmptyString) then None
  else
    let parts := JS.Number <$> JS.split "-" value in
    let year := JS.elem parts 0 in
    let month := JS.elem parts 1 in
    let day := JS.elem parts 2 in
    Some (JS.new_Date year (JS.sub month (JS.of_Z 1)) day).

Definition formatDateKey (date : JS.Date) : string :=
  let year := JS.getFullYear date in
  let month := JS.padStart2 (JS.show (JS.add (JS.getMonth date) (JS.of_Z 1))) in
  let day := JS.padStart2 (JS.show (JS.getDate date)) in
  JS.show year +:+ "-" +:+ month +:+ "-" +:+ day.

Definition getTimeRange (time : string) : string :=
  if decide (time = EmptyString) then "unknown"
  else
    let parts := JS.Number <$> JS.split ":" time in
    let hours := JS.elem parts 0 in
    let minutes := JS.elem parts 1 in
    let totalMinutes := JS.add (JS.mul hours (JS.of_Z 60)) minutes in
    if JS.ge totalMinutes (JS.of_Z 570) && JS.lt totalMinutes (JS.of_Z 585) then "9:30-9:45"
    else if JS.ge totalMinutes (JS.of_Z 585) && JS.lt totalMinutes (JS.of_Z 600) then "9:45-10:00"
    else if JS.ge totalMinutes (JS.of_Z 600) && JS.lt totalMinutes (JS.of_Z 615) then "10:00-10:15"
    else if JS.ge totalMinutes (JS.of_Z 615) && JS.lt totalMinutes (JS.of_Z 630) then "10:15-10:30"
    else "10:30+".

Definition days : list string :=
  ["Sunday"; "Monday"; "Tuesday"; "Wednesday"; "Thursday"; "Friday"; "Saturday"].

(** [None] is [undefined], the value of [days[NaN]] for an invalid date. *)
Definition getDayOfWeek (dateStr : string) : option string :=
  match parseISODate dateStr with
  | Some date =>
      match JS.getDay date with
      | Some i => days !! Z.to_nat i
      | None => None
      end
  | None => Some "Unknown"
  end.

(** * Metrics aggregator (the same code in both variants) *)

Module Metrics.
Record t : Type := mk {
  wins : nat;
  losses : nat;
  total : nat;
  winRate : string;
  profitFactor : string;
  avgRR : string;
  netPnL : Q
}.
End Metrics.

Definition isWin (trade : Trade.t) : bool := String.eqb (Trade.result trade) "win".
Definition isLoss (trade : Trade.t) : bool := String.eqb (Trade.result trade) "loss".

Definition ofNat (n : nat) : Q := inject_Z (Z.of_nat n).

(** [l.reduce((sum, trade) => sum + f(trade), 0)]. *)
Definition sumBy (f : Trade.t -> Q) (l : list Trade.t) : Q :=
  fold_left (fun sum trade => (sum + f trade)%Q) l 0%Q.

Definition totalWinRR (filteredTrades : list Trade.t) : Q :=
  sumBy Trade.riskReward (List.filter isWin filteredTrades).

Definition totalLossRR (filteredTrades : list Trade.t) : Q :=
  Qabs (sumBy Trade.riskReward (List.filter isLoss filteredTrades)).

Definition metrics (filteredTrades : list Trade.t) : Metrics.t :=
  let wins := length (List.filter isWin filteredTrades) in
  let losses := length (List.filter isLoss filteredTrades) in
  let total := length filteredTrades in
  let winRate :=
    if (0 <? total)%nat then JS.toFixed (ofNat wins / ofNat total * 100) 2 else "0.00" in
  let totalWinRR := totalWinRR filteredTrades in
  let totalLossRR := totalLossRR filteredTrades in
  let profitFactor :=
    if JS.Qltb 0 totalLossRR then JS.toFixed (totalWinRR / totalLossRR) 2
    else if JS.Qltb 0 totalWinRR then "∞"
    else "0.00" in
  let avgRR :=
    if (0 <? total)%nat then JS.toFixed (sumBy Trade.riskReward filteredTrades / ofNat total) 2
    else "0.00" in
  let netPnL := sumBy (fun trade => or0 (Trade.profitLoss trade)) filteredTrades in
  Metrics.mk wins losses total winRate profitFactor avgRR netPnL.

(** * Time-bucket breakdown (the same code in both variants) *)

Module RangeRow.
Record t : Type := mk {
  range : string;
  winRate : JS.num;
  trades : nat
}.
End RangeRow.

Definition ranges : list string :=
  ["9:30-9:45"; "9:45-10:00"; "10:00-10:15"; "10:15-10:30"; "10:30+"].

(** [parseFloat] of a string written by [toFixed] reads it as [Number] does. *)
Definition timeRangeData (filteredTrades : list Trade.t) : list RangeRow.t :=
  (fun range =>
     let rangeTrades :=
       List.filter (fun trade => String.eqb (getTimeRange (Trade.time trade)) range)
                   filteredTrades in
     let wins := length (List.filter isWin rangeTrades) in
     let total := length rangeTrades in
     RangeRow.mk range
       (if (0 <? total)%nat then JS.Number (JS.toFixed (ofNat wins / ofNat total * 100) 1)
        else JS.of_Z 0)
       total) <$> ranges.

(** * Calendar aggregator (the same code in both variants) *)

Module DayStats.
Record t : Type := mk {
  wins : nat;
  losses : nat;
  profitLoss : Q;
  trades : list Trade.t
}.
End DayStats.

(** The statistics of a date before its first record. *)
Definition noStats : DayStats.t := DayStats.mk 0 0 0%Q [].

(** One record counted into the statistics of its date. *)
Definition addStats (cur : DayStats.t) (trade : Trade.t) : DayStats.t :=
  DayStats.mk
    (if isWin trade then S (DayStats.wins cur) else DayStats.wins cur)
    (if isLoss trade then S (DayStats.losses cur) else DayStats.losses cur)
    (DayStats.profitLoss cur + or0 (Trade.profitLoss trade))%Q
    (DayStats.trades cur ++ [trade]).

(** The reducer of [tradesByDate]: a record without a date is skipped.
    Under a date that names an inherited member, [acc[trade.date]] is that
    member: it is truthy, so no statistics are stored for the date, and it
    has no [trades] list, so [acc[trade.date].trades.push(trade)] raises a
    [TypeError]: [None]. *)
Definition indexTrade (acc : gmap string DayStats.t) (trade : Trade.t)
  : option (gmap string DayStats.t) :=
  let key := Trade.date trade in
  if decide (key = EmptyString) then Some acc
  else if bool_decide (key ∈ JS.inherited) then None
  else Some (<[key := addStats (default noStats (acc !! key)) trade]> acc).

(** [trades.reduce(..., {})]: the records in order, up to the first that
    raises. *)
Definition tradesByDate (trades : list Trade.t) : option (gmap string DayStats.t) :=
  fold_left (fun acc trade => acc ≫= fun acc => indexTrade acc trade) trades (Some ∅).

(** * The derived artifacts handed to the presentation layer *)

Module Entry.
Record t : Type := mk {
  date : string;
  pnl : Q;
  label : string
}.
End Entry.

Module CumEntry.
Record t : Type := mk {
  date : string;
  pnl : Q;
  label : string;
  cumulative : Q
}.
End CumEntry.

(** The value of each memo; [tradesByDate] is [None] when its reducer
    raises, which ends the render. *)
Module Outputs.
Record t : Type := mk {
  metrics : Metrics.t;
  timeRangeData : list RangeRow.t;
  series : list CumEntry.t;
  tradesByDate : option (gmap string DayStats.t)
}.
End Outputs.

(** * The current dashboard: [src/App.js] *)

Module App.

(** [today] below is the day of [startOfDay(new Date())]. *)

Definition clampToToday (today : Z) (date : option Z) : option Z :=
  match date with
  | None => None
  | Some d => if today <? d then Some today else Some d
  end.

Definition rangeFilteredTrades (trades : list Trade.t) (dateRange : DateRange.t)
  : list Trade.t :=
  List.filter
    (fun trade =>
       match parseISODate (Trade.date trade) with
       | None => false
       | Some tradeDate =>
           if match DateRange.start dateRange with
              | Some s => JS.date_lt tradeDate (JS.Day s)
              | None => false
              end then false
           else if match DateRange.end_ dateRange with
                   | Some e => JS.date_gt tradeDate (JS.Day e)
                   | None => false
                   end then false
           else true
       end)
    trades.

(** [a !== b] on strings, and on a possibly undefined string against a string. *)
Definition strNe (a b : string) : bool := negb (String.eqb a b).
Definition optNe (a : option string) (b : string) : bool :=
  match a with
  | Some s => strNe s b
  | None => true
  end.

Definition filteredTrades (rangeFilteredTrades : list Trade.t) (filters : Filters.t)
  : list Trade.t :=
  List.filter
    (fun trade =>
       let timeRange := getTimeRange (Trade.time trade) in
       let dayOfWeek := getDayOfWeek (Trade.date trade) in
       if strNe (Filters.timeRange filters) "all" && strNe timeRange (Filters.timeRange filters)
       then false
       else if strNe (Filters.dayOfWeek filters) "all"
               && optNe dayOfWeek (Filters.dayOfWeek filters)
       then false
       else if strNe (Filters.instrument filters) "all"
               && strNe (Trade.instrument trade) (Filters.instrument filters)
       then false
       else true)
    rangeFilteredTrades.

(** ** Time-series builder *)

(** The reducer of [dailyPnLData]: a record without a date is skipped, any
    other adds its P&L to the total of its date key. *)
Definition addToDay (acc : gmap string Q) (trade : Trade.t) : gmap string Q :=
  let key := Trade.date trade in
  if decide (key = EmptyString) then acc
  else <[key := (or0 (acc !! key) + or0 (Trade.profitLoss trade))%Q]> acc.

(** The accumulator object of [dailyPnLData]: net P&L per date key. *)
Definition dailyTotals (filteredTrades : list Trade.t) : gmap string Q :=
  fold_left addToDay filteredTrades ∅.

(** [Object.keys(dailyTotals).sort()]: the keys in code-unit order. *)
Definition sortedKeys (dailyTotals : gmap string Q) : list string :=
  merge_sort String.le (map_to_list dailyTotals).*1.

(** [startOfDay(parseISODate(key))].  Keys of [dailyTotals] are never empty,
    so [parseISODate] does not return [null] here (lemma [sortedKeys_nonempty]
    below); the last branch stands for the exception JavaScript would raise. *)
Definition dayOfKey (key : string) : JS.Date :=
  match parseISODate key with
  | Some d => startOfDay d
  | None => JS.InvalidDate
  end.

Definition defaultStart (today : Z) (keys : list string) (dateRange : DateRange.t)
  : JS.Date :=
  match DateRange.start dateRange with
  | Some s => startOfDay (JS.Day s)
  | None =>
      match keys with
      | k :: _ => dayOfKey k
      | [] => JS.Day today
      end
  end.

Definition defaultEnd (today : Z) (keys : list string) (dateRange : DateRange.t)
  : JS.Date :=
  match DateRange.end_ dateRange with
  | Some e => startOfDay (JS.Day e)
  | None =>
      match last keys with
      | Some k => dayOfKey k
      | None => defaultStart today keys dateRange
      end
  end.

(** The endpoints of the walk after the three adjustments: both clamped to
    today, then the end raised to the start.  [defaultStart] and [defaultEnd]
    are always [Date] objects, so the fall-back of
    [defaultStart ? new Date(defaultStart) : new Date(today)] is never taken. *)
Definition seriesStart (today : Z) (keys : list string) (dateRange : DateRange.t)
  : JS.Date :=
  let cursor := defaultStart today keys dateRange in
  if JS.date_gt cursor (JS.Day today) then JS.Day today else cursor.

Definition seriesEnd (today : Z) (keys : list string) (dateRange : DateRange.t)
  : JS.Date :=
  let cursor := seriesStart today keys dateRange in
  let endDate := defaultEnd today keys dateRange in
  let endDate := if JS.date_gt endDate (JS.Day today) then JS.Day today else endDate in
  if JS.date_lt endDate cursor then cursor else endDate.

Definition months : list string :=
  ["Jan"; "Feb"; "Mar"; "Apr"; "May"; "Jun"; "Jul"; "Aug"; "Sep"; "Oct"; "Nov"; "Dec"].

(** [toLocaleDateString('en-US', { month: 'short', day: 'numeric' })]. *)
Definition shortLabel (n : Z) : string :=
  let '(_, m, d) := JS.civil_from_days n in
  default EmptyString (months !! Z.to_nat (m - 1)) +:+ " " +:+ pretty d.

Definition entryOf (dailyTotals : gmap string Q) (cursor : Z) : Entry.t :=
  let key := formatDateKey (JS.Day cursor) in
  Entry.mk key (or0 (dailyTotals !! key)) (shortLabel cursor).

(** The [while (cursor <= endDate)] loop; [fuel] bounds the iterations. *)
Fixpoint walk (fuel : nat) (dailyTotals : gmap string Q) (cursor endDate : Z)
  : list Entry.t :=
  match fuel with
  | O => []
  | S fuel' =>
      if cursor <=? endDate
      then entryOf dailyTotals cursor :: walk fuel' dailyTotals (cursor + 1) endDate
      else []
  end.

(** On an invalid endpoint the loop test is false at once. *)
Definition dailyPnLData (today : Z) (filteredTrades : list Trade.t) (dateRange : DateRange.t)
  : list Entry.t :=
  let dailyTotals := dailyTotals filteredTrades in
  let keys := sortedKeys dailyTotals in
  match seriesStart today keys dateRange, seriesEnd today keys dateRange with
  | JS.Day cursor, JS.Day endDate =>
      walk (Z.to_nat (endDate - cursor + 1)) dailyTotals cursor endDate
  | _, _ => []
  end.

(** The running total threaded through [dailyPnLData.map]. *)
Fixpoint cumulate (cumulative : Q) (l : list Entry.t) : list CumEntry.t :=
  match l with
  | [] => []
  | entry :: l' =>
      let cumulative := (cumulative + Entry.pnl entry)%Q in
      CumEntry.mk (Entry.date entry) (Entry.pnl entry) (Entry.label entry) cumulative
        :: cumulate cumulative l'
  end.

Definition cumulativePnLData (dailyPnLData : list Entry.t) : list CumEntry.t :=
  cumulate 0%Q dailyPnLData.

(** ** Custom range picker *)

(** The click on the day [normalized] of the picker: it starts a new
    selection, or closes the open one on the side the day falls. *)
Definition selectDay (normalized : Z) (rangeSelection : DateRange.t) : DateRange.t :=
  match DateRange.start rangeSelection, DateRange.end_ rangeSelection with
  | None, _ | Some _, Some _ => DateRange.mk (Some normalized) None
  | Some start, None =>
      if normalized <? start then DateRange.mk (Some normalized) (Some start)
      else if normalized =? start then DateRange.mk (Some normalized) None
      else DateRange.mk (Some start) (Some normalized)
  end.

(** The range [applyRangeSelection] stores; without a selected start the
    handler returns and the active range stays as it is. *)
Definition applyRangeSelection (today : Z) (rangeSelection dateRange : DateRange.t)
  : DateRange.t :=
  match DateRange.start rangeSelection with
  | None => dateRange
  | Some s =>
      let start := if today <? s then today else s in
      let end_ :=
        match DateRange.end_ rangeSelection with
        | Some e => if today <? e then today else e
        | None => if today <? s then today else s
        end in
      let start := if end_ <? start then end_ else start in
      DateRange.mk (Some start) (Some end_)
  end.

(** ** Everything recomputed for one snapshot of the inputs *)

Definition dashboard (today : Z) (trades : list Trade.t) (dateRange : DateRange.t)
    (filters : Filters.t) : Outputs.t :=
  let rangeFilteredTrades := rangeFilteredTrades trades dateRange in
  let filteredTrades := filteredTrades rangeFilteredTrades filters in
  Outputs.mk
    (metrics filteredTrades)
    (timeRangeData filteredTrades)
    (cumulativePnLData (dailyPnLData today filteredTrades dateRange))
    (tradesByDate trades).

End App.

(** * The earlier variant: [unnamed/part_000] *)

Module Part000.

(** [now] is the current day; only its year and month are read. *)
Definition getPeriodStartDate (now : Z) (period : string) : option JS.Date :=
  let year := JS.getFullYear (JS.Day now) in
  let month := JS.getMonth (JS.Day now) in
  if String.eqb period "mtd" then Some (JS.new_Date year month (JS.of_Z 1))
  else if String.eqb period "3m" then Some (JS.new_Date year (JS.sub month (JS.of_Z 2)) (JS.of_Z 1))
  else if String.eqb period "6m" then Some (JS.new_Date year (JS.sub month (JS.of_Z 5)) (JS.of_Z 1))
  else if String.eqb period "ytd" then Some (JS.new_Date year (JS.of_Z 0) (JS.of_Z 1))
  else None.

Definition periodFilteredTrades (now : Z) (trades : list Trade.t) (selectedPeriod : string)
  : list Trade.t :=
  match getPeriodStartDate now selectedPeriod with
  | None => trades
  | Some startDate =>
      List.filter
        (fun trade =>
           match parseISODate (Trade.date trade) with
           | Some tradeDate => JS.date_ge tradeDate startDate
           | None => false
           end)
        trades
  end.

Definition filteredTrades (periodFilteredTrades : list Trade.t) (filters : Filters.t)
  : list Trade.t :=
  let searchTerm := JS.toLowerCase (JS.trim (Filters.search filters)) in
  List.filter
    (fun trade =>
       let timeRange := getTimeRange (Trade.time trade) in
       let dayOfWeek := getDayOfWeek (Trade.date trade) in
       if App.strNe (Filters.timeRange filters) "all"
          && App.strNe timeRange (Filters.timeRange filters)
       then false
       else if App.strNe (Filters.dayOfWeek filters) "all"
               && App.optNe dayOfWeek (Filters.dayOfWeek filters)
       then false
       else if App.strNe (Filters.instrument filters) "all"
               && App.strNe (Trade.instrument trade) (Filters.instrument filters)
       then false
       else if App.strNe searchTerm EmptyString
               && negb (JS.includes (JS.toLowerCase (Trade.instrument trade)) searchTerm)
       then false
       else true)
    periodFilteredTrades.

Module Outputs.
Record t : Type := mk {
  metrics : Metrics.t;
  timeRangeData : list RangeRow.t;
  tradesByDate : option (gmap string DayStats.t)
}.
End Outputs.

(** The snapshot of this variant, without its chart series [pnlData]. *)
Definition dashboard (now : Z) (trades : list Trade.t) (selectedPeriod : string)
    (filters : Filters.t) : Outputs.t :=
  let periodFilteredTrades := periodFilteredTrades now trades selectedPeriod in
  let filteredTrades := filteredTrades periodFilteredTrades filters in
  Outputs.mk (metrics filteredTrades) (timeRangeData filteredTrades) (tradesByDate trades).

End Part000.

(** * The rest of [src/App.js] *)

(** ** Further built-ins *)

Module JSLib.

(** [new Set(l)] built by adding the elements in order: an element already
    in the set is not added again. *)
Definition setAdd (acc : list string) (x : string) : list string :=
  if bool_decide (x ∈ acc) then acc else acc ++ [x].

(** [Array.from(new Set(l))]: the distinct elements in insertion order. *)
Definition fromSet (l : list string) : list string := fold_left setAdd l [].

(** A number as [parseFloat] returns it: unlike [Number] on the strings the
    engine reads, it may be an infinity, which is not [NaN]. The sign of a
    zero is not kept. *)
Inductive float : Type :=
  | Finite (q : Q)
  | Infinity (negative : bool)
  | NaN.

(** [Math.abs] and the unary minus. *)
Definition fabs (x : float) : float :=
  match x with
  | Finite q => Finite (Qabs q)
  | Infinity _ => Infinity false
  | NaN => NaN
  end.

Definition fneg (x : float) : float :=
  match x with
  | Finite q => Finite (- q)
  | Infinity negative => Infinity (negb negative)
  | NaN => NaN
  end.

(** The decimal digits a string starts with, and the rest of it. *)
Fixpoint span_digits (s : string) : string * string :=
  match s with
  | String c s' =>
      match JS.digit_of c with
      | Some _ => let '(d, r) := span_digits s' in (String c d, r)
      | None => (EmptyString, s)
      end
  | EmptyString => (EmptyString, EmptyString)
  end.

(** The value of a string of digits, 0 for the empty one. *)
Definition digits_value (d : string) : Z := default 0 (JS.digits_val 10 0 d).

(** An optional sign in front of a text. *)
Definition cut_sign (s : string) : bool * string :=
  match s with
  | String "+" u => (false, u)
  | String "-" u => (true, u)
  | _ => (false, s)
  end.

(** The exponent part a text starts with, 0 when it starts with none: the
    indicator and an optional sign count only when a digit follows. *)
Definition exponent (r : string) : Z :=
  match r with
  | String c r' =>
      if Ascii.eqb c "e" || Ascii.eqb c "E" then
        let '(negative, u) := cut_sign r' in
        let '(d, _) := span_digits u in
        match d with
        | EmptyString => 0
        | _ => if negative then - digits_value d else digits_value d
        end
      else 0
  | EmptyString => 0
  end.

(** [parseFloat(s)]: leading white space is skipped (its ASCII part), then
    the longest prefix that is a decimal literal is read - a sign, digits
    with an optional fraction, an optional exponent - or [Infinity]; what
    follows is ignored, and a text with no such prefix gives [NaN]. The
    value is exact, not rounded to a double. *)
Definition parseFloat (s : string) : float :=
  let '(negative, u) := cut_sign (JS.trimStart s) in
  if String.prefix "Infinity" u then Infinity negative
  else
    let '(i, r) := span_digits u in
    let '(f, r) :=
      match r with
      | String "." r' => span_digits r'
      | _ => (EmptyString, r)
      end in
    match i, f with
    | EmptyString, EmptyString => NaN
    | _, _ =>
        let m := (inject_Z (digits_value i)
                  + inject_Z (digits_value f) / inject_Z (10 ^ Z.of_nat (String.length f)))%Q in
        let v := (m * JS.pow10 (exponent r))%Q in
        Finite (if negative then - v else v)
    end.

(** [Number(s)] is one of the two infinities (of the exact value: a literal
    too large for a double is not counted). *)
Definition isInfinity (s : string) : bool :=
  String.eqb (cut_sign (JS.trim s)).2 "Infinity".

(** [a === b] on numbers: [NaN] equals nothing. *)
Definition num_eqb (a b : JS.num) : bool :=
  match a, b with
  | Some x, Some y => Qeq_bool x y
  | _, _ => false
  end.

(** The date of a year, a 0-based month and a day of the month that may all
    overflow, as [setDate] and [setMonth] compute it: [new Date] without its
    rule for the years 0 to 99. *)
Definition makeDate (year month day : JS.num) : JS.Date :=
  match year, month, day with
  | Some y, Some m, Some d =>
      let yi := JS.trunc y in
      let mi := JS.trunc m in
      let di := JS.trunc d in
      let n := JS.days_from_civil (yi + mi / 12) (mi mod 12 + 1) 1 + (di - 1) in
      if Z.abs n <=? JS.max_day then JS.Day n else JS.InvalidDate
  | _, _, _ => JS.InvalidDate
  end.

(** The date after [date.setDate(day)] and after [date.setMonth(month)]. *)
Definition setDate (date : JS.Date) (day : JS.num) : JS.Date :=
  makeDate (JS.getFullYear date) (JS.getMonth date) day.

Definition setMonth (date : JS.Date) (month : JS.num) : JS.Date :=
  makeDate (JS.getFullYear date) month (JS.getDate date).

(** [date.getDay()] as a number. *)
Definition getDay (date : JS.Date) : JS.num :=
  match JS.getDay date with
  | Some i => JS.of_Z i
  | None => None
  end.

End JSLib.

(** ** Weekday and instrument breakdowns *)

Module DayRow.
Record t : Type := mk {
  day : string;
  winRate : JS.num;
  trades : nat
}.
End DayRow.

(** [a === b] for a possibly undefined string against a string. *)
Definition optEq (a : option string) (b : string) : bool :=
  match a with
  | Some s => String.eqb s b
  | None => false
  end.

(** [dayData], the same code in both variants. *)
Definition dayData (filteredTrades : list Trade.t) : list DayRow.t :=
  let days := ["Monday"; "Tuesday"; "Wednesday"; "Thursday"; "Friday"] in
  (fun day =>
     let dayTrades :=
       List.filter (fun trade => optEq (getDayOfWeek (Trade.date trade)) day) filteredTrades in
     let wins := length (List.filter isWin dayTrades) in
     let total := length dayTrades in
     DayRow.mk day
       (if (0 <? total)%nat then JS.Number (JS.toFixed (ofNat wins / ofNat total * 100) 1)
        else JS.of_Z 0)
       total) <$> days.

Module InstrumentRow.
Record t : Type := mk {
  instrument : string;
  wins : nat;
  losses : nat;
  winRate : string;
  pnl : Q
}.
End InstrumentRow.

(** [instrumentData], the same code in both variants: one row for each
    instrument of the whole collection, filled from the filtered records. *)
Definition instrumentData (filteredTrades trades : list Trade.t) : list InstrumentRow.t :=
  let instruments := JSLib.fromSet (Trade.instrument <$> trades) in
  (fun instrument =>
     let instTrades :=
       List.filter (fun trade => String.eqb (Trade.instrument trade) instrument) filteredTrades in
     let wins := length (List.filter isWin instTrades) in
     let total := length instTrades in
     let pnl := sumBy (fun trade => or0 (Trade.profitLoss trade)) instTrades in
     InstrumentRow.mk instrument wins (total - wins)
       (if (0 <? total)%nat then JS.toFixed (ofNat wins / ofNat total * 100) 1 else "0.0")
       pnl) <$> instruments.

(** ** The trade form *)

Module FormData.
Record t : Type := mk {
  date : string;
  time : string;
  side : string;
  instrument : string;
  result : string;
  riskReward : string;
  profitLoss : string
}.
End FormData.

(** The form as it is shown before anything is typed. *)
Definition emptyForm : FormData.t := FormData.mk "" "" "long" "NQ!" "win" "" "".

(** The state the form handlers read and write. *)
Module Form.
Record t : Type := mk {
  trades : list Trade.t;
  showAddForm : bool;
  editingTrade : option Trade.t;
  formData : FormData.t
}.
End Form.

(** What [handleAddTrade] does: it raises an alert and leaves the state as
    it is, or it stores a state. [NotFinite] stands for the case in which
    the record it stores holds an infinity, which [Trade.t] does not
    represent. *)
Inductive outcome : Type :=
  | Alert (message : string)
  | Stored (s : Form.t)
  | NotFinite.

(** [now] is [Date.now()]. *)
Definition handleAddTrade (now : Z) (s : Form.t) : outcome :=
  let formData := Form.formData s in
  if String.eqb (FormData.date formData) "" || String.eqb (FormData.time formData) ""
     || String.eqb (FormData.riskReward formData) ""
     || String.eqb (FormData.profitLoss formData) ""
  then Alert "Please fill in all fields"
  else
    let parsedRiskReward := JSLib.parseFloat (FormData.riskReward formData) in
    let parsedProfitLoss := JSLib.parseFloat (FormData.profitLoss formData) in
    match parsedRiskReward, parsedProfitLoss with
    | JSLib.NaN, _ | _, JSLib.NaN =>
        Alert "Please enter valid numbers for Risk Reward and Profit/Loss"
    | _, _ =>
        let loss := String.eqb (FormData.result formData) "loss" in
        let signedProfitLoss :=
          if loss then JSLib.fneg (JSLib.fabs parsedProfitLoss)
          else JSLib.fabs parsedProfitLoss in
        let normalizedRiskReward := if loss then JSLib.Finite (-1) else parsedRiskReward in
        match normalizedRiskReward, signedProfitLoss with
        | JSLib.Finite riskReward, JSLib.Finite profitLoss =>
            let newTrade (id : Z) :=
              Trade.mk id (FormData.date formData) (FormData.time formData)
                       (Some (FormData.side formData)) (FormData.instrument formData)
                       (FormData.result formData) riskReward (Some profitLoss) in
            let trades :=
              match Form.editingTrade s with
              | Some editingTrade =>
                  (fun trade =>
                     if Trade.id trade =? Trade.id editingTrade
                     then newTrade (Trade.id editingTrade) else trade) <$> Form.trades s
              | None => Form.trades s ++ [newTrade now]
              end in
            Stored (Form.mk trades false None emptyForm)
        | _, _ => NotFinite
        end
    end.

(** [confirmed] is the answer to [window.confirm]. *)
Definition handleDeleteTrade (confirmed : bool) (id : Z) (s : Form.t) : Form.t :=
  if confirmed
  then Form.mk (List.filter (fun trade => negb (Trade.id trade =? id)) (Form.trades s))
               (Form.showAddForm s) (Form.editingTrade s) (Form.formData s)
  else s.

(** ** The day journal and the strategy templates *)

(** The id of a checklist item: [Date.now()] for an item typed in, a string
    for an item copied from a strategy. *)
Inductive ident : Type :=
  | NumId (n : Z)
  | StrId (s : string).

(** [a === b] on ids. *)
Definition ident_eqb (a b : ident) : bool :=
  match a, b with
  | NumId x, NumId y => x =? y
  | StrId x, StrId y => String.eqb x y
  | _, _ => false
  end.

Module ChecklistItem.
Record t : Type := mk {
  id : ident;
  label : string;
  checked : bool
}.
End ChecklistItem.

Module Screenshot.
Record t : Type := mk {
  id : string;
  name : string;
  dataUrl : string
}.
End Screenshot.

Module DayEntry.
Record t : Type := mk {
  notes : string;
  checklist : list ChecklistItem.t;
  screenshots : list Screenshot.t;
  strategyId : option Z
}.
End DayEntry.

Module StrategyItem.
Record t : Type := mk {
  id : Z;
  label : string
}.
End StrategyItem.

Module Strategy.
Record t : Type := mk {
  id : Z;
  name : string;
  items : list StrategyItem.t
}.
End Strategy.

Module StrategyForm.
Record t : Type := mk {
  name : string;
  itemInput : string;
  items : list StrategyItem.t
}.
End StrategyForm.

(** The state the journal handlers read and write. A day is named by its
    date key; the empty key stands for no day. An id that may be [null] is
    an option. *)
Module Journal.
Record t : Type := mk {
  dayNotes : gmap string DayEntry.t;
  checklistInputs : gmap string string;
  strategies : list Strategy.t;
  strategyBuilderOpen : bool;
  editingStrategyId : option Z;
  strategyForm : StrategyForm.t
}.
End Journal.

Definition createDefaultDayEntry : DayEntry.t := DayEntry.mk "" [] [] None.

(** The state with other day notes. *)
Definition setDayNotes (f : gmap string DayEntry.t -> gmap string DayEntry.t) (s : Journal.t)
  : Journal.t :=
  Journal.mk (f (Journal.dayNotes s)) (Journal.checklistInputs s) (Journal.strategies s)
             (Journal.strategyBuilderOpen s) (Journal.editingStrategyId s)
             (Journal.strategyForm s).

Definition updateDayEntry (dateKey : string) (updater : DayEntry.t -> DayEntry.t)
    (s : Journal.t) : Journal.t :=
  if String.eqb dateKey "" then s
  else
    setDayNotes
      (fun prev =>
         let current := default createDefaultDayEntry (prev !! dateKey) in
         <[dateKey := updater current]> prev)
      s.

Definition handleNoteChange (dateKey value : string) (s : Journal.t) : Journal.t :=
  updateDayEntry dateKey
    (fun entry =>
       DayEntry.mk value (DayEntry.checklist entry) (DayEntry.screenshots entry)
                   (DayEntry.strategyId entry))
    s.

Definition setChecklistInputs (f : gmap string string -> gmap string string) (s : Journal.t)
  : Journal.t :=
  Journal.mk (Journal.dayNotes s) (f (Journal.checklistInputs s)) (Journal.strategies s)
             (Journal.strategyBuilderOpen s) (Journal.editingStrategyId s)
             (Journal.strategyForm s).

Definition handleAddChecklistItem (now : Z) (dateKey : string) (s : Journal.t) : Journal.t :=
  let label := JS.trim (default "" (Journal.checklistInputs s !! dateKey)) in
  if String.eqb label "" then s
  else
    let s :=
      updateDayEntry dateKey
        (fun entry =>
           DayEntry.mk (DayEntry.notes entry)
                       (DayEntry.checklist entry ++ [ChecklistItem.mk (NumId now) label false])
                       (DayEntry.screenshots entry) (DayEntry.strategyId entry))
        s in
    setChecklistInputs (fun prev => <[dateKey := ""]> prev) s.

Definition handleChecklistToggle (dateKey : string) (itemId : ident) (s : Journal.t)
  : Journal.t :=
  updateDayEntry dateKey
    (fun entry =>
       DayEntry.mk (DayEntry.notes entry)
                   ((fun item =>
                       if ident_eqb (ChecklistItem.id item) itemId
                       then ChecklistItem.mk (ChecklistItem.id item) (ChecklistItem.label item)
                                             (negb (ChecklistItem.checked item))
                       else item) <$> DayEntry.checklist entry)
                   (DayEntry.screenshots entry) (DayEntry.strategyId entry))
    s.

Definition handleChecklistRemove (dateKey : string) (itemId : ident) (s : Journal.t)
  : Journal.t :=
  updateDayEntry dateKey
    (fun entry =>
       DayEntry.mk (DayEntry.notes entry)
                   (List.filter (fun item => negb (ident_eqb (ChecklistItem.id item) itemId))
                                (DayEntry.checklist entry))
                   (DayEntry.screenshots entry) (DayEntry.strategyId entry))
    s.

(** A strategy id that is [null] or 0 is falsy. *)
Definition truthyId (id : option Z) : option Z :=
  match id with
  | Some n => if n =? 0 then None else Some n
  | None => None
  end.

(** The checklist copied from a template. [clock i] is [Date.now()] at the
    moment item [i] is copied. *)
Definition copyItems (clock : nat -> Z) (items : list StrategyItem.t) : list ChecklistItem.t :=
  imap (fun i item =>
          ChecklistItem.mk (StrId (pretty (clock i) +:+ "-" +:+ pretty (StrategyItem.id item)))
                           (StrategyItem.label item) false)
       items.

Definition handleStrategyApply (clock : nat -> Z) (dateKey : string) (strategyId : option Z)
    (s : Journal.t) : Journal.t :=
  if String.eqb dateKey "" then s
  else
    match truthyId strategyId with
    | None =>
        updateDayEntry dateKey
          (fun entry =>
             DayEntry.mk (DayEntry.notes entry) (DayEntry.checklist entry)
                         (DayEntry.screenshots entry) None)
          s
    | Some id =>
        match List.find (fun strategy => Strategy.id strategy =? id) (Journal.strategies s) with
        | None => s
        | Some template =>
            updateDayEntry dateKey
              (fun entry =>
                 DayEntry.mk (DayEntry.notes entry)
                             (copyItems clock (Strategy.items template))
                             (DayEntry.screenshots entry) (Some (Strategy.id template)))
              s
        end
    end.

Definition setStrategyForm (f : StrategyForm.t -> StrategyForm.t) (s : Journal.t) : Journal.t :=
  Journal.mk (Journal.dayNotes s) (Journal.checklistInputs s) (Journal.strategies s)
             (Journal.strategyBuilderOpen s) (Journal.editingStrategyId s)
             (f (Journal.strategyForm s)).

Definition resetStrategyForm (s : Journal.t) : Journal.t :=
  setStrategyForm (fun _ => StrategyForm.mk "" "" []) s.

Definition closeStrategyBuilder (s : Journal.t) : Journal.t :=
  let s := resetStrategyForm s in
  Journal.mk (Journal.dayNotes s) (Journal.checklistInputs s) (Journal.strategies s)
             false None (Journal.strategyForm s).

Definition setStrategies (f : list Strategy.t -> list Strategy.t) (s : Journal.t) : Journal.t :=
  Journal.mk (Journal.dayNotes s) (Journal.checklistInputs s) (f (Journal.strategies s))
             (Journal.strategyBuilderOpen s) (Journal.editingStrategyId s)
             (Journal.strategyForm s).

Definition handleStrategySave (now : Z) (s : Journal.t) : Journal.t :=
  let strategyForm := Journal.strategyForm s in
  let name := JS.trim (StrategyForm.name strategyForm) in
  if String.eqb name "" || (length (StrategyForm.items strategyForm) =? 0)%nat then s
  else
    let formattedItems :=
      (fun item => StrategyItem.mk (StrategyItem.id item) (StrategyItem.label item))
        <$> StrategyForm.items strategyForm in
    let s :=
      match truthyId (Journal.editingStrategyId s) with
      | Some editingStrategyId =>
          setStrategies
            (fun prev =>
               (fun strategy =>
                  if Strategy.id strategy =? editingStrategyId
                  then Strategy.mk (Strategy.id strategy) name formattedItems
                  else strategy) <$> prev)
            s
      | None => setStrategies (fun prev => prev ++ [Strategy.mk now name formattedItems]) s
      end in
    closeStrategyBuilder s.

Definition handleStrategyEdit (strategyId : option Z) (s : Journal.t) : Journal.t :=
  match strategyId with
  | None => s
  | Some id =>
      match List.find (fun strategy => Strategy.id strategy =? id) (Journal.strategies s) with
      | None => s
      | Some template =>
          Journal.mk (Journal.dayNotes s) (Journal.checklistInputs s) (Journal.strategies s)
                     true (Some id)
                     (StrategyForm.mk (Strategy.name template) ""
                        ((fun item => StrategyItem.mk (StrategyItem.id item)
                                                      (StrategyItem.label item))
                           <$> Strategy.items template))
      end
  end.

Definition handleStrategyDelete (strategyId : option Z) (s : Journal.t) : Journal.t :=
  match truthyId strategyId with
  | None => s
  | Some id =>
      let s := setStrategies
                 (fun prev => List.filter (fun strategy => negb (Strategy.id strategy =? id)) prev)
                 s in
      let s := setDayNotes
                 (fun prev =>
                    (fun entry =>
                       match DayEntry.strategyId entry with
                       | Some linked =>
                           if linked =? id
                           then DayEntry.mk (DayEntry.notes entry) (DayEntry.checklist entry)
                                            (DayEntry.screenshots entry) None
                           else entry
                       | None => entry
                       end) <$> prev)
                 s in
      closeStrategyBuilder s
  end.

Definition handleScreenshotRemove (dateKey imageId : string) (s : Journal.t) : Journal.t :=
  updateDayEntry dateKey
    (fun entry =>
       DayEntry.mk (DayEntry.notes entry) (DayEntry.checklist entry)
                   (List.filter (fun img => negb (String.eqb (Screenshot.id img) imageId))
                                (DayEntry.screenshots entry))
                   (DayEntry.strategyId entry))
    s.

(** ** Calendar grids *)

Module Cell.
Record t : Type := mk {
  date : JS.Date;
  currentMonth : bool
}.
End Cell.

(** The six weeks shown by the range picker for the month of [baseDate]. *)
Definition generateCalendarMatrix (baseDate : JS.Date) : list Cell.t :=
  let start := JS.new_Date (JS.getFullYear baseDate) (JS.getMonth baseDate) (JS.of_Z 1) in
  let startDay := JSLib.getDay start in
  let matrixStart :=
    JS.new_Date (JS.getFullYear start) (JS.getMonth start) (JS.sub (JS.of_Z 1) startDay) in
  (fun index =>
     let date := JSLib.setDate matrixStart (JS.add (JS.getDate matrixStart) (JS.of_Z index)) in
     Cell.mk date (JSLib.num_eqb (JS.getMonth date) (JS.getMonth baseDate)))
    <$> seqZ 0 42.

(** The loop [while (cells.length % 7 !== 0) cells.push(null)]; [fuel]
    bounds the iterations. *)
Fixpoint padWeek (fuel : nat) (cells : list (option JS.Date)) : list (option JS.Date) :=
  match fuel with
  | O => cells
  | S fuel' =>
      if (length cells mod 7 =? 0)%nat then cells else padWeek fuel' (cells ++ [None])
  end.

(** The cells of the trading calendar for [selectedMonth]; [None] is an
    empty cell. A count that is [NaN] runs its loop no time. *)
Definition calendarCells (selectedMonth : JS.Date) : list (option JS.Date) :=
  let year := JS.getFullYear selectedMonth in
  let month := JS.getMonth selectedMonth in
  let start := JS.new_Date year month (JS.of_Z 1) in
  let startDay := JS.getDay start in
  let totalDays := JS.getDate (JS.new_Date year (JS.add month (JS.of_Z 1)) (JS.of_Z 0)) in
  let cells := replicate (Z.to_nat (default 0 startDay)) None in
  let cells :=
    cells ++ ((fun day => Some (JS.new_Date year month (JS.of_Z day)))
                <$> seqZ 1 (default 0 (Qfloor <$> totalDays))) in
  padWeek 7 cells.

(** ** The month menu *)

Module MonthOption.
Record t : Type := mk {
  key : string;
  label : string;
  date : JS.Date
}.
End MonthOption.

Definition longMonths : list string :=
  ["January"; "February"; "March"; "April"; "May"; "June"; "July"; "August"; "September";
   "October"; "November"; "December"].

(** [toLocaleDateString('en-US', { month: 'long', year: 'numeric' })]. The
    years before 1, which the locale counts backwards, are printed as plain
    numbers here. *)
Definition monthLabel (date : JS.Date) : string :=
  match date with
  | JS.Day n =>
      let '(y, m, _) := JS.civil_from_days n in
      default EmptyString (longMonths !! Z.to_nat (m - 1)) +:+ " " +:+ pretty y
  | JS.InvalidDate => "Invalid Date"
  end.

(** The step of the [forEach] of [buildMonthOptions] on one record. *)
Definition earliestMonth (earliestTradeMonth : option JS.Date) (trade : Trade.t)
  : option JS.Date :=
  match parseISODate (Trade.date trade) with
  | None => earliestTradeMonth
  | Some parsed =>
      let tradeMonth := JS.new_Date (JS.getFullYear parsed) (JS.getMonth parsed) (JS.of_Z 1) in
      match earliestTradeMonth with
      | None => Some tradeMonth
      | Some earliest =>
          if JS.date_lt tradeMonth earliest then Some tradeMonth else earliestTradeMonth
      end
  end.

(** The loop [while (cursor >= startPoint)]; [fuel] bounds the iterations. *)
Fixpoint monthsDown (fuel : nat) (cursor startPoint : JS.Date) : list MonthOption.t :=
  match fuel with
  | O => []
  | S fuel' =>
      if JS.date_ge cursor startPoint
      then MonthOption.mk (JS.show (JS.getFullYear cursor) +:+ "-" +:+ JS.show (JS.getMonth cursor))
                          (monthLabel cursor) cursor
             :: monthsDown fuel'
                  (JSLib.setMonth cursor (JS.sub (JS.getMonth cursor) (JS.of_Z 1))) startPoint
      else []
  end.

(** The start of the month of [now], and where the menu ends. *)
Definition nowStart (now : Z) : JS.Date :=
  JS.new_Date (JS.getFullYear (JS.Day now)) (JS.getMonth (JS.Day now)) (JS.of_Z 1).

Definition startPoint (now : Z) (trades : list Trade.t) : JS.Date :=
  let nowStart := nowStart now in
  let earliestTradeMonth := fold_left earliestMonth trades None in
  let defaultStart :=
    JS.new_Date (JS.getFullYear nowStart) (JS.sub (JS.getMonth nowStart) (JS.of_Z 11))
                (JS.of_Z 1) in
  match earliestTradeMonth with
  | Some earliest => if JS.date_lt earliest defaultStart then earliest else defaultStart
  | None => defaultStart
  end.

(** [now] is the current day. On an invalid date the loop test is false at
    once; between two dates the cursor goes down a month at each step, so the
    days from the start point to the cursor bound the iterations. *)
Definition buildMonthOptions (now : Z) (trades : list Trade.t) : list MonthOption.t :=
  match nowStart now, startPoint now trades with
  | JS.Day cursor, JS.Day stop =>
      monthsDown (Z.to_nat (cursor - stop + 1)) (JS.Day cursor) (JS.Day stop)
  | _, _ => []
  end.

(** [monthOptions[monthOptions.length - 1]?.date ?? null]. *)
Definition earliestAvailableMonth (monthOptions : list MonthOption.t) : option JS.Date :=
  MonthOption.date <$> last monthOptions.

(** The month shown after [handleMonthChange(offset)]. *)
Definition handleMonthChange (offset : Z) (currentMonthStart : JS.Date)
    (earliestAvailableMonth : option JS.Date) (prev : JS.Date) : JS.Date :=
  let next :=
    JS.new_Date (JS.getFullYear prev) (JS.add (JS.getMonth prev) (JS.of_Z offset)) (JS.of_Z 1) in
  if JS.date_gt next currentMonthStart then prev
  else
    match earliestAvailableMonth with
    | Some earliest => if JS.date_lt next earliest then prev else next
    | None => next
    end.

(** [Number.isNaN] of an element of [value.split('-').map(Number)]: a
    missing element is [undefined], which is not [NaN], and neither is an
    infinity. *)
Definition partIsNaN (part : option string) : bool :=
  match part with
  | Some text =>
      match JS.Number text with
      | Some _ => false
      | None => negb (JSLib.isInfinity text)
      end
  | None => false
  end.

(** The month shown after [handleMonthSelect(value)]. *)
Definition handleMonthSelect (value : string) (currentMonthStart : JS.Date)
    (earliestAvailableMonth : option JS.Date) (selectedMonth : JS.Date) : JS.Date :=
  let parts := JS.split "-" value in
  let year := parts !! 0%nat in
  let monthIndex := parts !! 1%nat in
  if partIsNaN year || partIsNaN monthIndex then selectedMonth
  else
    let target :=
      JS.new_Date (year ≫= JS.Number) (monthIndex ≫= JS.Number) (JS.of_Z 1) in
    if JS.date_gt target currentMonthStart then currentMonthStart
    else
      match earliestAvailableMonth with
      | Some earliest => if JS.date_lt target earliest then earliest else target
      | None => target
      end.

(** ** Quick ranges *)

(** A range as the picker holds it: each bound a [Date] or [null]. *)
Module PickerRange.
Record t : Type := mk {
  start : option JS.Date;
  end_ : option JS.Date
}.
End PickerRange.

Module Picker.

(** [clampToToday] on a [Date] that may be invalid. *)
Definition clampToToday (today : Z) (date : option JS.Date) : option JS.Date :=
  match date with
  | None => None
  | Some d => if JS.date_gt d (JS.Day today) then Some (JS.Day today) else Some d
  end.

(** The presets, each with the range its [getRange] returns. [today] is the
    day of [startOfDay(new Date())] when [getQuickRanges] ran. *)
Definition getQuickRanges (today : Z) : list (string * PickerRange.t) :=
  let today := JS.Day today in
  let startOfWeek :=
    JSLib.setDate today (JS.sub (JS.getDate today) (JSLib.getDay today)) in
  let endOfWeek := JSLib.setDate startOfWeek (JS.add (JS.getDate startOfWeek) (JS.of_Z 6)) in
  let startOfMonth date := JS.new_Date (JS.getFullYear date) (JS.getMonth date) (JS.of_Z 1) in
  let endOfMonth date :=
    JS.new_Date (JS.getFullYear date) (JS.add (JS.getMonth date) (JS.of_Z 1)) (JS.of_Z 0) in
  let startOfQuarter date :=
    let quarter :=
      JS.mul ((fun q => inject_Z (Qfloor q)) <$> ((fun q => q / 3)%Q <$> JS.getMonth date))
             (JS.of_Z 3) in
    JS.new_Date (JS.getFullYear date) quarter (JS.of_Z 1) in
  let endOfQuarter date :=
    JS.new_Date (JS.getFullYear (startOfQuarter date))
                (JS.add (JS.getMonth (startOfQuarter date)) (JS.of_Z 3)) (JS.of_Z 0) in
  [ ("Today", PickerRange.mk (Some today) (Some today));
    ("This Week", PickerRange.mk (Some startOfWeek) (Some endOfWeek));
    ("This Month", PickerRange.mk (Some (startOfMonth today)) (Some (endOfMonth today)));
    ("Last 30 Days",
     PickerRange.mk (Some (JSLib.setDate today (JS.sub (JS.getDate today) (JS.of_Z 29))))
                    (Some today));
    ("Last Month",
     let reference :=
       JS.new_Date (JS.getFullYear today) (JS.sub (JS.getMonth today) (JS.of_Z 1)) (JS.of_Z 1) in
     PickerRange.mk (Some (startOfMonth reference)) (Some (endOfMonth reference)));
    ("This Quarter", PickerRange.mk (Some (startOfQuarter today)) (Some (endOfQuarter today)));
    ("YTD",
     PickerRange.mk (Some (JS.new_Date (JS.getFullYear today) (JS.of_Z 0) (JS.of_Z 1)))
                    (Some today));
    ("All Time", PickerRange.mk None None) ].



End Picker.

(** * The engine on doubles and in a time zone *)

(** ** Doubles *)

(** Arithmetic on [JSLib.float] as the engine performs it: every result is
    rounded to the nearest double (binary64), a magnitude past the largest
    double becomes an infinity, and [NaN] spreads.  A finite double is held
    as the rational it is worth, in lowest terms.  The sign of a zero is not
    kept; the engine never divides by a zero and never prints one with its
    sign. *)
Module Double.

(** The power of two with exponent [e]. *)
Definition pow2 (e : Z) : Q :=
  if 0 <=? e then inject_Z (2 ^ e) else 1 # Z.to_pos (2 ^ (- e)).

(** The largest [e] with [2^e <= a], for a positive rational in lowest
    terms. *)
Definition ilog2 (a : Q) : Z :=
  let k := Z.log2 (Qnum a) - Z.log2 (Z.pos (Qden a)) in
  if Qle_bool (pow2 k) a then k else k - 1.

(** The integer nearest to a rational, the even one on a tie. *)
Definition nearestEven (x : Q) : Z :=
  let f := Qfloor x in
  match (x - inject_Z f ?= 1 # 2)%Q with
  | Lt => f
  | Gt => f + 1
  | Eq => if Z.even f then f else f + 1
  end.

(** The double nearest to a positive rational in lowest terms, the one with
    the even significand on a tie: doubles are spaced [2^(e - 52)] apart from
    [2^e] up to [2^(e + 1)], and [2^-1074] apart below [2^-1022].  [None] when
    the nearest value is [2^1024], past the largest double. *)
Definition nearest (a : Q) : option Q :=
  let e := Z.max (ilog2 a) (-1022) in
  let spacing := pow2 (e - 52) in
  let v := (inject_Z (nearestEven (a / spacing)) * spacing)%Q in
  if Qle_bool (pow2 1024) v then None else Some v.

(** The double a real number is rounded to. *)
Definition round (q : Q) : JSLib.float :=
  let q := Qred q in
  match Qnum q with
  | Z0 => JSLib.Finite 0
  | Zpos _ =>
      match nearest q with
      | Some v => JSLib.Finite (Qred v)
      | None => JSLib.Infinity false
      end
  | Zneg _ =>
      match nearest (- q) with
      | Some v => JSLib.Finite (Qred (- v))
      | None => JSLib.Infinity true
      end
  end.

Definition ofNat (n : nat) : JSLib.float := round (inject_Z (Z.of_nat n)).

(** The sign of a rational: [true] below zero. *)
Definition negative (q : Q) : bool := JS.Qltb q 0.

(** [x + y]. *)
Definition add (x y : JSLib.float) : JSLib.float :=
  match x, y with
  | JSLib.NaN, _ | _, JSLib.NaN => JSLib.NaN
  | JSLib.Infinity a, JSLib.Infinity b => if Bool.eqb a b then JSLib.Infinity a else JSLib.NaN
  | JSLib.Infinity a, JSLib.Finite _ | JSLib.Finite _, JSLib.Infinity a => JSLib.Infinity a
  | JSLib.Finite a, JSLib.Finite b => round (a + b)
  end.

(** [x * y]. *)
Definition mul (x y : JSLib.float) : JSLib.float :=
  match x, y with
  | JSLib.NaN, _ | _, JSLib.NaN => JSLib.NaN
  | JSLib.Infinity a, JSLib.Infinity b => JSLib.Infinity (xorb a b)
  | JSLib.Infinity a, JSLib.Finite q | JSLib.Finite q, JSLib.Infinity a =>
      if Qeq_bool q 0 then JSLib.NaN else JSLib.Infinity (xorb a (negative q))
  | JSLib.Finite a, JSLib.Finite b => round (a * b)
  end.

(** [x / y].  A zero divisor is taken as the positive zero. *)
Definition div (x y : JSLib.float) : JSLib.float :=
  match x, y with
  | JSLib.NaN, _ | _, JSLib.NaN => JSLib.NaN
  | JSLib.Infinity _, JSLib.Infinity _ => JSLib.NaN
  | JSLib.Infinity a, JSLib.Finite q => JSLib.Infinity (xorb a (negative q))
  | JSLib.Finite _, JSLib.Infinity _ => JSLib.Finite 0
  | JSLib.Finite a, JSLib.Finite b =>
      if Qeq_bool b 0
      then if Qeq_bool a 0 then JSLib.NaN else JSLib.Infinity (negative a)
      else round (a / b)
  end.

(** [x < y] and [x > y]: false when either is [NaN]. *)
Definition lt (x y : JSLib.float) : bool :=
  match x, y with
  | JSLib.NaN, _ | _, JSLib.NaN => false
  | JSLib.Finite a, JSLib.Finite b => JS.Qltb a b
  | JSLib.Infinity a, JSLib.Infinity b => a && negb b
  | JSLib.Infinity a, JSLib.Finite _ => a
  | JSLib.Finite _, JSLib.Infinity b => negb b
  end.

Definition gt (x y : JSLib.float) : bool := lt y x.

(** [x || 0] on a number: [NaN] and zero are falsy. *)
Definition orZero (x : JSLib.float) : JSLib.float :=
  match x with
  | JSLib.NaN => JSLib.Finite 0
  | JSLib.Finite q => if Qeq_bool q 0 then JSLib.Finite 0 else x
  | JSLib.Infinity _ => x
  end.

(** [x.toFixed(f)]. *)
Definition toFixed (x : JSLib.float) (f : nat) : string :=
  match x with
  | JSLib.Finite q => JS.toFixed q f
  | JSLib.Infinity false => "Infinity"
  | JSLib.Infinity true => "-Infinity"
  | JSLib.NaN => "NaN"
  end.

(** [l.reduce((sum, x) => sum + x, 0)]. *)
Definition sum (l : list JSLib.float) : JSLib.float :=
  fold_left add l (JSLib.Finite 0).

End Double.

(** ** Dates in a time zone *)

Module Zoned.

(** What the engine sees of the time zone: [zone n] is the length, in
    milliseconds, of the gap in local time that begins at the midnight of day
    [n] - the clocks are set forward from 00:00 - and 0 when that midnight
    exists. *)
Definition Zone : Type := Z -> Z.

(** A date by its local reading - the calendar day and the milliseconds
    since midnight - or the invalid date.  The dates the engine builds are
    ordered by their time values as their readings are. *)
Inductive Date : Type :=
  | At (day ms : Z)
  | Invalid.

(** The date of a local reading.  A reading inside the gap at the start of
    its day does not exist; it is taken with the offset before the gap, which
    is the reading as far after midnight again as the gap is long. *)
Definition resolve (zone : Zone) (day ms : Z) : Date :=
  At day (if ms <? zone day then ms + zone day else ms).

(** The date at the midnight of a calendar day, and the calendar day of a
    date. *)
Definition ofDay (zone : Zone) (d : JS.Date) : Date :=
  match d with
  | JS.Day n => resolve zone n 0
  | JS.InvalidDate => Invalid
  end.

Definition day (d : Date) : JS.Date :=
  match d with
  | At n _ => JS.Day n
  | Invalid => JS.InvalidDate
  end.

(** [new Date(year, month, day)]: the midnight of the day. *)
Definition new_Date (zone : Zone) (year month day : JS.num) : Date :=
  ofDay zone (JS.new_Date year month day).

Definition getFullYear (d : Date) : JS.num := JS.getFullYear (day d).
Definition getMonth (d : Date) : JS.num := JS.getMonth (day d).
Definition getDate (d : Date) : JS.num := JS.getDate (day d).

(** [d.setDate(v)] and [d.setMonth(v)]: the day changes, the time of day
    is kept. *)
Definition setDate (zone : Zone) (d : Date) (v : JS.num) : Date :=
  match d with
  | At n ms =>
      match JSLib.setDate (JS.Day n) v with
      | JS.Day n' => resolve zone n' ms
      | JS.InvalidDate => Invalid
      end
  | Invalid => Invalid
  end.

Definition setMonth (zone : Zone) (d : Date) (v : JS.num) : Date :=
  match d with
  | At n ms =>
      match JSLib.setMonth (JS.Day n) v with
      | JS.Day n' => resolve zone n' ms
      | JS.InvalidDate => Invalid
      end
  | Invalid => Invalid
  end.

(** Comparisons of time values; a comparison with the invalid date is
    false. *)
Definition lt (d1 d2 : Date) : bool :=
  match d1, d2 with
  | At a s, At b t => (a <? b) || ((a =? b) && (s <? t))
  | _, _ => false
  end.

Definition gt (d1 d2 : Date) : bool := lt d2 d1.

Definition le (d1 d2 : Date) : bool :=
  match d1, d2 with
  | At a s, At b t => (a <? b) || ((a =? b) && (s <=? t))
  | _, _ => false
  end.

Definition ge (d1 d2 : Date) : bool := le d2 d1.

End Zoned.

(** ** The aggregators of [src/App.js] *)

Module Engine.

(** The numbers of a record, each the double nearest to what the record
    holds; [profitLoss] is [trade.profitLoss || 0]. *)
Definition riskReward (trade : Trade.t) : JSLib.float :=
  Double.round (Trade.riskReward trade).

Definition profitLoss (trade : Trade.t) : JSLib.float :=
  Double.round (or0 (Trade.profitLoss trade)).

(** [l.reduce((sum, trade) => sum + f(trade), 0)]. *)
Definition sumBy (f : Trade.t -> JSLib.float) (l : list Trade.t) : JSLib.float :=
  fold_left (fun sum trade => Double.add sum (f trade)) l (JSLib.Finite 0).

(** *** Metrics *)

Module Metrics.
Record t : Type := mk {
  wins : nat;
  losses : nat;
  total : nat;
  winRate : string;
  profitFactor : string;
  avgRR : string;
  netPnL : JSLib.float
}.
End Metrics.

Definition totalWinRR (filteredTrades : list Trade.t) : JSLib.float :=
  sumBy riskReward (List.filter isWin filteredTrades).

Definition totalLossRR (filteredTrades : list Trade.t) : JSLib.float :=
  JSLib.fabs (sumBy riskReward (List.filter isLoss filteredTrades)).

Definition metrics (filteredTrades : list Trade.t) : Metrics.t :=
  let wins := length (List.filter isWin filteredTrades) in
  let losses := length (List.filter isLoss filteredTrades) in
  let total := length filteredTrades in
  let winRate :=
    if (0 <? total)%nat
    then Double.toFixed
           (Double.mul (Double.div (Double.ofNat wins) (Double.ofNat total)) (Double.round 100)) 2
    else "0.00" in
  let totalWinRR := totalWinRR filteredTrades in
  let totalLossRR := totalLossRR filteredTrades in
  let profitFactor :=
    if Double.gt totalLossRR (JSLib.Finite 0)
    then Double.toFixed (Double.div totalWinRR totalLossRR) 2
    else if Double.gt totalWinRR (JSLib.Finite 0) then "∞"
    else "0.00" in
  let avgRR :=
    if (0 <? total)%nat
    then Double.toFixed (Double.div (sumBy riskReward filteredTrades) (Double.ofNat total)) 2
    else "0.00" in
  let netPnL := sumBy profitLoss filteredTrades in
  Metrics.mk wins losses total winRate profitFactor avgRR netPnL.

(** *** Dates *)

Definition startOfDay (zone : Zoned.Zone) (date : Zoned.Date) : Zoned.Date :=
  Zoned.new_Date zone (Zoned.getFullYear date) (Zoned.getMonth date) (Zoned.getDate date).

(** [startOfDay(new Date())], on the calendar day [today]. *)
Definition startOfToday (zone : Zoned.Zone) (today : Z) : Zoned.Date :=
  Zoned.new_Date zone (JS.getFullYear (JS.Day today)) (JS.getMonth (JS.Day today))
                 (JS.getDate (JS.Day today)).

Definition parseISODate (zone : Zoned.Zone) (value : string) : option Zoned.Date :=
  if decide (value = EmptyString) then None
  else
    let parts := JS.Number <$> JS.split "-" value in
    let year := JS.elem parts 0 in
    let month := JS.elem parts 1 in
    let day := JS.elem parts 2 in
    Some (Zoned.new_Date zone year (JS.sub month (JS.of_Z 1)) day).

Definition formatDateKey (date : Zoned.Date) : string :=
  let year := Zoned.getFullYear date in
  let month := JS.padStart2 (JS.show (JS.add (Zoned.getMonth date) (JS.of_Z 1))) in
  let day := JS.padStart2 (JS.show (Zoned.getDate date)) in
  JS.show year +:+ "-" +:+ month +:+ "-" +:+ day.

(** The active date range: each bound is a date or [null]. *)
Module DateRange.
Record t : Type := mk {
  start : option Zoned.Date;
  end_ : option Zoned.Date
}.
End DateRange.

Definition rangeFilteredTrades (zone : Zoned.Zone) (trades : list Trade.t)
    (dateRange : DateRange.t) : list Trade.t :=
  List.filter
    (fun trade =>
       match parseISODate zone (Trade.date trade) with
       | None => false
       | Some tradeDate =>
           if match DateRange.start dateRange with
              | Some s => Zoned.lt tradeDate s
              | None => false
              end then false
           else if match DateRange.end_ dateRange with
                   | Some e => Zoned.gt tradeDate e
                   | None => false
                   end then false
           else true
       end)
    trades.

(** *** Time-series builder *)

Module Entry.
Record t : Type := mk {
  date : string;
  pnl : JSLib.float;
  label : string
}.
End Entry.

Module CumEntry.
Record t : Type := mk {
  date : string;
  pnl : JSLib.float;
  label : string;
  cumulative : JSLib.float
}.
End CumEntry.

(** [acc[key] || 0]. *)
Definition totalOr0 (total : option JSLib.float) : JSLib.float :=
  match total with
  | Some x => Double.orZero x
  | None => JSLib.Finite 0
  end.

(** The reducer of [dailyPnLData]: a record without a date is skipped, any
    other adds its P&L to the total of its date key.  Under a date that names
    an inherited member, [acc[trade.date]] is that member and the sum is a
    string: stored under [__proto__] it is ignored, under another inherited
    name it becomes an own property that holds no number ([NaN] stands for
    it; the series reads the keys [formatDateKey] writes only). *)
Definition addToDay (acc : gmap string JSLib.float) (trade : Trade.t)
  : gmap string JSLib.float :=
  let key := Trade.date trade in
  if decide (key = EmptyString) then acc
  else if decide (key = "__proto__") then acc
  else if bool_decide (key ∈ JS.inherited) then <[key := JSLib.NaN]> acc
  else <[key := Double.add (totalOr0 (acc !! key)) (profitLoss trade)]> acc.

Definition dailyTotals (filteredTrades : list Trade.t) : gmap string JSLib.float :=
  fold_left addToDay filteredTrades ∅.

(** [Object.keys(dailyTotals).sort()]: the keys in code-unit order. *)
Definition sortedKeys (dailyTotals : gmap string JSLib.float) : list string :=
  merge_sort String.le (map_to_list dailyTotals).*1.

(** [startOfDay(parseISODate(key))].  Keys of [dailyTotals] are never empty,
    so [parseISODate] does not return [null] here; the last branch stands for
    the exception JavaScript would raise. *)
Definition dayOfKey (zone : Zoned.Zone) (key : string) : Zoned.Date :=
  match parseISODate zone key with
  | Some d => startOfDay zone d
  | None => Zoned.Invalid
  end.

Definition defaultStart (zone : Zoned.Zone) (today : Z) (keys : list string)
    (dateRange : DateRange.t) : Zoned.Date :=
  match DateRange.start dateRange with
  | Some s => startOfDay zone s
  | None =>
      match keys with
      | k :: _ => dayOfKey zone k
      | [] => startOfToday zone today
      end
  end.

Definition defaultEnd (zone : Zoned.Zone) (today : Z) (keys : list string)
    (dateRange : DateRange.t) : Zoned.Date :=
  match DateRange.end_ dateRange with
  | Some e => startOfDay zone e
  | None =>
      match last keys with
      | Some k => dayOfKey zone k
      | None => defaultStart zone today keys dateRange
      end
  end.

(** The endpoints of the walk after the three adjustments: both clamped to
    today, then the end raised to the start. *)
Definition seriesStart (zone : Zoned.Zone) (today : Z) (keys : list string)
    (dateRange : DateRange.t) : Zoned.Date :=
  let cursor := defaultStart zone today keys dateRange in
  if Zoned.gt cursor (startOfToday zone today) then startOfToday zone today else cursor.

Definition seriesEnd (zone : Zoned.Zone) (today : Z) (keys : list string)
    (dateRange : DateRange.t) : Zoned.Date :=
  let cursor := seriesStart zone today keys dateRange in
  let endDate := defaultEnd zone today keys dateRange in
  let endDate :=
    if Zoned.gt endDate (startOfToday zone today) then startOfToday zone today else endDate in
  if Zoned.lt endDate cursor then cursor else endDate.

(** [toLocaleDateString('en-US', { month: 'short', day: 'numeric' })]. *)
Definition shortLabel (date : Zoned.Date) : string :=
  match date with
  | Zoned.At n _ => App.shortLabel n
  | Zoned.Invalid => "Invalid Date"
  end.

Definition entryOf (dailyTotals : gmap string JSLib.float) (cursor : Zoned.Date) : Entry.t :=
  let key := formatDateKey cursor in
  Entry.mk key (totalOr0 (dailyTotals !! key)) (shortLabel cursor).

(** The [while (cursor <= endDate)] loop; [fuel] bounds the iterations. *)
Fixpoint walk (zone : Zoned.Zone) (fuel : nat) (dailyTotals : gmap string JSLib.float)
    (cursor endDate : Zoned.Date) : list Entry.t :=
  match fuel with
  | O => []
  | S fuel' =>
      if Zoned.le cursor endDate
      then entryOf dailyTotals cursor
             :: walk zone fuel' dailyTotals
                  (Zoned.setDate zone cursor (JS.add (Zoned.getDate cursor) (JS.of_Z 1)))
                  endDate
      else []
  end.

(** On an invalid endpoint the loop test is false at once; between two
    dates the cursor moves on a day at each step, so the days from the start
    to the end bound the iterations. *)
Definition dailyPnLData (zone : Zoned.Zone) (today : Z) (filteredTrades : list Trade.t)
    (dateRange : DateRange.t) : list Entry.t :=
  let dailyTotals := dailyTotals filteredTrades in
  let keys := sortedKeys dailyTotals in
  match seriesStart zone today keys dateRange, seriesEnd zone today keys dateRange with
  | Zoned.At s ms, Zoned.At e ms' =>
      walk zone (Z.to_nat (e - s + 1)) dailyTotals (Zoned.At s ms) (Zoned.At e ms')
  | _, _ => []
  end.

(** The running total threaded through [dailyPnLData.map]. *)
Fixpoint cumulate (cumulative : JSLib.float) (l : list Entry.t) : list CumEntry.t :=
  match l with
  | [] => []
  | entry :: l' =>
      let cumulative := Double.add cumulative (Entry.pnl entry) in
      CumEntry.mk (Entry.date entry) (Entry.pnl entry) (Entry.label entry) cumulative
        :: cumulate cumulative l'
  end.

Definition cumulativePnLData (dailyPnLData : list Entry.t) : list CumEntry.t :=
  cumulate (JSLib.Finite 0) dailyPnLData.

(** *** The month menu *)

Module MonthOption.
Record t : Type := mk {
  key : string;
  label : string;
  date : Zoned.Date
}.
End MonthOption.

(** The step of the [forEach] of [buildMonthOptions] on one record. *)
Definition earliestMonth (zone : Zoned.Zone) (earliestTradeMonth : option Zoned.Date)
    (trade : Trade.t) : option Zoned.Date :=
  match parseISODate zone (Trade.date trade) with
  | None => earliestTradeMonth
  | Some parsed =>
      let tradeMonth :=
        Zoned.new_Date zone (Zoned.getFullYear parsed) (Zoned.getMonth parsed) (JS.of_Z 1) in
      match earliestTradeMonth with
      | None => Some tradeMonth
      | Some earliest =>
          if Zoned.lt tradeMonth earliest then Some tradeMonth else earliestTradeMonth
      end
  end.

(** The loop [while (cursor >= startPoint)]: [cursor.setMonth] keeps the
    time of day of the cursor, and each option holds a copy of the cursor. *)
Fixpoint monthsDown (zone : Zoned.Zone) (fuel : nat) (cursor startPoint : Zoned.Date)
  : list MonthOption.t :=
  match fuel with
  | O => []
  | S fuel' =>
      if Zoned.ge cursor startPoint
      then MonthOption.mk
             (JS.show (Zoned.getFullYear cursor) +:+ "-" +:+ JS.show (Zoned.getMonth cursor))
             (monthLabel (Zoned.day cursor)) cursor
             :: monthsDown zone fuel'
                  (Zoned.setMonth zone cursor (JS.sub (Zoned.getMonth cursor) (JS.of_Z 1)))
                  startPoint
      else []
  end.

Definition nowStart (zone : Zoned.Zone) (now : Z) : Zoned.Date :=
  Zoned.new_Date zone (JS.getFullYear (JS.Day now)) (JS.getMonth (JS.Day now)) (JS.of_Z 1).

Definition startPoint (zone : Zoned.Zone) (now : Z) (trades : list Trade.t) : Zoned.Date :=
  let nowStart := nowStart zone now in
  let earliestTradeMonth := fold_left (earliestMonth zone) trades None in
  let defaultStart :=
    Zoned.new_Date zone (Zoned.getFullYear nowStart)
                   (JS.sub (Zoned.getMonth nowStart) (JS.of_Z 11)) (JS.of_Z 1) in
  match earliestTradeMonth with
  | Some earliest => if Zoned.lt earliest defaultStart then earliest else defaultStart
  | None => defaultStart
  end.

(** The cursor goes down a month at each step, so the days from the start
    point to the cursor bound the iterations. *)
Definition buildMonthOptions (zone : Zoned.Zone) (now : Z) (trades : list Trade.t)
  : list MonthOption.t :=
  match nowStart zone now, startPoint zone now trades with
  | Zoned.At cursor ms, Zoned.At stop ms' =>
      monthsDown zone (Z.to_nat (cursor - stop + 1)) (Zoned.At cursor ms) (Zoned.At stop ms')
  | _, _ => []
  end.

Definition earliestAvailableMonth (monthOptions : list MonthOption.t) : option Zoned.Date :=
  MonthOption.date <$> last monthOptions.

(** The month shown after [handleMonthChange(offset)]. *)
Definition handleMonthChange (zone : Zoned.Zone) (offset : Z) (currentMonthStart : Zoned.Date)
    (earliestAvailableMonth : option Zoned.Date) (prev : Zoned.Date) : Zoned.Date :=
  let next :=
    Zoned.new_Date zone (Zoned.getFullYear prev)
                   (JS.add (Zoned.getMonth prev) (JS.of_Z offset)) (JS.of_Z 1) in
  if Zoned.gt next currentMonthStart then prev
  else
    match earliestAvailableMonth with
    | Some earliest => if Zoned.lt next earliest then prev else next
    | None => next
    end.

End Engine.

(** * Definitions used to state and check the properties *)

(** [P] holds on the [k] integers from [i] on. *)
Fixpoint forall_from (P : Z -> bool) (i : Z) (k : nat) : bool :=
  match k with
  | O => true
  | S k' => if P i then forall_from P (i + 1) k' else false
  end.

(** The scenario of the specification: one win and one loss on 2024-01-02. *)
Definition scenario (id1 id2 : Z) : list Trade.t :=
  [ Trade.mk id1 "2024-01-02" "09:35" (Some "long") "NQ!" "win" 2 (Some 200%Q);
    Trade.mk id2 "2024-01-02" "09:50" None "NQ!" "loss" (-1) (Some (-100)%Q) ].

(** Every filter set to "all". *)
Definition allFilters (search : string) : Filters.t := Filters.mk "all" "all" "all" search.

(** The fully unbounded range. *)
Definition allTime : DateRange.t := DateRange.mk None None.

(** The range the dashboard starts with: the last 30 days. *)
Definition defaultRange (today : Z) : DateRange.t :=
  DateRange.mk (Some (today - 29)) (Some today).

(** The string HH:MM of two digits each, for [h] and [m] in 0..99; the
    24-hour clock times are those with [h] below 24 and [m] below 60. *)
Definition hhmm (h m : Z) : string :=
  JS.padStart2 (pretty h) +:+ ":" +:+ JS.padStart2 (pretty m).

(** The bucket of the half-open interval that holds minute [t] of the day;
    the catch-all bucket outside 9:30..10:30. *)
Definition bucketOfMinute (t : Z) : string :=
  if (570 <=? t) && (t <? 585) then "9:30-9:45"
  else if (585 <=? t) && (t <? 600) then "9:45-10:00"
  else if (600 <=? t) && (t <? 615) then "10:00-10:15"
  else if (615 <=? t) && (t <? 630) then "10:15-10:30"
  else "10:30+".

Definition classifiesHour (h : Z) : bool :=
  forall_from
    (fun m => String.eqb (getTimeRange (hhmm h m)) (bucketOfMinute (60 * h + m))) 0 100.

Definition hasTime (trade : Trade.t) : bool := negb (String.eqb (Trade.time trade) "").

(** A record whose time does not parse. *)
Definition garbledTime : Trade.t :=
  Trade.mk 1 "2024-01-02" "abc" (Some "long") "NQ!" "win" 2 (Some 200%Q).

(** The date string does not parse to a date: [parseISODate] gives [null]
    or the invalid date. *)
Definition unparsableDate (s : string) : bool :=
  match parseISODate s with
  | Some (JS.Day _) => false
  | _ => true
  end.

(** A record without a date, and one whose date does not parse. *)
Definition undated : Trade.t :=
  Trade.mk 1 "" "09:35" (Some "long") "NQ!" "win" 2 (Some 200%Q).
Definition garbledDate : Trade.t :=
  Trade.mk 1 "abc" "09:35" (Some "long") "NQ!" "win" 2 (Some 200%Q).


Fixpoint allChars (P : ascii -> bool) (s : string) : bool :=
  match s with
  | EmptyString => true
  | String c s' => P c && allChars P s'
  end.



(** The sum of a list of numbers. *)
Definition sumQ (l : list Q) : Q := fold_right Qplus 0%Q l.

(** ** Calendar checks *)

(** A civil date as one number, YYYYMMDD. *)
Definition dateCode (ymd : Z * Z * Z) : Z :=
  let '(y, m, d) := ymd in y * 10000 + m * 100 + d.

(** On one day of the era: the civil date is well formed, converts back to
    the day, and comes before the civil date of the next day. *)
Definition eraDayOk (doe : Z) : bool :=
  let '(y0, m, d) := JS.civil_of_doe doe in
  let y' := if m <=? 2 then y0 - 1 else y0 in
  (1 <=? m) && (m <=? 12) && (1 <=? d) && (d <=? 31) && (0 <=? y') && (y' <? 400)
  && (JS.doe_of_civil y' m d =? doe)
  && (if doe =? 146096
      then dateCode (y0, m, d) <? dateCode (JS.civil_of_doe 0) + 4000000
      else dateCode (y0, m, d) <? dateCode (JS.civil_of_doe (doe + 1))).

(** The days whose year has four digits: 1000-01-01 to 9999-12-31. *)
Definition firstDay : Z := JS.days_from_civil 1000 1 1.
Definition lastDay : Z := JS.days_from_civil 9999 12 31.

(** ** Date keys *)

(** The key of the civil date [y]-[m]-[d], as [formatDateKey] writes it. *)
Definition keyOf (y m d : Z) : string :=
  pretty y +:+ "-" +:+ JS.padStart2 (pretty m) +:+ "-" +:+ JS.padStart2 (pretty d).

Definition noDash (s : string) : bool := allChars (fun c => negb (Ascii.eqb c "-")) s.

(** The number [x] is the integer [z]. *)
Definition reads (x : JS.num) (z : Z) : bool :=
  match x with
  | Some (a # b) => (a =? z) && (b =? 1)%positive
  | None => false
  end.

(** A four-digit year prints as four characters without a dash, reads back
    as itself and sorts before the next year. *)
Definition yearOk (y : Z) : bool :=
  noDash (pretty y) && reads (JS.Number (pretty y)) y
  && (String.length (pretty y) =? 4)%nat
  && ((y =? 9999) || String.ltb (pretty y) (pretty (y + 1))).

(** The same for a month or day number padded to two characters. *)
Definition padOk (k : Z) : bool :=
  let s := JS.padStart2 (pretty k) in
  noDash s && reads (JS.Number s) k && (String.length s =? 2)%nat
  && ((k =? 31) || String.ltb s (JS.padStart2 (pretty (k + 1)))).

(** The totals of the date keys [keys], added up. *)
Definition sumOver (totals : gmap string Q) (keys : list string) : Q :=
  sumQ ((fun key => or0 (totals !! key)) <$> keys).

(** The P&L a record contributes to every sum. *)
Definition pnlOf (trade : Trade.t) : Q := or0 (Trade.profitLoss trade).

(** The date string is the key of a day with a four-digit year, not after
    today: the form YYYY-MM-DD that [formatDateKey] itself writes. *)
Definition canonicalDate (today : Z) (s : string) : Prop :=
  exists n, s = formatDateKey (JS.Day n) /\ firstDay <= n <= lastDay /\ n <= today.

(** A record of the year 999, whose key has a year of three digits. *)
Definition shortYear : Trade.t :=
  Trade.mk 3 "999-01-01" "09:35" (Some "long") "NQ!" "win" 1 (Some 50%Q).

(** A record dated 2 January 2024 without the zero padding. *)
Definition unpaddedDate : Trade.t :=
  Trade.mk 1 "2024-1-2" "09:35" (Some "long") "NQ!" "win" 2 (Some 100%Q).

(** The records of a collection dated [key], and their statistics. *)
Definition datedOn (key : string) (trades : list Trade.t) : list Trade.t :=
  List.filter (fun trade => String.eqb (Trade.date trade) key) trades.

Definition statsOf (members : list Trade.t) : DayStats.t :=
  DayStats.mk (length (List.filter isWin members)) (length (List.filter isLoss members))
              (sumBy pnlOf members) members.

(** ** Further definitions used to state the properties *)

(** The days of the four-digit years. *)
Definition fourDigitYear (n : Z) : Prop := firstDay <= n <= lastDay.

(** The record is dated on a day from Monday to Friday. *)
Definition onWeekday (trade : Trade.t) : bool :=
  match getDayOfWeek (Trade.date trade) with
  | Some day => bool_decide (day ∈ ["Monday"; "Tuesday"; "Wednesday"; "Thursday"; "Friday"])
  | None => false
  end.

(** The result of the record is "win" or "loss". *)
Definition decided (trade : Trade.t) : bool := isWin trade || isLoss trade.

(** A record dated on the day [n]. *)
Definition tradeOn (n : Z) (result : string) (pl : Q) : Trade.t :=
  Trade.mk 1 (formatDateKey (JS.Day n)) "09:35" (Some "long") "NQ!" result 1 (Some pl).

(** The record is as the trade form writes it: a loss has the reward
    multiple -1 and a P&L that is not positive, any other record a P&L that
    is not negative. *)
Definition normalized (trade : Trade.t) : Prop :=
  match Trade.profitLoss trade with
  | Some p =>
      if isLoss trade then Trade.riskReward trade = (-1)%Q /\ (p <= 0)%Q else (0 <= p)%Q
  | None => False
  end.

(** A form filled in for a trade of the given result. *)
Definition filledForm (result riskReward profitLoss : string) : FormData.t :=
  FormData.mk "2024-01-02" "09:35" "long" "NQ!" result riskReward profitLoss.

(** The journal handlers that act on one day. *)
Inductive dayAction : Type :=
  | NoteChange (value : string)
  | AddChecklistItem (now : Z)
  | ChecklistToggle (itemId : ident)
  | ChecklistRemove (itemId : ident)
  | StrategyApply (clock : nat -> Z) (strategyId : option Z)
  | ScreenshotRemove (imageId : string).

Definition runDayAction (dateKey : string) (action : dayAction) (s : Journal.t) : Journal.t :=
  match action with
  | NoteChange value => handleNoteChange dateKey value s
  | AddChecklistItem now => handleAddChecklistItem now dateKey s
  | ChecklistToggle itemId => handleChecklistToggle dateKey itemId s
  | ChecklistRemove itemId => handleChecklistRemove dateKey itemId s
  | StrategyApply clock strategyId => handleStrategyApply clock dateKey strategyId s
  | ScreenshotRemove imageId => handleScreenshotRemove dateKey imageId s
  end.

(** The entry shown for a day: the stored one, or the default entry. *)
Definition entryOfDay (s : Journal.t) (dateKey : string) : DayEntry.t :=
  default createDefaultDayEntry (Journal.dayNotes s !! dateKey).

(** A journal with one day that has an item to tick, and one strategy. *)
Definition sampleJournal : Journal.t :=
  Journal.mk
    {[ "2024-01-02" := DayEntry.mk "calm open" [ChecklistItem.mk (NumId 7) "wait for retest" false]
                                   [] (Some 41) ]}
    {[ "2024-01-02" := "  size down  " ]}
    [Strategy.mk 41 "Opening range" [StrategyItem.mk 1 "mark the range"; StrategyItem.mk 2 "wait"]]
    false None (StrategyForm.mk "" "" []).

(** ** Months *)

(** The day on which month [k] starts, the months counted from January of
    the year 0; and the month a day lies in. *)
Definition monthStart (k : Z) : Z := JS.days_from_civil (k / 12) (k mod 12 + 1) 1.

Definition monthOf (n : Z) : Z :=
  let '(y, m, _) := JS.civil_from_days n in y * 12 + (m - 1).

(** On one month: its first day has the civil date of the first of the
    month, and the next month starts 28 to 31 days later. The calendar
    repeats after 4800 months, which are 146097 days. *)
Definition monthOk (k : Z) : bool :=
  let '(y, m, d) := JS.civil_from_days (monthStart k) in
  (y =? k / 12) && (m =? k mod 12 + 1) && (d =? 1)
  && (28 <=? monthStart (k + 1) - monthStart k) && (monthStart (k + 1) - monthStart k <=? 31).

(** The two days lie in the same month of the same year. *)
Definition sameMonth (n x : Z) : bool := monthOf n =? monthOf x.

(** A range of the picker with both bounds days, or both unset. *)
Definition pickerDays (s e : Z) : PickerRange.t :=
  PickerRange.mk (Some (JS.Day s)) (Some (JS.Day e)).

Definition pickerAllTime : PickerRange.t := PickerRange.mk None None.


(** ** The month menu *)

(** The entry of the menu for month [k]. *)
Definition monthOption (k : Z) : MonthOption.t :=
  MonthOption.mk
    (pretty (k / 12) +:+ "-" +:+ pretty (k mod 12))
    (default EmptyString (longMonths !! Z.to_nat (k mod 12)) +:+ " " +:+ pretty (k / 12))
    (JS.Day (monthStart k)).

(** A month index prints without a dash and reads back as itself. *)
Definition monthIndexOk (m : Z) : bool :=
  noDash (pretty m) && reads (JS.Number (pretty m)) m.

(** The record is dated on the day [n] of a four-digit year. *)
Definition tradedOn (trade : Trade.t) (n : Z) : Prop :=
  fourDigitYear n /\ Trade.date trade = formatDateKey (JS.Day n).

(** ** Definitions used to state the properties of [Engine] *)

(** The rational is a double: rounding leaves it as it is. *)
Definition exact (q : Q) : Prop := Double.round q = JSLib.Finite (Qred q).

Definition exactb (q : Q) : bool :=
  match Double.round q with
  | JSLib.Finite v => Qeq_bool v q
  | _ => false
  end.


(** A zone without any gap at midnight, and a zone whose clocks are set
    forward by an hour at the midnight of one day. *)
Definition noGap : Zoned.Zone := fun _ => 0.

Definition gapAt (n : Z) : Zoned.Zone := fun day => if day =? n then 3600000 else 0.

(** The entry of the series for the day [n], reached at its midnight. *)
Definition entryOfDay' (totals : gmap string JSLib.float) (n : Z) : Engine.Entry.t :=
  Engine.entryOf totals (Zoned.At n 0).

(** A range of the engine between the midnights of two days. *)
Definition rangeOfDays (zone : Zoned.Zone) (s e : Z) : Engine.DateRange.t :=
  Engine.DateRange.mk (Some (Zoned.ofDay zone (JS.Day s))) (Some (Zoned.ofDay zone (JS.Day e))).

Definition allDays : Engine.DateRange.t := Engine.DateRange.mk None None.

(** Every sum of some of the amounts, each amount taken or left out. *)
Fixpoint subsums (l : list Q) : list Q :=
  match l with
  | [] => [0%Q]
  | x :: l' => subsums l' ++ ((fun s => (x + s)%Q) <$> subsums l')
  end.

(** Every sum of some of the amounts is a double, so that no addition of
    the engine is rounded, in whatever order and grouping it adds them. *)
Definition exactSums (l : list Q) : bool := forallb exactb (subsums l).

(** No midnight is skipped from the date of one record to the date of
    another. *)
Definition noGapBetween (zone : Zoned.Zone) (trades : list Trade.t) : Prop :=
  forall a b na nb n,
    In a trades -> In b trades -> tradedOn a na -> tradedOn b nb -> na <= n <= nb -> zone n = 0.

(** The records dated on one of the [k] days from [n0] on. *)
Definition datedWithin (n0 : Z) (k : nat) (trades : list Trade.t) : list Trade.t :=
  List.filter
    (fun trade =>
       bool_decide (Trade.date trade
                    ∈ (fun n => formatDateKey (JS.Day n)) <$> seqZ n0 (Z.of_nat k)))
    trades.

(** Three records of 0.3, 0.2 and 0.1 on three days, the latest first. *)
Definition tenths : list Trade.t :=
  [ Trade.mk 1 "2024-01-03" "09:35" (Some "long") "NQ!" "win" 1 (Some (3 # 10));
    Trade.mk 2 "2024-01-02" "09:35" (Some "long") "NQ!" "win" 1 (Some (2 # 10));
    Trade.mk 3 "2024-01-01" "09:35" (Some "long") "NQ!" "win" 1 (Some (1 # 10)) ].

(** Two records two days apart. *)
Definition twoDaysApart : list Trade.t :=
  [ Trade.mk 1 "2024-01-02" "09:35" (Some "long") "NQ!" "win" 2 (Some 100%Q);
    Trade.mk 2 "2024-01-04" "09:35" (Some "long") "NQ!" "win" 1 (Some 50%Q) ].

(** A date the engine builds from a year, a month and a day. *)
Definition midnight (zone : Zoned.Zone) (d : Zoned.Date) : Prop :=
  exists d', d = Zoned.ofDay zone d' /\ forall n, d' = JS.Day n -> Z.abs n <= JS.max_day.

(** The entry of the engine's menu for month [k], dated at the midnight of
    the first of the month. *)
Definition monthOptionAt (k : Z) : Engine.MonthOption.t :=
  Engine.MonthOption.mk (MonthOption.key (monthOption k)) (MonthOption.label (monthOption k))
                        (Zoned.At (monthStart k) 0).

(** * Properties *)

(** ** Tactics *)

(** Case analysis on the integer comparisons of the goal, innermost first. *)
Ltac no_compare t :=
  lazymatch t with
  | context [Z.ltb] => fail
  | context [Z.leb] => fail
  | context [Z.eqb] => fail
  | _ => idtac
  end.

Ltac case_compare :=
  repeat match goal with
         | |- context [?a <? ?b] => no_compare a; no_compare b; destruct (Z.ltb_spec a b)
         | |- context [?a <=? ?b] => no_compare a; no_compare b; destruct (Z.leb_spec a b)
         | |- context [?a =? ?b] => no_compare a; no_compare b; destruct (Z.eqb_spec a b)
         end.

(** ** Checked ranges *)

Lemma forall_from_spec (P : Z -> bool) (k : nat) (i : Z) :
  forall_from P i k = true -> forall x, i <= x < i + Z.of_nat k -> P x = true.
Proof.
  revert i. induction k as [|k IH]; intros i Hall x Hx; [lia|].
  simpl in Hall. destruct (P i) eqn:HP; [|discriminate].
  destruct (decide (x = i)) as [->|Hne]; [exact HP|].
  apply (IH (i + 1)); [exact Hall|lia].
Qed.

Lemma forall_from_range (P : Z -> bool) (a len x : Z) :
  forall_from P a (Z.to_nat len) = true -> a <= x < a + len -> P x = true.
Proof. intros H Hx. apply (forall_from_spec _ _ _ H). lia. Qed.

(** ** The scenario of the specification *)

(** C1: on the two-record scenario, with every filter "all" and the
    all-time range, the metrics are wins 1, losses 1, winRate 50.00,
    totalWinRR 2, totalLossRR 1, profitFactor 2.00, avgRR 0.50 and netPnL 100,
    in the current dashboard and in the earlier variant alike. *)
Theorem C1_scenario_metrics (today id1 id2 : Z) :
  let trades := scenario id1 id2 in
  let filtered := App.filteredTrades (App.rangeFilteredTrades trades allTime) (allFilters "") in
  let m := Outputs.metrics (App.dashboard today trades allTime (allFilters "")) in
  let m' := Part000.Outputs.metrics (Part000.dashboard today trades "all" (allFilters "")) in
  (Metrics.wins m = 1%nat /\ Metrics.losses m = 1%nat /\ Metrics.winRate m = "50.00"
   /\ totalWinRR filtered = 2%Q /\ totalLossRR filtered = 1%Q
   /\ Metrics.profitFactor m = "2.00" /\ Metrics.avgRR m = "0.50"
   /\ Metrics.netPnL m = 100%Q)
  /\ m' = m.
Proof.
  cbn zeta. unfold App.dashboard, Part000.dashboard. cbn [Outputs.metrics Part000.Outputs.metrics].
  repeat split; vm_compute; reflexivity.
Qed.

(** ** The calendar index *)

Lemma statsOf_snoc (members : list Trade.t) (trade : Trade.t) :
  statsOf (members ++ [trade]) = addStats (statsOf members) trade.
Proof.
  unfold statsOf, addStats. cbn [DayStats.wins DayStats.losses DayStats.profitLoss DayStats.trades].
  rewrite !List.filter_app, !List.length_app. cbn [List.filter].
  unfold sumBy. rewrite fold_left_app. cbn [fold_left]. fold (pnlOf trade).
  f_equal; [destruct (isWin trade)|destruct (isLoss trade)]; simpl; lia.
Qed.

Lemma datedOn_snoc (key : string) (trades : list Trade.t) (trade : Trade.t) :
  datedOn key (trades ++ [trade])
  = if String.eqb (Trade.date trade) key then datedOn key trades ++ [trade]
    else datedOn key trades.
Proof.
  unfold datedOn. rewrite List.filter_app. cbn [List.filter].
  destruct (String.eqb _ _); [reflexivity|apply app_nil_r].
Qed.

(** The index of a collection without inherited names as dates. *)
Lemma tradesByDate_plain (trades : list Trade.t) :
  Forall (fun trade => Trade.date trade ∉ JS.inherited) trades ->
  tradesByDate trades
  = Some (fold_left
            (fun acc trade =>
               if decide (Trade.date trade = EmptyString) then acc
               else <[Trade.date trade
                      := addStats (default noStats (acc !! Trade.date trade)) trade]> acc)
            trades ∅).
Proof.
  unfold tradesByDate. generalize (∅ : gmap string DayStats.t) as acc.
  induction trades as [|trade trades IH]; intros acc Hplain; [reflexivity|].
  apply Forall_cons in Hplain as [Hdate Hplain]. cbn [fold_left mbind option_bind].
  unfold indexTrade at 2. destruct (decide _) as [Hempty|Hne]; [apply IH, Hplain|].
  rewrite bool_decide_eq_false_2 by exact Hdate. apply IH, Hplain.
Qed.

(** Once the reducer has raised, the remaining records are not read. *)
Lemma tradesByDate_raised (trades : list Trade.t) :
  fold_left (fun acc trade => acc ≫= fun acc => indexTrade acc trade) trades None = None.
Proof. induction trades as [|trade trades IH]; [reflexivity|exact IH]. Qed.

(** The reducer raises exactly on a record dated with an inherited name. *)
Lemma tradesByDate_raises (trades : list Trade.t) :
  tradesByDate trades = None
  <-> exists trade, In trade trades /\ Trade.date trade ∈ JS.inherited.
Proof.
  split.
  - intros Hnone. destruct (decide (Forall (fun trade => Trade.date trade ∉ JS.inherited) trades))
      as [Hplain|Hsome].
    + rewrite (tradesByDate_plain trades Hplain) in Hnone. discriminate.
    + apply not_Forall_Exists in Hsome; [|intros trade; apply _].
      apply Exists_exists in Hsome as (trade & Hin & Hdate).
      exists trade. split; [apply list_elem_of_In, Hin|].
      destruct (decide (Trade.date trade ∈ JS.inherited)); [assumption|contradiction].
  - intros (trade & Hin & Hdate). unfold tradesByDate.
    generalize (∅ : gmap string DayStats.t) as acc.
    induction trades as [|first trades IH]; intros acc; [destruct Hin|].
    cbn [fold_left mbind option_bind]. destruct Hin as [->|Hin].
    + unfold indexTrade. destruct (decide _) as [Hempty|_].
      * rewrite Hempty in Hdate. exfalso. revert Hdate. apply (bool_decide_unpack _).
        vm_compute. exact I.
      * rewrite bool_decide_eq_true_2 by exact Hdate. apply tradesByDate_raised.
    + destruct (indexTrade acc first) as [acc'|]; [apply IH, Hin|apply tradesByDate_raised].
Qed.

(** Each date of the index holds the statistics of all the records of the
    collection with that date; a date without records is absent. *)
Lemma tradesByDate_lookup (trades : list Trade.t) (index : gmap string DayStats.t)
    (key : string) :
  tradesByDate trades = Some index ->
  key <> EmptyString ->
  index !! key
  = match datedOn key trades with
    | [] => None
    | members => Some (statsOf members)
    end.
Proof.
  intros Hindex Hkey.
  assert (Hplain : Forall (fun trade => Trade.date trade ∉ JS.inherited) trades).
  { apply Forall_forall. intros trade Hin Hdate.
    assert (Hnone : tradesByDate trades = None).
    { apply tradesByDate_raises. exists trade. split; [apply list_elem_of_In, Hin|exact Hdate]. }
    congruence. }
  rewrite (tradesByDate_plain trades Hplain) in Hindex. injection Hindex as <-.
  clear Hplain. induction trades as [|trade trades IH] using rev_ind; [reflexivity|].
  rewrite fold_left_app. cbn [fold_left]. rewrite datedOn_snoc.
  destruct (String.eqb_spec (Trade.date trade) key) as [Heq|Hne].
  - rewrite Heq. destruct (decide _); [contradiction|].
    rewrite lookup_insert_eq, IH.
    destruct (datedOn key trades) as [|m ms]; cbn [default from_option id].
    + change noStats with (statsOf []). rewrite <- statsOf_snoc. reflexivity.
    + rewrite <- statsOf_snoc. reflexivity.
  - destruct (decide _); [exact IH|]. rewrite lookup_insert_ne by exact Hne. exact IH.
Qed.

(** C2: the calendar index is computed from the whole trade collection
    alone: two snapshots that differ only in the active range, filters or
    clock carry the same index.  The aggregator raises exactly when a record
    is dated with a name that objects inherit; otherwise each date of the
    index holds the win count, loss count, net P&L and member list of all the
    records of the collection with that date. *)
Theorem C2_calendar_independent_of_filters
    (trades : list Trade.t) (today today' : Z)
    (range range' : DateRange.t) (period period' : string) (filters filters' : Filters.t) :
  Outputs.tradesByDate (App.dashboard today trades range filters)
  = Outputs.tradesByDate (App.dashboard today' trades range' filters')
  /\ Part000.Outputs.tradesByDate (Part000.dashboard today trades period filters)
     = Part000.Outputs.tradesByDate (Part000.dashboard today' trades period' filters')
  /\ Part000.Outputs.tradesByDate (Part000.dashboard today trades period filters)
     = Outputs.tradesByDate (App.dashboard today trades range filters)
  /\ (Outputs.tradesByDate (App.dashboard today trades range filters) = None
      <-> exists trade, In trade trades /\ Trade.date trade ∈ JS.inherited)
  /\ (forall (index : gmap string DayStats.t) (key : string),
        Outputs.tradesByDate (App.dashboard today trades range filters) = Some index ->
        key <> EmptyString ->
        index !! key
        = match datedOn key trades with
          | [] => None
          | members => Some (statsOf members)
          end).
Proof.
  split; [reflexivity|]. split; [reflexivity|]. split; [reflexivity|].
  split; [apply tradesByDate_raises|].
  intros index key Hindex Hkey. exact (tradesByDate_lookup trades index key Hindex Hkey).
Qed.

Lemma C2_witness :
  exists index,
    Outputs.tradesByDate
      (App.dashboard 20000 (scenario 1 2) (defaultRange 20000)
                     (Filters.mk "10:30+" "Monday" "ES" ""))
    = Some index
    /\ DayStats.trades <$> (index !! "2024-01-02") = Some (scenario 1 2).
Proof.
  destruct (Outputs.tradesByDate
              (App.dashboard 20000 (scenario 1 2) (defaultRange 20000)
                             (Filters.mk "10:30+" "Monday" "ES" ""))) as [index|] eqn:Hindex.
  - exists index. split; [reflexivity|].
    rewrite (proj2 (proj2 (proj2 (proj2 (C2_calendar_independent_of_filters
               (scenario 1 2) 20000 20000 (defaultRange 20000) allTime "all" "all"
               (Filters.mk "10:30+" "Monday" "ES" "") (allFilters ""))))) index "2024-01-02"
               Hindex); [reflexivity|discriminate].
  - exfalso. revert Hindex. vm_compute. discriminate.
Defined.

(** ** Custom range picker *)

(** The clamp of the quick ranges is the one of the picker: the earlier of
    the date and today. *)
Lemma clampToToday_min (today d : Z) : App.clampToToday today (Some d) = Some (Z.min d today).
Proof. unfold App.clampToToday. case_compare; f_equal; lia. Qed.

(** A selection closed by a click has its start before its end. *)
Lemma selectDay_ordered (normalized : Z) (rangeSelection : DateRange.t) (s e : Z) :
  DateRange.start (App.selectDay normalized rangeSelection) = Some s ->
  DateRange.end_ (App.selectDay normalized rangeSelection) = Some e ->
  s < e.
Proof.
  unfold App.selectDay.
  destruct (DateRange.start rangeSelection) as [start|],
           (DateRange.end_ rangeSelection) as [end_|]; cbn; try discriminate.
  case_compare; cbn; intros [= <-] [= <-]; lia.
Qed.

(** C9: the range applied from the picker has its end clamped to today
    (the clamped start stands in for an end not yet picked) and its start
    clamped to today and then to the end; with tomorrow as the start, and
    the end open or not before the start as the picker leaves it, the range
    is the single day today. *)
Theorem C9_custom_range_clamped (today s : Z) (e : option Z) (dateRange : DateRange.t) :
  let r := App.applyRangeSelection today (DateRange.mk (Some s) e) dateRange in
  let s1 := Z.min s today in
  let e1 := match e with Some e => Z.min e today | None => s1 end in
  DateRange.end_ r = Some e1
  /\ DateRange.start r = Some (Z.min s1 e1)
  /\ (s = today + 1 -> (forall e', e = Some e' -> s <= e') ->
      r = DateRange.mk (Some today) (Some today))
  /\ (forall normalized rangeSelection,
        DateRange.start (App.selectDay normalized rangeSelection) = Some (today + 1) ->
        App.applyRangeSelection today (App.selectDay normalized rangeSelection) dateRange
        = DateRange.mk (Some today) (Some today)).
Proof.
  cbn zeta. unfold App.applyRangeSelection. cbn [DateRange.start DateRange.end_].
  split; [|split; [|split]].
  - destruct e as [e|]; cbn [DateRange.end_]; f_equal; case_compare; lia.
  - destruct e as [e|]; cbn [DateRange.start]; f_equal; case_compare; lia.
  - intros -> He. destruct e as [e|]; [specialize (He e eq_refl)|];
      case_compare; try lia; reflexivity.
  - intros normalized rangeSelection Hs.
    pose proof (selectDay_ordered normalized rangeSelection (today + 1)) as Hord.
    destruct (App.selectDay normalized rangeSelection) as [start [e'|]];
      cbn [DateRange.start DateRange.end_] in *; subst start.
    + specialize (Hord e' eq_refl eq_refl). case_compare; try lia; reflexivity.
    + case_compare; try lia; reflexivity.
Qed.

Lemma C9_witness :
  App.applyRangeSelection 20000 (DateRange.mk (Some 20001) (Some 20005)) allTime
  = DateRange.mk (Some 20000) (Some 20000).
Proof.
  apply (C9_custom_range_clamped 20000 20001 (Some 20005) allTime).
  - reflexivity.
  - intros e' [= <-]. lia.
Defined.

(** ** The empty collection *)

Lemma sortedKeys_empty : App.sortedKeys ∅ = [].
Proof. unfold App.sortedKeys. rewrite map_to_list_empty. reflexivity. Qed.

Lemma walk_empty_pnl (fuel : nat) (cursor endDate : Z) :
  Forall (fun entry => Entry.pnl entry = 0%Q) (App.walk fuel ∅ cursor endDate).
Proof.
  revert cursor. induction fuel as [|fuel IH]; intros cursor; simpl.
  - constructor.
  - destruct (cursor <=? endDate); constructor; [|apply IH].
    unfold App.entryOf. simpl. rewrite lookup_empty. reflexivity.
Qed.

Lemma cumulate_zero (l : list Entry.t) :
  Forall (fun entry => Entry.pnl entry = 0%Q) l ->
  Forall (fun entry => CumEntry.pnl entry = 0%Q /\ CumEntry.cumulative entry = 0%Q)
         (App.cumulate 0%Q l).
Proof.
  induction 1 as [|entry l Hentry _ IH]; simpl; constructor.
  - simpl. rewrite Hentry. split; reflexivity.
  - rewrite Hentry. exact IH.
Qed.

Lemma dailyPnLData_empty_allTime (today : Z) :
  App.dailyPnLData today [] allTime = [App.entryOf ∅ today].
Proof.
  unfold App.dailyPnLData. cbn [App.dailyTotals fold_left]. rewrite sortedKeys_empty.
  unfold App.seriesEnd, App.seriesStart, App.defaultEnd, App.defaultStart, allTime.
  cbn [DateRange.start DateRange.end_ last JS.date_gt JS.date_lt].
  rewrite Z.ltb_irrefl. cbn [JS.date_gt JS.date_lt]. rewrite Z.ltb_irrefl.
  replace (today - today + 1) with 1 by lia.
  change (Z.to_nat 1) with 1%nat. cbn [App.walk]. rewrite Z.leb_refl. reflexivity.
Qed.

(** C7 (amended): on the empty collection, under every range and
    filter, the three ratios read 0.00, the net P&L is 0 and every entry of
    the daily series has pnl 0 and cumulative 0; under the all-time range the
    series is the single entry of today. *)
Theorem C7_empty_collection (today : Z) (dateRange : DateRange.t) (filters : Filters.t) :
  let out := App.dashboard today [] dateRange filters in
  Metrics.winRate (Outputs.metrics out) = "0.00"
  /\ Metrics.profitFactor (Outputs.metrics out) = "0.00"
  /\ Metrics.avgRR (Outputs.metrics out) = "0.00"
  /\ Metrics.netPnL (Outputs.metrics out) = 0%Q
  /\ Forall (fun entry => CumEntry.pnl entry = 0%Q /\ CumEntry.cumulative entry = 0%Q)
            (Outputs.series out)
  /\ Outputs.series (App.dashboard today [] allTime filters)
     = [CumEntry.mk (formatDateKey (JS.Day today)) 0 (App.shortLabel today) 0].
Proof.
  cbn zeta. unfold App.dashboard. cbn [Outputs.metrics Outputs.series].
  cbn [App.rangeFilteredTrades App.filteredTrades List.filter].
  repeat split.
  - unfold App.cumulativePnLData, App.dailyPnLData. apply cumulate_zero.
    cbn [App.dailyTotals fold_left]. rewrite sortedKeys_empty.
    destruct (App.seriesStart today [] dateRange); [|constructor].
    destruct (App.seriesEnd today [] dateRange); [|constructor].
    apply walk_empty_pnl.
  - rewrite dailyPnLData_empty_allTime. unfold App.cumulativePnLData, App.entryOf.
    rewrite lookup_empty. reflexivity.
Qed.

(** C7, as stated, fails: when the dashboard starts, the active range is
    the last 30 days, and the series of the empty collection has 30 entries. *)
Lemma C7_counterexample :
  length (Outputs.series (App.dashboard 20000 [] (defaultRange 20000) (allFilters ""))) = 30%nat
  /\ Outputs.series (App.dashboard 20000 [] (defaultRange 20000) (allFilters ""))
     <> [CumEntry.mk (formatDateKey (JS.Day 20000)) 0 (App.shortLabel 20000) 0].
Proof. split; [vm_compute; reflexivity|]. vm_compute. discriminate. Qed.

(** ** Time buckets *)

Lemma classifiesHour_all : forall_from classifiesHour 0 100 = true.
Proof. vm_cast_no_check (eq_refl true). Qed.

Lemma getTimeRange_hhmm (h m : Z) :
  0 <= h <= 99 -> 0 <= m <= 99 -> getTimeRange (hhmm h m) = bucketOfMinute (60 * h + m).
Proof.
  intros Hh Hm.
  pose proof (forall_from_spec _ _ _ classifiesHour_all h ltac:(lia)) as Hc.
  apply String.eqb_eq, (forall_from_spec _ _ _ Hc m). lia.
Qed.

(** C4: a time string HH:MM falls in the bucket of the half-open
    quarter-hour that holds its minute of the day between 9:30 and 10:30,
    and in the 10:30+ bucket both from 10:30 on and before 9:30. *)
Theorem C4_time_buckets (h m : Z) :
  0 <= h <= 99 -> 0 <= m <= 99 ->
  let t := 60 * h + m in
  let bucket := getTimeRange (hhmm h m) in
  (570 <= t < 585 -> bucket = "9:30-9:45")
  /\ (585 <= t < 600 -> bucket = "9:45-10:00")
  /\ (600 <= t < 615 -> bucket = "10:00-10:15")
  /\ (615 <= t < 630 -> bucket = "10:15-10:30")
  /\ (630 <= t -> bucket = "10:30+")
  /\ (t < 570 -> bucket = "10:30+").
Proof.
  intros Hh Hm t bucket. subst bucket. rewrite (getTimeRange_hhmm h m Hh Hm). fold t.
  unfold bucketOfMinute.
  repeat split; intros Ht; case_compare; try lia; reflexivity.
Qed.

Lemma C4_witness : getTimeRange (hhmm 9 35) = "9:30-9:45".
Proof. apply (C4_time_buckets 9 35); lia. Defined.

Lemma getTimeRange_empty : getTimeRange "" = "unknown".
Proof. reflexivity. Qed.

Lemma unknown_not_a_range (range : string) : In range ranges -> String.eqb "unknown" range = false.
Proof.
  unfold ranges. simpl. intros H. repeat (destruct H as [<-|H]; [reflexivity|]). destruct H.
Qed.

Lemma all_not_a_range (range : string) : In range ranges -> App.strNe range "all" = true.
Proof.
  unfold ranges. simpl. intros H. repeat (destruct H as [<-|H]; [reflexivity|]). destruct H.
Qed.

Lemma filter_bucket_hasTime (range : string) (l : list Trade.t) :
  In range ranges ->
  List.filter (fun trade => String.eqb (getTimeRange (Trade.time trade)) range) l
  = List.filter (fun trade => String.eqb (getTimeRange (Trade.time trade)) range)
                (List.filter hasTime l).
Proof.
  intros Hr. induction l as [|trade l IH]; [reflexivity|].
  simpl. unfold hasTime at 1.
  destruct (String.eqb_spec (Trade.time trade) "") as [Ht|Ht]; simpl.
  - rewrite Ht, getTimeRange_empty, (unknown_not_a_range range Hr). exact IH.
  - rewrite IH. reflexivity.
Qed.

(** C6 (amended): a record whose time string is empty is classified
    "unknown", which is none of the five bucket values; it is left out of the
    filtered set under every explicit time-bucket filter, in both variants,
    and no row of the time-bucket breakdown counts it. *)
Theorem C6_empty_time_unknown :
  getTimeRange "" = "unknown"
  /\ ~ In "unknown" ranges
  /\ (forall (trade : Trade.t) (filters : Filters.t) (l : list Trade.t),
        Trade.time trade = "" -> In (Filters.timeRange filters) ranges ->
        ~ In trade (App.filteredTrades l filters)
        /\ ~ In trade (Part000.filteredTrades l filters))
  /\ (forall filtered : list Trade.t,
        timeRangeData filtered = timeRangeData (List.filter hasTime filtered)).
Proof.
  split; [reflexivity|]. split.
  { intros H. apply unknown_not_a_range in H. discriminate. }
  split.
  - intros trade filters l Ht Hr.
    pose proof (all_not_a_range _ Hr) as Hall.
    pose proof (unknown_not_a_range _ Hr) as Hunk.
    split; intros Hin; apply filter_In in Hin as [_ Hkeep];
      rewrite Ht, getTimeRange_empty, Hall in Hkeep;
      unfold App.strNe at 1 in Hkeep; rewrite Hunk in Hkeep; discriminate.
  - intros filtered. unfold timeRangeData.
    apply list_eq_Forall2, Forall2_fmap, Forall_Forall2_diag, Forall_forall.
    intros range Hr. rewrite <- (filter_bucket_hasTime range filtered); [reflexivity|].
    apply list_elem_of_In, Hr.
Qed.

Lemma C6_witness :
  ~ In (Trade.mk 7 "2024-01-02" "" None "NQ!" "win" 2 None)
       (App.filteredTrades [Trade.mk 7 "2024-01-02" "" None "NQ!" "win" 2 None]
                           (Filters.mk "10:30+" "all" "all" "")).
Proof.
  apply (proj1 (proj2 (proj2 C6_empty_time_unknown))).
  - reflexivity.
  - simpl. tauto.
Defined.

(** C6, as stated, fails on a time that is not empty and does not parse:
    it is classified 10:30+, passes the 10:30+ filter and is counted in that
    row of the breakdown. *)
Lemma C6_counterexample :
  getTimeRange (Trade.time garbledTime) = "10:30+"
  /\ App.filteredTrades (App.rangeFilteredTrades [garbledTime] allTime)
                        (Filters.mk "10:30+" "all" "all" "") = [garbledTime]
  /\ RangeRow.trades <$> timeRangeData [garbledTime] = [0; 0; 0; 0; 1]%nat.
Proof. repeat split. Qed.

(** ** Range filter and records whose date does not parse *)

Lemma parseISODate_empty : parseISODate "" = None.
Proof. reflexivity. Qed.

(** In [App.js] the invalid date is truthy and loses no comparison, so a
    record whose date does not parse passes every range. *)
Lemma rangeFilter_keeps_invalid_date (trade : Trade.t) (dateRange : DateRange.t) :
  parseISODate (Trade.date trade) = Some JS.InvalidDate ->
  App.rangeFilteredTrades [trade] dateRange = [trade].
Proof.
  intros H. unfold App.rangeFilteredTrades. simpl. rewrite H.
  destruct (DateRange.start dateRange), (DateRange.end_ dateRange); reflexivity.
Qed.

(** C5 (amended): in [App.js] a record whose date string is empty is
    left out by the range filter under every range, the all-time range
    included; in the earlier variant a record whose date does not parse is
    left out whenever the period has a start bound and kept under the
    all-time period. *)
Theorem C5_unparsable_dates :
  (forall (trades : list Trade.t) (dateRange : DateRange.t) (trade : Trade.t),
      Trade.date trade = "" -> ~ In trade (App.rangeFilteredTrades trades dateRange))
  /\ (forall (now : Z) (trades : list Trade.t) (period : string) (trade : Trade.t),
        In trade trades -> unparsableDate (Trade.date trade) = true ->
        (Part000.getPeriodStartDate now period = None ->
           In trade (Part000.periodFilteredTrades now trades period))
        /\ (Part000.getPeriodStartDate now period <> None ->
              ~ In trade (Part000.periodFilteredTrades now trades period))).
Proof.
  split.
  - intros trades dateRange trade Hd Hin.
    apply filter_In in Hin as [_ Hkeep]. rewrite Hd, parseISODate_empty in Hkeep.
    discriminate.
  - intros now trades period trade Hin Hun. unfold Part000.periodFilteredTrades.
    destruct (Part000.getPeriodStartDate now period) as [startDate|]; split.
    + discriminate.
    + intros _ Hin'. apply filter_In in Hin' as [_ Hkeep].
      unfold unparsableDate in Hun.
      destruct (parseISODate (Trade.date trade)) as [[n|]|]; try discriminate.
      destruct startDate; discriminate.
    + intros _. exact Hin.
    + intros H. destruct H. reflexivity.
Qed.

Lemma C5_witness :
  ~ In undated (App.rangeFilteredTrades [undated] allTime)
  /\ In garbledDate (Part000.periodFilteredTrades 20000 [undated; garbledDate] "all")
  /\ ~ In garbledDate (Part000.periodFilteredTrades 20000 [undated; garbledDate] "mtd").
Proof.
  split; [| split].
  - apply (proj1 C5_unparsable_dates). reflexivity.
  - apply (proj2 C5_unparsable_dates 20000 [undated; garbledDate] "all" garbledDate).
    + simpl. tauto.
    + reflexivity.
    + reflexivity.
  - apply (proj2 C5_unparsable_dates 20000 [undated; garbledDate] "mtd" garbledDate).
    + simpl. tauto.
    + reflexivity.
    + discriminate.
Defined.

(** C5, as stated, fails in [App.js] on both sides: under the all-time
    range the record without a date is not in the range-filtered set, and
    under a bounded range the record dated "abc" is. *)
Lemma C5_counterexample :
  unparsableDate (Trade.date undated) = true
  /\ App.rangeFilteredTrades [undated] allTime = []
  /\ unparsableDate (Trade.date garbledDate) = true
  /\ App.rangeFilteredTrades [garbledDate] (defaultRange 20000) = [garbledDate].
Proof. repeat split. Qed.

(** ** Profit factor *)

Lemma append_cons (c : ascii) (s1 s2 : string) :
  String c s1 +:+ s2 = String c (s1 +:+ s2).
Proof. reflexivity. Qed.











Lemma Qltb_true (x y : Q) : JS.Qltb x y = true <-> (x < y)%Q.
Proof.
  unfold JS.Qltb. rewrite negb_true_iff, <- not_true_iff_false, Qle_bool_iff.
  split; [apply Qnot_le_lt|apply Qlt_not_le].
Qed.


(** ** Daily series *)

(** The loop leaves by its test: fuel beyond the number of days changes
    nothing. *)
Lemma walk_fuel_enough (dailyTotals : gmap string Q) (endDate : Z) (fuel : nat) (cursor : Z) :
  (Z.to_nat (endDate - cursor + 1) <= fuel)%nat ->
  App.walk fuel dailyTotals cursor endDate
  = App.walk (Z.to_nat (endDate - cursor + 1)) dailyTotals cursor endDate.
Proof.
  revert cursor. induction fuel as [|fuel IH]; intros cursor Hfuel.
  - replace (Z.to_nat (endDate - cursor + 1)) with 0%nat by lia. reflexivity.
  - simpl. destruct (Z.leb_spec cursor endDate) as [Hle|Hgt].
    + replace (Z.to_nat (endDate - cursor + 1))
        with (S (Z.to_nat (endDate - (cursor + 1) + 1))) by lia.
      simpl. destruct (Z.leb_spec cursor endDate); [|lia].
      f_equal. apply IH. lia.
    + replace (Z.to_nat (endDate - cursor + 1)) with 0%nat by lia. reflexivity.
Qed.

(** One entry per day, in order, while the fuel does not pass the end. *)
Lemma walk_days (dailyTotals : gmap string Q) (endDate : Z) (fuel : nat) (cursor : Z) :
  cursor + Z.of_nat fuel <= endDate + 1 ->
  App.walk fuel dailyTotals cursor endDate
  = App.entryOf dailyTotals <$> seqZ cursor (Z.of_nat fuel).
Proof.
  revert cursor. induction fuel as [|fuel IH]; intros cursor Hfuel; [reflexivity|].
  simpl App.walk. destruct (Z.leb_spec cursor endDate); [|lia].
  rewrite seqZ_cons by lia. csimpl. f_equal.
  rewrite IH by lia. f_equal. f_equal; lia.
Qed.

Lemma cumulate_pnl (c : Q) (l : list Entry.t) :
  CumEntry.pnl <$> App.cumulate c l = Entry.pnl <$> l.
Proof.
  revert c. induction l as [|entry l IH]; intros c; [reflexivity|].
  csimpl. f_equal. apply IH.
Qed.

Lemma cumulate_date (c : Q) (l : list Entry.t) :
  CumEntry.date <$> App.cumulate c l = Entry.date <$> l.
Proof.
  revert c. induction l as [|entry l IH]; intros c; [reflexivity|].
  csimpl. f_equal. apply IH.
Qed.

Lemma cumulate_length (c : Q) (l : list Entry.t) : length (App.cumulate c l) = length l.
Proof.
  revert c. induction l as [|entry l IH]; intros c; [reflexivity|].
  simpl. f_equal. apply IH.
Qed.

(** The last running total is the start value plus every [pnl]. *)
Lemma cumulate_last (l : list Entry.t) (c : Q) :
  l <> [] ->
  exists lastEntry,
    last (App.cumulate c l) = Some lastEntry
    /\ CumEntry.cumulative lastEntry == c + sumQ (Entry.pnl <$> l).
Proof.
  revert c. induction l as [|entry l IH]; intros c Hne; [congruence|].
  destruct l as [|entry' l].
  - eexists. split; [reflexivity|]. simpl. ring.
  - destruct (IH (c + Entry.pnl entry)%Q) as (lastEntry & Hlast & Hcum); [discriminate|].
    exists lastEntry. split.
    + exact Hlast.
    + rewrite Hcum. csimpl. ring.
Qed.

(** When both are dates, the end of the walk is not before its start
    and not after today. *)
Lemma series_endpoints_ordered (today : Z) (keys : list string) (dateRange : DateRange.t)
    (s e : Z) :
  App.seriesStart today keys dateRange = JS.Day s ->
  App.seriesEnd today keys dateRange = JS.Day e ->
  s <= e <= today.
Proof.
  unfold App.seriesEnd. intros Hs. rewrite Hs.
  assert (Hst : s <= today).
  { unfold App.seriesStart in Hs.
    destruct (App.defaultStart today keys dateRange) as [n|]; simpl in Hs.
    - destruct (Z.ltb_spec today n); injection Hs as <-; lia.
    - discriminate. }
  destruct (App.defaultEnd today keys dateRange) as [n|]; simpl.
  - destruct (Z.ltb_spec today n); simpl.
    + destruct (Z.ltb_spec today s); intros [= <-]; lia.
    + destruct (Z.ltb_spec n s); intros [= <-]; lia.
  - discriminate.
Qed.

(** Between two endpoints that are dates the walk visits every day once. *)
Lemma dailyPnLData_days (today : Z) (filtered : list Trade.t) (dateRange : DateRange.t)
    (s e : Z) :
  let totals := App.dailyTotals filtered in
  let keys := App.sortedKeys totals in
  App.seriesStart today keys dateRange = JS.Day s ->
  App.seriesEnd today keys dateRange = JS.Day e ->
  App.dailyPnLData today filtered dateRange = App.entryOf totals <$> seqZ s (e - s + 1).
Proof.
  intros totals keys Hs He.
  pose proof (series_endpoints_ordered _ _ _ _ _ Hs He) as Hord.
  unfold App.dailyPnLData. fold totals. fold keys. rewrite Hs, He.
  rewrite walk_days by lia. rewrite Z2Nat.id by lia. reflexivity.
Qed.

(** ** The calendar *)

Lemma eraDayOk_all : forall_from eraDayOk 0 (Z.to_nat 146097) = true.
Proof. vm_cast_no_check (eq_refl true). Qed.

Lemma civil_from_days_era (n : Z) :
  let z := n + 719468 in
  JS.civil_from_days n
  = let '(y0, m, d) := JS.civil_of_doe (z mod 146097) in (y0 + z / 146097 * 400, m, d).
Proof.
  cbn zeta. unfold JS.civil_from_days.
  replace (n + 719468 - (n + 719468) / 146097 * 146097) with ((n + 719468) mod 146097)
    by (rewrite Z.mod_eq by lia; lia).
  reflexivity.
Qed.

(** Converting a day to its civil date and back gives the day again, and
    the civil date has a month in 1..12 and a day in 1..31. *)
Lemma days_from_civil_from_days (n : Z) :
  let '(y, m, d) := JS.civil_from_days n in
  JS.days_from_civil y m d = n /\ 1 <= m <= 12 /\ 1 <= d <= 31.
Proof.
  rewrite civil_from_days_era. cbn zeta.
  set (z := n + 719468).
  assert (Hdoe : 0 <= z mod 146097 < 0 + Z.of_nat (Z.to_nat 146097))
    by (pose proof (Z.mod_pos_bound z 146097); lia).
  pose proof (forall_from_spec _ _ _ eraDayOk_all _ Hdoe) as Hok.
  unfold eraDayOk in Hok.
  destruct (JS.civil_of_doe (z mod 146097)) as [[y0 m] d].
  repeat (apply andb_true_iff in Hok as [Hok ?]).
  unfold JS.days_from_civil.
  assert (Hz : z = 146097 * (z / 146097) + z mod 146097) by (apply Z.div_mod; lia).
  split; [|lia].
  destruct (m <=? 2).
  - replace ((y0 + z / 146097 * 400 - 1) / 400) with (z / 146097)
      by (apply Z.div_unique_pos with (r := y0 - 1); lia).
    replace (y0 + z / 146097 * 400 - 1 - z / 146097 * 400) with (y0 - 1) by lia.
    subst z. lia.
  - replace ((y0 + z / 146097 * 400) / 400) with (z / 146097)
      by (apply Z.div_unique_pos with (r := y0); lia).
    replace (y0 + z / 146097 * 400 - z / 146097 * 400) with y0 by lia.
    subst z. lia.
Qed.

Lemma dateCode_step (n : Z) :
  dateCode (JS.civil_from_days n) < dateCode (JS.civil_from_days (n + 1)).
Proof.
  rewrite !civil_from_days_era. cbn zeta.
  replace (n + 1 + 719468) with (n + 719468 + 1) by lia.
  set (z := n + 719468).
  assert (Hdoe : 0 <= z mod 146097 < 0 + Z.of_nat (Z.to_nat 146097))
    by (pose proof (Z.mod_pos_bound z 146097); lia).
  pose proof (forall_from_spec _ _ _ eraDayOk_all _ Hdoe) as Hok.
  unfold eraDayOk in Hok.
  assert (Hz : z = 146097 * (z / 146097) + z mod 146097) by (apply Z.div_mod; lia).
  destruct (Z.eqb_spec (z mod 146097) 146096) as [Hlast|Hnot].
  - assert (Hq : (z + 1) / 146097 = z / 146097 + 1)
      by (symmetry; apply Z.div_unique_pos with (r := 0); lia).
    assert (Hr : (z + 1) mod 146097 = 0)
      by (symmetry; apply Z.mod_unique_pos with (q := z / 146097 + 1); lia).
    rewrite Hq, Hr. rewrite Hlast in Hok |- *.
    destruct (JS.civil_of_doe 146096) as [[y0 m] d].
    destruct (JS.civil_of_doe 0) as [[y0' m'] d'].
    repeat (apply andb_true_iff in Hok as [Hok ?]). unfold dateCode in *. lia.
  - assert (Hq : (z + 1) / 146097 = z / 146097)
      by (symmetry; apply Z.div_unique_pos with (r := z mod 146097 + 1); lia).
    assert (Hr : (z + 1) mod 146097 = z mod 146097 + 1)
      by (symmetry; apply Z.mod_unique_pos with (q := z / 146097); lia).
    rewrite Hq, Hr.
    destruct (JS.civil_of_doe (z mod 146097)) as [[y0 m] d].
    destruct (JS.civil_of_doe (z mod 146097 + 1)) as [[y0' m'] d'].
    repeat (apply andb_true_iff in Hok as [Hok ?]). unfold dateCode in *. lia.
Qed.

(** Later days have later civil dates. *)
Lemma dateCode_mono (n1 n2 : Z) :
  n1 < n2 -> dateCode (JS.civil_from_days n1) < dateCode (JS.civil_from_days n2).
Proof.
  intros Hlt. replace n2 with (n1 + 1 + Z.of_nat (Z.to_nat (n2 - n1 - 1))) by lia.
  induction (Z.to_nat (n2 - n1 - 1)) as [|k IH].
  - rewrite Z.add_0_r. apply dateCode_step.
  - etrans; [exact IH|].
    replace (n1 + 1 + Z.of_nat (S k)) with (n1 + 1 + Z.of_nat k + 1) by lia.
    apply dateCode_step.
Qed.

(** ** Date keys *)

Lemma yearOk_all : forall_from yearOk 1000 (Z.to_nat 9000) = true.
Proof. vm_cast_no_check (eq_refl true). Qed.

Lemma padOk_all : forall_from padOk 1 (Z.to_nat 31) = true.
Proof. vm_cast_no_check (eq_refl true). Qed.

Lemma compare_Lt_trans (a b c : string) :
  String.compare a b = Lt -> String.compare b c = Lt -> String.compare a c = Lt.
Proof.
  intros Hab Hbc.
  assert (Hle : String.le a c).
  { trans b; unfold String.le, String.leb; [rewrite Hab|rewrite Hbc]; exact I. }
  unfold String.le, String.leb in Hle.
  destruct (String.compare a c) eqn:Hac; [|reflexivity|destruct Hle].
  apply String.compare_eq_iff in Hac as ->.
  rewrite String.compare_antisym, Hbc in Hab. discriminate.
Qed.

(** A family of strings that grows at each step grows throughout. *)
Lemma compare_chain (f : Z -> string) (a b : Z) :
  (forall k, a <= k < b -> String.compare (f k) (f (k + 1)) = Lt) ->
  forall k1 k2, a <= k1 -> k1 < k2 -> k2 <= b -> String.compare (f k1) (f k2) = Lt.
Proof.
  intros Hstep k1 k2 Ha Hlt Hb.
  replace k2 with (k1 + 1 + Z.of_nat (Z.to_nat (k2 - k1 - 1))) in * by lia.
  induction (Z.to_nat (k2 - k1 - 1)) as [|n IH].
  - rewrite Z.add_0_r. apply Hstep. lia.
  - apply compare_Lt_trans with (f (k1 + 1 + Z.of_nat n)); [apply IH; lia|].
    replace (k1 + 1 + Z.of_nat (S n)) with (k1 + 1 + Z.of_nat n + 1) by lia.
    apply Hstep. lia.
Qed.

Lemma compare_app (a1 a2 r1 r2 : string) :
  String.length a1 = String.length a2 ->
  String.compare (a1 +:+ r1) (a2 +:+ r2)
  = match String.compare a1 a2 with
    | Eq => String.compare r1 r2
    | c => c
    end.
Proof.
  revert a2. induction a1 as [|c1 a1 IH]; intros [|c2 a2] Hlen; try discriminate.
  - reflexivity.
  - change (String.compare (String c1 (a1 +:+ r1)) (String c2 (a2 +:+ r2)) =
            match String.compare (String c1 a1) (String c2 a2) with
            | Eq => String.compare r1 r2 | c => c end).
    cbn [String.compare]. destruct (Ascii.compare c1 c2); [|reflexivity..].
    apply IH. simpl in Hlen. lia.
Qed.

Lemma split_noSep (sep : ascii) (a : string) :
  allChars (fun c => negb (Ascii.eqb c sep)) a = true -> JS.split sep a = [a].
Proof.
  induction a as [|c a IH]; [reflexivity|]. simpl. intros H.
  apply andb_true_iff in H as [Hc Ha]. apply negb_true_iff in Hc. rewrite Hc, IH by exact Ha.
  reflexivity.
Qed.

Lemma split_app_sep (sep : ascii) (a b : string) :
  allChars (fun c => negb (Ascii.eqb c sep)) a = true ->
  JS.split sep (a +:+ String sep b) = a :: JS.split sep b.
Proof.
  induction a as [|c a IH]; intros H.
  - change (EmptyString +:+ String sep b) with (String sep b). simpl.
    rewrite Ascii.eqb_refl. reflexivity.
  - simpl in H. apply andb_true_iff in H as [Hc Ha]. apply negb_true_iff in Hc.
    change (String c a +:+ String sep b) with (String c (a +:+ String sep b)).
    cbn [JS.split]. rewrite Hc, IH by exact Ha. reflexivity.
Qed.

Lemma Qle_bool_inject_Z (a b : Z) : Qle_bool (inject_Z a) (inject_Z b) = (a <=? b).
Proof.
  apply eq_true_iff_eq. rewrite Qle_bool_iff, <- Zle_Qle, Z.leb_le. reflexivity.
Qed.

Lemma trunc_Qeq (q : Q) (z : Z) : q == inject_Z z -> JS.trunc q = z.
Proof.
  intros H. unfold JS.trunc.
  destruct (Qle_bool 0 q).
  - rewrite (Qfloor_comp _ _ H). apply Qfloor_Z.
  - rewrite (Qceiling_comp _ _ H). apply Qceiling_Z.
Qed.

Lemma show_Qeq (q : Q) (z : Z) : q == inject_Z z -> JS.show (Some q) = pretty z.
Proof. intros H. simpl. rewrite (Qfloor_comp _ _ H), Qfloor_Z. reflexivity. Qed.

Lemma formatDateKey_Day (n : Z) :
  formatDateKey (JS.Day n) = let '(y, m, d) := JS.civil_from_days n in keyOf y m d.
Proof.
  unfold formatDateKey, keyOf. cbn [JS.getFullYear JS.getMonth JS.getDate].
  destruct (JS.civil_from_days n) as [[y m] d]. cbn [fst snd].
  unfold JS.of_Z, JS.add.
  rewrite (show_Qeq (inject_Z y) y) by reflexivity.
  rewrite (show_Qeq (inject_Z (m - 1) + inject_Z 1) m)
    by (rewrite <- inject_Z_plus; f_equiv; lia).
  rewrite (show_Qeq (inject_Z d) d) by reflexivity.
  reflexivity.
Qed.

(** The civil date of a day whose year has four digits. *)
Lemma civil_fourDigitYear (n : Z) :
  firstDay <= n <= lastDay ->
  let '(y, m, d) := JS.civil_from_days n in
  1000 <= y <= 9999 /\ 1 <= m <= 12 /\ 1 <= d <= 31 /\ JS.days_from_civil y m d = n.
Proof.
  intros [Hlo Hhi].
  assert (H1 : dateCode (JS.civil_from_days firstDay) <= dateCode (JS.civil_from_days n)).
  { destruct (decide (firstDay = n)) as [->|]; [lia|].
    apply Z.lt_le_incl, dateCode_mono. lia. }
  assert (H2 : dateCode (JS.civil_from_days n) <= dateCode (JS.civil_from_days lastDay)).
  { destruct (decide (n = lastDay)) as [->|]; [lia|].
    apply Z.lt_le_incl, dateCode_mono. lia. }
  pose proof (days_from_civil_from_days n) as Hrt.
  change (dateCode (JS.civil_from_days firstDay)) with 10000101 in H1.
  change (dateCode (JS.civil_from_days lastDay)) with 99991231 in H2.
  destruct (JS.civil_from_days n) as [[y m] d]. unfold dateCode in *. lia.
Qed.

Lemma reads_spec (x : JS.num) (z : Z) : reads x z = true -> x = JS.of_Z z.
Proof.
  destruct x as [[a b]|]; [|discriminate]. unfold reads. intros H.
  apply andb_true_iff in H as [Ha Hb]. apply Z.eqb_eq in Ha. apply Pos.eqb_eq in Hb.
  subst. reflexivity.
Qed.

Lemma yearOk_spec (y : Z) :
  1000 <= y <= 9999 ->
  noDash (pretty y) = true /\ JS.Number (pretty y) = JS.of_Z y
  /\ String.length (pretty y) = 4%nat
  /\ (y < 9999 -> String.compare (pretty y) (pretty (y + 1)) = Lt).
Proof.
  intros Hy. pose proof (forall_from_range _ _ _ y yearOk_all ltac:(lia)) as H.
  unfold yearOk in H. repeat (apply andb_true_iff in H as [H ?]).
  split; [exact H|]. split; [apply reads_spec; assumption|].
  split; [apply Nat.eqb_eq; assumption|].
  intros Hlt.
  match goal with Ho : (_ || _) = true |- _ => apply orb_true_iff in Ho as [Hlast|Hnext] end.
  - apply Z.eqb_eq in Hlast. lia.
  - unfold String.ltb in Hnext.
    destruct (String.compare _ _); [discriminate|reflexivity|discriminate].
Qed.

Lemma padOk_spec (k : Z) :
  1 <= k <= 31 ->
  let s := JS.padStart2 (pretty k) in
  noDash s = true /\ JS.Number s = JS.of_Z k /\ String.length s = 2%nat
  /\ (k < 31 -> String.compare s (JS.padStart2 (pretty (k + 1))) = Lt).
Proof.
  intros Hk. pose proof (forall_from_range _ _ _ k padOk_all ltac:(lia)) as H.
  unfold padOk in H. cbn zeta in *. repeat (apply andb_true_iff in H as [H ?]).
  split; [exact H|]. split; [apply reads_spec; assumption|].
  split; [apply Nat.eqb_eq; assumption|].
  intros Hlt.
  match goal with Ho : (_ || _) = true |- _ => apply orb_true_iff in Ho as [Hlast|Hnext] end.
  - apply Z.eqb_eq in Hlast. lia.
  - unfold String.ltb in Hnext.
    destruct (String.compare _ _); [discriminate|reflexivity|discriminate].
Qed.

Lemma year_compare (y1 y2 : Z) :
  1000 <= y1 -> y1 < y2 -> y2 <= 9999 -> String.compare (pretty y1) (pretty y2) = Lt.
Proof.
  apply (compare_chain (fun y => pretty y) 1000 9999).
  intros k Hk. apply yearOk_spec; lia.
Qed.

Lemma pad_compare (k1 k2 : Z) :
  1 <= k1 -> k1 < k2 -> k2 <= 31 ->
  String.compare (JS.padStart2 (pretty k1)) (JS.padStart2 (pretty k2)) = Lt.
Proof.
  apply (compare_chain (fun k => JS.padStart2 (pretty k)) 1 31).
  intros k Hk. apply (padOk_spec k); lia.
Qed.

Lemma compare_refl (s : string) : String.compare s s = Eq.
Proof.
  induction s as [|c s IH]; [reflexivity|]. simpl.
  unfold Ascii.compare. rewrite N.compare_refl. exact IH.
Qed.

(** Keys of four-digit years sort as their dates do. *)
Lemma keyOf_compare (y1 m1 d1 y2 m2 d2 : Z) :
  1000 <= y1 <= 9999 -> 1 <= m1 <= 12 -> 1 <= d1 <= 31 ->
  1000 <= y2 <= 9999 -> 1 <= m2 <= 12 -> 1 <= d2 <= 31 ->
  dateCode (y1, m1, d1) < dateCode (y2, m2, d2) ->
  String.compare (keyOf y1 m1 d1) (keyOf y2 m2 d2) = Lt.
Proof.
  intros Hy1 Hm1 Hd1 Hy2 Hm2 Hd2 Hlt. unfold dateCode in Hlt. unfold keyOf.
  pose proof (yearOk_spec y1 Hy1) as (_ & _ & Hly1 & _).
  pose proof (yearOk_spec y2 Hy2) as (_ & _ & Hly2 & _).
  pose proof (padOk_spec m1 ltac:(lia)) as (_ & _ & Hlm1 & _).
  pose proof (padOk_spec m2 ltac:(lia)) as (_ & _ & Hlm2 & _).
  rewrite compare_app by congruence.
  destruct (Z.lt_total y1 y2) as [Hy|[->|Hy]]; [| |lia].
  { rewrite year_compare by lia. reflexivity. }
  rewrite compare_refl. rewrite (compare_app "-" "-") by reflexivity.
  rewrite compare_refl. rewrite compare_app by congruence.
  destruct (Z.lt_total m1 m2) as [Hm|[->|Hm]]; [| |lia].
  { rewrite pad_compare by lia. reflexivity. }
  rewrite compare_refl. rewrite (compare_app "-" "-") by reflexivity.
  rewrite compare_refl. apply pad_compare; lia.
Qed.

Lemma key_compare (n1 n2 : Z) :
  firstDay <= n1 -> n1 < n2 -> n2 <= lastDay ->
  String.compare (formatDateKey (JS.Day n1)) (formatDateKey (JS.Day n2)) = Lt.
Proof.
  intros Hlo Hlt Hhi. rewrite !formatDateKey_Day.
  pose proof (civil_fourDigitYear n1 ltac:(lia)) as H1.
  pose proof (civil_fourDigitYear n2 ltac:(lia)) as H2.
  pose proof (dateCode_mono n1 n2 Hlt) as Hcode.
  destruct (JS.civil_from_days n1) as [[y1 m1] d1].
  destruct (JS.civil_from_days n2) as [[y2 m2] d2].
  apply keyOf_compare; tauto.
Qed.

Lemma char_append (c : ascii) (s : string) : String c EmptyString +:+ s = String c s.
Proof. reflexivity. Qed.

Lemma app_sep_nonempty (a b : string) (c : ascii) : a +:+ String c b <> EmptyString.
Proof. destruct a; discriminate. Qed.

(** [new Date] on the components of a civil date with a four-digit year. *)
Lemma new_Date_civil (qy qm qd : Q) (y m d : Z) :
  qy == inject_Z y -> qm == inject_Z (m - 1) -> qd == inject_Z d ->
  1000 <= y <= 9999 -> 1 <= m <= 12 ->
  Z.abs (JS.days_from_civil y m d) <= JS.max_day ->
  JS.new_Date (Some qy) (Some qm) (Some qd) = JS.Day (JS.days_from_civil y m d).
Proof.
  intros Hy Hm Hd Hyr Hmr Hmax. unfold JS.new_Date.
  rewrite (trunc_Qeq qy y Hy), (trunc_Qeq qm (m - 1) Hm), (trunc_Qeq qd d Hd).
  destruct (Z.leb_spec y 99); [lia|]. rewrite andb_false_r.
  replace ((m - 1) / 12) with 0 by (symmetry; apply Z.div_small; lia).
  replace ((m - 1) mod 12 + 1) with m by (rewrite Z.mod_small; lia).
  replace (JS.days_from_civil (y + 0) m 1 + (d - 1)) with (JS.days_from_civil y m d)
    by (rewrite Z.add_0_r; unfold JS.days_from_civil, JS.doe_of_civil; lia).
  destruct (Z.leb_spec (Z.abs (JS.days_from_civil y m d)) JS.max_day); [reflexivity|lia].
Qed.

Lemma parseISODate_keyOf (y m d : Z) :
  1000 <= y <= 9999 -> 1 <= m <= 12 -> 1 <= d <= 31 ->
  parseISODate (keyOf y m d)
  = Some (JS.new_Date (JS.of_Z y) (JS.sub (JS.of_Z m) (JS.of_Z 1)) (JS.of_Z d)).
Proof.
  intros Hy Hm Hd.
  pose proof (yearOk_spec y Hy) as (Hy1 & Hy2 & _).
  pose proof (padOk_spec m ltac:(lia)) as (Hm1 & Hm2 & _).
  pose proof (padOk_spec d Hd) as (Hd1 & Hd2 & _).
  unfold parseISODate, keyOf. rewrite !char_append.
  destruct (decide _) as [Hempty|_]; [destruct (app_sep_nonempty _ _ _ Hempty)|].
  rewrite (split_app_sep "-") by exact Hy1.
  rewrite (split_app_sep "-") by exact Hm1.
  rewrite (split_noSep "-") by exact Hd1.
  csimpl. unfold JS.elem. cbn [lookup list_lookup default].
  rewrite Hy2, Hm2, Hd2. reflexivity.
Qed.

Lemma day_in_range (n : Z) : firstDay <= n <= lastDay -> Z.abs n <= JS.max_day.
Proof.
  change firstDay with (-354285). change lastDay with 2932896. unfold JS.max_day. lia.
Qed.

(** A key written for a day with a four-digit year parses back to it. *)
Lemma parseISODate_key (n : Z) :
  firstDay <= n <= lastDay -> parseISODate (formatDateKey (JS.Day n)) = Some (JS.Day n).
Proof.
  intros Hn. rewrite formatDateKey_Day.
  pose proof (civil_fourDigitYear n Hn) as H.
  destruct (JS.civil_from_days n) as [[y m] d]. destruct H as (Hy & Hm & Hd & Hback).
  rewrite parseISODate_keyOf by assumption. f_equal.
  unfold JS.of_Z, JS.sub. rewrite (new_Date_civil _ _ _ y m d); try assumption.
  - congruence.
  - reflexivity.
  - unfold Qminus. rewrite <- inject_Z_opp, <- inject_Z_plus. reflexivity.
  - reflexivity.
  - rewrite Hback. apply day_in_range, Hn.
Qed.

Lemma startOfDay_Day (n : Z) :
  firstDay <= n <= lastDay -> startOfDay (JS.Day n) = JS.Day n.
Proof.
  intros Hn. unfold startOfDay. cbn [JS.getFullYear JS.getMonth JS.getDate].
  pose proof (civil_fourDigitYear n Hn) as H.
  destruct (JS.civil_from_days n) as [[y m] d]. destruct H as (Hy & Hm & Hd & Hback).
  cbn [fst snd]. unfold JS.of_Z. rewrite (new_Date_civil _ _ _ y m d); try assumption.
  - congruence.
  - reflexivity.
  - reflexivity.
  - reflexivity.
  - rewrite Hback. apply day_in_range, Hn.
Qed.

Lemma dayOfKey_key (n : Z) :
  firstDay <= n <= lastDay -> App.dayOfKey (formatDateKey (JS.Day n)) = JS.Day n.
Proof.
  intros Hn. unfold App.dayOfKey. rewrite parseISODate_key by exact Hn.
  apply startOfDay_Day, Hn.
Qed.

(** On days with a four-digit year the key is injective and its order is
    the order of the days. *)
Lemma key_le_inv (n1 n2 : Z) :
  firstDay <= n1 <= lastDay -> firstDay <= n2 <= lastDay ->
  String.le (formatDateKey (JS.Day n1)) (formatDateKey (JS.Day n2)) -> n1 <= n2.
Proof.
  intros H1 H2 Hle. destruct (Z.le_gt_cases n1 n2) as [|Hgt]; [assumption|].
  pose proof (key_compare n2 n1 ltac:(lia) ltac:(lia) ltac:(lia)) as Hc.
  unfold String.le, String.leb in Hle. rewrite String.compare_antisym, Hc in Hle.
  destruct Hle.
Qed.

Lemma key_inj (n1 n2 : Z) :
  firstDay <= n1 <= lastDay -> firstDay <= n2 <= lastDay ->
  formatDateKey (JS.Day n1) = formatDateKey (JS.Day n2) -> n1 = n2.
Proof.
  intros H1 H2 Heq.
  assert (n1 <= n2) by (apply key_le_inv; [assumption..|rewrite Heq; reflexivity]).
  assert (n2 <= n1) by (apply key_le_inv; [assumption..|rewrite Heq; reflexivity]).
  lia.
Qed.

Lemma key_nonempty (n : Z) : formatDateKey (JS.Day n) <> EmptyString.
Proof.
  rewrite formatDateKey_Day. destruct (JS.civil_from_days n) as [[y m] d].
  unfold keyOf. rewrite !char_append. apply app_sep_nonempty.
Qed.

(** ** Sums *)

Lemma sumBy_from (f : Trade.t -> Q) (l : list Trade.t) (a : Q) :
  fold_left (fun sum trade => (sum + f trade)%Q) l a == a + sumBy f l.
Proof.
  unfold sumBy. revert a. induction l as [|trade l IH]; intros a; simpl.
  - ring.
  - rewrite IH, (IH (0 + f trade)%Q). ring.
Qed.

Lemma sumBy_cons (f : Trade.t -> Q) (trade : Trade.t) (l : list Trade.t) :
  sumBy f (trade :: l) == f trade + sumBy f l.
Proof. unfold sumBy at 1. simpl. rewrite sumBy_from. ring. Qed.

Lemma sumBy_sumQ (f : Trade.t -> Q) (l : list Trade.t) : sumBy f l == sumQ (f <$> l).
Proof.
  induction l as [|trade l IH]; [reflexivity|].
  rewrite sumBy_cons, IH. reflexivity.
Qed.

(** ** Daily totals *)

Lemma lookup_addToDay_other (acc : gmap string Q) (trade : Trade.t) (key : string) :
  Trade.date trade <> key -> App.addToDay acc trade !! key = acc !! key.
Proof.
  intros Hne. unfold App.addToDay. destruct (decide _); [reflexivity|].
  apply lookup_insert_ne, Hne.
Qed.

Lemma lookup_addToDay_same (acc : gmap string Q) (trade : Trade.t) :
  Trade.date trade <> EmptyString ->
  App.addToDay acc trade !! Trade.date trade
  = Some (or0 (acc !! Trade.date trade) + pnlOf trade)%Q.
Proof.
  intros Hne. unfold App.addToDay. destruct (decide _); [contradiction|].
  apply lookup_insert_eq.
Qed.

Lemma sumOver_addToDay_other (acc : gmap string Q) (trade : Trade.t) (keys : list string) :
  Trade.date trade ∉ keys -> sumOver (App.addToDay acc trade) keys = sumOver acc keys.
Proof.
  unfold sumOver. induction keys as [|key keys IH]; intros Hnot; [reflexivity|].
  apply not_elem_of_cons in Hnot as [Hne Hnot]. csimpl.
  rewrite lookup_addToDay_other by exact Hne. rewrite IH by exact Hnot. reflexivity.
Qed.

(** Over a list of distinct keys that holds the date of the record, the
    record adds its P&L to the sum of the totals. *)
Lemma sumOver_addToDay (acc : gmap string Q) (trade : Trade.t) (keys : list string) :
  NoDup keys -> Trade.date trade <> EmptyString -> Trade.date trade ∈ keys ->
  sumOver (App.addToDay acc trade) keys == sumOver acc keys + pnlOf trade.
Proof.
  intros Hnd Hne. induction Hnd as [|key keys Hnot Hnd IH]; intros Hin.
  - apply elem_of_nil in Hin as [].
  - unfold sumOver in *. csimpl.
    destruct (decide (Trade.date trade = key)) as [<-|Hkey].
    + rewrite lookup_addToDay_same by exact Hne.
      pose proof (sumOver_addToDay_other acc trade keys Hnot) as Hrest.
      unfold sumOver in Hrest. rewrite Hrest. simpl. ring.
    + rewrite lookup_addToDay_other by exact Hkey.
      apply elem_of_cons in Hin as [Hin|Hin]; [contradiction|].
      rewrite (IH Hin). ring.
Qed.

Lemma sumOver_fold (keys : list string) (l : list Trade.t) (acc : gmap string Q) :
  NoDup keys ->
  (forall trade, In trade l -> Trade.date trade <> EmptyString /\ Trade.date trade ∈ keys) ->
  sumOver (fold_left App.addToDay l acc) keys == sumOver acc keys + sumBy pnlOf l.
Proof.
  intros Hnd. revert acc. induction l as [|trade l IH]; intros acc Hl.
  - simpl. unfold sumBy. simpl. ring.
  - simpl. rewrite IH by (intros t Ht; apply Hl; right; exact Ht).
    destruct (Hl trade (or_introl eq_refl)) as [Hne Hin].
    rewrite sumOver_addToDay by assumption. rewrite sumBy_cons. ring.
Qed.

(** The keys of the accumulator are the dates of the records that have one. *)
Lemma lookup_fold_addToDay (l : list Trade.t) (acc : gmap string Q) (key : string) :
  is_Some (fold_left App.addToDay l acc !! key)
  <-> is_Some (acc !! key)
      \/ (key <> EmptyString /\ exists trade, In trade l /\ Trade.date trade = key).
Proof.
  revert acc. induction l as [|trade l IH]; intros acc; simpl.
  - split; [tauto|]. intros [H|(_ & t & [] & _)]. exact H.
  - rewrite IH. split.
    + intros [H|(Hne & t & Ht & Hd)].
      * destruct (decide (Trade.date trade = key)) as [Hk|Hk].
        -- destruct (decide (key = EmptyString)) as [->|Hne].
           ++ left. unfold App.addToDay in H. rewrite Hk in H.
              destruct (decide _) in H; [exact H|contradiction].
           ++ right. split; [exact Hne|]. exists trade. tauto.
        -- left. rewrite lookup_addToDay_other in H by exact Hk. exact H.
      * right. split; [exact Hne|]. exists t. tauto.
    + intros [H|(Hne & t & [<-|Ht] & Hd)].
      * left. destruct (decide (Trade.date trade = key)) as [Hk|Hk].
        -- unfold App.addToDay. destruct (decide _); [exact H|].
           rewrite <- Hk, lookup_insert_eq. eauto.
        -- rewrite lookup_addToDay_other by exact Hk. exact H.
      * left. subst key. rewrite lookup_addToDay_same by exact Hne. eauto.
      * right. split; [exact Hne|]. exists t. tauto.
Qed.

Lemma dailyTotals_key (l : list Trade.t) (key : string) :
  is_Some (App.dailyTotals l !! key)
  <-> key <> EmptyString /\ exists trade, In trade l /\ Trade.date trade = key.
Proof.
  unfold App.dailyTotals. rewrite lookup_fold_addToDay, lookup_empty.
  split; [intros [H|H]; [destruct H; discriminate|exact H]|tauto].
Qed.

(** ** Sorted keys *)

Lemma sortedKeys_elem (totals : gmap string Q) (key : string) :
  key ∈ App.sortedKeys totals <-> is_Some (totals !! key).
Proof.
  unfold App.sortedKeys. rewrite merge_sort_Permutation, list_elem_of_fmap. split.
  - intros ([k v] & -> & Hin). apply elem_of_map_to_list in Hin. simpl. eauto.
  - intros [v Hv]. exists (key, v). split; [reflexivity|]. apply elem_of_map_to_list, Hv.
Qed.

Lemma sortedKeys_sorted (totals : gmap string Q) :
  StronglySorted String.le (App.sortedKeys totals).
Proof. apply StronglySorted_merge_sort; apply _. Qed.

(** Keys are never empty, so [dayOfKey] never meets [null]. *)
Lemma sortedKeys_nonempty (l : list Trade.t) (key : string) :
  key ∈ App.sortedKeys (App.dailyTotals l) -> parseISODate key <> None.
Proof.
  intros H. apply sortedKeys_elem, dailyTotals_key in H as [Hne _].
  unfold parseISODate. destruct (decide _); [contradiction|discriminate].
Qed.

Lemma sorted_first_least (keys : list string) (first key : string) :
  StronglySorted String.le keys -> head keys = Some first -> key ∈ keys ->
  String.le first key.
Proof.
  intros Hs Hh Hin. destruct Hs as [|k keys Hs Hall]; [discriminate|].
  injection Hh as ->. apply elem_of_cons in Hin as [->|Hin]; [reflexivity|].
  rewrite Forall_forall in Hall. apply Hall, Hin.
Qed.

Lemma sorted_last_greatest (keys : list string) (final key : string) :
  StronglySorted String.le keys -> last keys = Some final -> key ∈ keys ->
  String.le key final.
Proof.
  intros Hs. induction Hs as [|k keys Hs IH Hall]; intros Hl Hin; [discriminate|].
  destruct keys as [|k' keys].
  - injection Hl as ->. apply list_elem_of_singleton in Hin as ->. reflexivity.
  - change (last (k :: k' :: keys)) with (last (k' :: keys)) in Hl.
    apply elem_of_cons in Hin as [->|Hin]; [|exact (IH Hl Hin)].
    rewrite Forall_forall in Hall. apply Hall, last_Some_elem_of, Hl.
Qed.

(** ** Ranges with both bounds set *)

(** Under a range with both bounds in the four-digit years the endpoints of
    the series are dates: the start clamped to today, and the end clamped to
    today and raised to the start. *)
Lemma series_endpoints_bounded (today a b : Z) (keys : list string) :
  firstDay <= a <= lastDay -> firstDay <= b <= lastDay ->
  App.seriesStart today keys (DateRange.mk (Some a) (Some b)) = JS.Day (Z.min a today)
  /\ App.seriesEnd today keys (DateRange.mk (Some a) (Some b))
     = JS.Day (Z.max (Z.min b today) (Z.min a today)).
Proof.
  intros Ha Hb. unfold App.seriesEnd, App.seriesStart, App.defaultEnd, App.defaultStart.
  cbn [DateRange.start DateRange.end_]. rewrite !startOfDay_Day by assumption.
  cbn [JS.date_gt JS.date_lt].
  split; case_compare; cbn [JS.date_gt JS.date_lt]; case_compare; f_equal; lia.
Qed.

(** ** Cumulative total and net P&L *)

Lemma filter_all {A : Type} (f : A -> bool) (l : list A) :
  (forall x, In x l -> f x = true) -> List.filter f l = l.
Proof.
  induction l as [|x l IH]; intros H; [reflexivity|].
  simpl. rewrite (H x (or_introl eq_refl)). f_equal. apply IH.
  intros y Hy. apply H. right. exact Hy.
Qed.

Lemma filteredTrades_allFilters (l : list Trade.t) (search : string) :
  App.filteredTrades l (allFilters search) = l.
Proof. apply filter_all. intros trade _. reflexivity. Qed.

Lemma sumOver_empty (keys : list string) : sumOver ∅ keys == 0.
Proof.
  unfold sumOver. induction keys as [|key keys IH]; [reflexivity|].
  csimpl. rewrite lookup_empty, IH. reflexivity.
Qed.

Section CanonicalDates.

(** A collection whose date strings are all canonical, none after today. *)
Variables (today : Z) (trades : list Trade.t).
Hypothesis canonical :
  forall trade, In trade trades -> canonicalDate today (Trade.date trade).

Lemma canonical_rangeFiltered : App.rangeFilteredTrades trades allTime = trades.
Proof.
  apply filter_all. intros trade Hin.
  destruct (canonical trade Hin) as (n & -> & Hn & _).
  rewrite parseISODate_key by exact Hn. reflexivity.
Qed.

(** The date of every record is a key of the totals. *)
Lemma canonical_date_is_key (trade : Trade.t) :
  In trade trades -> Trade.date trade ∈ App.sortedKeys (App.dailyTotals trades).
Proof.
  intros Hin. apply sortedKeys_elem, dailyTotals_key.
  destruct (canonical trade Hin) as (n & Hd & _).
  split; [rewrite Hd; apply key_nonempty|]. exists trade. tauto.
Qed.

(** Every key of the totals is the key of a day. *)
Lemma canonical_key_is_day (key : string) :
  key ∈ App.sortedKeys (App.dailyTotals trades) -> canonicalDate today key.
Proof.
  intros Hin. apply sortedKeys_elem, dailyTotals_key in Hin as (_ & trade & Hin & <-).
  apply canonical, Hin.
Qed.

(** With at least one record the series runs from the earliest to the
    latest day of the collection, and every date lies between them. *)
Lemma canonical_endpoints :
  trades <> [] ->
  exists n0 n1,
    App.seriesStart today (App.sortedKeys (App.dailyTotals trades)) allTime = JS.Day n0
    /\ App.seriesEnd today (App.sortedKeys (App.dailyTotals trades)) allTime = JS.Day n1
    /\ firstDay <= n0 /\ n0 <= n1 /\ n1 <= lastDay
    /\ forall trade, In trade trades ->
         exists n, Trade.date trade = formatDateKey (JS.Day n) /\ n0 <= n <= n1.
Proof.
  intros Hne. set (keys := App.sortedKeys (App.dailyTotals trades)).
  pose proof (sortedKeys_sorted (App.dailyTotals trades)) as Hsorted. fold keys in Hsorted.
  destruct (head keys) as [first|] eqn:Hhead; cycle 1.
  { assert (Hsome : exists trade, In trade trades)
      by (clear -Hne; destruct trades; [congruence|eexists; left; reflexivity]).
    destruct Hsome as [trade Hin]. apply canonical_date_is_key in Hin. fold keys in Hin.
    destruct keys; [apply elem_of_nil in Hin as []|discriminate]. }
  destruct (last keys) as [final|] eqn:Hlast; cycle 1.
  { destruct keys; [discriminate|]. apply last_None in Hlast. discriminate. }
  assert (Hfirst : first ∈ keys)
    by (destruct keys; [discriminate|]; injection Hhead as ->; left).
  assert (Hfinal : final ∈ keys) by (apply last_Some_elem_of, Hlast).
  destruct (canonical_key_is_day first Hfirst) as (n0 & -> & Hn0 & Ht0).
  destruct (canonical_key_is_day final Hfinal) as (n1 & -> & Hn1 & Ht1).
  assert (Hbetween : forall key, key ∈ keys ->
            exists n, key = formatDateKey (JS.Day n) /\ n0 <= n <= n1).
  { intros key Hin. destruct (canonical_key_is_day key Hin) as (n & -> & Hn & _).
    exists n. split; [reflexivity|]. split; apply key_le_inv; try assumption.
    - apply (sorted_first_least keys); assumption.
    - apply (sorted_last_greatest keys); assumption. }
  assert (Hord : n0 <= n1).
  { destruct (Hbetween _ Hfirst) as (n & Heq & Hn).
    apply key_inj in Heq; [lia|assumption|lia]. }
  exists n0, n1. split; [|split; [|repeat split; try lia]].
  - unfold App.seriesStart, App.defaultStart, allTime. cbn [DateRange.start].
    destruct keys as [|k keys']; [discriminate|]. injection Hhead as ->.
    rewrite dayOfKey_key by exact Hn0. cbn [JS.date_gt JS.date_lt].
    case_compare; [lia|reflexivity].
  - unfold App.seriesEnd, App.seriesStart, App.defaultEnd, App.defaultStart, allTime.
    cbn [DateRange.start DateRange.end_]. rewrite Hlast.
    destruct keys as [|k keys']; [discriminate|]. injection Hhead as ->.
    rewrite !dayOfKey_key by assumption. cbn [JS.date_gt JS.date_lt].
    case_compare; try lia; cbn [JS.date_lt]; case_compare; try lia; reflexivity.
  - intros trade Hin. apply Hbetween, canonical_date_is_key, Hin.
Qed.

(** The totals of the days from [n0] to [n1] add up to the P&L of all the
    records when every date lies between the two days. *)
Lemma canonical_days_sum (n0 n1 : Z) :
  firstDay <= n0 -> n1 <= lastDay ->
  (forall trade, In trade trades ->
     exists n, Trade.date trade = formatDateKey (JS.Day n) /\ n0 <= n <= n1) ->
  sumOver (App.dailyTotals trades) ((fun n => formatDateKey (JS.Day n)) <$> seqZ n0 (n1 - n0 + 1))
  == sumBy pnlOf trades.
Proof.
  intros Hn0 Hn1 Hbetween. unfold App.dailyTotals. rewrite sumOver_fold.
  - rewrite sumOver_empty. apply Qplus_0_l.
  - apply NoDup_fmap_2_strong; [|apply NoDup_seqZ].
    intros x y Hx Hy. apply elem_of_seqZ in Hx, Hy. apply key_inj; lia.
  - intros trade Hin. destruct (Hbetween trade Hin) as (n & Hd & Hn).
    rewrite Hd. split; [apply key_nonempty|].
    apply list_elem_of_fmap. exists n. split; [reflexivity|]. apply elem_of_seqZ. lia.
Qed.

End CanonicalDates.

(** The four digits of the year matter as well: "999-01-01" is the key
    [formatDateKey] writes for that day and parses back to it, but it sorts
    after "2024-01-02", so the series collapses to the later day and misses
    the earlier record. *)
Lemma short_year_breaks_key_order :
  formatDateKey (JS.Day (JS.days_from_civil 999 1 1)) = Trade.date shortYear
  /\ parseISODate (Trade.date shortYear) = Some (JS.Day (JS.days_from_civil 999 1 1))
  /\ App.sortedKeys (App.dailyTotals (shortYear :: scenario 1 2)) = ["2024-01-02"; "999-01-01"]
  /\ CumEntry.cumulative
       <$> last (Outputs.series (App.dashboard 20000 (shortYear :: scenario 1 2) allTime
                                               (allFilters "")))
     = Some 100%Q
  /\ Metrics.netPnL (Outputs.metrics (App.dashboard 20000 (shortYear :: scenario 1 2) allTime
                                                    (allFilters "")))
     = 150%Q.
Proof. repeat split; vm_compute; reflexivity. Qed.

(** * Properties of the rest of the code *)

(** ** Date keys: round trip and order *)

Lemma length_append (a b : string) :
  String.length (a +:+ b) = (String.length a + String.length b)%nat.
Proof.
  induction a as [|c a IH]; [reflexivity|].
  rewrite append_cons. simpl. rewrite IH. reflexivity.
Qed.

Lemma keyOf_length (y m d : Z) :
  1000 <= y <= 9999 -> 1 <= m <= 12 -> 1 <= d <= 31 ->
  String.length (keyOf y m d) = 10%nat.
Proof.
  intros Hy Hm Hd. unfold keyOf.
  pose proof (yearOk_spec y Hy) as (_ & _ & Hly & _).
  pose proof (padOk_spec m ltac:(lia)) as (_ & _ & Hlm & _).
  pose proof (padOk_spec d Hd) as (_ & _ & Hld & _).
  rewrite !length_append, Hly, Hlm, Hld. reflexivity.
Qed.

(** X1: for every day of a four-digit year, [formatDateKey] writes a key
    of ten characters that [parseISODate] reads back as the same day, and
    [startOfDay] leaves the day as it is. *)
Theorem formatDateKey_parseISODate (n : Z) :
  fourDigitYear n ->
  parseISODate (formatDateKey (JS.Day n)) = Some (JS.Day n)
  /\ String.length (formatDateKey (JS.Day n)) = 10%nat
  /\ startOfDay (JS.Day n) = JS.Day n.
Proof.
  intros Hn. split; [apply parseISODate_key, Hn|]. split; [|apply startOfDay_Day, Hn].
  rewrite formatDateKey_Day. pose proof (civil_fourDigitYear n Hn) as H.
  destruct (JS.civil_from_days n) as [[y m] d]. apply keyOf_length; tauto.
Qed.

Lemma formatDateKey_parseISODate_witness :
  parseISODate (formatDateKey (JS.Day 19724)) = Some (JS.Day 19724)
  /\ String.length (formatDateKey (JS.Day 19724)) = 10%nat
  /\ startOfDay (JS.Day 19724) = JS.Day 19724.
Proof. apply (formatDateKey_parseISODate 19724). unfold fourDigitYear. vm_compute. split; discriminate. Defined.

(** X2: on the days of the four-digit years the keys of [formatDateKey]
    compare, as strings, the way the days compare: the order [sort] puts
    the keys in is the order of the calendar, and distinct days have
    distinct keys. *)
Theorem formatDateKey_order (n1 n2 : Z) :
  fourDigitYear n1 -> fourDigitYear n2 ->
  String.compare (formatDateKey (JS.Day n1)) (formatDateKey (JS.Day n2)) = (n1 ?= n2).
Proof.
  unfold fourDigitYear. intros H1 H2. destruct (Z.compare_spec n1 n2) as [->|Hlt|Hgt].
  - apply compare_refl.
  - apply key_compare; lia.
  - rewrite String.compare_antisym, key_compare by lia. reflexivity.
Qed.

Lemma formatDateKey_order_witness :
  String.compare (formatDateKey (JS.Day 19724)) (formatDateKey (JS.Day 19700)) = (19724 ?= 19700).
Proof. apply formatDateKey_order; unfold fourDigitYear; vm_compute; split; discriminate. Defined.

(** ** The range filter *)

(** X3: a record dated with the key of a day of a four-digit year passes
    the range filter exactly when the day is not before the start and not
    after the end of the range, both bounds included; a bound that is not
    set excludes nothing. *)
Theorem rangeFilteredTrades_inclusive
    (trades : list Trade.t) (dateRange : DateRange.t) (trade : Trade.t) (n : Z) :
  fourDigitYear n -> Trade.date trade = formatDateKey (JS.Day n) ->
  (In trade (App.rangeFilteredTrades trades dateRange)
   <-> In trade trades
       /\ (forall s, DateRange.start dateRange = Some s -> s <= n)
       /\ (forall e, DateRange.end_ dateRange = Some e -> n <= e)).
Proof.
  intros Hn Hdate. unfold App.rangeFilteredTrades. rewrite filter_In, Hdate.
  rewrite parseISODate_key by exact Hn.
  destruct dateRange as [[s|] [e|]]; cbn [DateRange.start DateRange.end_ JS.date_lt JS.date_gt];
    case_compare; split; intros [Hin Hcond]; split; try exact Hin; try reflexivity;
    try discriminate; try (split; intros ? [= <-]; lia); try (split; intros; discriminate).
  all: destruct Hcond as [Hs He]; try specialize (Hs _ eq_refl);
    try specialize (He _ eq_refl); lia.
Qed.

Lemma rangeFilteredTrades_inclusive_witness :
  In (tradeOn 19724 "win" 100) (App.rangeFilteredTrades [tradeOn 19724 "win" 100]
                                  (DateRange.mk (Some 19724) (Some 19724))).
Proof.
  assert (Hn : fourDigitYear 19724) by (unfold fourDigitYear; vm_compute; split; discriminate).
  apply (proj2 (rangeFilteredTrades_inclusive
                  [tradeOn 19724 "win" 100] (DateRange.mk (Some 19724) (Some 19724))
                  (tradeOn 19724 "win" 100) 19724 Hn eq_refl)).
  split; [left; reflexivity|]. split; intros ? [= <-]; lia.
Defined.

(** X4: a record whose date string is not empty and does not parse (the
    invalid date) passes the range filter under every range, has no weekday
    name, and is dropped by every weekday filter other than "all". *)
Theorem invalid_date_through_filters
    (trades : list Trade.t) (dateRange : DateRange.t) (filters : Filters.t) (trade : Trade.t) :
  In trade trades -> parseISODate (Trade.date trade) = Some JS.InvalidDate ->
  In trade (App.rangeFilteredTrades trades dateRange)
  /\ getDayOfWeek (Trade.date trade) = None
  /\ (Filters.dayOfWeek filters <> "all" ->
      ~ In trade (App.filteredTrades (App.rangeFilteredTrades trades dateRange) filters)).
Proof.
  intros Hin Hinv. split; [|split].
  - unfold App.rangeFilteredTrades. apply filter_In. split; [exact Hin|]. rewrite Hinv.
    destruct dateRange as [[s|] [e|]]; reflexivity.
  - unfold getDayOfWeek. rewrite Hinv. reflexivity.
  - intros Hday Hf. unfold App.filteredTrades in Hf. apply filter_In in Hf as [_ Hf].
    unfold getDayOfWeek in Hf. rewrite Hinv in Hf. cbn [JS.getDay App.optNe] in Hf.
    assert (Hne : App.strNe (Filters.dayOfWeek filters) "all" = true).
    { unfold App.strNe. apply negb_true_iff, String.eqb_neq, Hday. }
    rewrite Hne in Hf. destruct (_ && _) in Hf; discriminate.
Qed.

Lemma invalid_date_through_filters_witness :
  In garbledDate (App.rangeFilteredTrades [garbledDate] (defaultRange 20000))
  /\ getDayOfWeek (Trade.date garbledDate) = None
  /\ (Filters.dayOfWeek (Filters.mk "all" "Monday" "all" "") <> "all" ->
      ~ In garbledDate
           (App.filteredTrades (App.rangeFilteredTrades [garbledDate] (defaultRange 20000))
                               (Filters.mk "all" "Monday" "all" ""))).
Proof.
  apply (invalid_date_through_filters [garbledDate]); [left; reflexivity|reflexivity].
Defined.

(** ** Weekdays *)

Lemma getDayOfWeek_key (n : Z) :
  fourDigitYear n -> getDayOfWeek (formatDateKey (JS.Day n)) = days !! Z.to_nat ((n + 4) mod 7).
Proof.
  intros Hn. unfold getDayOfWeek. rewrite parseISODate_key by exact Hn. reflexivity.
Qed.

Lemma days_lookup (i : Z) : 0 <= i < 7 -> is_Some (days !! Z.to_nat i).
Proof.
  intros Hi. apply lookup_lt_is_Some. change (length days) with 7%nat. lia.
Qed.

(** X5: [getDayOfWeek] answers "Unknown" for the empty string and for no
    other; for the key of a day of a four-digit year it is the name at the
    weekday index of the day (0 is Sunday, day 0 a Thursday), so it is the
    same a week later; for a date string that gives the invalid date it is
    undefined. *)
Theorem getDayOfWeek_names :
  getDayOfWeek "" = Some "Unknown"
  /\ (forall s, s <> "" -> getDayOfWeek s <> Some "Unknown")
  /\ (forall s, parseISODate s = Some JS.InvalidDate -> getDayOfWeek s = None)
  /\ (forall n, fourDigitYear n ->
        getDayOfWeek (formatDateKey (JS.Day n)) = days !! Z.to_nat ((n + 4) mod 7)
        /\ is_Some (getDayOfWeek (formatDateKey (JS.Day n)))
        /\ (fourDigitYear (n + 7) ->
            getDayOfWeek (formatDateKey (JS.Day (n + 7)))
            = getDayOfWeek (formatDateKey (JS.Day n)))).
Proof.
  split; [reflexivity|]. split; [|split].
  - intros s Hs. unfold getDayOfWeek, parseISODate. destruct (decide _); [contradiction|].
    destruct (JS.getDay _) as [i|]; [|discriminate].
    intros Hu. apply list_elem_of_lookup_2, list_elem_of_In in Hu.
    simpl in Hu. intuition discriminate.
  - intros s Hs. unfold getDayOfWeek. rewrite Hs. reflexivity.
  - intros n Hn. split; [apply getDayOfWeek_key, Hn|]. split.
    + rewrite getDayOfWeek_key by exact Hn. apply days_lookup, Z.mod_pos_bound. lia.
    + intros Hn7. rewrite !getDayOfWeek_key by assumption.
      replace (n + 7 + 4) with (n + 4 + 1 * 7) by lia. rewrite Z.mod_add by lia. reflexivity.
Qed.

Lemma getDayOfWeek_names_witness :
  getDayOfWeek "2024-01-02" = Some "Tuesday" /\ getDayOfWeek "abc" = None.
Proof.
  destruct getDayOfWeek_names as (_ & _ & Hinv & Hday). split.
  - destruct (Hday 19724) as (H & _); [unfold fourDigitYear; vm_compute; split; discriminate|].
    exact H.
  - apply Hinv. reflexivity.
Defined.

(** ** Breakdown rows *)

(** The labels of a breakdown split the records: the counts found under
    each label add up to the number of records whose label is listed. *)
Lemma count_by_label {A : Type} (f : A -> option string) (labels : list string) (l : list A) :
  NoDup labels ->
  sum_list ((fun r => length (List.filter (fun x => optEq (f x) r) l)) <$> labels)
  = length (List.filter
              (fun x => match f x with
                        | Some s => bool_decide (s ∈ labels)
                        | None => false
                        end) l).
Proof.
  intros Hnd. induction Hnd as [|r labels Hnot Hnd IH].
  - induction l as [|x l IHl]; [reflexivity|].
    cbn [List.filter]. destruct (f x) as [s|]; [|exact IHl].
    rewrite bool_decide_eq_false_2 by apply not_elem_of_nil. exact IHl.
  - csimpl. rewrite IH. clear IH. induction l as [|x l IHl]; [reflexivity|].
    cbn [List.filter]. destruct (f x) as [s|] eqn:Hf; cbn [optEq]; [|exact IHl].
    destruct (String.eqb_spec s r) as [->|Hne].
    + rewrite (bool_decide_eq_false_2 (r ∈ labels)) by exact Hnot.
      rewrite (bool_decide_eq_true_2 (r ∈ r :: labels)) by left.
      cbn [length]. lia.
    + destruct (decide (s ∈ labels)) as [Hin|Hout].
      * rewrite (bool_decide_eq_true_2 (s ∈ labels)) by exact Hin.
        rewrite (bool_decide_eq_true_2 (s ∈ r :: labels)) by (right; exact Hin).
        cbn [length]. lia.
      * rewrite (bool_decide_eq_false_2 (s ∈ labels)) by exact Hout.
        rewrite (bool_decide_eq_false_2 (s ∈ r :: labels))
          by (intros [?|?]%elem_of_cons; [congruence|contradiction]).
        exact IHl.
Qed.

(** The same for the wins found under each label. *)
Lemma wins_by_label {A : Type} (f : A -> option string) (w : A -> bool)
    (labels : list string) (l : list A) :
  NoDup labels ->
  sum_list ((fun r => length (List.filter w (List.filter (fun x => optEq (f x) r) l)))
              <$> labels)
  = length (List.filter w
              (List.filter
                 (fun x => match f x with
                           | Some s => bool_decide (s ∈ labels)
                           | None => false
                           end) l)).
Proof.
  intros Hnd.
  assert (Hswap : forall g : A -> bool,
            List.filter w (List.filter g l) = List.filter g (List.filter w l)).
  { intros g. induction l as [|x l IHl]; [reflexivity|]. simpl.
    destruct (g x) eqn:Hg, (w x) eqn:Hw; simpl; rewrite ?Hg, ?Hw, IHl; reflexivity. }
  rewrite Hswap, <- (count_by_label f labels (List.filter w l) Hnd).
  f_equal. apply list_fmap_ext. intros i r _. rewrite Hswap. reflexivity.
Qed.

Lemma getTimeRange_in_ranges (time : string) : time <> "" -> getTimeRange time ∈ ranges.
Proof.
  intros Hne. unfold getTimeRange. destruct (decide _); [contradiction|]. unfold ranges.
  apply list_elem_of_In. repeat (destruct (_ && _); [simpl; tauto|]). simpl; tauto.
Qed.

(** X6: the time-bucket breakdown always has the five rows of the fixed
    buckets, in their order, and the records are split among them: the
    counts of the rows add up to the number of records that have a time. *)
Theorem timeRangeData_partition (filteredTrades : list Trade.t) :
  RangeRow.range <$> timeRangeData filteredTrades = ranges
  /\ sum_list (RangeRow.trades <$> timeRangeData filteredTrades)
     = length (List.filter hasTime filteredTrades).
Proof.
  split; [reflexivity|].
  unfold timeRangeData. rewrite <- list_fmap_compose.
  etrans; [apply (count_by_label (fun trade => Some (getTimeRange (Trade.time trade))) ranges)|].
  { apply (bool_decide_unpack _). vm_compute. exact I. }
  f_equal. apply filter_ext. intros trade. unfold hasTime.
  destruct (String.eqb_spec (Trade.time trade) "") as [Heq|Hne]; simpl.
  - rewrite Heq. reflexivity.
  - apply bool_decide_eq_true_2, getTimeRange_in_ranges, Hne.
Qed.

(** X7: [dayData] always has the five rows Monday to Friday, in order;
    their counts add up to the number of records dated on one of these
    days, and a record dated with the key of a day of a four-digit year is
    one of them exactly when the day is not a Saturday or Sunday. Records
    without a weekday name are in no row. *)
Theorem dayData_partition (filteredTrades : list Trade.t) :
  DayRow.day <$> dayData filteredTrades
  = ["Monday"; "Tuesday"; "Wednesday"; "Thursday"; "Friday"]
  /\ sum_list (DayRow.trades <$> dayData filteredTrades)
     = length (List.filter onWeekday filteredTrades)
  /\ dayData filteredTrades = dayData (List.filter onWeekday filteredTrades)
  /\ (forall trade n,
        fourDigitYear n -> Trade.date trade = formatDateKey (JS.Day n) ->
        onWeekday trade = (1 <=? (n + 4) mod 7) && ((n + 4) mod 7 <=? 5))
  /\ (forall trade, getDayOfWeek (Trade.date trade) = None -> onWeekday trade = false)
  /\ (forall trade, Trade.date trade = "" -> onWeekday trade = false).
Proof.
  split; [reflexivity|]. split; [|split; [|split; [|split]]].
  - unfold dayData. cbn zeta. rewrite <- list_fmap_compose.
    etrans; [apply (count_by_label (fun trade => getDayOfWeek (Trade.date trade)))|reflexivity].
    apply (bool_decide_unpack _). vm_compute. exact I.
  - unfold dayData. cbn zeta. apply list_fmap_ext. intros i day Hday.
    apply list_elem_of_lookup_2 in Hday.
    assert (Hsame :
      List.filter (fun trade => optEq (getDayOfWeek (Trade.date trade)) day) filteredTrades
      = List.filter (fun trade => optEq (getDayOfWeek (Trade.date trade)) day)
                    (List.filter onWeekday filteredTrades)).
    { induction filteredTrades as [|trade l IH]; [reflexivity|]. cbn [List.filter].
      unfold onWeekday at 1.
      destruct (getDayOfWeek (Trade.date trade)) as [d|] eqn:Hd; cbn [optEq].
      - destruct (String.eqb_spec d day) as [->|Hne].
        + rewrite bool_decide_eq_true_2 by exact Hday. cbn [List.filter]. rewrite Hd. cbn [optEq].
          rewrite String.eqb_refl. f_equal. exact IH.
        + destruct (bool_decide _); [|exact IH]. cbn [List.filter]. rewrite Hd. cbn [optEq].
          destruct (String.eqb_spec d day); [contradiction|]. exact IH.
      - exact IH. }
    rewrite <- Hsame. reflexivity.
  - intros trade n Hn Hdate. unfold onWeekday. rewrite Hdate, getDayOfWeek_key by exact Hn.
    pose proof (Z.mod_pos_bound (n + 4) 7 ltac:(lia)) as Hb.
    assert (Hcases : (n + 4) mod 7 = 0 \/ (n + 4) mod 7 = 1 \/ (n + 4) mod 7 = 2
                     \/ (n + 4) mod 7 = 3 \/ (n + 4) mod 7 = 4 \/ (n + 4) mod 7 = 5
                     \/ (n + 4) mod 7 = 6) by lia.
    destruct Hcases as [H|[H|[H|[H|[H|[H|H]]]]]]; rewrite H; reflexivity.
  - intros trade H. unfold onWeekday. rewrite H. reflexivity.
  - intros trade H. unfold onWeekday. rewrite H. reflexivity.
Qed.

Lemma dayData_partition_witness :
  onWeekday (tradeOn 19724 "win" 100) = (1 <=? (19724 + 4) mod 7) && ((19724 + 4) mod 7 <=? 5)
  /\ onWeekday garbledDate = false.
Proof.
  destruct (dayData_partition []) as (_ & _ & _ & Hday & Hnone & _). split.
  - apply Hday; [unfold fourDigitYear; vm_compute; split; discriminate|reflexivity].
  - apply Hnone. reflexivity.
Defined.

(** ** Counts of the metrics *)

(** X8: in the metrics snapshot wins and losses together never exceed the
    total, and they make up the total exactly when every record has the
    result "win" or "loss"; a record with any other result counts in the
    total only. *)
Theorem metrics_counts (filteredTrades : list Trade.t) :
  let m := metrics filteredTrades in
  (Metrics.wins m + Metrics.losses m <= Metrics.total m)%nat
  /\ ((Metrics.wins m + Metrics.losses m = Metrics.total m)%nat
      <-> forall trade, In trade filteredTrades -> decided trade = true)
  /\ Metrics.total m = length filteredTrades.
Proof.
  cbn zeta. unfold metrics. cbn [Metrics.wins Metrics.losses Metrics.total].
  assert (Hexcl : forall trade, isWin trade && isLoss trade = false).
  { intros trade. unfold isWin, isLoss.
    destruct (String.eqb_spec (Trade.result trade) "win") as [->|]; reflexivity. }
  induction filteredTrades as [|trade l IH]; [simpl; split; [lia|split; [|reflexivity]]; split; [intros _ ? []|reflexivity]|].
  destruct IH as (Hle & Hiff & _).
  pose proof (filter_length_le isWin l) as Hw. pose proof (filter_length_le isLoss l) as Hl.
  pose proof (Hexcl trade) as Hex. cbn [List.filter].
  split; [|split; [|reflexivity]].
  - destruct (isWin trade), (isLoss trade); try discriminate; cbn [length]; lia.
  - split.
    + intros Heq t [<-|Hin].
      * unfold decided. destruct (isWin trade), (isLoss trade); try discriminate; try reflexivity.
        cbn [length] in Heq. lia.
      * apply Hiff; [|exact Hin].
        destruct (isWin trade), (isLoss trade); try discriminate; cbn [length] in Heq; lia.
    + intros Hall.
      assert (Hrest : (length (List.filter isWin l) + length (List.filter isLoss l))%nat = length l).
      { apply Hiff. intros t Ht. apply Hall. right. exact Ht. }
      pose proof (Hall trade (or_introl eq_refl)) as Hd. unfold decided in Hd.
      destruct (isWin trade), (isLoss trade); try discriminate; cbn [length]; lia.
Qed.

(** ** Instruments *)

Lemma setAdd_elem (acc : list string) (x y : string) :
  y ∈ JSLib.setAdd acc x <-> y ∈ acc \/ y = x.
Proof.
  unfold JSLib.setAdd. destruct (decide (x ∈ acc)) as [Hin|Hout].
  - rewrite bool_decide_eq_true_2 by exact Hin. split; [tauto|]. intros [H| ->]; assumption.
  - rewrite bool_decide_eq_false_2 by exact Hout.
    rewrite elem_of_app, list_elem_of_singleton. reflexivity.
Qed.

Lemma setAdd_NoDup (acc : list string) (x : string) : NoDup acc -> NoDup (JSLib.setAdd acc x).
Proof.
  intros Hnd. unfold JSLib.setAdd. destruct (decide (x ∈ acc)) as [Hin|Hout].
  - rewrite bool_decide_eq_true_2 by exact Hin. exact Hnd.
  - rewrite bool_decide_eq_false_2 by exact Hout. apply NoDup_app. split; [exact Hnd|].
    split; [|apply NoDup_singleton].
    intros y Hy Hy'. apply list_elem_of_singleton in Hy' as ->. contradiction.
Qed.

Lemma fold_setAdd_elem (l acc : list string) (y : string) :
  y ∈ fold_left JSLib.setAdd l acc <-> y ∈ acc \/ y ∈ l.
Proof.
  revert acc. induction l as [|x l IH]; intros acc; simpl.
  - rewrite elem_of_nil. tauto.
  - rewrite IH, setAdd_elem, elem_of_cons. tauto.
Qed.

Lemma fold_setAdd_NoDup (l acc : list string) :
  NoDup acc -> NoDup (fold_left JSLib.setAdd l acc).
Proof.
  revert acc. induction l as [|x l IH]; intros acc Hnd; [exact Hnd|].
  simpl. apply IH, setAdd_NoDup, Hnd.
Qed.

Lemma fromSet_elem (l : list string) (y : string) : y ∈ JSLib.fromSet l <-> y ∈ l.
Proof. unfold JSLib.fromSet. rewrite fold_setAdd_elem, elem_of_nil. tauto. Qed.

Lemma fromSet_NoDup (l : list string) : NoDup (JSLib.fromSet l).
Proof. apply fold_setAdd_NoDup, NoDup_nil_2. Qed.

Lemma fromSet_snoc (l : list string) (x : string) :
  JSLib.fromSet (l ++ [x])
  = if bool_decide (x ∈ l) then JSLib.fromSet l else JSLib.fromSet l ++ [x].
Proof.
  unfold JSLib.fromSet. rewrite fold_left_app. cbn [fold_left]. fold (JSLib.fromSet l).
  unfold JSLib.setAdd. destruct (decide (x ∈ l)) as [Hin|Hout].
  - rewrite !bool_decide_eq_true_2; [reflexivity|exact Hin|apply fromSet_elem, Hin].
  - rewrite !bool_decide_eq_false_2; [reflexivity|exact Hout|rewrite fromSet_elem; exact Hout].
Qed.

Lemma instrumentData_names (filtered trades : list Trade.t) :
  InstrumentRow.instrument <$> instrumentData filtered trades
  = JSLib.fromSet (Trade.instrument <$> trades).
Proof.
  unfold instrumentData. cbn zeta. rewrite <- list_fmap_compose.
  etrans; [|apply list_fmap_id]. apply list_fmap_ext. reflexivity.
Qed.

Lemma filteredTrades_In (trades : list Trade.t) (dateRange : DateRange.t) (filters : Filters.t)
    (trade : Trade.t) :
  In trade (App.filteredTrades (App.rangeFilteredTrades trades dateRange) filters) ->
  In trade trades.
Proof.
  unfold App.filteredTrades, App.rangeFilteredTrades. rewrite !filter_In. tauto.
Qed.

(** X9: [instrumentData] has one row for each distinct instrument of the
    whole collection, in the order of first appearance, so that a record
    added at the end leaves the rows in place and at most adds one; the
    filtered records are split among the rows: the wins of the rows add up to
    the wins of the metrics, and wins and losses together to the total. *)
Theorem instrumentData_partition
    (trades : list Trade.t) (dateRange : DateRange.t) (filters : Filters.t) :
  let filtered := App.filteredTrades (App.rangeFilteredTrades trades dateRange) filters in
  let rows := instrumentData filtered trades in
  let m := metrics filtered in
  NoDup (InstrumentRow.instrument <$> rows)
  /\ (forall name,
        name ∈ (InstrumentRow.instrument <$> rows)
        <-> exists trade, In trade trades /\ Trade.instrument trade = name)
  /\ (forall filtered' trade,
        InstrumentRow.instrument <$> instrumentData filtered' (trades ++ [trade])
        = if bool_decide (Trade.instrument trade ∈ (InstrumentRow.instrument <$> rows))
          then InstrumentRow.instrument <$> rows
          else (InstrumentRow.instrument <$> rows) ++ [Trade.instrument trade])
  /\ sum_list (InstrumentRow.wins <$> rows) = Metrics.wins m
  /\ sum_list ((fun row => (InstrumentRow.wins row + InstrumentRow.losses row)%nat) <$> rows)
     = Metrics.total m.
Proof.
  intros filtered rows m. subst rows.
  set (labels := JSLib.fromSet (Trade.instrument <$> trades)).
  assert (Hnd : NoDup labels) by apply fromSet_NoDup.
  assert (Hall : List.filter
                   (fun trade => match Some (Trade.instrument trade) with
                                 | Some s => bool_decide (s ∈ labels)
                                 | None => false
                                 end) filtered = filtered).
  { apply filter_all. intros trade Hin. apply bool_decide_eq_true_2, fromSet_elem.
    apply list_elem_of_fmap. exists trade. split; [reflexivity|].
    apply list_elem_of_In. exact (filteredTrades_In _ _ _ _ Hin). }
  rewrite instrumentData_names. fold labels.
  split; [exact Hnd|]. split; [|split; [|split]].
  - intros name. unfold labels. rewrite fromSet_elem, list_elem_of_fmap.
    split; intros (trade & H1 & H2); exists trade; [split; [apply list_elem_of_In, H2|congruence]|].
    split; [congruence|apply list_elem_of_In; tauto].
  - intros filtered' trade. rewrite instrumentData_names, fmap_app. csimpl.
    rewrite fromSet_snoc. fold labels.
    destruct (decide (Trade.instrument trade ∈ Trade.instrument <$> trades)) as [Hin|Hout].
    + rewrite !bool_decide_eq_true_2; [reflexivity| |exact Hin]. apply fromSet_elem, Hin.
    + rewrite !bool_decide_eq_false_2; [reflexivity| |exact Hout].
      unfold labels. rewrite fromSet_elem. exact Hout.
  - unfold instrumentData. cbn zeta. fold labels. rewrite <- list_fmap_compose.
    etrans; [apply (wins_by_label (fun trade => Some (Trade.instrument trade)) isWin labels
                                  filtered Hnd)|].
    rewrite Hall. reflexivity.
  - unfold instrumentData. cbn zeta. fold labels. rewrite <- list_fmap_compose.
    etrans; [|etrans; [apply (count_by_label (fun trade => Some (Trade.instrument trade)) labels
                                             filtered Hnd)|rewrite Hall; reflexivity]].
    f_equal. apply list_fmap_ext. intros i name _. cbn [compose InstrumentRow.wins InstrumentRow.losses].
    pose proof (filter_length_le isWin
                  (List.filter (fun trade => String.eqb (Trade.instrument trade) name) filtered)).
    cbn [optEq]. lia.
Qed.

(** ** Daily series *)

Lemma sumBy_snoc (f : Trade.t -> Q) (l : list Trade.t) (trade : Trade.t) :
  sumBy f (l ++ [trade]) == sumBy f l + f trade.
Proof. unfold sumBy. rewrite fold_left_app. reflexivity. Qed.

(** The total kept under a date key is the P&L of the records dated with it. *)
Lemma dailyTotals_lookup (l : list Trade.t) (key : string) :
  key <> EmptyString -> or0 (App.dailyTotals l !! key) == sumBy pnlOf (datedOn key l).
Proof.
  intros Hkey. induction l as [|trade l IH] using rev_ind.
  - unfold App.dailyTotals. simpl. rewrite lookup_empty. reflexivity.
  - unfold App.dailyTotals in *. rewrite fold_left_app. cbn [fold_left].
    rewrite datedOn_snoc. destruct (String.eqb_spec (Trade.date trade) key) as [Heq|Hne].
    + subst key. rewrite lookup_addToDay_same by exact Hkey.
      rewrite sumBy_snoc, <- IH. reflexivity.
    + rewrite lookup_addToDay_other by exact Hne. exact IH.
Qed.

(** X10: every entry of the daily series is the entry of one day, not
    after today: its date is the key of the day, its label the short label
    of the day, and its [pnl] the sum of the P&L of the filtered records
    whose date string is that key - zero when there is none. *)
Theorem dailyPnLData_day_totals
    (today : Z) (filteredTrades : list Trade.t) (dateRange : DateRange.t) :
  Forall (fun entry =>
            Entry.pnl entry == sumBy pnlOf (datedOn (Entry.date entry) filteredTrades)
            /\ exists n, n <= today /\ Entry.date entry = formatDateKey (JS.Day n)
                         /\ Entry.label entry = App.shortLabel n)
         (App.dailyPnLData today filteredTrades dateRange).
Proof.
  unfold App.dailyPnLData.
  set (totals := App.dailyTotals filteredTrades). set (keys := App.sortedKeys totals).
  destruct (App.seriesStart today keys dateRange) as [s|] eqn:Hs; [|apply Forall_nil_2].
  destruct (App.seriesEnd today keys dateRange) as [e|] eqn:He; [|apply Forall_nil_2].
  pose proof (series_endpoints_ordered _ _ _ _ _ Hs He) as Hord.
  rewrite walk_days by lia. rewrite Z2Nat.id by lia.
  apply Forall_fmap, Forall_forall. intros n Hn. apply elem_of_seqZ in Hn.
  unfold App.entryOf. cbn [compose Entry.pnl Entry.date Entry.label]. split.
  - apply dailyTotals_lookup, key_nonempty.
  - exists n. repeat split. lia.
Qed.

Lemma cumulate_lookup (l : list Entry.t) (c : Q) (i : nat) (entry : CumEntry.t) :
  App.cumulate c l !! i = Some entry ->
  exists src,
    l !! i = Some src
    /\ CumEntry.date entry = Entry.date src /\ CumEntry.pnl entry = Entry.pnl src
    /\ CumEntry.label entry = Entry.label src
    /\ CumEntry.cumulative entry == c + sumQ (Entry.pnl <$> take (S i) l).
Proof.
  revert c i. induction l as [|src l IH]; intros c i Hi; [discriminate|].
  destruct i as [|i].
  - injection Hi as <-. exists src. repeat split. simpl. ring.
  - cbn [App.cumulate lookup list_lookup] in Hi.
    destruct (IH _ _ Hi) as (src' & Hsrc & Hd & Hp & Hl & Hc).
    exists src'. repeat split; try assumption.
    rewrite Hc. change (take (S (S i)) (src :: l)) with (src :: take (S i) l). csimpl. ring.
Qed.

(** X11: the cumulative series has one entry for each entry of the
    daily series, with the same date, [pnl] and label, and the [cumulative]
    field of every entry - not of the last alone - is the sum of the [pnl]
    of the entries up to and including it. *)
Theorem cumulativePnLData_running_total (dailyPnLData : list Entry.t) :
  length (App.cumulativePnLData dailyPnLData) = length dailyPnLData
  /\ forall i entry,
       App.cumulativePnLData dailyPnLData !! i = Some entry ->
       exists src,
         dailyPnLData !! i = Some src
         /\ CumEntry.date entry = Entry.date src /\ CumEntry.pnl entry = Entry.pnl src
         /\ CumEntry.label entry = Entry.label src
         /\ CumEntry.cumulative entry == sumQ (Entry.pnl <$> take (S i) dailyPnLData).
Proof.
  split; [apply cumulate_length|]. intros i entry Hi.
  destruct (cumulate_lookup _ _ _ _ Hi) as (src & Hsrc & Hd & Hp & Hl & Hc).
  exists src. repeat split; try assumption. rewrite Hc. apply Qplus_0_l.
Qed.

(** ** Clicks in the range picker *)

(** X12: after a click on a day the selection of the range picker has a
    start, and when it has an end the start is before it. A click on [a]
    with no selection open starts one at [a]; a second click on another day
    [b] closes it as the range from the earlier to the later of the two,
    which [applyRangeSelection] stores with both days clamped to today; a
    second click on [a] itself starts over. *)
Theorem selectDay_clicks (today a b : Z) (rangeSelection dateRange : DateRange.t) :
  is_Some (DateRange.start (App.selectDay a rangeSelection))
  /\ (forall s e,
        DateRange.start (App.selectDay a rangeSelection) = Some s ->
        DateRange.end_ (App.selectDay a rangeSelection) = Some e -> s < e)
  /\ (DateRange.start rangeSelection = None \/ is_Some (DateRange.end_ rangeSelection) ->
      App.selectDay a rangeSelection = DateRange.mk (Some a) None
      /\ App.selectDay a (App.selectDay a rangeSelection) = DateRange.mk (Some a) None
      /\ (a <> b ->
          App.selectDay b (App.selectDay a rangeSelection)
          = DateRange.mk (Some (Z.min a b)) (Some (Z.max a b))
          /\ App.applyRangeSelection today (App.selectDay b (App.selectDay a rangeSelection))
                                     dateRange
             = DateRange.mk (Some (Z.min (Z.min a b) today)) (Some (Z.min (Z.max a b) today)))).
Proof.
  split; [|split].
  - unfold App.selectDay. destruct rangeSelection as [[s|] [e|]]; cbn; case_compare; cbn; eauto.
  - apply selectDay_ordered.
  - intros Hclosed.
    assert (Hfirst : App.selectDay a rangeSelection = DateRange.mk (Some a) None).
    { unfold App.selectDay. destruct rangeSelection as [[s|] [e|]]; cbn in *; try reflexivity.
      destruct Hclosed as [?|[? ?]]; discriminate. }
    rewrite Hfirst. split; [reflexivity|]. split.
    + unfold App.selectDay. cbn. case_compare; try lia. reflexivity.
    + intros Hab.
      assert (Hsecond : App.selectDay b (DateRange.mk (Some a) None)
                        = DateRange.mk (Some (Z.min a b)) (Some (Z.max a b))).
      { unfold App.selectDay. cbn. case_compare; try lia; f_equal; f_equal; lia. }
      rewrite Hsecond. split; [reflexivity|].
      unfold App.applyRangeSelection. cbn [DateRange.start DateRange.end_].
      case_compare; f_equal; f_equal; lia.
Qed.

Lemma selectDay_clicks_witness :
  App.applyRangeSelection 20000 (App.selectDay 19990 (App.selectDay 20005 allTime)) allTime
  = DateRange.mk (Some (Z.min (Z.min 20005 19990) 20000)) (Some (Z.min (Z.max 20005 19990) 20000)).
Proof.
  destruct (selectDay_clicks 20000 20005 19990 allTime allTime) as (_ & _ & H).
  destruct H as (_ & _ & H); [left; reflexivity|].
  destruct H as [_ H]; [lia|]. exact H.
Defined.

(** ** The trade form *)

(** What a stored state says about the form it was stored from. *)
Lemma handleAddTrade_Stored (now : Z) (s s' : Form.t) :
  handleAddTrade now s = Stored s' ->
  let formData := Form.formData s in
  exists riskReward profitLoss q,
    let newTrade id :=
      Trade.mk id (FormData.date formData) (FormData.time formData)
               (Some (FormData.side formData)) (FormData.instrument formData)
               (FormData.result formData) riskReward (Some profitLoss) in
    FormData.date formData <> "" /\ FormData.time formData <> ""
    /\ JSLib.parseFloat (FormData.profitLoss formData) = JSLib.Finite q
    /\ (if String.eqb (FormData.result formData) "loss"
        then riskReward = (-1)%Q /\ profitLoss = (- Qabs q)%Q
        else JSLib.parseFloat (FormData.riskReward formData) = JSLib.Finite riskReward
             /\ profitLoss = Qabs q)
    /\ s' = Form.mk
              match Form.editingTrade s with
              | Some editingTrade =>
                  (fun trade =>
                     if Trade.id trade =? Trade.id editingTrade
                     then newTrade (Trade.id editingTrade) else trade) <$> Form.trades s
              | None => Form.trades s ++ [newTrade now]
              end false None emptyForm.
Proof.
  cbn zeta. unfold handleAddTrade.
  destruct (String.eqb_spec (FormData.date (Form.formData s)) "") as [|Hdate];
    [discriminate|].
  destruct (String.eqb_spec (FormData.time (Form.formData s)) "") as [|Htime];
    [discriminate|].
  destruct (_ || _); [discriminate|].
  destruct (JSLib.parseFloat (FormData.riskReward (Form.formData s))) as [r|nr|] eqn:Hr;
    destruct (JSLib.parseFloat (FormData.profitLoss (Form.formData s))) as [q|nq|] eqn:Hq;
    try discriminate;
    destruct (String.eqb (FormData.result (Form.formData s)) "loss") eqn:Hloss;
    cbn [JSLib.fabs JSLib.fneg]; try discriminate; intros [= <-].
  - exists (-1)%Q, (- Qabs q)%Q, q. repeat split; assumption.
  - exists r, (Qabs q), q. repeat split; assumption.
  - exists (-1)%Q, (- Qabs q)%Q, q. repeat split; assumption.
Qed.

Lemma Qabs_opp_nonpos (q : Q) : (- Qabs q <= 0)%Q.
Proof.
  pose proof (Qabs_nonneg q) as H. apply Qopp_le_compat in H. exact H.
Qed.

(** X13: [handleAddTrade] stores a record only from a form with a date
    and a time, and the record it stores is normalized: a loss gets the
    reward multiple -1 and the P&L typed in made negative, any other result
    the reward multiple typed in, whatever its sign, and the P&L made
    positive. Adding, editing and deleting keep a collection of normalized
    records normalized. *)
Theorem handleAddTrade_normalizes (now : Z) (s s' : Form.t) :
  handleAddTrade now s = Stored s' ->
  let formData := Form.formData s in
  (exists riskReward profitLoss q,
      JSLib.parseFloat (FormData.profitLoss formData) = JSLib.Finite q
      /\ (if String.eqb (FormData.result formData) "loss"
          then riskReward = (-1)%Q /\ profitLoss = (- Qabs q)%Q
          else JSLib.parseFloat (FormData.riskReward formData) = JSLib.Finite riskReward
               /\ profitLoss = Qabs q)
      /\ forall trade,
           In trade (Form.trades s') -> ~ In trade (Form.trades s) ->
           normalized trade
           /\ trade = Trade.mk (Trade.id trade) (FormData.date formData)
                               (FormData.time formData) (Some (FormData.side formData))
                               (FormData.instrument formData) (FormData.result formData)
                               riskReward (Some profitLoss))
  /\ FormData.date formData <> "" /\ FormData.time formData <> ""
  /\ ((forall trade, In trade (Form.trades s) -> normalized trade) ->
      (forall trade, In trade (Form.trades s') -> normalized trade)
      /\ (forall confirmed id trade,
            In trade (Form.trades (handleDeleteTrade confirmed id s')) -> normalized trade)).
Proof.
  intros Hstored formData.
  destruct (handleAddTrade_Stored _ _ _ Hstored) as (rr & pl & q & Hdate & Htime & Hq & Hsign & ->).
  fold formData in Hsign, Hq, Hdate, Htime |- *.
  set (newTrade := fun id =>
         Trade.mk id (FormData.date formData) (FormData.time formData)
                  (Some (FormData.side formData)) (FormData.instrument formData)
                  (FormData.result formData) rr (Some pl)).
  assert (Hnorm : forall id, normalized (newTrade id)).
  { intros id. unfold normalized, newTrade, isLoss. cbn [Trade.profitLoss Trade.result Trade.riskReward].
    destruct (String.eqb (FormData.result formData) "loss").
    - destruct Hsign as [-> ->]. split; [reflexivity|apply Qabs_opp_nonpos].
    - destruct Hsign as [_ ->]. apply Qabs_nonneg. }
  assert (Hnew : forall trade,
            In trade (Form.trades
                        (Form.mk
                           match Form.editingTrade s with
                           | Some editingTrade =>
                               (fun trade =>
                                  if Trade.id trade =? Trade.id editingTrade
                                  then newTrade (Trade.id editingTrade) else trade)
                                 <$> Form.trades s
                           | None => Form.trades s ++ [newTrade now]
                           end false None emptyForm)) ->
            In trade (Form.trades s) \/ trade = newTrade (Trade.id trade)).
  { intros trade. cbn [Form.trades]. destruct (Form.editingTrade s) as [e|].
    - rewrite <- !list_elem_of_In, list_elem_of_fmap. intros (t & -> & Ht).
      destruct (Trade.id t =? Trade.id e); [right; reflexivity|left; exact Ht].
    - rewrite in_app_iff. intros [H|[<-|[]]]; [left; exact H|right; reflexivity]. }
  split; [|split; [exact Hdate|split; [exact Htime|]]].
  - exists rr, pl, q. split; [exact Hq|]. split; [exact Hsign|].
    intros trade Hin Hnot. destruct (Hnew trade Hin) as [Hold|Heq]; [contradiction|].
    split; [rewrite Heq; apply Hnorm|exact Heq].
  - intros Hall.
    assert (Hall' : forall trade,
              In trade (Form.trades
                          (Form.mk
                             match Form.editingTrade s with
                             | Some editingTrade =>
                                 (fun trade =>
                                    if Trade.id trade =? Trade.id editingTrade
                                    then newTrade (Trade.id editingTrade) else trade)
                                   <$> Form.trades s
                             | None => Form.trades s ++ [newTrade now]
                             end false None emptyForm)) -> normalized trade).
    { intros trade Hin. destruct (Hnew trade Hin) as [Hold|Heq]; [apply Hall, Hold|].
      rewrite Heq. apply Hnorm. }
    split; [exact Hall'|].
    intros confirmed id trade. unfold handleDeleteTrade. destruct confirmed; [|apply Hall'].
    cbn [Form.trades]. rewrite filter_In. intros [Hin _]. apply Hall', Hin.
Qed.

Lemma handleAddTrade_normalizes_witness :
  normalized (Trade.mk 5 "2024-01-02" "09:35" (Some "long") "NQ!" "loss"
                       (-1) (Some (- Qabs 150)%Q)).
Proof.
  pose proof (handleAddTrade_normalizes 5 (Form.mk [] true None (filledForm "loss" "2.5" "150"))
                _ eq_refl) as (_ & _ & _ & H).
  destruct H as [H _]; [intros trade []|]. apply H. left. reflexivity.
Defined.

(** X14: a stored add appends one record with the id [Date.now()] and
    leaves the others as they are; a stored edit keeps the number and the
    ids of the records and changes only those with the id of the edited
    one; either closes the form and empties it. Deleting the id just added
    gives the collection back exactly when no earlier record has that id,
    and removes those too otherwise. *)
Theorem handleAddTrade_collection (now : Z) (s s' : Form.t) :
  handleAddTrade now s = Stored s' ->
  Form.formData s' = emptyForm /\ Form.showAddForm s' = false /\ Form.editingTrade s' = None
  /\ match Form.editingTrade s with
     | None =>
         exists record,
           Form.trades s' = Form.trades s ++ [record] /\ Trade.id record = now
           /\ Form.trades (handleDeleteTrade true now s')
              = List.filter (fun trade => negb (Trade.id trade =? now)) (Form.trades s)
           /\ ((forall trade, In trade (Form.trades s) -> Trade.id trade <> now) ->
               Form.trades (handleDeleteTrade true now s') = Form.trades s)
     | Some editingTrade =>
         Trade.id <$> Form.trades s' = Trade.id <$> Form.trades s
         /\ length (Form.trades s') = length (Form.trades s)
         /\ forall i trade,
              Form.trades s !! i = Some trade -> Trade.id trade <> Trade.id editingTrade ->
              Form.trades s' !! i = Some trade
     end.
Proof.
  intros Hstored.
  destruct (handleAddTrade_Stored _ _ _ Hstored) as (rr & pl & q & _ & _ & _ & _ & ->).
  cbn [Form.formData Form.showAddForm Form.editingTrade Form.trades].
  split; [reflexivity|]. split; [reflexivity|]. split; [reflexivity|].
  destruct (Form.editingTrade s) as [e|].
  - split; [|split].
    + rewrite <- list_fmap_compose. apply list_fmap_ext. intros i trade _. cbn [compose].
      destruct (Z.eqb_spec (Trade.id trade) (Trade.id e)) as [Heq|]; [|reflexivity].
      symmetry. exact Heq.
    + apply length_fmap.
    + intros i trade Hi Hne. rewrite list_lookup_fmap, Hi. cbn.
      destruct (Z.eqb_spec (Trade.id trade) (Trade.id e)); [contradiction|reflexivity].
  - eexists. split; [reflexivity|]. split; [reflexivity|].
    assert (Hdel : forall l record, Trade.id record = now ->
              List.filter (fun trade => negb (Trade.id trade =? now)) (l ++ [record])
              = List.filter (fun trade => negb (Trade.id trade =? now)) l).
    { intros l record Hid. rewrite List.filter_app. cbn [List.filter].
      rewrite Hid, Z.eqb_refl. apply app_nil_r. }
    unfold handleDeleteTrade. cbn [Form.trades]. rewrite Hdel by reflexivity.
    split; [reflexivity|].
    intros Hfresh. apply filter_all. intros trade Hin. apply negb_true_iff, Z.eqb_neq.
    apply Hfresh, Hin.
Qed.

Lemma handleAddTrade_collection_witness :
  let s' := Form.mk [Trade.mk 5 "2024-01-02" "09:35" (Some "long") "NQ!" "win"
                              (JSLib.digits_value "2" # 1) (Some (Qabs 150)%Q)]
                    false None emptyForm in
  handleAddTrade 5 (Form.mk [] true None (filledForm "win" "2" "150")) = Stored s'
  /\ Form.formData s' = emptyForm /\ Form.showAddForm s' = false /\ Form.editingTrade s' = None.
Proof.
  intros s'.
  assert (Hstored : handleAddTrade 5 (Form.mk [] true None (filledForm "win" "2" "150"))
                    = Stored s') by (vm_compute; reflexivity).
  split; [exact Hstored|].
  pose proof (handleAddTrade_collection 5 (Form.mk [] true None (filledForm "win" "2" "150")) s'
                Hstored) as (H1 & H2 & H3 & _).
  split; [exact H1|]. split; [exact H2|exact H3].
Defined.

(** ** Normalized collections in the metrics *)

Lemma sumBy_losses (l : list Trade.t) :
  (forall trade, In trade l -> normalized trade) ->
  sumBy Trade.riskReward (List.filter isLoss l) == - ofNat (length (List.filter isLoss l)).
Proof.
  induction l as [|trade l IH]; intros Hall; [reflexivity|].
  cbn [List.filter]. pose proof (Hall trade (or_introl eq_refl)) as Hn.
  assert (IH' := IH (fun t Ht => Hall t (or_intror Ht))).
  destruct (isLoss trade) eqn:Hl; [|exact IH'].
  unfold normalized in Hn. rewrite Hl in Hn.
  destruct (Trade.profitLoss trade); [|destruct Hn]. destruct Hn as [Hrr _].
  rewrite sumBy_cons, IH', Hrr. cbn [length]. unfold ofNat.
  rewrite Nat2Z.inj_succ, <- Z.add_1_r, inject_Z_plus. ring.
Qed.

(** X15: over records normalized as the trade form writes them, the total
    of the losing reward multiples is the number of losses, so the profit
    factor is the total of the winning reward multiples divided by the
    number of losses, printed with two decimals, whenever there is a loss. *)
Theorem normalized_profitFactor (filteredTrades : list Trade.t) :
  (forall trade, In trade filteredTrades -> normalized trade) ->
  let m := metrics filteredTrades in
  totalLossRR filteredTrades == ofNat (Metrics.losses m)
  /\ ((0 < Metrics.losses m)%nat ->
      Metrics.profitFactor m
      = JS.toFixed (totalWinRR filteredTrades / totalLossRR filteredTrades) 2).
Proof.
  intros Hall m.
  assert (Hloss : totalLossRR filteredTrades == ofNat (Metrics.losses m)).
  { unfold totalLossRR. rewrite sumBy_losses by exact Hall.
    rewrite Qabs_opp. apply Qabs_pos. unfold ofNat.
    rewrite <- (Zle_Qle 0). apply Nat2Z.is_nonneg. }
  split; [exact Hloss|]. intros Hpos. subst m. unfold metrics in *.
  cbn [Metrics.profitFactor Metrics.losses] in *.
  assert (Hlt : JS.Qltb 0 (totalLossRR filteredTrades) = true).
  { apply Qltb_true. rewrite Hloss. unfold ofNat. rewrite <- (Zlt_Qlt 0). lia. }
  rewrite Hlt. reflexivity.
Qed.

Lemma normalized_profitFactor_witness :
  totalLossRR (scenario 1 2) == ofNat (Metrics.losses (metrics (scenario 1 2))).
Proof.
  apply (normalized_profitFactor (scenario 1 2)).
  intros trade [<-|[<-|[]]]; vm_compute; [discriminate|]. split; [reflexivity|discriminate].
Defined.

(** ** The day journal *)

Lemma updateDayEntry_empty (updater : DayEntry.t -> DayEntry.t) (s : Journal.t) :
  updateDayEntry "" updater s = s.
Proof. reflexivity. Qed.

Lemma updateDayEntry_lookup (dateKey : string) (updater : DayEntry.t -> DayEntry.t)
    (s : Journal.t) :
  dateKey <> "" ->
  Journal.dayNotes (updateDayEntry dateKey updater s) !! dateKey
  = Some (updater (entryOfDay s dateKey)).
Proof.
  intros Hne. unfold updateDayEntry. destruct (String.eqb_spec dateKey ""); [contradiction|].
  cbn. apply lookup_insert_eq.
Qed.

Lemma updateDayEntry_stored (dateKey : string) (updater : DayEntry.t -> DayEntry.t)
    (s : Journal.t) :
  dateKey <> "" ->
  Journal.dayNotes (updateDayEntry dateKey updater s) !! dateKey
  = Some (entryOfDay (updateDayEntry dateKey updater s) dateKey).
Proof.
  intros Hne. unfold entryOfDay. rewrite updateDayEntry_lookup by exact Hne. reflexivity.
Qed.

Lemma updateDayEntry_other (dateKey key : string) (updater : DayEntry.t -> DayEntry.t)
    (s : Journal.t) :
  key <> dateKey ->
  Journal.dayNotes (updateDayEntry dateKey updater s) !! key = Journal.dayNotes s !! key.
Proof.
  intros Hne. unfold updateDayEntry. destruct (String.eqb dateKey ""); [reflexivity|].
  cbn. apply lookup_insert_ne. congruence.
Qed.

Lemma updateDayEntry_rest (dateKey : string) (updater : DayEntry.t -> DayEntry.t)
    (s : Journal.t) :
  let s' := updateDayEntry dateKey updater s in
  Journal.checklistInputs s' = Journal.checklistInputs s
  /\ Journal.strategies s' = Journal.strategies s
  /\ Journal.strategyBuilderOpen s' = Journal.strategyBuilderOpen s
  /\ Journal.editingStrategyId s' = Journal.editingStrategyId s
  /\ Journal.strategyForm s' = Journal.strategyForm s.
Proof.
  cbn zeta. unfold updateDayEntry. destruct (String.eqb dateKey ""); repeat split.
Qed.

(** X16: a journal handler called for one day changes no other day: the
    entries under every other date key stay as they are, and so do the
    strategies and the strategy builder; called for no day (the empty key)
    it leaves all day notes as they are. *)
Theorem runDayAction_frame (dateKey : string) (action : dayAction) (s : Journal.t) :
  let s' := runDayAction dateKey action s in
  (forall key, key <> dateKey -> Journal.dayNotes s' !! key = Journal.dayNotes s !! key)
  /\ (dateKey = "" -> Journal.dayNotes s' = Journal.dayNotes s)
  /\ Journal.strategies s' = Journal.strategies s
  /\ Journal.strategyBuilderOpen s' = Journal.strategyBuilderOpen s
  /\ Journal.editingStrategyId s' = Journal.editingStrategyId s
  /\ Journal.strategyForm s' = Journal.strategyForm s.
Proof.
  cbn zeta.
  assert (Hupd : forall updater,
            let s' := updateDayEntry dateKey updater s in
            (forall key, key <> dateKey ->
                         Journal.dayNotes s' !! key = Journal.dayNotes s !! key)
            /\ (dateKey = "" -> Journal.dayNotes s' = Journal.dayNotes s)
            /\ Journal.strategies s' = Journal.strategies s
            /\ Journal.strategyBuilderOpen s' = Journal.strategyBuilderOpen s
            /\ Journal.editingStrategyId s' = Journal.editingStrategyId s
            /\ Journal.strategyForm s' = Journal.strategyForm s).
  { intros updater. cbn zeta.
    pose proof (updateDayEntry_rest dateKey updater s) as (_ & H1 & H2 & H3 & H4).
    split; [intros key Hkey; apply updateDayEntry_other, Hkey|].
    split; [intros ->; reflexivity|]. tauto. }
  assert (Hsame : (forall key, key <> dateKey ->
                               Journal.dayNotes s !! key = Journal.dayNotes s !! key)
                  /\ (dateKey = "" -> Journal.dayNotes s = Journal.dayNotes s)
                  /\ Journal.strategies s = Journal.strategies s
                  /\ Journal.strategyBuilderOpen s = Journal.strategyBuilderOpen s
                  /\ Journal.editingStrategyId s = Journal.editingStrategyId s
                  /\ Journal.strategyForm s = Journal.strategyForm s) by tauto.
  destruct action as [value|now|itemId|itemId|clock strategyId|imageId]; cbn [runDayAction].
  - apply Hupd.
  - unfold handleAddChecklistItem. destruct (String.eqb _ ""); [exact Hsame|].
    unfold setChecklistInputs.
    cbn [Journal.dayNotes Journal.strategies Journal.strategyBuilderOpen
         Journal.editingStrategyId Journal.strategyForm].
    apply Hupd.
  - apply Hupd.
  - apply Hupd.
  - unfold handleStrategyApply. destruct (String.eqb dateKey ""); [exact Hsame|].
    destruct (truthyId strategyId); [|apply Hupd].
    destruct (find _ _); [apply Hupd|exact Hsame].
  - apply Hupd.
Qed.

Lemma runDayAction_frame_witness :
  Journal.dayNotes (runDayAction "2024-01-03" (NoteChange "late entry") sampleJournal)
    !! "2024-01-02"
  = Journal.dayNotes sampleJournal !! "2024-01-02".
Proof.
  apply (runDayAction_frame "2024-01-03" (NoteChange "late entry") sampleJournal).
  discriminate.
Defined.

Lemma toggle_twice (itemId : ident) (checklist : list ChecklistItem.t) :
  (fun item =>
     if ident_eqb (ChecklistItem.id item) itemId
     then ChecklistItem.mk (ChecklistItem.id item) (ChecklistItem.label item)
                           (negb (ChecklistItem.checked item))
     else item)
    <$> ((fun item =>
            if ident_eqb (ChecklistItem.id item) itemId
            then ChecklistItem.mk (ChecklistItem.id item) (ChecklistItem.label item)
                                  (negb (ChecklistItem.checked item))
            else item) <$> checklist)
  = checklist.
Proof.
  rewrite <- list_fmap_compose. etrans; [|apply list_fmap_id].
  apply list_fmap_ext. intros i [id label checked] _. cbn.
  destruct (ident_eqb id itemId) eqn:Hid; cbn; rewrite Hid; [|reflexivity].
  rewrite negb_involutive. reflexivity.
Qed.

(** X17: ticking a checklist item flips the items of that day with that
    id and nothing else - the number of items, their ids, their labels and
    their order, the notes, the screenshots and the strategy stay - and
    ticking it twice gives the entry back; on a day that has an entry the
    journal is then as it was. *)
Theorem handleChecklistToggle_twice (dateKey : string) (itemId : ident) (s : Journal.t) :
  dateKey <> "" ->
  let once := handleChecklistToggle dateKey itemId s in
  let twice := handleChecklistToggle dateKey itemId once in
  entryOfDay twice dateKey = entryOfDay s dateKey
  /\ (is_Some (Journal.dayNotes s !! dateKey) -> twice = s)
  /\ ChecklistItem.id <$> DayEntry.checklist (entryOfDay once dateKey)
     = ChecklistItem.id <$> DayEntry.checklist (entryOfDay s dateKey)
  /\ ChecklistItem.label <$> DayEntry.checklist (entryOfDay once dateKey)
     = ChecklistItem.label <$> DayEntry.checklist (entryOfDay s dateKey)
  /\ (forall i item,
        DayEntry.checklist (entryOfDay s dateKey) !! i = Some item ->
        exists item',
          DayEntry.checklist (entryOfDay once dateKey) !! i = Some item'
          /\ ChecklistItem.checked item'
             = if ident_eqb (ChecklistItem.id item) itemId
               then negb (ChecklistItem.checked item) else ChecklistItem.checked item)
  /\ DayEntry.notes (entryOfDay once dateKey) = DayEntry.notes (entryOfDay s dateKey)
  /\ DayEntry.screenshots (entryOfDay once dateKey)
     = DayEntry.screenshots (entryOfDay s dateKey)
  /\ DayEntry.strategyId (entryOfDay once dateKey) = DayEntry.strategyId (entryOfDay s dateKey).
Proof.
  intros Hne once twice.
  assert (Honce : entryOfDay once dateKey
                  = DayEntry.mk (DayEntry.notes (entryOfDay s dateKey))
                      ((fun item =>
                          if ident_eqb (ChecklistItem.id item) itemId
                          then ChecklistItem.mk (ChecklistItem.id item)
                                                (ChecklistItem.label item)
                                                (negb (ChecklistItem.checked item))
                          else item) <$> DayEntry.checklist (entryOfDay s dateKey))
                      (DayEntry.screenshots (entryOfDay s dateKey))
                      (DayEntry.strategyId (entryOfDay s dateKey))).
  { unfold entryOfDay at 1. subst once. unfold handleChecklistToggle.
    rewrite updateDayEntry_lookup by exact Hne. reflexivity. }
  assert (Htwice : entryOfDay twice dateKey = entryOfDay s dateKey).
  { unfold entryOfDay at 1. subst twice. unfold handleChecklistToggle at 1.
    rewrite updateDayEntry_lookup by exact Hne. cbn [default]. rewrite Honce.
    cbn [DayEntry.notes DayEntry.checklist DayEntry.screenshots DayEntry.strategyId].
    rewrite toggle_twice. destruct (entryOfDay s dateKey). reflexivity. }
  split; [exact Htwice|]. split; [|rewrite Honce; cbn; repeat split].
  - intros [entry Hentry].
    assert (Hnotes : Journal.dayNotes twice = Journal.dayNotes s).
    { apply map_eq. intros key. destruct (decide (key = dateKey)) as [->|Hkey].
      - transitivity (Some (entryOfDay twice dateKey)).
        + subst twice. unfold handleChecklistToggle at 1.
          apply updateDayEntry_stored, Hne.
        + rewrite Htwice. unfold entryOfDay. rewrite Hentry. reflexivity.
      - subst twice once. unfold handleChecklistToggle.
        rewrite !updateDayEntry_other by exact Hkey. reflexivity. }
    pose proof (updateDayEntry_rest dateKey
                  (fun entry =>
                     DayEntry.mk (DayEntry.notes entry)
                       ((fun item =>
                           if ident_eqb (ChecklistItem.id item) itemId
                           then ChecklistItem.mk (ChecklistItem.id item)
                                                 (ChecklistItem.label item)
                                                 (negb (ChecklistItem.checked item))
                           else item) <$> DayEntry.checklist entry)
                       (DayEntry.screenshots entry) (DayEntry.strategyId entry)))
      as Hrest. cbn zeta in Hrest.
    pose proof (Hrest s) as (A1 & A2 & A3 & A4 & A5).
    pose proof (Hrest once) as (B1 & B2 & B3 & B4 & B5).
    fold (handleChecklistToggle dateKey itemId s) in A1, A2, A3, A4, A5. fold once in A1, A2, A3, A4, A5.
    fold (handleChecklistToggle dateKey itemId once) in B1, B2, B3, B4, B5.
    fold twice in B1, B2, B3, B4, B5.
    destruct twice, s. cbn in *. congruence.
  - rewrite <- list_fmap_compose. apply list_fmap_ext. intros i item _. cbn.
    destruct (ident_eqb _ _); reflexivity.
  - rewrite <- list_fmap_compose. apply list_fmap_ext. intros i item _. cbn.
    destruct (ident_eqb _ _); reflexivity.
  - intros i item Hi. rewrite list_lookup_fmap, Hi. cbn. eexists. split; [reflexivity|].
    destruct (ident_eqb _ _); reflexivity.
Qed.

Lemma handleChecklistToggle_twice_witness :
  handleChecklistToggle "2024-01-02" (NumId 7)
    (handleChecklistToggle "2024-01-02" (NumId 7) sampleJournal) = sampleJournal.
Proof.
  apply (handleChecklistToggle_twice "2024-01-02" (NumId 7) sampleJournal); [discriminate|].
  vm_compute. eauto.
Defined.

Lemma ident_eqb_eq (a b : ident) : ident_eqb a b = true <-> a = b.
Proof.
  destruct a as [x|x], b as [y|y]; cbn; try (split; discriminate).
  - rewrite Z.eqb_eq. split; congruence.
  - rewrite String.eqb_eq. split; congruence.
Qed.

(** X18: [handleAddChecklistItem] does nothing when the text typed for
    the day is blank; otherwise it appends one unticked item with the trimmed
    text and the id [Date.now()] to the checklist of the day and empties the
    input. Removing that id afterwards removes the new item, together with
    every older item of the day that has the same id: the checklist is as
    before exactly when no older item has it. *)
Theorem handleAddChecklistItem_then_remove (now : Z) (dateKey : string) (s : Journal.t) :
  dateKey <> "" ->
  let label := JS.trim (default "" (Journal.checklistInputs s !! dateKey)) in
  let added := handleAddChecklistItem now dateKey s in
  let removed := handleChecklistRemove dateKey (NumId now) added in
  (label = "" -> added = s)
  /\ (label <> "" ->
      DayEntry.checklist (entryOfDay added dateKey)
      = DayEntry.checklist (entryOfDay s dateKey) ++ [ChecklistItem.mk (NumId now) label false]
      /\ Journal.checklistInputs added !! dateKey = Some ""
      /\ DayEntry.checklist (entryOfDay removed dateKey)
         = List.filter (fun item => negb (ident_eqb (ChecklistItem.id item) (NumId now)))
                       (DayEntry.checklist (entryOfDay s dateKey))
      /\ ((forall item, In item (DayEntry.checklist (entryOfDay s dateKey)) ->
                        ChecklistItem.id item <> NumId now) ->
          DayEntry.checklist (entryOfDay removed dateKey)
          = DayEntry.checklist (entryOfDay s dateKey))).
Proof.
  intros Hne label added removed. subst added removed. unfold handleAddChecklistItem.
  fold label. destruct (String.eqb_spec label "") as [Hl|Hl].
  - split; [reflexivity|contradiction].
  - split; [contradiction|]. intros _.
    set (upd := updateDayEntry dateKey _ s).
    assert (Hadded : DayEntry.checklist (entryOfDay (setChecklistInputs
                         (fun prev => <[dateKey := ""]> prev) upd) dateKey)
                     = DayEntry.checklist (entryOfDay s dateKey)
                       ++ [ChecklistItem.mk (NumId now) label false]).
    { unfold entryOfDay at 1, setChecklistInputs. cbn [Journal.dayNotes]. subst upd.
      rewrite updateDayEntry_lookup by exact Hne. reflexivity. }
    assert (Hremoved :
      DayEntry.checklist
        (entryOfDay (handleChecklistRemove dateKey (NumId now)
                       (setChecklistInputs (fun prev => <[dateKey := ""]> prev) upd)) dateKey)
      = List.filter (fun item => negb (ident_eqb (ChecklistItem.id item) (NumId now)))
                    (DayEntry.checklist (entryOfDay s dateKey))).
    { unfold entryOfDay at 1, handleChecklistRemove.
      rewrite updateDayEntry_lookup by exact Hne. cbn [default DayEntry.checklist].
      rewrite Hadded, List.filter_app. cbn [List.filter ChecklistItem.id ident_eqb].
      rewrite Z.eqb_refl. apply app_nil_r. }
    split; [exact Hadded|]. split; [|split; [exact Hremoved|]].
    + unfold setChecklistInputs. cbn [Journal.checklistInputs]. apply lookup_insert_eq.
    + intros Hfresh. rewrite Hremoved. apply filter_all. intros item Hin.
      apply negb_true_iff. destruct (ident_eqb _ _) eqn:Heq; [|reflexivity].
      apply ident_eqb_eq in Heq. destruct (Hfresh item Hin Heq).
Qed.

Lemma handleAddChecklistItem_then_remove_witness :
  DayEntry.checklist (entryOfDay (handleAddChecklistItem 9 "2024-01-02" sampleJournal)
                                 "2024-01-02")
  = DayEntry.checklist (entryOfDay sampleJournal "2024-01-02")
    ++ [ChecklistItem.mk (NumId 9) (JS.trim (default "" (Journal.checklistInputs sampleJournal
                                                           !! "2024-01-02"))) false].
Proof.
  apply (handleAddChecklistItem_then_remove 9 "2024-01-02" sampleJournal); [discriminate|].
  vm_compute. discriminate.
Defined.

Lemma entryOfDay_update (dateKey : string) (updater : DayEntry.t -> DayEntry.t)
    (s : Journal.t) :
  dateKey <> "" ->
  entryOfDay (updateDayEntry dateKey updater s) dateKey = updater (entryOfDay s dateKey).
Proof.
  intros Hne. unfold entryOfDay at 1. rewrite updateDayEntry_lookup by exact Hne. reflexivity.
Qed.

(** ** Strategies *)

Lemma copyItems_labels (clock : nat -> Z) (items : list StrategyItem.t) :
  ChecklistItem.label <$> copyItems clock items = StrategyItem.label <$> items.
Proof.
  unfold copyItems. rewrite fmap_imap. revert clock.
  induction items as [|item items IH]; intros clock; [reflexivity|].
  cbn [imap]. csimpl. f_equal. apply (IH (clock ∘ S)).
Qed.

Lemma copyItems_unticked (clock : nat -> Z) (items : list StrategyItem.t) :
  Forall (fun item => ChecklistItem.checked item = false
                      /\ exists text, ChecklistItem.id item = StrId text)
         (copyItems clock items).
Proof.
  unfold copyItems. revert clock.
  induction items as [|item items IH]; intros clock; [apply Forall_nil_2|].
  cbn [imap]. apply Forall_cons. split; [split; [reflexivity|eexists; reflexivity]|].
  apply (IH (clock ∘ S)).
Qed.

(** X19: applying a strategy to a day replaces the checklist of the day
    by one unticked item for each item of the template, with the labels of
    the template in their order and ids that are strings, and links the day
    to the strategy; notes and screenshots stay. An id that names no
    strategy changes nothing; no id (or the id 0) unlinks the day and keeps
    its checklist. *)
Theorem handleStrategyApply_template
    (clock : nat -> Z) (dateKey : string) (strategyId : option Z) (s : Journal.t) :
  dateKey <> "" ->
  let applied := handleStrategyApply clock dateKey strategyId s in
  let before := entryOfDay s dateKey in
  let after := entryOfDay applied dateKey in
  DayEntry.notes after = DayEntry.notes before
  /\ DayEntry.screenshots after = DayEntry.screenshots before
  /\ (forall id template,
        strategyId = Some id -> id <> 0 ->
        List.find (fun strategy => Strategy.id strategy =? id) (Journal.strategies s)
        = Some template ->
        DayEntry.strategyId after = Some id
        /\ ChecklistItem.label <$> DayEntry.checklist after
           = StrategyItem.label <$> Strategy.items template
        /\ Forall (fun item => ChecklistItem.checked item = false
                               /\ exists text, ChecklistItem.id item = StrId text)
                  (DayEntry.checklist after))
  /\ (forall id,
        strategyId = Some id -> id <> 0 ->
        List.find (fun strategy => Strategy.id strategy =? id) (Journal.strategies s) = None ->
        applied = s)
  /\ (truthyId strategyId = None ->
      DayEntry.strategyId after = None
      /\ DayEntry.checklist after = DayEntry.checklist before).
Proof.
  intros Hne applied before after. subst applied after before.
  unfold handleStrategyApply. destruct (String.eqb_spec dateKey ""); [contradiction|].
  destruct strategyId as [id|]; cbn [truthyId].
  - destruct (Z.eqb_spec id 0) as [Hz|Hz].
    + rewrite entryOfDay_update by exact Hne.
      cbn [DayEntry.notes DayEntry.screenshots DayEntry.strategyId DayEntry.checklist].
      split; [reflexivity|]. split; [reflexivity|]. split; [|split; [|split; reflexivity]].
      * intros id' template' [= <-] Hnz. contradiction.
      * intros id' [= <-] Hnz. contradiction.
    + destruct (find _ _) as [template|] eqn:Hfind.
      * rewrite entryOfDay_update by exact Hne.
        cbn [DayEntry.notes DayEntry.screenshots DayEntry.strategyId DayEntry.checklist].
        split; [reflexivity|]. split; [reflexivity|]. split; [|split; [|discriminate]].
        -- intros id' template' [= <-] _ Hsome. rewrite Hfind in Hsome.
           injection Hsome as <-.
           apply find_some in Hfind as [_ Hid]. apply Z.eqb_eq in Hid.
           split; [congruence|]. split; [apply copyItems_labels|apply copyItems_unticked].
        -- intros id' [= <-] _ Hnone. rewrite Hfind in Hnone. discriminate.
      * split; [reflexivity|]. split; [reflexivity|]. split; [|split; [|discriminate]].
        -- intros id' template' [= <-] _ Hsome. rewrite Hfind in Hsome. discriminate.
        -- reflexivity.
  - rewrite entryOfDay_update by exact Hne.
    cbn [DayEntry.notes DayEntry.screenshots DayEntry.strategyId DayEntry.checklist].
    split; [reflexivity|]. split; [reflexivity|]. split; [|split; [|split; reflexivity]].
    + intros id' template' Hid. discriminate.
    + intros id' Hid. discriminate.
Qed.

Lemma handleStrategyApply_template_witness :
  ChecklistItem.label
    <$> DayEntry.checklist
          (entryOfDay (handleStrategyApply (fun _ => 50) "2024-01-02" (Some 41) sampleJournal)
                      "2024-01-02")
  = ["mark the range"; "wait"].
Proof.
  destruct (handleStrategyApply_template (fun _ => 50) "2024-01-02" (Some 41) sampleJournal)
    as (_ & _ & H & _); [discriminate|].
  destruct (H 41 (Strategy.mk 41 "Opening range"
                    [StrategyItem.mk 1 "mark the range"; StrategyItem.mk 2 "wait"]))
    as (_ & Hlabels & _); [reflexivity|lia|reflexivity|].
  exact Hlabels.
Defined.

(** X20: deleting a strategy removes every strategy with that id from
    the list and unlinks every day that was linked to it, so that no day
    refers to a strategy that is gone; the notes, the checklist - the items
    copied from the strategy included - and the screenshots of every day
    stay, days linked to other strategies stay linked, and the builder is
    closed and emptied. With no id (or the id 0) nothing changes. *)
Theorem handleStrategyDelete_unlinks (id : Z) (s : Journal.t) :
  id <> 0 ->
  let s' := handleStrategyDelete (Some id) s in
  (forall strategy,
     In strategy (Journal.strategies s')
     <-> In strategy (Journal.strategies s) /\ Strategy.id strategy <> id)
  /\ (forall key entry', Journal.dayNotes s' !! key = Some entry' ->
                         DayEntry.strategyId entry' <> Some id)
  /\ (forall key,
        match Journal.dayNotes s !! key with
        | Some entry =>
            exists entry',
              Journal.dayNotes s' !! key = Some entry'
              /\ DayEntry.notes entry' = DayEntry.notes entry
              /\ DayEntry.checklist entry' = DayEntry.checklist entry
              /\ DayEntry.screenshots entry' = DayEntry.screenshots entry
              /\ (DayEntry.strategyId entry <> Some id ->
                  DayEntry.strategyId entry' = DayEntry.strategyId entry)
        | None => Journal.dayNotes s' !! key = None
        end)
  /\ Journal.checklistInputs s' = Journal.checklistInputs s
  /\ Journal.strategyBuilderOpen s' = false /\ Journal.editingStrategyId s' = None
  /\ Journal.strategyForm s' = StrategyForm.mk "" "" []
  /\ handleStrategyDelete None s = s /\ handleStrategyDelete (Some 0) s = s.
Proof.
  intros Hid s'. subst s'. unfold handleStrategyDelete. cbn [truthyId].
  destruct (Z.eqb_spec id 0); [contradiction|].
  cbn [closeStrategyBuilder resetStrategyForm setStrategyForm setDayNotes setStrategies
       Journal.dayNotes Journal.strategies Journal.checklistInputs Journal.strategyBuilderOpen
       Journal.editingStrategyId Journal.strategyForm].
  assert (Hlookup : forall key,
            match Journal.dayNotes s !! key with
            | Some entry =>
                exists entry',
                  ((fun entry =>
                      match DayEntry.strategyId entry with
                      | Some linked =>
                          if linked =? id
                          then DayEntry.mk (DayEntry.notes entry) (DayEntry.checklist entry)
                                           (DayEntry.screenshots entry) None
                          else entry
                      | None => entry
                      end) <$> Journal.dayNotes s) !! key = Some entry'
                  /\ DayEntry.notes entry' = DayEntry.notes entry
                  /\ DayEntry.checklist entry' = DayEntry.checklist entry
                  /\ DayEntry.screenshots entry' = DayEntry.screenshots entry
                  /\ (DayEntry.strategyId entry <> Some id ->
                      DayEntry.strategyId entry' = DayEntry.strategyId entry)
                  /\ DayEntry.strategyId entry' <> Some id
            | None =>
                ((fun entry =>
                    match DayEntry.strategyId entry with
                    | Some linked =>
                        if linked =? id
                        then DayEntry.mk (DayEntry.notes entry) (DayEntry.checklist entry)
                                         (DayEntry.screenshots entry) None
                        else entry
                    | None => entry
                    end) <$> Journal.dayNotes s) !! key = None
            end).
  { intros key. rewrite lookup_fmap. destruct (Journal.dayNotes s !! key) as [entry|]; [|reflexivity].
    cbn. eexists. split; [reflexivity|].
    destruct (DayEntry.strategyId entry) as [linked|] eqn:Hlinked.
    - destruct (Z.eqb_spec linked id) as [->|Hother].
      + cbn. repeat split; [contradiction|discriminate].
      + rewrite Hlinked. repeat split. congruence.
    - rewrite Hlinked. repeat split. discriminate. }
  split; [|split; [|split; [|repeat split]]].
  - intros strategy. rewrite filter_In, negb_true_iff, Z.eqb_neq. reflexivity.
  - intros key entry' Hentry. specialize (Hlookup key).
    destruct (Journal.dayNotes s !! key) as [entry|].
    + destruct Hlookup as (e & He & _ & _ & _ & _ & Hno). congruence.
    + congruence.
  - intros key. specialize (Hlookup key). destruct (Journal.dayNotes s !! key) as [entry|].
    + destruct Hlookup as (e & He & H1 & H2 & H3 & H4 & _). exists e. tauto.
    + exact Hlookup.
Qed.

Lemma handleStrategyDelete_unlinks_witness :
  Journal.strategyBuilderOpen (handleStrategyDelete (Some 41) sampleJournal) = false
  /\ Journal.editingStrategyId (handleStrategyDelete (Some 41) sampleJournal) = None
  /\ Journal.strategyForm (handleStrategyDelete (Some 41) sampleJournal) = StrategyForm.mk "" "" []
  /\ handleStrategyDelete None sampleJournal = sampleJournal
  /\ handleStrategyDelete (Some 0) sampleJournal = sampleJournal.
Proof.
  apply (handleStrategyDelete_unlinks 41 sampleJournal). lia.
Defined.

(** ** Months *)

Lemma monthOk_all : forall_from monthOk 0 (Z.to_nat 4800) = true.
Proof. vm_cast_no_check (eq_refl true). Qed.

Lemma days_from_civil_period (y m d e : Z) :
  JS.days_from_civil (y + 400 * e) m d = JS.days_from_civil y m d + 146097 * e.
Proof.
  unfold JS.days_from_civil.
  set (y0 := if m <=? 2 then y - 1 else y).
  replace (if m <=? 2 then y + 400 * e - 1 else y + 400 * e) with (y0 + e * 400)
    by (subst y0; destruct (m <=? 2); lia).
  rewrite Z.div_add by lia.
  replace (y0 + e * 400 - (y0 / 400 + e) * 400) with (y0 - y0 / 400 * 400) by lia. lia.
Qed.

Lemma civil_from_days_period (n e : Z) :
  JS.civil_from_days (n + 146097 * e)
  = let '(y, m, d) := JS.civil_from_days n in (y + 400 * e, m, d).
Proof.
  unfold JS.civil_from_days.
  replace (n + 146097 * e + 719468) with (n + 719468 + e * 146097) by lia.
  rewrite Z.div_add by lia.
  replace (n + 719468 + e * 146097 - ((n + 719468) / 146097 + e) * 146097)
    with (n + 719468 - (n + 719468) / 146097 * 146097) by lia.
  destruct (JS.civil_of_doe _) as [[y m] d]. f_equal. f_equal. lia.
Qed.

Lemma monthStart_period (k e : Z) : monthStart (k + 4800 * e) = monthStart k + 146097 * e.
Proof.
  unfold monthStart.
  replace (k + 4800 * e) with (k + (400 * e) * 12) by lia.
  rewrite Z.div_add, Z.mod_add by lia. apply days_from_civil_period.
Qed.

Lemma monthOk_spec (k : Z) :
  JS.civil_from_days (monthStart k) = (k / 12, k mod 12 + 1, 1)
  /\ 28 <= monthStart (k + 1) - monthStart k <= 31.
Proof.
  pose proof (Z.div_mod k 4800 ltac:(lia)) as Hk.
  pose proof (Z.mod_pos_bound k 4800 ltac:(lia)) as Hb.
  set (k0 := k mod 4800) in *. set (e := k / 4800) in *.
  pose proof (forall_from_range _ _ _ k0 monthOk_all ltac:(lia)) as H.
  unfold monthOk in H.
  replace k with (k0 + 4800 * e) by lia.
  replace (k0 + 4800 * e + 1) with (k0 + 1 + 4800 * e) by lia.
  rewrite !monthStart_period, civil_from_days_period.
  destruct (JS.civil_from_days (monthStart k0)) as [[y m] d].
  repeat (apply andb_true_iff in H as [H ?]).
  replace (k0 + 4800 * e) with (k0 + (400 * e) * 12) by lia.
  rewrite Z.div_add, Z.mod_add by lia.
  split; [f_equal; [f_equal|]; lia|lia].
Qed.

Lemma monthStart_civil (k : Z) :
  JS.civil_from_days (monthStart k) = (k / 12, k mod 12 + 1, 1).
Proof. apply monthOk_spec. Qed.

Lemma monthStart_step (k : Z) : 28 <= monthStart (k + 1) - monthStart k <= 31.
Proof. apply monthOk_spec. Qed.

(** Later months start later, four weeks a month at least. *)
Lemma monthStart_mono (k1 k2 : Z) :
  k1 <= k2 -> 28 * (k2 - k1) <= monthStart k2 - monthStart k1 <= 31 * (k2 - k1).
Proof.
  intros Hle. replace k2 with (k1 + Z.of_nat (Z.to_nat (k2 - k1))) by lia.
  induction (Z.to_nat (k2 - k1)) as [|j IH]; [rewrite Z.add_0_r; lia|].
  pose proof (monthStart_step (k1 + Z.of_nat j)) as Hstep.
  replace (k1 + Z.of_nat (S j)) with (k1 + Z.of_nat j + 1) by lia. lia.
Qed.

Lemma monthOf_split (y m : Z) :
  1 <= m <= 12 -> (y * 12 + (m - 1)) / 12 = y /\ (y * 12 + (m - 1)) mod 12 + 1 = m.
Proof.
  intros Hm. split.
  - symmetry. apply Z.div_unique_pos with (r := m - 1); lia.
  - replace (y * 12 + (m - 1)) with (m - 1 + y * 12) by lia.
    rewrite Z.mod_add by lia. rewrite Z.mod_small by lia. lia.
Qed.

Lemma days_from_civil_day (y m d : Z) :
  JS.days_from_civil y m d = JS.days_from_civil y m 1 + (d - 1).
Proof. unfold JS.days_from_civil, JS.doe_of_civil. lia. Qed.

(** The month of a day starts on the day less its day of the month. *)
Lemma monthOf_start (n : Z) :
  monthStart (monthOf n) = n - (JS.civil_from_days n).2 + 1
  /\ 1 <= (JS.civil_from_days n).2 <= 31.
Proof.
  unfold monthOf, monthStart. pose proof (days_from_civil_from_days n) as H.
  destruct (JS.civil_from_days n) as [[y m] d]. destruct H as (Hback & Hm & Hd).
  destruct (monthOf_split y m Hm) as [-> ->]. cbn [snd].
  rewrite days_from_civil_day in Hback. lia.
Qed.

Lemma dateCode_le (n1 n2 : Z) :
  dateCode (JS.civil_from_days n1) <= dateCode (JS.civil_from_days n2) -> n1 <= n2.
Proof.
  intros Hle. destruct (Z.le_gt_cases n1 n2) as [|Hgt]; [assumption|].
  pose proof (dateCode_mono n2 n1 ltac:(lia)). lia.
Qed.

Lemma dateCode_lt (n1 n2 : Z) :
  dateCode (JS.civil_from_days n1) < dateCode (JS.civil_from_days n2) -> n1 < n2.
Proof.
  intros Hlt. destruct (Z.lt_ge_cases n1 n2) as [|Hge]; [assumption|].
  destruct (decide (n1 = n2)) as [->|]; [lia|].
  pose proof (dateCode_mono n2 n1 ltac:(lia)). lia.
Qed.

Lemma monthStart_code (k : Z) :
  dateCode (JS.civil_from_days (monthStart k)) = (k / 12) * 10000 + (k mod 12 + 1) * 100 + 1.
Proof. rewrite monthStart_civil. reflexivity. Qed.

Lemma next_month_split (k : Z) :
  ((k + 1) / 12 = k / 12 /\ (k + 1) mod 12 = k mod 12 + 1 /\ k mod 12 < 11)
  \/ ((k + 1) / 12 = k / 12 + 1 /\ (k + 1) mod 12 = 0 /\ k mod 12 = 11).
Proof.
  pose proof (Z.div_mod k 12 ltac:(lia)) as Hk. pose proof (Z.mod_pos_bound k 12 ltac:(lia)) as Hb.
  destruct (decide (k mod 12 = 11)) as [H11|H11].
  - right. split; [|split; [|exact H11]].
    + symmetry. apply Z.div_unique_pos with (r := 0); lia.
    + symmetry. apply Z.mod_unique_pos with (q := k / 12 + 1); lia.
  - left. split; [|split; [|lia]].
    + symmetry. apply Z.div_unique_pos with (r := k mod 12 + 1); lia.
    + symmetry. apply Z.mod_unique_pos with (q := k / 12); lia.
Qed.

(** A day lies from the start of its month up to the start of the next. *)
Lemma month_bounds (n : Z) : monthStart (monthOf n) <= n < monthStart (monthOf n + 1).
Proof.
  pose proof (monthOf_start n) as [Hstart Hd]. split; [lia|].
  apply dateCode_lt. rewrite monthStart_code.
  unfold monthOf in *. pose proof (days_from_civil_from_days n) as H.
  destruct (JS.civil_from_days n) as [[y m] d]. destruct H as (_ & Hm & _). cbn [snd] in Hd.
  destruct (monthOf_split y m Hm) as [Hy Hmm].
  destruct (next_month_split (y * 12 + (m - 1))) as [(H1 & H2 & H3)|(H1 & H2 & H3)];
    rewrite H1, H2, ?Hy; unfold dateCode; lia.
Qed.

(** The days from the start of a month up to the start of the next are the
    days of that month, numbered from 1. *)
Lemma month_days (k x : Z) :
  monthStart k <= x < monthStart (k + 1) ->
  JS.civil_from_days x = (k / 12, k mod 12 + 1, x - monthStart k + 1).
Proof.
  intros [Hlo Hhi].
  assert (H1 : dateCode (JS.civil_from_days (monthStart k)) <= dateCode (JS.civil_from_days x)).
  { destruct (decide (monthStart k = x)) as [->|]; [lia|].
    apply Z.lt_le_incl, dateCode_mono. lia. }
  pose proof (dateCode_mono x (monthStart (k + 1)) Hhi) as H2.
  rewrite monthStart_code in H1. rewrite monthStart_code in H2.
  pose proof (days_from_civil_from_days x) as Hx.
  pose proof (Z.mod_pos_bound k 12 ltac:(lia)) as Hb.
  destruct (JS.civil_from_days x) as [[y m] d]. destruct Hx as (Hback & Hm & Hd).
  unfold dateCode in H1, H2.
  assert (Hym : y = k / 12 /\ m = k mod 12 + 1).
  { destruct (next_month_split k) as [(E1 & E2 & E3)|(E1 & E2 & E3)];
      rewrite E1, E2 in H2; lia. }
  destruct Hym as [-> ->]. f_equal.
  rewrite days_from_civil_day in Hback. unfold monthStart. lia.
Qed.

Lemma month_days_monthOf (k x : Z) : monthStart k <= x < monthStart (k + 1) -> monthOf x = k.
Proof.
  intros Hx. unfold monthOf. rewrite (month_days k x Hx).
  pose proof (Z.div_mod k 12 ltac:(lia)). lia.
Qed.

(** The months of the four-digit years. *)
Lemma fourDigitYear_month (n : Z) :
  fourDigitYear n -> 12000 <= monthOf n <= 119999.
Proof.
  intros Hn. pose proof (civil_fourDigitYear n Hn) as H. unfold monthOf.
  destruct (JS.civil_from_days n) as [[y m] d]. lia.
Qed.

Lemma monthOf_monthStart (k : Z) : monthOf (monthStart k) = k.
Proof.
  unfold monthOf. rewrite monthStart_civil.
  pose proof (Z.div_mod k 12 ltac:(lia)). lia.
Qed.

(** ** The [Date] constructor on months *)

Lemma month_index (y mi : Z) :
  JS.days_from_civil (y + mi / 12) (mi mod 12 + 1) 1 = monthStart (y * 12 + mi).
Proof.
  unfold monthStart. f_equal.
  - replace (y * 12 + mi) with (mi + y * 12) by lia. rewrite Z.div_add by lia. lia.
  - replace (y * 12 + mi) with (mi + y * 12) by lia. rewrite Z.mod_add by lia. reflexivity.
Qed.

Lemma makeDate_month (qy qm qd : Q) (y mi d : Z) :
  qy == inject_Z y -> qm == inject_Z mi -> qd == inject_Z d ->
  Z.abs (monthStart (y * 12 + mi) + (d - 1)) <= JS.max_day ->
  JSLib.makeDate (Some qy) (Some qm) (Some qd) = JS.Day (monthStart (y * 12 + mi) + (d - 1)).
Proof.
  intros Hy Hm Hd Hmax. unfold JSLib.makeDate.
  rewrite (trunc_Qeq qy y Hy), (trunc_Qeq qm mi Hm), (trunc_Qeq qd d Hd), month_index.
  destruct (Z.leb_spec (Z.abs (monthStart (y * 12 + mi) + (d - 1))) JS.max_day);
    [reflexivity|lia].
Qed.

Lemma new_Date_month (qy qm qd : Q) (y mi d : Z) :
  qy == inject_Z y -> qm == inject_Z mi -> qd == inject_Z d ->
  100 <= y ->
  Z.abs (monthStart (y * 12 + mi) + (d - 1)) <= JS.max_day ->
  JS.new_Date (Some qy) (Some qm) (Some qd) = JS.Day (monthStart (y * 12 + mi) + (d - 1)).
Proof.
  intros Hy Hm Hd Hyr Hmax. unfold JS.new_Date.
  rewrite (trunc_Qeq qy y Hy), (trunc_Qeq qm mi Hm), (trunc_Qeq qd d Hd).
  destruct (Z.leb_spec y 99); [lia|]. rewrite andb_false_r. rewrite month_index.
  destruct (Z.leb_spec (Z.abs (monthStart (y * 12 + mi) + (d - 1))) JS.max_day);
    [reflexivity|lia].
Qed.

(** The months around the four-digit years lie well inside the days a
    [Date] can hold. *)
Lemma monthStart_bounds (k : Z) :
  10800 <= k <= 121200 -> -400000 <= monthStart k <= 3000000.
Proof.
  intros Hk.
  pose proof (monthStart_mono 10800 k ltac:(lia)) as H1.
  pose proof (monthStart_mono k 121200 ltac:(lia)) as H2.
  assert (E1 : monthStart 10800 = -390809) by (vm_compute; reflexivity).
  assert (E2 : monthStart 121200 = 2969422) by (vm_compute; reflexivity).
  lia.
Qed.

(** ** Dates built from the parts of a day *)

Lemma Qeq_sub_Z (a b : Z) : inject_Z a - inject_Z b == inject_Z (a - b).
Proof. unfold Qminus. rewrite <- inject_Z_opp, <- inject_Z_plus. reflexivity. Qed.

Lemma Qeq_add_Z (a b : Z) : inject_Z a + inject_Z b == inject_Z (a + b).
Proof. rewrite <- inject_Z_plus. reflexivity. Qed.

(** The years 999 to 10000. *)
Lemma near_fourDigitYear (n : Z) :
  firstDay - 365 <= n <= lastDay + 366 ->
  999 <= (JS.civil_from_days n).1.1 <= 10000 /\ Z.abs n <= JS.max_day.
Proof.
  intros [Hlo Hhi].
  assert (H1 : dateCode (JS.civil_from_days (firstDay - 365)) <= dateCode (JS.civil_from_days n)).
  { destruct (decide (firstDay - 365 = n)) as [->|]; [lia|].
    apply Z.lt_le_incl, dateCode_mono. lia. }
  assert (H2 : dateCode (JS.civil_from_days n) <= dateCode (JS.civil_from_days (lastDay + 366))).
  { destruct (decide (n = lastDay + 366)) as [->|]; [lia|].
    apply Z.lt_le_incl, dateCode_mono. lia. }
  assert (E1 : dateCode (JS.civil_from_days (firstDay - 365)) = 9990101)
    by (vm_compute; reflexivity).
  assert (E2 : dateCode (JS.civil_from_days (lastDay + 366)) = 100001231)
    by (vm_compute; reflexivity).
  rewrite E1 in H1. rewrite E2 in H2.
  pose proof (days_from_civil_from_days n) as Hrt.
  assert (Hf : firstDay = -354285) by reflexivity.
  assert (Hl : lastDay = 2932896) by reflexivity.
  destruct (JS.civil_from_days n) as [[y m] d]. cbn [fst]. unfold dateCode in *.
  unfold JS.max_day. lia.
Qed.

(** [new Date(date.getFullYear(), date.getMonth() + j, dd)] is day [dd] of
    the month [j] months after the month of the date. *)
Lemma new_Date_shift (n j dd : Z) (qm qd : Q) :
  qm == inject_Z ((JS.civil_from_days n).1.2 - 1 + j) -> qd == inject_Z dd ->
  100 <= (JS.civil_from_days n).1.1 ->
  Z.abs (monthStart (monthOf n + j) + (dd - 1)) <= JS.max_day ->
  JS.new_Date (JS.getFullYear (JS.Day n)) (Some qm) (Some qd)
  = JS.Day (monthStart (monthOf n + j) + (dd - 1)).
Proof.
  intros Hm Hd Hy Hmax. cbn [JS.getFullYear]. unfold JS.of_Z, monthOf in *.
  destruct (JS.civil_from_days n) as [[y m] d]. cbn [fst snd] in *.
  rewrite (new_Date_month _ _ _ y (m - 1 + j) dd); try assumption; try reflexivity.
  - f_equal. f_equal. f_equal. lia.
  - replace (y * 12 + (m - 1 + j)) with (y * 12 + (m - 1) + j) by lia. exact Hmax.
Qed.

(** [date.setDate(date.getDate() + j)] is the day [j] days later. *)
Lemma setDate_shift (n j : Z) (q : Q) :
  q == inject_Z ((JS.civil_from_days n).2 + j) -> Z.abs (n + j) <= JS.max_day ->
  JSLib.setDate (JS.Day n) (Some q) = JS.Day (n + j).
Proof.
  intros Hq Hmax. unfold JSLib.setDate. cbn [JS.getFullYear JS.getMonth]. unfold JS.of_Z.
  pose proof (monthOf_start n) as [Hstart _]. unfold monthOf in Hstart.
  destruct (JS.civil_from_days n) as [[y m] d]. cbn [fst snd] in *.
  rewrite (makeDate_month _ _ _ y (m - 1) (d + j)); try assumption; try reflexivity.
  - f_equal. lia.
  - replace (monthStart (y * 12 + (m - 1)) + (d + j - 1)) with (n + j) by lia. exact Hmax.
Qed.


Lemma fourDigitYear_near (n : Z) : fourDigitYear n -> firstDay - 365 <= n <= lastDay + 366.
Proof. unfold fourDigitYear. lia. Qed.

(** The months of the four-digit years and their neighbours start on days
    of the years 999 to 10000. *)
Lemma monthStart_near (k : Z) :
  11988 <= k <= 120011 -> firstDay - 365 <= monthStart k <= lastDay + 366.
Proof.
  intros Hk.
  pose proof (monthStart_mono 11988 k ltac:(lia)) as H1.
  pose proof (monthStart_mono k 120011 ltac:(lia)) as H2.
  assert (E1 : monthStart 11988 = firstDay - 365) by (vm_compute; reflexivity).
  assert (E2 : monthStart 120011 = lastDay + 366 - 30) by (vm_compute; reflexivity).
  lia.
Qed.

(** ** Quick ranges *)

Lemma Qfloor_third (a : Z) : Qfloor (inject_Z a / 3) = a / 3.
Proof.
  unfold Qdiv, Qmult, Qinv, inject_Z, Qfloor. cbn [Qnum Qden].
  rewrite Z.mul_1_r. reflexivity.
Qed.

Lemma quarter_start (y m : Z) :
  1 <= m <= 12 ->
  let k := y * 12 + (m - 1) in
  (m - 1) / 3 * 3 - (m - 1) = - (k mod 3) /\ - (m - 1) = - (k mod 12).
Proof.
  intros Hm k. subst k.
  replace (y * 12 + (m - 1)) with (m - 1 + (y * 4) * 3) at 1 by lia.
  replace (y * 12 + (m - 1)) with (m - 1 + y * 12) by lia.
  rewrite !Z.mod_add by lia. rewrite (Z.mod_small (m - 1) 12) by lia.
  pose proof (Z.div_mod (m - 1) 3 ltac:(lia)). lia.
Qed.

Section QuickRanges.

(** A day [today] of a four-digit year, in the month [k], on the weekday
    [w]. *)
Variables (today k w : Z).
Hypothesis Hn : fourDigitYear today.
Hypothesis Ek : monthOf today = k.
Hypothesis Ew : (today + 4) mod 7 = w.

Lemma quick_month : 12000 <= k <= 119999.
Proof. rewrite <- Ek. apply fourDigitYear_month, Hn. Qed.

Lemma quick_bounds : monthStart k <= today < monthStart (k + 1).
Proof. rewrite <- Ek. apply month_bounds. Qed.

Lemma quick_weekday : 0 <= w <= 6.
Proof. rewrite <- Ew. pose proof (Z.mod_pos_bound (today + 4) 7 ltac:(lia)). lia. Qed.

Lemma quick_day (j : Z) : -400 <= j <= 400 -> Z.abs (today + j) <= JS.max_day.
Proof.
  intros Hj. pose proof Hn as Hn'. unfold fourDigitYear in Hn'.
  assert (Hf : firstDay = -354285) by reflexivity.
  assert (Hl : lastDay = 2932896) by reflexivity. unfold JS.max_day. lia.
Qed.

Lemma month_day (k' c : Z) :
  11988 <= k' <= 120011 -> -1 <= c <= 0 -> Z.abs (monthStart k' + c) <= JS.max_day.
Proof.
  intros Hk' Hc. pose proof (monthStart_near k' Hk') as Hms.
  assert (Hf : firstDay = -354285) by reflexivity.
  assert (Hl : lastDay = 2932896) by reflexivity. unfold JS.max_day. lia.
Qed.

Lemma month_year (k' : Z) :
  11988 <= k' <= 120011 -> 100 <= (JS.civil_from_days (monthStart k')).1.1.
Proof.
  intros Hk'. rewrite monthStart_civil. cbn [fst].
  pose proof (Z.div_le_mono 11988 k' 12 ltac:(lia) ltac:(lia)) as Hdiv.
  change (11988 / 12) with 999 in Hdiv. lia.
Qed.

(** A date built from the parts of today. *)
Lemma new_Date_today (j dd : Z) (qm qd : Q) :
  qm == inject_Z ((JS.civil_from_days today).1.2 - 1 + j) -> qd == inject_Z dd ->
  -12 <= j <= 1 -> 0 <= dd <= 1 ->
  JS.new_Date (JS.getFullYear (JS.Day today)) (Some qm) (Some qd)
  = JS.Day (monthStart (k + j) + (dd - 1)).
Proof.
  intros Hqm Hqd Hj Hdd. pose proof quick_month as Hk.
  pose proof (near_fourDigitYear today (fourDigitYear_near _ Hn)) as [Hy _].
  rewrite (new_Date_shift today j dd qm qd Hqm Hqd); rewrite ?Ek;
    [reflexivity|lia|apply month_day; lia].
Qed.

(** A date built from the parts of the first day of a month. *)
Lemma new_Date_monthStart (k' j dd : Z) (qm qd : Q) :
  qm == inject_Z (k' mod 12 + j) -> qd == inject_Z dd ->
  11988 <= k' <= 120010 -> 0 <= j <= 3 -> k' + j <= 120011 -> 0 <= dd <= 1 ->
  JS.new_Date (JS.getFullYear (JS.Day (monthStart k'))) (Some qm) (Some qd)
  = JS.Day (monthStart (k' + j) + (dd - 1)).
Proof.
  intros Hqm Hqd Hk' Hj Hkj Hdd.
  rewrite (new_Date_shift (monthStart k') j dd qm qd); rewrite ?monthOf_monthStart;
    [reflexivity| |exact Hqd|apply month_year; lia|apply month_day; lia].
  rewrite Hqm, monthStart_civil. cbn [fst snd]. f_equiv. lia.
Qed.

Lemma getMonth_monthStart (k' : Z) :
  JS.getMonth (JS.Day (monthStart k')) = Some (inject_Z (k' mod 12)).
Proof.
  cbn [JS.getMonth]. rewrite monthStart_civil. cbn [fst snd]. unfold JS.of_Z.
  repeat f_equal. lia.
Qed.

Lemma quick_quarter :
  let '(y, m, d) := JS.civil_from_days today in
  1 <= m <= 12 /\ (m - 1) / 3 * 3 - (m - 1) = - (k mod 3) /\ - (m - 1) = - (k mod 12).
Proof.
  pose proof (civil_fourDigitYear today Hn) as Hcivil. rewrite <- Ek. unfold monthOf.
  destruct (JS.civil_from_days today) as [[y m] d].
  split; [tauto|]. apply quarter_start. tauto.
Qed.

Lemma startOfWeek_today :
  JSLib.setDate (JS.Day today)
    (JS.sub (JS.getDate (JS.Day today)) (JSLib.getDay (JS.Day today)))
  = JS.Day (today - w).
Proof.
  pose proof quick_weekday as Hw.
  cbn [JS.getDate JSLib.getDay JS.getDay]. rewrite Ew. unfold JS.of_Z, JS.sub.
  rewrite (setDate_shift today (- w)); [f_equal; lia| |apply quick_day; lia].
  rewrite Qeq_sub_Z. f_equiv; lia.
Qed.

Lemma endOfWeek_today :
  JSLib.setDate (JS.Day (today - w)) (JS.add (JS.getDate (JS.Day (today - w))) (JS.of_Z 6))
  = JS.Day (today - w + 6).
Proof.
  pose proof quick_weekday as Hw. cbn [JS.getDate]. unfold JS.of_Z, JS.add.
  rewrite (setDate_shift (today - w) 6); [reflexivity| |].
  - rewrite Qeq_add_Z. reflexivity.
  - replace (today - w + 6) with (today + (6 - w)) by lia. apply quick_day. lia.
Qed.

Lemma startOfMonth_today :
  JS.new_Date (JS.getFullYear (JS.Day today)) (JS.getMonth (JS.Day today)) (JS.of_Z 1)
  = JS.Day (monthStart k).
Proof.
  cbn [JS.getMonth]. unfold JS.of_Z.
  rewrite (new_Date_today 0 1); [f_equal; replace (k + 0) with k by lia; lia| | |lia|lia].
  - f_equiv; lia.
  - reflexivity.
Qed.

Lemma endOfMonth_today :
  JS.new_Date (JS.getFullYear (JS.Day today))
              (JS.add (JS.getMonth (JS.Day today)) (JS.of_Z 1)) (JS.of_Z 0)
  = JS.Day (monthStart (k + 1) - 1).
Proof.
  cbn [JS.getMonth]. unfold JS.of_Z, JS.add.
  rewrite (new_Date_today 1 0); [f_equal; lia| | |lia|lia].
  - rewrite Qeq_add_Z. reflexivity.
  - reflexivity.
Qed.

Lemma thirtyDays_today :
  JSLib.setDate (JS.Day today) (JS.sub (JS.getDate (JS.Day today)) (JS.of_Z 29))
  = JS.Day (today - 29).
Proof.
  cbn [JS.getDate]. unfold JS.of_Z, JS.sub.
  rewrite (setDate_shift today (- 29)); [f_equal; lia| |apply quick_day; lia].
  rewrite Qeq_sub_Z. f_equiv; lia.
Qed.

Lemma monthBefore_today :
  JS.new_Date (JS.getFullYear (JS.Day today))
              (JS.sub (JS.getMonth (JS.Day today)) (JS.of_Z 1)) (JS.of_Z 1)
  = JS.Day (monthStart (k - 1)).
Proof.
  cbn [JS.getMonth]. unfold JS.of_Z, JS.sub.
  rewrite (new_Date_today (- 1) 1);
    [f_equal; replace (k + - 1) with (k - 1) by lia; lia| | |lia|lia].
  - rewrite Qeq_sub_Z. f_equiv; lia.
  - reflexivity.
Qed.

Lemma startOfMonth_monthStart (k' : Z) :
  11988 <= k' <= 120010 ->
  JS.new_Date (JS.getFullYear (JS.Day (monthStart k')))
              (JS.getMonth (JS.Day (monthStart k'))) (JS.of_Z 1)
  = JS.Day (monthStart k').
Proof.
  intros Hk'. rewrite getMonth_monthStart. unfold JS.of_Z.
  rewrite (new_Date_monthStart k' 0 1);
    [f_equal; replace (k' + 0) with k' by lia; lia| | |lia|lia|lia|lia].
  - f_equiv; lia.
  - reflexivity.
Qed.

Lemma endOfMonths_monthStart (k' j : Z) :
  11988 <= k' <= 120008 -> 1 <= j <= 3 ->
  JS.new_Date (JS.getFullYear (JS.Day (monthStart k')))
              (JS.add (JS.getMonth (JS.Day (monthStart k'))) (JS.of_Z j)) (JS.of_Z 0)
  = JS.Day (monthStart (k' + j) - 1).
Proof.
  intros Hk' Hj. rewrite getMonth_monthStart. unfold JS.of_Z, JS.add.
  rewrite (new_Date_monthStart k' j 0); [f_equal; lia| | |lia|lia|lia|lia].
  - rewrite Qeq_add_Z. reflexivity.
  - reflexivity.
Qed.

Lemma startOfQuarter_today :
  JS.new_Date (JS.getFullYear (JS.Day today))
    (JS.mul ((fun q => inject_Z (Qfloor q)) <$> ((fun q => (q / 3)%Q) <$> JS.getMonth (JS.Day today)))
            (JS.of_Z 3))
    (JS.of_Z 1)
  = JS.Day (monthStart (k - k mod 3)).
Proof.
  pose proof quick_quarter as Hq. pose proof (Z.mod_pos_bound k 3 ltac:(lia)) as H3.
  cbn [JS.getMonth]. unfold JS.of_Z. cbn [fmap option_fmap option_map JS.mul].
  rewrite Qfloor_third.
  rewrite (new_Date_today (- (k mod 3)) 1);
    [f_equal; replace (k + - (k mod 3)) with (k - k mod 3) by lia; lia| | |lia|lia].
  - rewrite <- inject_Z_mult. f_equiv.
    destruct (JS.civil_from_days today) as [[y m] d]. cbn [fst snd]. lia.
  - reflexivity.
Qed.

Lemma startOfYear_today :
  JS.new_Date (JS.getFullYear (JS.Day today)) (JS.of_Z 0) (JS.of_Z 1)
  = JS.Day (monthStart (k - k mod 12)).
Proof.
  pose proof quick_quarter as Hq. pose proof (Z.mod_pos_bound k 12 ltac:(lia)) as H12.
  unfold JS.of_Z.
  rewrite (new_Date_today (- (k mod 12)) 1);
    [f_equal; replace (k + - (k mod 12)) with (k - k mod 12) by lia; lia| | |lia|lia].
  - f_equiv. destruct (JS.civil_from_days today) as [[y m] d]. cbn [fst snd]. lia.
  - reflexivity.
Qed.

Lemma getQuickRanges_today :
  Picker.getQuickRanges today
  = [ ("Today", pickerDays today today);
      ("This Week", pickerDays (today - w) (today - w + 6));
      ("This Month", pickerDays (monthStart k) (monthStart (k + 1) - 1));
      ("Last 30 Days", pickerDays (today - 29) today);
      ("Last Month", pickerDays (monthStart (k - 1)) (monthStart k - 1));
      ("This Quarter",
       pickerDays (monthStart (k - k mod 3)) (monthStart (k - k mod 3 + 3) - 1));
      ("YTD", pickerDays (monthStart (k - k mod 12)) today);
      ("All Time", pickerAllTime) ].
Proof.
  pose proof quick_month as Hk. pose proof (Z.mod_pos_bound k 3 ltac:(lia)) as H3.
  unfold Picker.getQuickRanges, pickerDays, pickerAllTime.
  repeat match goal with
         | |- (_ :: _) = (_ :: _) => f_equal
         | |- (_, _) = (_, _) => f_equal
         | |- PickerRange.mk _ _ = PickerRange.mk _ _ => f_equal
         | |- Some _ = Some _ => f_equal
         end; cbn zeta.
  - apply startOfWeek_today.
  - rewrite startOfWeek_today. apply endOfWeek_today.
  - apply startOfMonth_today.
  - apply endOfMonth_today.
  - apply thirtyDays_today.
  - rewrite monthBefore_today. apply startOfMonth_monthStart. lia.
  - rewrite monthBefore_today, (endOfMonths_monthStart (k - 1) 1) by lia.
    replace (k - 1 + 1) with k by lia. reflexivity.
  - apply startOfQuarter_today.
  - rewrite startOfQuarter_today. apply endOfMonths_monthStart; lia.
  - apply startOfYear_today.
Qed.

Lemma quick_around :
  monthStart (k - 1) < monthStart k
  /\ monthStart (k - k mod 3) <= today < monthStart (k - k mod 3 + 3)
  /\ monthStart (k - k mod 12) <= today.
Proof.
  pose proof quick_bounds as Hb.
  pose proof (Z.mod_pos_bound k 3 ltac:(lia)) as H3.
  pose proof (Z.mod_pos_bound k 12 ltac:(lia)) as H12.
  pose proof (monthStart_step (k - 1)) as Hs. replace (k - 1 + 1) with k in Hs by lia.
  pose proof (monthStart_mono (k - k mod 3) k ltac:(lia)) as H1.
  pose proof (monthStart_mono (k + 1) (k - k mod 3 + 3) ltac:(lia)) as H2.
  pose proof (monthStart_mono (k - k mod 12) k ltac:(lia)) as H4. lia.
Qed.

End QuickRanges.

(** X21: for a day of a four-digit year, the ranges of the quick-range
    presets: today alone; the week from Sunday to Saturday that holds today;
    the month that holds today, from its first to its last day; the thirty
    days that end today; the month before, from its first to its last day;
    the quarter that holds today; the year from 1 January to today; and no
    bounds at all. Every range but "Last Month" and "All Time" holds today. *)
Theorem getQuickRanges_ranges (today : Z) :
  fourDigitYear today ->
  let k := monthOf today in
  let w := (today + 4) mod 7 in
  Picker.getQuickRanges today
  = [ ("Today", pickerDays today today);
      ("This Week", pickerDays (today - w) (today - w + 6));
      ("This Month", pickerDays (monthStart k) (monthStart (k + 1) - 1));
      ("Last 30 Days", pickerDays (today - 29) today);
      ("Last Month", pickerDays (monthStart (k - 1)) (monthStart k - 1));
      ("This Quarter",
       pickerDays (monthStart (k - k mod 3)) (monthStart (k - k mod 3 + 3) - 1));
      ("YTD", pickerDays (monthStart (k - k mod 12)) today);
      ("All Time", pickerAllTime) ]
  /\ 0 <= w <= 6
  /\ monthStart k <= today < monthStart (k + 1)
  /\ monthStart (k - 1) < monthStart k
  /\ monthStart (k - k mod 3) <= today < monthStart (k - k mod 3 + 3)
  /\ monthStart (k - k mod 12) <= today.
Proof.
  intros Hn k w.
  split; [apply getQuickRanges_today; solve [exact Hn|reflexivity]|].
  split; [apply (quick_weekday today); reflexivity|].
  split; [apply quick_bounds; reflexivity|].
  apply quick_around; reflexivity.
Qed.

Lemma getQuickRanges_ranges_witness :
  Picker.getQuickRanges 19724
  = [ ("Today", pickerDays 19724 19724);
      ("This Week", pickerDays 19722 19728);
      ("This Month", pickerDays 19723 19753);
      ("Last 30 Days", pickerDays 19695 19724);
      ("Last Month", pickerDays 19692 19722);
      ("This Quarter", pickerDays 19723 19813);
      ("YTD", pickerDays 19723 19724);
      ("All Time", pickerAllTime) ].
Proof.
  assert (Hn : fourDigitYear 19724) by (unfold fourDigitYear; vm_compute; split; discriminate).
  vm_cast_no_check (proj1 (getQuickRanges_ranges 19724 Hn)).
Defined.

Lemma startOfMonth_near (n : Z) :
  firstDay - 365 <= n <= lastDay + 366 ->
  JS.new_Date (JS.getFullYear (JS.Day n)) (JS.getMonth (JS.Day n)) (JS.of_Z 1)
  = JS.Day (monthStart (monthOf n)).
Proof.
  intros Hn. destruct (near_fourDigitYear n Hn) as [Hy Hmax].
  pose proof (monthOf_start n) as [Hstart Hd].
  cbn [JS.getMonth]. unfold JS.of_Z.
  rewrite (new_Date_shift n 0 1).
  - f_equal. replace (monthOf n + 0) with (monthOf n) by lia. lia.
  - rewrite Z.add_0_r. reflexivity.
  - reflexivity.
  - lia.
  - replace (monthOf n + 0) with (monthOf n) by lia.
    assert (Hf : firstDay = -354285) by reflexivity.
    assert (Hl : lastDay = 2932896) by reflexivity. unfold JS.max_day. lia.
Qed.




(** ** Calendar grids *)

Lemma Qeq_bool_inject_Z (a b : Z) : Qeq_bool (inject_Z a) (inject_Z b) = (a =? b).
Proof.
  apply eq_true_iff_eq. rewrite Qeq_bool_iff, Z.eqb_eq. apply inject_Z_injective.
Qed.

(** The month number of a day is the month of the day within its year. *)
Lemma month_number (x : Z) : (JS.civil_from_days x).1.2 - 1 = monthOf x mod 12.
Proof.
  unfold monthOf. pose proof (days_from_civil_from_days x) as H.
  destruct (JS.civil_from_days x) as [[y m] d]. destruct H as (_ & Hm & _). cbn [fst snd].
  replace (y * 12 + (m - 1)) with (m - 1 + y * 12) by lia.
  rewrite Z.mod_add by lia. rewrite Z.mod_small by lia. reflexivity.
Qed.

(** Within a month of a day of month [k], before or after, the month
    number alone tells whether a day lies in month [k]. *)
Lemma month_number_near (k x : Z) :
  monthStart (k - 1) <= x < monthStart (k + 2) ->
  ((JS.civil_from_days x).1.2 - 1 =? k mod 12) = (monthOf x =? k).
Proof.
  intros Hx. rewrite month_number.
  pose proof (month_bounds x) as Hb.
  assert (Hnear : k - 1 <= monthOf x <= k + 1).
  { split.
    - destruct (Z.le_gt_cases (k - 1) (monthOf x)) as [|Hlt]; [assumption|].
      pose proof (monthStart_mono (monthOf x + 1) (k - 1) ltac:(lia)). lia.
    - destruct (Z.le_gt_cases (monthOf x) (k + 1)) as [|Hgt]; [assumption|].
      pose proof (monthStart_mono (k + 2) (monthOf x) ltac:(lia)). lia. }
  pose proof (Z.mod_pos_bound k 12 ltac:(lia)) as Hk.
  destruct (Z.eqb_spec (monthOf x) k) as [->|Hne]; [apply Z.eqb_refl|].
  apply Z.eqb_neq. intros Heq.
  assert (Hcase : monthOf x = k - 1 \/ monthOf x = k + 1) by lia.
  destruct Hcase as [E|E]; rewrite E in Heq.
  - destruct (next_month_split (k - 1)) as [(_ & H2 & _)|(_ & H2 & H3)];
      replace (k - 1 + 1) with k in * by lia; lia.
  - destruct (next_month_split k) as [(_ & H2 & _)|(_ & H2 & H3)]; lia.
Qed.

Lemma monthStart_day (k c : Z) :
  12000 <= k <= 119999 -> -6 <= c <= 42 -> Z.abs (monthStart k + c) <= JS.max_day.
Proof.
  intros Hk Hc. pose proof (monthStart_near k ltac:(lia)) as Hms.
  assert (Hf : firstDay = -354285) by reflexivity.
  assert (Hl : lastDay = 2932896) by reflexivity. unfold JS.max_day. lia.
Qed.

Lemma seqZ_shift (a len : Z) : seqZ a len = (fun i => a + i) <$> seqZ 0 len.
Proof. rewrite <- (Z.add_0_r a) at 1. symmetry. apply (fmap_add_seqZ a 0 len). Qed.

Section MonthGrid.

(** A day [n] of a four-digit year, in the month [k], whose first day has
    the weekday [w]. *)
Variables (n k w : Z).
Hypothesis Hn : fourDigitYear n.
Hypothesis Ek : monthOf n = k.
Hypothesis Ew : (monthStart k + 4) mod 7 = w.

Lemma grid_month : 12000 <= k <= 119999.
Proof. rewrite <- Ek. apply fourDigitYear_month, Hn. Qed.

Lemma grid_weekday : 0 <= w <= 6.
Proof. rewrite <- Ew. pose proof (Z.mod_pos_bound (monthStart k + 4) 7 ltac:(lia)). lia. Qed.

Lemma grid_start :
  JS.new_Date (JS.getFullYear (JS.Day n)) (JS.getMonth (JS.Day n)) (JS.of_Z 1)
  = JS.Day (monthStart k).
Proof. rewrite startOfMonth_near, Ek; [reflexivity|apply fourDigitYear_near, Hn]. Qed.

(** A date built from the parts of the first day of the month. *)
Lemma grid_new_Date (j dd : Z) (qm qd : Q) :
  qm == inject_Z (k mod 12 + j) -> qd == inject_Z dd -> 0 <= j <= 1 -> -5 <= dd <= 32 ->
  JS.new_Date (JS.getFullYear (JS.Day (monthStart k))) (Some qm) (Some qd)
  = JS.Day (monthStart (k + j) + (dd - 1)).
Proof.
  intros Hqm Hqd Hj Hdd. pose proof grid_month as Hk.
  rewrite (new_Date_shift (monthStart k) j dd qm qd); rewrite ?monthOf_monthStart.
  - reflexivity.
  - rewrite Hqm, monthStart_civil. cbn [fst snd]. f_equiv. lia.
  - exact Hqd.
  - apply month_year. lia.
  - pose proof (monthStart_step k) as Hs. destruct (decide (j = 0)) as [->|Hj1].
    + rewrite Z.add_0_r. apply monthStart_day; lia.
    + replace j with 1 by lia.
      replace (monthStart (k + 1) + (dd - 1))
        with (monthStart k + (monthStart (k + 1) - monthStart k + (dd - 1))) by lia.
      pose proof (monthStart_near k ltac:(lia)) as Hms.
      assert (Hf : firstDay = -354285) by reflexivity.
      assert (Hl : lastDay = 2932896) by reflexivity. unfold JS.max_day. lia.
Qed.

Lemma grid_same_year :
  JS.getFullYear (JS.Day (monthStart k)) = JS.getFullYear (JS.Day n)
  /\ JS.getMonth (JS.Day n) = Some (inject_Z (k mod 12)).
Proof.
  pose proof (monthOf_start n) as [Hstart Hd]. rewrite Ek in Hstart.
  pose proof (month_bounds n) as Hb. rewrite Ek in Hb.
  pose proof (month_days k n Hb) as Hc.
  cbn [JS.getFullYear JS.getMonth]. rewrite monthStart_civil, Hc. cbn [fst snd].
  split; [reflexivity|]. unfold JS.of_Z. repeat f_equal. lia.
Qed.

Lemma matrixStart_day :
  JS.new_Date (JS.getFullYear (JS.Day (monthStart k))) (JS.getMonth (JS.Day (monthStart k)))
              (JS.sub (JS.of_Z 1) (JSLib.getDay (JS.Day (monthStart k))))
  = JS.Day (monthStart k - w).
Proof.
  pose proof grid_weekday as Hw. rewrite getMonth_monthStart.
  cbn [JSLib.getDay JS.getDay]. rewrite Ew. unfold JS.of_Z, JS.sub.
  rewrite (grid_new_Date 0 (1 - w)); [f_equal; rewrite Z.add_0_r; lia| | |lia|lia].
  - f_equiv; lia.
  - apply Qeq_sub_Z.
Qed.

Lemma matrix_cell (index : Z) :
  0 <= index < 42 ->
  JSLib.setDate (JS.Day (monthStart k - w))
                (JS.add (JS.getDate (JS.Day (monthStart k - w))) (JS.of_Z index))
  = JS.Day (monthStart k - w + index).
Proof.
  intros Hi. pose proof grid_weekday as Hw. pose proof grid_month as Hk.
  cbn [JS.getDate]. unfold JS.of_Z, JS.add.
  rewrite (setDate_shift (monthStart k - w) index); [reflexivity| |].
  - apply Qeq_add_Z.
  - replace (monthStart k - w + index) with (monthStart k + (index - w)) by lia.
    apply monthStart_day; lia.
Qed.

Lemma matrix_flag (x : Z) :
  monthStart k - 6 <= x < monthStart k + 42 ->
  JSLib.num_eqb (JS.getMonth (JS.Day x)) (JS.getMonth (JS.Day n)) = sameMonth n x.
Proof.
  intros Hx. rewrite (proj2 grid_same_year). cbn [JS.getMonth]. unfold JS.of_Z, JSLib.num_eqb.
  rewrite Qeq_bool_inject_Z. unfold sameMonth. rewrite Ek, (Z.eqb_sym k).
  apply month_number_near.
  pose proof (monthStart_step (k - 1)) as S1. replace (k - 1 + 1) with k in S1 by lia.
  pose proof (monthStart_mono k (k + 2) ltac:(lia)) as S2. lia.
Qed.

Lemma generateCalendarMatrix_month :
  generateCalendarMatrix (JS.Day n)
  = (fun x => Cell.mk (JS.Day x) (sameMonth n x)) <$> seqZ (monthStart k - w) 42.
Proof.
  pose proof grid_weekday as Hw. unfold generateCalendarMatrix. cbn zeta.
  rewrite grid_start, matrixStart_day.
  rewrite (seqZ_shift (monthStart k - w)), <- list_fmap_compose. apply list_fmap_ext. intros i index Hindex.
  apply list_elem_of_lookup_2, elem_of_seqZ in Hindex. cbn [compose].
  rewrite matrix_cell by lia. f_equal. apply matrix_flag. lia.
Qed.

Lemma grid_sunday : (monthStart k - w + 4) mod 7 = 0.
Proof.
  rewrite <- Ew. pose proof (Z.div_mod (monthStart k + 4) 7 ltac:(lia)) as H.
  replace (monthStart k - (monthStart k + 4) mod 7 + 4)
    with (0 + (monthStart k + 4) / 7 * 7) by lia.
  rewrite Z.mod_add by lia. reflexivity.
Qed.

Lemma grid_holds_month (x : Z) :
  sameMonth n x = true -> monthStart k <= x < monthStart (k + 1).
Proof.
  unfold sameMonth. rewrite Ek. intros H. apply Z.eqb_eq in H.
  pose proof (month_bounds x) as Hb. rewrite <- H in Hb. exact Hb.
Qed.

End MonthGrid.

(** X23: for a day of a four-digit year, [generateCalendarMatrix] gives
    42 cells that hold 42 consecutive days, the first a Sunday, the Sunday on
    or before the first day of the month of the base date; every day of that
    month is among them, and the [currentMonth] flag of a cell is set exactly
    when its day lies in that month of that year. *)
Theorem generateCalendarMatrix_grid (n : Z) :
  fourDigitYear n ->
  let k := monthOf n in
  let first := monthStart k - (monthStart k + 4) mod 7 in
  generateCalendarMatrix (JS.Day n)
  = (fun x => Cell.mk (JS.Day x) (sameMonth n x)) <$> seqZ first 42
  /\ (first + 4) mod 7 = 0
  /\ first <= monthStart k < first + 7
  /\ (forall x, sameMonth n x = true -> first <= x < first + 42).
Proof.
  intros Hn k first. subst first.
  pose proof (grid_weekday k _ eq_refl) as Hw.
  split; [apply generateCalendarMatrix_month; solve [exact Hn|reflexivity]|].
  split; [apply (grid_sunday k); reflexivity|]. split; [lia|].
  intros x Hx. apply (grid_holds_month n k eq_refl) in Hx.
  pose proof (monthStart_step k). lia.
Qed.

Lemma generateCalendarMatrix_grid_witness :
  generateCalendarMatrix (JS.Day 19724)
  = (fun x => Cell.mk (JS.Day x) (sameMonth 19724 x)) <$> seqZ 19722 42.
Proof.
  assert (Hn : fourDigitYear 19724) by (unfold fourDigitYear; vm_compute; split; discriminate).
  vm_cast_no_check (proj1 (generateCalendarMatrix_grid 19724 Hn)).
Defined.

(** The empty cells that fill the last week. *)
Lemma mod7_succ (a : nat) :
  (S a mod 7 = if a mod 7 =? 6 then 0 else S (a mod 7))%nat.
Proof.
  pose proof (Nat.div_mod_eq a 7) as Ha. pose proof (Nat.mod_upper_bound a 7 ltac:(lia)) as Hb.
  destruct (Nat.eqb_spec (a mod 7) 6) as [H6|H6]; symmetry.
  - apply Nat.mod_unique with (q := S (a / 7)); lia.
  - apply Nat.mod_unique with (q := (a / 7)%nat); lia.
Qed.

Lemma padWeek_pads (fuel : nat) (cells : list (option JS.Date)) :
  ((7 - length cells mod 7) mod 7 <= fuel)%nat ->
  padWeek fuel cells = cells ++ replicate ((7 - length cells mod 7) mod 7) None.
Proof.
  revert cells. induction fuel as [|fuel IH]; intros cells Hfuel.
  - replace ((7 - length cells mod 7) mod 7)%nat with 0%nat by lia.
    simpl. symmetry. apply app_nil_r.
  - cbn [padWeek]. pose proof (Nat.mod_upper_bound (length cells) 7 ltac:(lia)) as Hb.
    destruct (Nat.eqb_spec (length cells mod 7) 0) as [H0|H0].
    + rewrite H0. simpl. symmetry. apply app_nil_r.
    + assert (Hpad : ((7 - length cells mod 7) mod 7
                      = S ((7 - length (cells ++ [None]) mod 7) mod 7))%nat).
      { rewrite length_app. cbn [length]. rewrite Nat.add_1_r, mod7_succ.
        rewrite (Nat.mod_small (7 - length cells mod 7)) by lia.
        destruct (Nat.eqb_spec (length cells mod 7) 6) as [H6|H6].
        - rewrite H6. reflexivity.
        - rewrite (Nat.mod_small (7 - S (length cells mod 7))) by lia. lia. }
      rewrite IH by lia. rewrite Hpad, <- app_assoc. reflexivity.
Qed.

Lemma padWeek_length (cells : list (option JS.Date)) :
  (length (cells ++ replicate ((7 - length cells mod 7) mod 7) None) mod 7 = 0)%nat.
Proof.
  rewrite length_app, length_replicate.
  pose proof (Nat.div_mod_eq (length cells) 7) as Ha.
  pose proof (Nat.mod_upper_bound (length cells) 7 ltac:(lia)) as Hb.
  destruct (Nat.eqb_spec (length cells mod 7) 0) as [H0|H0].
  - rewrite H0. simpl. rewrite Nat.add_0_r. exact H0.
  - rewrite (Nat.mod_small (7 - length cells mod 7)) by lia.
    symmetry. apply Nat.mod_unique with (q := S (length cells / 7)); lia.
Qed.

Section CalendarCells.

(** A day [n] of a four-digit year, in the month [k], whose first day has
    the weekday [w]. *)
Variables (n k w : Z).
Hypothesis Hn : fourDigitYear n.
Hypothesis Ek : monthOf n = k.
Hypothesis Ew : (monthStart k + 4) mod 7 = w.

Lemma cells_totalDays :
  JS.getDate (JS.new_Date (JS.getFullYear (JS.Day n))
                          (JS.add (JS.getMonth (JS.Day n)) (JS.of_Z 1)) (JS.of_Z 0))
  = JS.of_Z (monthStart (k + 1) - monthStart k).
Proof.
  pose proof (grid_month n k Hn Ek) as Hk.
  rewrite (endOfMonth_today n k Hn Ek).
  pose proof (monthStart_step k) as Hs.
  cbn [JS.getDate]. rewrite (month_days k) by lia. cbn [snd]. f_equal. lia.
Qed.

Lemma cells_day (day : Z) :
  1 <= day <= 31 ->
  JS.new_Date (JS.getFullYear (JS.Day n)) (JS.getMonth (JS.Day n)) (JS.of_Z day)
  = JS.Day (monthStart k + (day - 1)).
Proof.
  intros Hday. pose proof (grid_month n k Hn Ek) as Hk.
  pose proof (near_fourDigitYear n (fourDigitYear_near _ Hn)) as [Hy _].
  cbn [JS.getMonth]. unfold JS.of_Z.
  rewrite (new_Date_shift n 0 day); rewrite ?Ek.
  - f_equal. replace (k + 0) with k by lia. reflexivity.
  - f_equiv. lia.
  - reflexivity.
  - lia.
  - replace (k + 0) with k by lia. apply monthStart_day; lia.
Qed.

(** The cells before the last week is filled. *)
Lemma cells_unpadded :
  replicate (Z.to_nat (default 0
     (JS.getDay (JS.new_Date (JS.getFullYear (JS.Day n)) (JS.getMonth (JS.Day n)) (JS.of_Z 1)))))
     None
  ++ ((fun day => Some (JS.new_Date (JS.getFullYear (JS.Day n)) (JS.getMonth (JS.Day n))
                                    (JS.of_Z day)))
        <$> seqZ 1 (default 0
              (Qfloor <$> JS.getDate
                 (JS.new_Date (JS.getFullYear (JS.Day n))
                              (JS.add (JS.getMonth (JS.Day n)) (JS.of_Z 1)) (JS.of_Z 0)))))
  = replicate (Z.to_nat w) None
    ++ ((fun x => Some (JS.Day x)) <$> seqZ (monthStart k) (monthStart (k + 1) - monthStart k)).
Proof.
  pose proof (monthStart_step k) as Hs.
  rewrite (grid_start n k Hn Ek), cells_totalDays. cbn [JS.getDay default].
  rewrite Ew. f_equal.
  replace (default 0 (Qfloor <$> JS.of_Z (monthStart (k + 1) - monthStart k)))
    with (monthStart (k + 1) - monthStart k)
    by (unfold JS.of_Z; cbn [fmap option_fmap option_map default]; symmetry; apply Qfloor_Z).
  rewrite (seqZ_shift 1), (seqZ_shift (monthStart k)), <- !list_fmap_compose.
  apply list_fmap_ext. intros i index Hindex.
  apply list_elem_of_lookup_2, elem_of_seqZ in Hindex. cbn [compose].
  rewrite cells_day by lia. repeat f_equal. lia.
Qed.

End CalendarCells.

(** X24: for a day of a four-digit year, the cells of the trading
    calendar are one empty cell for each weekday before the first day of the
    month, then the days of the month in order, then fewer than seven empty
    cells that fill the last week: whole weeks, six at most, in which every
    day stands in the column of its weekday; the loop that fills the last
    week ends by its own test. *)
Theorem calendarCells_grid (n : Z) :
  fourDigitYear n ->
  let k := monthOf n in
  let cells := calendarCells (JS.Day n) in
  let lead := Z.to_nat ((monthStart k + 4) mod 7) in
  let days :=
    (fun x => Some (JS.Day x)) <$> seqZ (monthStart k) (monthStart (k + 1) - monthStart k) in
  exists trail : nat,
    cells = replicate lead None ++ days ++ replicate trail None
    /\ (trail < 7)%nat /\ (length cells mod 7 = 0)%nat /\ (length cells <= 42)%nat
    /\ (forall fuel, (6 <= fuel)%nat -> padWeek fuel (replicate lead None ++ days) = cells)
    /\ (forall i x,
          cells !! i = Some (Some (JS.Day x)) ->
          (x + 4) mod 7 = Z.of_nat i mod 7 /\ sameMonth n x = true)
    /\ (forall x, sameMonth n x = true -> exists i, cells !! i = Some (Some (JS.Day x))).
Proof.
  intros Hn k cells lead days.
  assert (Ek : monthOf n = k) by reflexivity.
  assert (Elead : lead = Z.to_nat ((monthStart k + 4) mod 7)) by reflexivity.
  clearbody k lead.
  pose proof (grid_weekday k _ eq_refl) as Hw.
  pose proof (monthStart_step k) as Hs.
  set (unpadded := replicate lead None ++ days).
  assert (Hlen : length unpadded = (lead + Z.to_nat (monthStart (k + 1) - monthStart k))%nat).
  { subst unpadded days. rewrite length_app, length_replicate, length_fmap, length_seqZ.
    reflexivity. }
  set (trail := ((7 - length unpadded mod 7) mod 7)%nat).
  assert (Htrail : (trail < 7)%nat) by (apply Nat.mod_upper_bound; lia).
  assert (Hcells : forall fuel, (6 <= fuel)%nat -> padWeek fuel unpadded = unpadded ++ replicate trail None).
  { intros fuel Hfuel. apply padWeek_pads. fold trail. lia. }
  assert (Hdef : cells = unpadded ++ replicate trail None).
  { subst cells. unfold calendarCells. cbn zeta.
    rewrite (cells_unpadded n k _ Hn Ek eq_refl), <- Elead. fold days. fold unpadded.
    apply Hcells. lia. }
  assert (Hmod : (length cells mod 7 = 0)%nat).
  { rewrite Hdef. apply padWeek_length. }
  assert (Hday : forall i x, cells !! i = Some (Some (JS.Day x)) ->
                   (lead <= i)%nat /\ x = monthStart k + (Z.of_nat i - Z.of_nat lead)
                   /\ monthStart k <= x < monthStart (k + 1)).
  { intros i x Hi. rewrite Hdef in Hi. unfold unpadded in Hi.
    rewrite <- app_assoc in Hi. rewrite lookup_app in Hi.
    destruct (replicate lead None !! i) as [c|] eqn:Hlead.
    - apply lookup_replicate in Hlead as [-> _]. discriminate.
    - apply lookup_replicate_None in Hlead. rewrite length_replicate in Hi.
      rewrite lookup_app in Hi.
      destruct (days !! (i - lead)%nat) as [c|] eqn:Hd.
      + subst days. rewrite list_lookup_fmap in Hd.
        destruct (seqZ _ _ !! (i - lead)%nat) as [x'|] eqn:Hx; [|discriminate].
        apply lookup_seqZ in Hx as [-> Hlt]. cbn in Hd. injection Hd as <-.
        injection Hi as <-. split; [exact Hlead|]. split; lia.
      + apply lookup_replicate in Hi as [Hc _]. discriminate. }
  exists trail. split; [rewrite Hdef; unfold unpadded; rewrite <- app_assoc; reflexivity|].
  split; [exact Htrail|]. split; [exact Hmod|]. split; [|split; [|split]].
  - assert (Hle : (length cells < 49)%nat).
    { rewrite Hdef, length_app, length_replicate, Hlen. lia. }
    pose proof (Nat.div_mod_eq (length cells) 7) as Hdiv. rewrite Hmod in Hdiv. lia.
  - intros fuel Hfuel. rewrite Hdef. apply Hcells, Hfuel.
  - intros i x Hi. destruct (Hday i x Hi) as (Hlead & Hx & Hin). split.
    + rewrite Hx.
      replace (monthStart k + (Z.of_nat i - Z.of_nat lead) + 4)
        with (Z.of_nat i + (monthStart k + 4) / 7 * 7)
        by (pose proof (Z.div_mod (monthStart k + 4) 7 ltac:(lia)); lia).
      apply Z.mod_add. lia.
    + unfold sameMonth. apply Z.eqb_eq. rewrite Ek. symmetry. apply month_days_monthOf. exact Hin.
  - intros x Hx. apply (grid_holds_month n k Ek) in Hx.
    exists (lead + Z.to_nat (x - monthStart k))%nat. rewrite Hdef. unfold unpadded.
    rewrite <- app_assoc, lookup_app_r by (rewrite length_replicate; lia).
    rewrite length_replicate. replace (lead + Z.to_nat (x - monthStart k) - lead)%nat
      with (Z.to_nat (x - monthStart k)) by lia.
    apply lookup_app_l_Some. subst days. rewrite list_lookup_fmap.
    assert (Hseq : seqZ (monthStart k) (monthStart (k + 1) - monthStart k)
                     !! Z.to_nat (x - monthStart k) = Some x).
    { apply lookup_seqZ. lia. }
    rewrite Hseq. reflexivity.
Qed.

Lemma calendarCells_grid_witness :
  exists trail : nat,
    calendarCells (JS.Day 19724)
    = replicate (Z.to_nat ((monthStart (monthOf 19724) + 4) mod 7)) None
      ++ ((fun x => Some (JS.Day x))
            <$> seqZ (monthStart (monthOf 19724))
                     (monthStart (monthOf 19724 + 1) - monthStart (monthOf 19724)))
      ++ replicate trail None.
Proof.
  assert (Hn : fourDigitYear 19724) by (unfold fourDigitYear; vm_compute; split; discriminate).
  destruct (calendarCells_grid 19724 Hn) as (trail & H & _). exists trail. exact H.
Defined.

(** ** The month menu *)

Lemma monthStart_ltb (a b : Z) : (monthStart a <? monthStart b) = (a <? b).
Proof.
  destruct (Z.ltb_spec a b) as [Hlt|Hge].
  - pose proof (monthStart_mono a b ltac:(lia)). apply Z.ltb_lt. lia.
  - pose proof (monthStart_mono b a ltac:(lia)). apply Z.ltb_ge. lia.
Qed.

Lemma monthStart_leb (a b : Z) : (monthStart a <=? monthStart b) = (a <=? b).
Proof.
  destruct (Z.leb_spec a b) as [Hle|Hgt].
  - pose proof (monthStart_mono a b ltac:(lia)). apply Z.leb_le. lia.
  - pose proof (monthStart_mono b a ltac:(lia)). apply Z.leb_gt. lia.
Qed.

(** A month of the same year counted from the start of month [k]. *)
Lemma new_Date_from_month (k j : Z) (qm : Q) :
  qm == inject_Z (k mod 12 + j) ->
  11988 <= k <= 120011 -> 10800 <= k + j <= 121200 ->
  JS.new_Date (JS.getFullYear (JS.Day (monthStart k))) (Some qm) (JS.of_Z 1)
  = JS.Day (monthStart (k + j)).
Proof.
  intros Hqm Hk Hkj. unfold JS.of_Z.
  rewrite (new_Date_shift (monthStart k) j 1 qm); rewrite ?monthOf_monthStart.
  - f_equal. lia.
  - rewrite Hqm, monthStart_civil. cbn [fst snd]. f_equiv. lia.
  - reflexivity.
  - apply month_year, Hk.
  - pose proof (monthStart_bounds (k + j) Hkj). unfold JS.max_day. lia.
Qed.

Lemma setMonth_monthStart (k : Z) :
  11989 <= k <= 120011 ->
  JSLib.setMonth (JS.Day (monthStart k))
                 (JS.sub (JS.getMonth (JS.Day (monthStart k))) (JS.of_Z 1))
  = JS.Day (monthStart (k - 1)).
Proof.
  intros Hk. unfold JSLib.setMonth. rewrite getMonth_monthStart.
  cbn [JS.getFullYear JS.getDate]. rewrite monthStart_civil. cbn [fst snd].
  unfold JS.of_Z, JS.sub.
  rewrite (makeDate_month _ _ _ (k / 12) (k mod 12 - 1) 1).
  - f_equal. replace (k / 12 * 12 + (k mod 12 - 1)) with (k - 1)
      by (pose proof (Z.div_mod k 12 ltac:(lia)); lia). lia.
  - reflexivity.
  - apply Qeq_sub_Z.
  - reflexivity.
  - replace (k / 12 * 12 + (k mod 12 - 1)) with (k - 1)
      by (pose proof (Z.div_mod k 12 ltac:(lia)); lia).
    pose proof (monthStart_bounds (k - 1) ltac:(lia)). unfold JS.max_day. lia.
Qed.

Lemma monthOption_cursor (k : Z) :
  MonthOption.mk (JS.show (JS.getFullYear (JS.Day (monthStart k))) +:+ "-"
                  +:+ JS.show (JS.getMonth (JS.Day (monthStart k))))
                 (monthLabel (JS.Day (monthStart k))) (JS.Day (monthStart k))
  = monthOption k.
Proof.
  unfold monthOption, monthLabel. cbn [JS.getFullYear JS.getMonth].
  rewrite monthStart_civil. cbn [fst snd]. unfold JS.of_Z.
  rewrite !(show_Qeq _ _ (Qeq_refl _)).
  replace (k mod 12 + 1 - 1) with (k mod 12) by lia. reflexivity.
Qed.

(** The loop of the menu, from month [k] down to month [low]. *)
Lemma monthsDown_months (fuel : nat) (k low : Z) :
  11989 <= low -> k <= 119999 -> (Z.to_nat (k - low + 1) <= fuel)%nat ->
  monthsDown fuel (JS.Day (monthStart k)) (JS.Day (monthStart low))
  = (fun i => monthOption (k - i)) <$> seqZ 0 (k - low + 1).
Proof.
  revert k. induction fuel as [|fuel IH]; intros k Hlow Hk Hfuel.
  - rewrite seqZ_nil by lia. reflexivity.
  - cbn [monthsDown]. unfold JS.date_ge, JS.date_le. rewrite monthStart_leb.
    destruct (Z.leb_spec low k) as [Hle|Hgt]; [|rewrite seqZ_nil by lia; reflexivity].
    rewrite monthOption_cursor, setMonth_monthStart by lia.
    rewrite IH by lia. rewrite (seqZ_cons 0 (k - low + 1)) by lia.
    rewrite fmap_cons, Z.sub_0_r. f_equal.
    replace (Z.pred (k - low + 1)) with (k - 1 - low + 1) by lia.
    rewrite (seqZ_shift (Z.succ 0)), <- list_fmap_compose.
    apply list_fmap_ext. intros i index Hindex. cbn [compose]. f_equal. lia.
Qed.

Lemma foldr_min_base (a b : Z) (l : list Z) :
  Z.min (foldr Z.min a l) b = foldr Z.min (Z.min a b) l.
Proof. induction l as [|x l IH]; cbn [foldr]; [reflexivity|]. rewrite <- IH. lia. Qed.

(** The earliest month of the records read so far. *)
Lemma earliestMonth_dated (trade : Trade.t) (n : Z) (earliest : option Z) :
  tradedOn trade n ->
  earliestMonth (JS.Day ∘ monthStart <$> earliest) trade
  = Some (JS.Day (monthStart (match earliest with
                              | Some a => Z.min a (monthOf n)
                              | None => monthOf n
                              end))).
Proof.
  intros [Hn Hdate]. unfold earliestMonth.
  rewrite Hdate, (parseISODate_key n Hn), (startOfMonth_near n (fourDigitYear_near n Hn)).
  destruct earliest as [a|]; [|reflexivity]. cbn [fmap option_fmap option_map compose].
  unfold JS.date_lt. rewrite monthStart_ltb.
  destruct (Z.ltb_spec (monthOf n) a).
  - rewrite Z.min_r by lia. reflexivity.
  - rewrite Z.min_l by lia. reflexivity.
Qed.

Lemma earliestMonth_fold (trades : list Trade.t) (days : list Z) (a : Z) :
  Forall2 tradedOn trades days ->
  fold_left earliestMonth trades (Some (JS.Day (monthStart a)))
  = Some (JS.Day (monthStart (foldr Z.min a (monthOf <$> days)))).
Proof.
  intros Hdated. revert a. induction Hdated as [|trade n trades days Hd _ IH]; intros a.
  - reflexivity.
  - cbn [fold_left]. rewrite (earliestMonth_dated trade n (Some a) Hd : earliestMonth (Some (JS.Day (monthStart a))) trade = _), IH.
    rewrite <- foldr_min_base, fmap_cons. cbn [foldr].
    rewrite (Z.min_comm (monthOf n)). reflexivity.
Qed.

Lemma foldr_min_le (a : Z) (l : list Z) : foldr Z.min a l <= a.
Proof. induction l as [|x l IH]; cbn [foldr]; lia. Qed.

Lemma foldr_min_months (now : Z) (days : list Z) :
  fourDigitYear now -> Forall fourDigitYear days ->
  11989 <= foldr Z.min (monthOf now - 11) (monthOf <$> days) <= monthOf now - 11.
Proof.
  intros Hnow Hdays. pose proof (fourDigitYear_month now Hnow) as Hk.
  induction Hdays as [|n days Hn _ IH]; cbn [fmap list_fmap foldr]; [lia|].
  pose proof (fourDigitYear_month n Hn). lia.
Qed.

Lemma tradedOn_days (trades : list Trade.t) (days : list Z) :
  Forall2 tradedOn trades days -> Forall fourDigitYear days.
Proof. induction 1 as [|trade n ? ? [Hn _] _ IH]; constructor; assumption. Qed.

Section MonthMenu.

(** The menu built on the day [now] of month [k] from records dated on
    [days]; its last month is [low]. *)
Variables (now k low : Z) (trades : list Trade.t) (days : list Z).
Hypothesis Hnow : fourDigitYear now.
Hypothesis Hdated : Forall2 tradedOn trades days.
Hypothesis Ek : monthOf now = k.
Hypothesis Elow : foldr Z.min (k - 11) (monthOf <$> days) = low.

Lemma menu_bounds : 12000 <= k <= 119999 /\ 11989 <= low <= k - 11.
Proof.
  pose proof (fourDigitYear_month now Hnow) as Hk. rewrite Ek in Hk. split; [exact Hk|].
  rewrite <- Elow, <- Ek. apply foldr_min_months; [exact Hnow|].
  apply (tradedOn_days trades), Hdated.
Qed.

Lemma menu_nowStart : nowStart now = JS.Day (monthStart k).
Proof. unfold nowStart. rewrite startOfMonth_near, Ek; [reflexivity|apply fourDigitYear_near, Hnow]. Qed.

Lemma menu_defaultStart :
  JS.new_Date (JS.getFullYear (JS.Day (monthStart k)))
              (JS.sub (JS.getMonth (JS.Day (monthStart k))) (JS.of_Z 11)) (JS.of_Z 1)
  = JS.Day (monthStart (k - 11)).
Proof.
  pose proof menu_bounds as [Hk _]. rewrite getMonth_monthStart. unfold JS.sub, JS.of_Z at 1.
  rewrite (new_Date_from_month k (- 11)); [f_equal; f_equal; lia| |lia|lia].
  rewrite Qeq_sub_Z. f_equiv. lia.
Qed.

Lemma menu_startPoint : startPoint now trades = JS.Day (monthStart low).
Proof.
  pose proof menu_bounds as [Hk Hlow]. unfold startPoint. cbn zeta.
  rewrite menu_nowStart, menu_defaultStart.
  destruct Hdated as [|trade n trades' days' Hd Hrest].
  - cbn [fold_left]. rewrite <- Elow. reflexivity.
  - cbn [fold_left]. rewrite (earliestMonth_dated trade n None Hd : earliestMonth None trade = _).
    rewrite (earliestMonth_fold trades' days' _ Hrest).
    unfold JS.date_lt. rewrite monthStart_ltb.
    assert (E : low = Z.min (foldr Z.min (monthOf n) (monthOf <$> days')) (k - 11)).
    { rewrite <- Elow, fmap_cons. cbn [foldr].
      rewrite Z.min_comm, !foldr_min_base, (Z.min_comm (k - 11)). reflexivity. }
    destruct (Z.ltb_spec (foldr Z.min (monthOf n) (monthOf <$> days')) (k - 11)) as [Hlt|Hge];
      f_equal; f_equal; lia.
Qed.

Lemma menu_options :
  buildMonthOptions now trades = (fun i => monthOption (k - i)) <$> seqZ 0 (k - low + 1).
Proof.
  pose proof menu_bounds as [Hk Hlow]. unfold buildMonthOptions.
  rewrite menu_nowStart, menu_startPoint. apply monthsDown_months; [lia|lia|].
  pose proof (monthStart_mono low k ltac:(lia)). lia.
Qed.

Lemma menu_earliest :
  earliestAvailableMonth (buildMonthOptions now trades) = Some (JS.Day (monthStart low)).
Proof.
  pose proof menu_bounds as [Hk Hlow]. rewrite menu_options. unfold earliestAvailableMonth.
  rewrite last_lookup, length_fmap, length_seqZ, !list_lookup_fmap.
  assert (Hlast : seqZ 0 (k - low + 1) !! Nat.pred (Z.to_nat (k - low + 1)) = Some (k - low))
    by (apply lookup_seqZ; lia).
  rewrite Hlast. cbn [fmap option_fmap option_map monthOption MonthOption.date].
  repeat f_equal. lia.
Qed.

End MonthMenu.

(** X25: on a day of a four-digit year, with every record dated on a day
    of a four-digit year, the month menu lists one entry for each month from
    the current month down to the earlier of the month eleven months back and
    the earliest month of a record, newest first: twelve entries at least,
    each with the year and the 0-based month as its key, the name of the month
    and the year as its label and the first day of the month as its date; the
    earliest available month is the last of them. The loop that builds the
    menu ends by its own test. *)
Theorem buildMonthOptions_months (now : Z) (trades : list Trade.t) (days : list Z) :
  fourDigitYear now -> Forall2 tradedOn trades days ->
  let k := monthOf now in
  let low := foldr Z.min (k - 11) (monthOf <$> days) in
  buildMonthOptions now trades = (fun i => monthOption (k - i)) <$> seqZ 0 (k - low + 1)
  /\ (12 <= length (buildMonthOptions now trades))%nat
  /\ earliestAvailableMonth (buildMonthOptions now trades) = Some (JS.Day (monthStart low))
  /\ (forall fuel cursor stop,
        nowStart now = JS.Day cursor -> startPoint now trades = JS.Day stop ->
        (Z.to_nat (cursor - stop + 1) <= fuel)%nat ->
        monthsDown fuel (JS.Day cursor) (JS.Day stop) = buildMonthOptions now trades).
Proof.
  intros Hnow Hdated k low.
  assert (Ek : monthOf now = k) by reflexivity.
  assert (Elow : foldr Z.min (k - 11) (monthOf <$> days) = low) by reflexivity.
  clearbody k low.
  pose proof (menu_bounds now k low trades days Hnow Hdated Ek Elow) as [Hk Hlow].
  pose proof (menu_options now k low trades days Hnow Hdated Ek Elow) as Hmenu.
  split; [exact Hmenu|]. split; [|split].
  - rewrite Hmenu, length_fmap, length_seqZ. lia.
  - apply (menu_earliest now k low trades days Hnow Hdated Ek Elow).
  - intros fuel cursor stop Hcursor Hstop Hfuel.
    rewrite (menu_nowStart now k Hnow Ek) in Hcursor.
    rewrite (menu_startPoint now k low trades days Hnow Hdated Ek Elow) in Hstop.
    injection Hcursor as <-. injection Hstop as <-. rewrite Hmenu.
    apply monthsDown_months; [lia|lia|].
    pose proof (monthStart_mono low k ltac:(lia)). lia.
Qed.

Lemma buildMonthOptions_months_witness :
  buildMonthOptions 19724 [tradeOn 19000 "win" 100]
  = (fun i => monthOption (monthOf 19724 - i))
      <$> seqZ 0 (monthOf 19724 - foldr Z.min (monthOf 19724 - 11) (monthOf <$> [19000]) + 1).
Proof.
  assert (Hnow : fourDigitYear 19724) by (unfold fourDigitYear; vm_compute; split; discriminate).
  assert (Hday : fourDigitYear 19000) by (unfold fourDigitYear; vm_compute; split; discriminate).
  assert (Hdated : Forall2 tradedOn [tradeOn 19000 "win" 100] [19000])
    by (constructor; [split; [exact Hday|reflexivity]|constructor]).
  exact (proj1 (buildMonthOptions_months 19724 [tradeOn 19000 "win" 100] [19000] Hnow
                  Hdated)).
Defined.

Lemma earliestMonth_invalid (trades : list Trade.t) :
  fold_left earliestMonth trades (Some JS.InvalidDate) = Some JS.InvalidDate.
Proof.
  induction trades as [|trade trades IH]; [reflexivity|]. cbn [fold_left].
  replace (earliestMonth (Some JS.InvalidDate) trade) with (Some JS.InvalidDate); [exact IH|].
  unfold earliestMonth. destruct (parseISODate (Trade.date trade)) as [parsed|]; [|reflexivity].
  cbn zeta. destruct (JS.new_Date _ _ _); reflexivity.
Qed.

(** X26: when the first record has a date that [parseISODate] reads as an
    invalid date, the menu is the one built without any record, whatever the
    dates of the later records are: the months of older records are not
    listed. *)
Theorem buildMonthOptions_invalid_first (now : Z) (trade : Trade.t) (trades : list Trade.t) :
  parseISODate (Trade.date trade) = Some JS.InvalidDate ->
  buildMonthOptions now (trade :: trades) = buildMonthOptions now [].
Proof.
  intros Hparse. unfold buildMonthOptions, startPoint. cbn [fold_left].
  replace (earliestMonth None trade) with (Some JS.InvalidDate).
  - rewrite earliestMonth_invalid. reflexivity.
  - unfold earliestMonth. rewrite Hparse. reflexivity.
Qed.

Lemma buildMonthOptions_invalid_first_witness :
  length (buildMonthOptions 19724
            [Trade.mk 1 "2024-xx-02" "09:35" (Some "long") "NQ!" "win" 2 (Some 200%Q);
             tradeOn 19000 "win" 100])
  = 12%nat.
Proof.
  rewrite (buildMonthOptions_invalid_first 19724
             (Trade.mk 1 "2024-xx-02" "09:35" (Some "long") "NQ!" "win" 2 (Some 200%Q))
             [tradeOn 19000 "win" 100]) by (vm_compute; reflexivity).
  vm_compute. reflexivity.
Defined.

(** ** Choosing a month *)

Lemma monthIndexOk_all : forall_from monthIndexOk 0 (Z.to_nat 12) = true.
Proof. vm_compute. reflexivity. Qed.

Lemma monthIndexOk_spec (m : Z) :
  0 <= m <= 11 -> noDash (pretty m) = true /\ JS.Number (pretty m) = JS.of_Z m.
Proof.
  intros Hm. pose proof (forall_from_range _ _ _ m monthIndexOk_all ltac:(lia)) as H.
  unfold monthIndexOk in H. apply andb_true_iff in H as [H1 H2].
  split; [exact H1|apply reads_spec, H2].
Qed.

(** The key of a month of a four-digit year, read by [handleMonthSelect]. *)
Lemma monthOption_key_target (k' : Z) :
  12000 <= k' <= 119999 ->
  let parts := JS.split "-" (MonthOption.key (monthOption k')) in
  partIsNaN (parts !! 0%nat) || partIsNaN (parts !! 1%nat) = false
  /\ JS.new_Date (parts !! 0%nat ≫= JS.Number) (parts !! 1%nat ≫= JS.Number) (JS.of_Z 1)
     = JS.Day (monthStart k').
Proof.
  intros Hk'. cbn zeta.
  assert (Hy : 1000 <= k' / 12 <= 9999).
  { pose proof (Z.div_le_mono 12000 k' 12 ltac:(lia) ltac:(lia)) as H1.
    pose proof (Z.div_le_mono k' 119999 12 ltac:(lia) ltac:(lia)) as H2.
    change (12000 / 12) with 1000 in H1. change (119999 / 12) with 9999 in H2. lia. }
  pose proof (Z.mod_pos_bound k' 12 ltac:(lia)) as Hm.
  destruct (yearOk_spec (k' / 12) Hy) as (Hdy & Hny & _).
  destruct (monthIndexOk_spec (k' mod 12) ltac:(lia)) as (Hdm & Hnm).
  cbn [monthOption MonthOption.key].
  change (pretty (k' / 12) +:+ "-" +:+ pretty (k' mod 12))
    with (pretty (k' / 12) +:+ String "-" (pretty (k' mod 12))).
  rewrite (split_app_sep "-" _ _ Hdy), (split_noSep "-" _ Hdm).
  cbn [lookup list_lookup mbind option_bind partIsNaN]. rewrite Hny, Hnm.
  split; [reflexivity|]. unfold JS.of_Z.
  rewrite (new_Date_month _ _ _ (k' / 12) (k' mod 12) 1); try reflexivity.
  - f_equal. pose proof (Z.div_mod k' 12 ltac:(lia)). replace (k' / 12 * 12 + k' mod 12) with k' by lia.
    lia.
  - lia.
  - replace (k' / 12 * 12 + k' mod 12) with k' by (pose proof (Z.div_mod k' 12 ltac:(lia)); lia).
    pose proof (monthStart_bounds k' ltac:(lia)). unfold JS.max_day. lia.
Qed.

(** X27: with the menu built on a day of a four-digit year from records
    dated on such days, choosing the key of a month of a four-digit year
    shows that month when the menu lists it, the current month when the month
    is later and the last month of the menu when it is earlier; choosing the
    key of an entry of the menu for such a month shows the date of that
    entry. *)
Theorem handleMonthSelect_menu (now : Z) (trades : list Trade.t) (days : list Z)
    (k' : Z) (selectedMonth : JS.Date) :
  fourDigitYear now -> Forall2 tradedOn trades days -> 12000 <= k' <= 119999 ->
  let k := monthOf now in
  let low := foldr Z.min (k - 11) (monthOf <$> days) in
  let menu := buildMonthOptions now trades in
  let shown :=
    handleMonthSelect (MonthOption.key (monthOption k')) (nowStart now)
                      (earliestAvailableMonth menu) selectedMonth in
  shown = JS.Day (monthStart (Z.max low (Z.min k k')))
  /\ (low <= k' <= k -> monthOption k' ∈ menu /\ shown = MonthOption.date (monthOption k')).
Proof.
  intros Hnow Hdated Hk' k low menu.
  assert (Ek : monthOf now = k) by reflexivity.
  assert (Elow : foldr Z.min (k - 11) (monthOf <$> days) = low) by reflexivity.
  clearbody k low.
  pose proof (menu_bounds now k low trades days Hnow Hdated Ek Elow) as [Hk Hlow].
  pose proof (menu_options now k low trades days Hnow Hdated Ek Elow) as Hmenu.
  pose proof (menu_earliest now k low trades days Hnow Hdated Ek Elow) as Hearliest.
  fold menu in Hmenu, Hearliest. clearbody menu.
  destruct (monthOption_key_target k' Hk') as [Hnan Htarget]. cbn zeta in Hnan, Htarget.
  assert (Hshown :
    handleMonthSelect (MonthOption.key (monthOption k')) (nowStart now)
                      (earliestAvailableMonth menu) selectedMonth
    = JS.Day (monthStart (Z.max low (Z.min k k')))).
  { unfold handleMonthSelect. cbn zeta. rewrite Hnan, Htarget, Hearliest.
    rewrite (menu_nowStart now k Hnow Ek).
    unfold JS.date_gt, JS.date_lt. rewrite !monthStart_ltb.
    destruct (Z.ltb_spec k k') as [Hgt|Hle]; [f_equal; f_equal; lia|].
    destruct (Z.ltb_spec k' low) as [Hlt|Hge]; f_equal; f_equal; lia. }
  cbn zeta. split; [exact Hshown|]. intros Hin. split.
  - rewrite Hmenu. apply list_elem_of_fmap. exists (k - k'). split; [f_equal; lia|].
    apply elem_of_seqZ. lia.
  - rewrite Hshown. cbn [monthOption MonthOption.date]. f_equal. f_equal. lia.
Qed.

Lemma handleMonthSelect_menu_witness :
  handleMonthSelect (MonthOption.key (monthOption 24280)) (nowStart 19724)
                    (earliestAvailableMonth (buildMonthOptions 19724 [tradeOn 19000 "win" 100]))
                    (JS.Day 19724)
  = JS.Day (monthStart (Z.max (foldr Z.min (monthOf 19724 - 11) (monthOf <$> [19000]))
                              (Z.min (monthOf 19724) 24280))).
Proof.
  assert (Hnow : fourDigitYear 19724) by (unfold fourDigitYear; vm_compute; split; discriminate).
  assert (Hday : fourDigitYear 19000) by (unfold fourDigitYear; vm_compute; split; discriminate).
  assert (Hdated : Forall2 tradedOn [tradeOn 19000 "win" 100] [19000])
    by (constructor; [split; [exact Hday|reflexivity]|constructor]).
  exact (proj1 (handleMonthSelect_menu 19724 [tradeOn 19000 "win" 100] [19000] 24280 (JS.Day 19724)
                  Hnow Hdated
                  ltac:(lia))).
Defined.

(** ** The strategy builder *)

Lemma strategy_items_copy (items : list StrategyItem.t) :
  (fun item => StrategyItem.mk (StrategyItem.id item) (StrategyItem.label item)) <$> items
  = items.
Proof.
  induction items as [|[id label] items IH]; [reflexivity|].
  rewrite fmap_cons, IH. reflexivity.
Qed.

Lemma strategy_by_id (strategies : list Strategy.t) (a b : Strategy.t) :
  NoDup (Strategy.id <$> strategies) -> a ∈ strategies -> b ∈ strategies ->
  Strategy.id a = Strategy.id b -> a = b.
Proof.
  induction strategies as [|c strategies IH]; intros Hnd Ha Hb Hid.
  - apply elem_of_nil in Ha. contradiction.
  - rewrite fmap_cons in Hnd. apply NoDup_cons in Hnd as [Hc Hnd].
    apply elem_of_cons in Ha as [->|Ha]; apply elem_of_cons in Hb as [->|Hb].
    + reflexivity.
    + exfalso. apply Hc. rewrite Hid. apply list_elem_of_fmap. exists b. split; [reflexivity|exact Hb].
    + exfalso. apply Hc. rewrite <- Hid. apply list_elem_of_fmap. exists a. split; [reflexivity|exact Ha].
    + apply IH; assumption.
Qed.

Lemma strategy_find (strategies : list Strategy.t) (template : Strategy.t) :
  NoDup (Strategy.id <$> strategies) -> template ∈ strategies ->
  List.find (fun strategy => Strategy.id strategy =? Strategy.id template) strategies
  = Some template.
Proof.
  intros Hnd Hin.
  destruct (List.find _ strategies) as [found|] eqn:Hfind.
  - apply List.find_some in Hfind as [Hfound Hid]. apply Z.eqb_eq in Hid.
    f_equal. apply (strategy_by_id strategies); [exact Hnd| |exact Hin|exact Hid].
    apply list_elem_of_In, Hfound.
  - apply list_elem_of_In in Hin. pose proof (List.find_none _ _ Hfind template Hin) as Hne.
    cbn beta in Hne. rewrite Z.eqb_refl in Hne. discriminate.
Qed.

(** X29: with distinct strategy ids, opening a strategy for editing and
    saving it at once leaves the strategies and the day notes as they are and
    closes the builder with an empty form, when the id of the strategy is not
    0, its name is not empty and has no blanks around it, and it has an item. *)
Theorem handleStrategyEdit_save (now : Z) (s : Journal.t) (template : Strategy.t) :
  NoDup (Strategy.id <$> Journal.strategies s) ->
  template ∈ Journal.strategies s ->
  Strategy.id template <> 0 ->
  JS.trim (Strategy.name template) = Strategy.name template ->
  Strategy.name template <> EmptyString ->
  Strategy.items template <> [] ->
  handleStrategySave now (handleStrategyEdit (Some (Strategy.id template)) s)
  = closeStrategyBuilder s.
Proof.
  intros Hnd Hin Hid Htrim Hname Hitems.
  unfold handleStrategyEdit. rewrite (strategy_find _ _ Hnd Hin).
  unfold handleStrategySave. cbn [Journal.strategyForm Journal.editingStrategyId
    StrategyForm.name StrategyForm.items truthyId].
  rewrite Htrim, !strategy_items_copy.
  destruct (String.eqb_spec (Strategy.name template) "") as [Hempty|_]; [contradiction|].
  destruct (Strategy.items template) as [|item items] eqn:Eitems; [contradiction|].
  cbn [length Nat.eqb orb].
  destruct (Z.eqb_spec (Strategy.id template) 0) as [Hzero|_]; [contradiction|].
  unfold closeStrategyBuilder, resetStrategyForm, setStrategyForm, setStrategies.
  cbn [Journal.dayNotes Journal.checklistInputs Journal.strategies Journal.strategyForm
       Journal.strategyBuilderOpen Journal.editingStrategyId].
  f_equal. rewrite <- (list_fmap_id (Journal.strategies s)) at 2.
  apply list_fmap_ext. intros i strategy Hstrategy. apply list_elem_of_lookup_2 in Hstrategy.
  destruct (Z.eqb_spec (Strategy.id strategy) (Strategy.id template)) as [Hsame|_];
    [|reflexivity].
  rewrite (strategy_by_id _ strategy template Hnd Hstrategy Hin Hsame).
  destruct template as [id name items']. cbn in *. rewrite Eitems. reflexivity.
Qed.

Lemma handleStrategyEdit_save_witness :
  handleStrategySave 99 (handleStrategyEdit (Some 41) sampleJournal)
  = closeStrategyBuilder sampleJournal.
Proof.
  apply (handleStrategyEdit_save 99 sampleJournal
           (Strategy.mk 41 "Opening range"
              [StrategyItem.mk 1 "mark the range"; StrategyItem.mk 2 "wait"])).
  - apply (bool_decide_unpack _). vm_compute. exact I.
  - apply list_elem_of_In. simpl. left. reflexivity.
  - discriminate.
  - vm_compute. reflexivity.
  - discriminate.
  - discriminate.
Defined.

(** * Properties of the engine on doubles and in a time zone *)

(** ** Rounding *)

Lemma Qred_canonical (q : Q) : Qred (Qred q) = Qred q.
Proof. apply Qred_complete, Qred_correct. Qed.

Lemma round_Qeq (p q : Q) : p == q -> Double.round p = Double.round q.
Proof. intros H. unfold Double.round. rewrite (Qred_complete p q H). reflexivity. Qed.

(** Rounding gives a double in lowest terms or an infinity, never [NaN]. *)
Lemma round_cases (q : Q) :
  (exists v, Double.round q = JSLib.Finite v /\ Qred v = v)
  \/ (exists negative, Double.round q = JSLib.Infinity negative).
Proof.
  unfold Double.round. destruct (Qnum (Qred q)).
  - left. exists 0%Q. split; reflexivity.
  - destruct (Double.nearest _) as [v|]; [left|right; eauto].
    exists (Qred v). split; [reflexivity|apply Qred_canonical].
  - destruct (Double.nearest _) as [v|]; [left|right; eauto].
    exists (Qred (- v)). split; [reflexivity|apply Qred_canonical].
Qed.





(** ** Profit factor *)







(** ** Dates in a zone *)

Lemma day_ofDay (zone : Zoned.Zone) (d : JS.Date) : Zoned.day (Zoned.ofDay zone d) = d.
Proof. destruct d; reflexivity. Qed.

Lemma startOfDay_ofDay (zone : Zoned.Zone) (date : Zoned.Date) :
  Engine.startOfDay zone date = Zoned.ofDay zone (startOfDay (Zoned.day date)).
Proof. reflexivity. Qed.

Lemma parseISODate_ofDay (zone : Zoned.Zone) (value : string) :
  Engine.parseISODate zone value = Zoned.ofDay zone <$> parseISODate value.
Proof.
  unfold Engine.parseISODate, parseISODate. destruct (decide _); reflexivity.
Qed.

Lemma dayOfKey_ofDay (zone : Zoned.Zone) (key : string) :
  Engine.dayOfKey zone key = Zoned.ofDay zone (App.dayOfKey key).
Proof.
  unfold Engine.dayOfKey, App.dayOfKey. rewrite parseISODate_ofDay.
  destruct (parseISODate key) as [d|]; [|reflexivity].
  cbn [fmap option_fmap option_map]. rewrite startOfDay_ofDay, day_ofDay. reflexivity.
Qed.

(** Midnights are ordered as their days are, whatever the zone skips. *)
Lemma lt_ofDay (zone : Zoned.Zone) (a b : JS.Date) :
  Zoned.lt (Zoned.ofDay zone a) (Zoned.ofDay zone b) = JS.date_lt a b.
Proof.
  destruct a as [x|], b as [y|]; try reflexivity.
  cbn [Zoned.ofDay Zoned.resolve Zoned.lt JS.date_lt].
  destruct (Z.eqb_spec x y) as [->|Hne]; [|rewrite andb_false_l; apply orb_false_r].
  rewrite !Z.ltb_irrefl. reflexivity.
Qed.

Lemma gt_ofDay (zone : Zoned.Zone) (a b : JS.Date) :
  Zoned.gt (Zoned.ofDay zone a) (Zoned.ofDay zone b) = JS.date_gt a b.
Proof. apply lt_ofDay. Qed.

Lemma new_Date_bound (year month day : JS.num) (n : Z) :
  JS.new_Date year month day = JS.Day n -> Z.abs n <= JS.max_day.
Proof.
  unfold JS.new_Date. destruct year, month, day; try discriminate.
  destruct (Z.leb_spec (Z.abs (JS.days_from_civil
              ((if (0 <=? JS.trunc q) && (JS.trunc q <=? 99) then 1900 + JS.trunc q
                else JS.trunc q) + JS.trunc q0 / 12) (JS.trunc q0 mod 12 + 1) 1
              + (JS.trunc q1 - 1))) JS.max_day) as [Hle|]; [|discriminate].
  intros [= <-]. exact Hle.
Qed.

(** The dates the engine builds from a year, a month and a day are
    midnights. *)
Lemma midnight_new_Date (zone : Zoned.Zone) (year month day : JS.num) :
  midnight zone (Zoned.new_Date zone year month day).
Proof. eexists. split; [reflexivity|]. intros n. apply new_Date_bound. Qed.

Lemma midnight_At (zone : Zoned.Zone) (n ms : Z) :
  midnight zone (Zoned.At n ms) ->
  Z.abs n <= JS.max_day /\ (zone n = 0 -> ms = 0).
Proof.
  intros ([n'|] & Heq & Hbound); [|discriminate].
  cbn [Zoned.ofDay Zoned.resolve] in Heq. injection Heq as -> ->.
  split; [apply Hbound; reflexivity|]. intros ->. reflexivity.
Qed.

(** The day after: [cursor.setDate(cursor.getDate() + 1)] on the days. *)
Lemma setDate_next (n : Z) :
  JSLib.setDate (JS.Day n) (JS.add (JS.getDate (JS.Day n)) (JS.of_Z 1))
  = if Z.abs (n + 1) <=? JS.max_day then JS.Day (n + 1) else JS.InvalidDate.
Proof.
  unfold JSLib.setDate, JSLib.makeDate. cbn [JS.getFullYear JS.getMonth JS.getDate].
  pose proof (monthOf_start n) as [Hstart _]. unfold monthOf in Hstart.
  destruct (JS.civil_from_days n) as [[y m] d]. cbn [fst snd] in *.
  unfold JS.of_Z, JS.add.
  rewrite (trunc_Qeq _ y (Qeq_refl _)), (trunc_Qeq _ (m - 1) (Qeq_refl _)),
    (trunc_Qeq _ (d + 1) (Qeq_add_Z d 1)), month_index.
  replace (monthStart (y * 12 + (m - 1)) + (d + 1 - 1)) with (n + 1) by lia.
  reflexivity.
Qed.

(** ** The walk of the daily series *)

Lemma walk_stop (zone : Zoned.Zone) (fuel : nat) (totals : gmap string JSLib.float)
    (cursor endDate : Zoned.Date) :
  Zoned.le cursor endDate = false -> Engine.walk zone fuel totals cursor endDate = [].
Proof. intros H. destruct fuel; [reflexivity|]. simpl. rewrite H. reflexivity. Qed.

(** Where no midnight is skipped the walk visits every day once, at its
    midnight, and leaves by its own test. *)
Lemma walk_midnights (zone : Zoned.Zone) (totals : gmap string JSLib.float) (e : Z)
    (fuel : nat) (s : Z) :
  (forall n, s <= n <= e -> zone n = 0) ->
  Z.abs s <= JS.max_day -> Z.abs e <= JS.max_day -> s <= e ->
  (Z.to_nat (e - s + 1) <= fuel)%nat ->
  Engine.walk zone fuel totals (Zoned.At s 0) (Zoned.At e 0)
  = entryOfDay' totals <$> seqZ s (e - s + 1).
Proof.
  revert s. induction fuel as [|fuel IH]; intros s Hzone Hs He Hle Hfuel; [lia|].
  cbn [Engine.walk Zoned.le]. rewrite Z.leb_refl.
  assert (Htest : (s <? e) || (s =? e) && true = true).
  { destruct (Z.ltb_spec s e); [reflexivity|]. destruct (Z.eqb_spec s e); [reflexivity|lia]. }
  rewrite Htest. rewrite seqZ_cons by lia. rewrite fmap_cons. f_equal.
  unfold Zoned.setDate. cbn [Zoned.getDate Zoned.day]. rewrite setDate_next.
  destruct (Z.eq_dec s e) as [->|Hne].
  - replace (Z.pred (e - e + 1)) with 0 by lia. cbn [seqZ fmap list_fmap].
    apply walk_stop. destruct (Z.abs (e + 1) <=? JS.max_day); [|reflexivity].
    cbn [Zoned.resolve Zoned.le].
    destruct (Z.ltb_spec (e + 1) e); [lia|]. destruct (Z.eqb_spec (e + 1) e); [lia|reflexivity].
  - destruct (Z.leb_spec (Z.abs (s + 1)) JS.max_day) as [_|Hbad]; [|exfalso; lia].
    unfold Zoned.resolve. rewrite (Hzone (s + 1)) by lia. rewrite Z.ltb_irrefl.
    rewrite IH; [f_equal; f_equal; lia|intros n Hn; apply Hzone; lia|lia|lia|lia|lia].
Qed.

(** ** The cumulative series *)

Lemma engine_cumulate_pnl (c : JSLib.float) (l : list Engine.Entry.t) :
  Engine.CumEntry.pnl <$> Engine.cumulate c l = Engine.Entry.pnl <$> l.
Proof.
  revert c. induction l as [|entry l IH]; intros c; [reflexivity|].
  cbn [Engine.cumulate]. rewrite !fmap_cons. f_equal. apply IH.
Qed.

Lemma engine_cumulate_date (c : JSLib.float) (l : list Engine.Entry.t) :
  Engine.CumEntry.date <$> Engine.cumulate c l = Engine.Entry.date <$> l.
Proof.
  revert c. induction l as [|entry l IH]; intros c; [reflexivity|].
  cbn [Engine.cumulate]. rewrite !fmap_cons. f_equal. apply IH.
Qed.

Lemma engine_cumulate_length (c : JSLib.float) (l : list Engine.Entry.t) :
  length (Engine.cumulate c l) = length l.
Proof.
  revert c. induction l as [|entry l IH]; intros c; [reflexivity|].
  simpl. f_equal. apply IH.
Qed.

(** The last running total is the start value with every [pnl] added to it
    in the order of the series. *)
Lemma engine_cumulate_last (l : list Engine.Entry.t) (c : JSLib.float) :
  l <> [] ->
  exists lastEntry,
    last (Engine.cumulate c l) = Some lastEntry
    /\ Engine.CumEntry.cumulative lastEntry = fold_left Double.add (Engine.Entry.pnl <$> l) c.
Proof.
  revert c. induction l as [|entry l IH]; intros c Hne; [congruence|].
  destruct l as [|entry' l].
  - eexists. split; reflexivity.
  - destruct (IH (Double.add c (Engine.Entry.pnl entry))) as (lastEntry & Hlast & Hcum);
      [discriminate|].
    exists lastEntry. split; [exact Hlast|]. rewrite Hcum. reflexivity.
Qed.

(** ** The endpoints of the series *)

Lemma midnight_startOfDay (zone : Zoned.Zone) (date : Zoned.Date) :
  midnight zone (Engine.startOfDay zone date).
Proof. apply midnight_new_Date. Qed.

Lemma midnight_dayOfKey (zone : Zoned.Zone) (key : string) :
  midnight zone (Engine.dayOfKey zone key).
Proof.
  unfold Engine.dayOfKey. destruct (Engine.parseISODate zone key); [apply midnight_startOfDay|].
  exists JS.InvalidDate. split; [reflexivity|discriminate].
Qed.

Lemma midnight_defaultStart (zone : Zoned.Zone) (today : Z) (keys : list string)
    (dateRange : Engine.DateRange.t) :
  midnight zone (Engine.defaultStart zone today keys dateRange).
Proof.
  unfold Engine.defaultStart. destruct (Engine.DateRange.start dateRange);
    [apply midnight_startOfDay|].
  destruct keys; [apply midnight_new_Date|apply midnight_dayOfKey].
Qed.

Lemma midnight_seriesStart (zone : Zoned.Zone) (today : Z) (keys : list string)
    (dateRange : Engine.DateRange.t) :
  midnight zone (Engine.seriesStart zone today keys dateRange).
Proof.
  unfold Engine.seriesStart. destruct (Zoned.gt _ _);
    [apply midnight_new_Date|apply midnight_defaultStart].
Qed.

Lemma midnight_seriesEnd (zone : Zoned.Zone) (today : Z) (keys : list string)
    (dateRange : Engine.DateRange.t) :
  midnight zone (Engine.seriesEnd zone today keys dateRange).
Proof.
  unfold Engine.seriesEnd. destruct (Zoned.lt _ _); [apply midnight_seriesStart|].
  destruct (Zoned.gt _ _); [apply midnight_new_Date|].
  unfold Engine.defaultEnd. destruct (Engine.DateRange.end_ dateRange);
    [apply midnight_startOfDay|].
  destruct (last keys); [apply midnight_dayOfKey|apply midnight_defaultStart].
Qed.

(** When both are dates, the end of the walk is not before its start. *)
Lemma engine_endpoints_ordered (zone : Zoned.Zone) (today : Z) (keys : list string)
    (dateRange : Engine.DateRange.t) (s e ms ms' : Z) :
  Engine.seriesStart zone today keys dateRange = Zoned.At s ms ->
  Engine.seriesEnd zone today keys dateRange = Zoned.At e ms' ->
  s <= e.
Proof.
  unfold Engine.seriesEnd. intros ->.
  destruct (Zoned.lt _ (Zoned.At s ms)) eqn:Hlt; [intros [= <- <-]; lia|].
  intros Hend. rewrite Hend in Hlt. cbn [Zoned.lt] in Hlt.
  apply orb_false_iff in Hlt as [Hlt _]. apply Z.ltb_ge in Hlt. exact Hlt.
Qed.

(** Between two endpoints that are dates, with no midnight skipped from
    the one to the other, the walk visits every day once. *)
Lemma engine_dailyPnLData_days (zone : Zoned.Zone) (today : Z) (filtered : list Trade.t)
    (dateRange : Engine.DateRange.t) (s e ms ms' : Z) :
  let totals := Engine.dailyTotals filtered in
  let keys := Engine.sortedKeys totals in
  Engine.seriesStart zone today keys dateRange = Zoned.At s ms ->
  Engine.seriesEnd zone today keys dateRange = Zoned.At e ms' ->
  (forall n, s <= n <= e -> zone n = 0) ->
  ms = 0 /\ ms' = 0 /\ s <= e
  /\ forall fuel, (Z.to_nat (e - s + 1) <= fuel)%nat ->
       Engine.walk zone fuel totals (Zoned.At s ms) (Zoned.At e ms')
       = entryOfDay' totals <$> seqZ s (e - s + 1).
Proof.
  intros totals keys Hs He Hzone.
  pose proof (engine_endpoints_ordered _ _ _ _ _ _ _ _ Hs He) as Hord.
  pose proof (midnight_seriesStart zone today keys dateRange) as Ms. rewrite Hs in Ms.
  pose proof (midnight_seriesEnd zone today keys dateRange) as Me. rewrite He in Me.
  apply midnight_At in Ms as [Bs Zs], Me as [Be Ze].
  rewrite (Zs (Hzone s ltac:(lia))), (Ze (Hzone e ltac:(lia))).
  split; [reflexivity|]. split; [reflexivity|]. split; [exact Hord|].
  intros fuel Hfuel. apply walk_midnights; assumption.
Qed.

(** C8 (amended): whenever the two endpoints of the series resolve to
    dates and the time zone skips no midnight from the one to the other, the
    daily series has exactly one entry per calendar day from [seriesStart] to
    [seriesEnd], in order, each with the total of its date key; its length is
    the number of days between the endpoints plus one; the loop ends by its
    own test; and the last cumulative value is the sum of all [pnl] fields,
    added in the order of the series. *)
Theorem C8_daily_series (zone : Zoned.Zone) (today : Z) (filteredTrades : list Trade.t)
    (dateRange : Engine.DateRange.t) (s e ms ms' : Z) :
  let totals := Engine.dailyTotals filteredTrades in
  let keys := Engine.sortedKeys totals in
  let daily := Engine.dailyPnLData zone today filteredTrades dateRange in
  let series := Engine.cumulativePnLData daily in
  Engine.seriesStart zone today keys dateRange = Zoned.At s ms ->
  Engine.seriesEnd zone today keys dateRange = Zoned.At e ms' ->
  (forall n, s <= n <= e -> zone n = 0) ->
  s <= e
  /\ Engine.CumEntry.date <$> series
     = (fun n => formatDateKey (JS.Day n)) <$> seqZ s (e - s + 1)
  /\ Engine.CumEntry.pnl <$> series
     = (fun n => Engine.totalOr0 (totals !! formatDateKey (JS.Day n))) <$> seqZ s (e - s + 1)
  /\ Z.of_nat (length series) = e - s + 1
  /\ (forall fuel, (Z.to_nat (e - s + 1) <= fuel)%nat ->
        Engine.walk zone fuel totals (Zoned.At s ms) (Zoned.At e ms') = daily)
  /\ exists lastEntry,
       last series = Some lastEntry
       /\ Engine.CumEntry.cumulative lastEntry = Double.sum (Engine.CumEntry.pnl <$> series).
Proof.
  intros totals keys daily series Hs He Hzone.
  destruct (engine_dailyPnLData_days zone today filteredTrades dateRange s e ms ms' Hs He Hzone)
    as (-> & -> & Hord & Hwalk).
  fold totals in Hwalk.
  assert (Hdaily : daily = entryOfDay' totals <$> seqZ s (e - s + 1)).
  { subst daily. unfold Engine.dailyPnLData. fold totals. fold keys. rewrite Hs, He.
    apply Hwalk. lia. }
  assert (Hseries : series
                    = Engine.cumulate (JSLib.Finite 0) (entryOfDay' totals <$> seqZ s (e - s + 1))).
  { subst series. rewrite Hdaily. reflexivity. }
  split; [exact Hord|]. rewrite Hseries.
  split; [|split; [|split; [|split]]].
  - rewrite engine_cumulate_date, <- list_fmap_compose. reflexivity.
  - rewrite engine_cumulate_pnl, <- list_fmap_compose. reflexivity.
  - rewrite engine_cumulate_length, length_fmap, length_seqZ. lia.
  - intros fuel Hfuel. rewrite Hdaily. apply Hwalk, Hfuel.
  - destruct (engine_cumulate_last (entryOfDay' totals <$> seqZ s (e - s + 1)) (JSLib.Finite 0))
      as (lastEntry & Hlast & Hcum).
    { rewrite seqZ_cons by lia. discriminate. }
    exists lastEntry. split; [exact Hlast|].
    rewrite Hcum, engine_cumulate_pnl. reflexivity.
Qed.

Lemma C8_witness :
  Z.of_nat (length (Engine.cumulativePnLData
                      (Engine.dailyPnLData noGap 20000 (scenario 1 2) (rangeOfDays noGap 19720 19726))))
  = 19726 - 19720 + 1.
Proof.
  apply (C8_daily_series noGap 20000 (scenario 1 2) (rangeOfDays noGap 19720 19726)
                         19720 19726 0 0); reflexivity.
Defined.

(** C8, as stated, fails in two ways.  When an endpoint taken from the
    date keys is not a date - one record dated "abc" under the all-time
    range - the series has no entry.  When the clocks are set forward at the
    midnight of a day of the range, the cursor reaches the later days an hour
    after midnight, past the end of the range on its last day: of the seven
    days from 19720 to 19726 the series has the first six.  And the sum of
    the [pnl] fields is the last cumulative value only when they are added
    in the order of the series: the fields 0.1, 0.2 and 0.3 run up to
    0.6000000000000001 (1351079888211149 / 2^51), and add up to 0.6 from
    the last to the first. *)
Lemma C8_counterexample :
  (Engine.seriesEnd noGap 20000 (Engine.sortedKeys (Engine.dailyTotals [garbledDate])) allDays
   = Zoned.Invalid
   /\ Engine.cumulativePnLData (Engine.dailyPnLData noGap 20000 [garbledDate] allDays) = [])
  /\ (Engine.seriesStart (gapAt 19723) 20000 (Engine.sortedKeys (Engine.dailyTotals (scenario 1 2)))
                         (rangeOfDays (gapAt 19723) 19720 19726)
      = Zoned.At 19720 0
      /\ Engine.seriesEnd (gapAt 19723) 20000 (Engine.sortedKeys (Engine.dailyTotals (scenario 1 2)))
                          (rangeOfDays (gapAt 19723) 19720 19726)
         = Zoned.At 19726 0
      /\ Engine.CumEntry.date
           <$> Engine.cumulativePnLData
                 (Engine.dailyPnLData (gapAt 19723) 20000 (scenario 1 2)
                                      (rangeOfDays (gapAt 19723) 19720 19726))
         = (fun n => formatDateKey (JS.Day n)) <$> seqZ 19720 6)
  /\ (let series := Engine.cumulativePnLData (Engine.dailyPnLData noGap 20000 tenths allDays) in
      Engine.CumEntry.pnl <$> series
      = [Double.round (1 # 10); Double.round (2 # 10); Double.round (3 # 10)]
      /\ Engine.CumEntry.cumulative <$> last series
         = Some (JSLib.Finite (1351079888211149 # 2251799813685248))
      /\ Double.sum (rev (Engine.CumEntry.pnl <$> series))
         = JSLib.Finite (5404319552844595 # 9007199254740992)).
Proof.
  split; [split; vm_compute; reflexivity|]. split.
  - split; [vm_compute; reflexivity|]. split; vm_compute; reflexivity.
  - cbv zeta. split; [vm_compute; reflexivity|]. split; vm_compute; reflexivity.
Qed.

(** ** Sums that are not rounded *)

Lemma exactb_exact (q : Q) : exactb q = true -> exact q.
Proof.
  unfold exactb, exact. destruct (round_cases q) as [(v & Hv & Hred)|(b & Hb)].
  - rewrite Hv. intros Heq. apply Qeq_bool_eq in Heq. f_equal.
    rewrite <- Hred. apply Qred_complete, Heq.
  - rewrite Hb. discriminate.
Qed.

Lemma exact_Qeq (p q : Q) : p == q -> exact p -> exact q.
Proof.
  unfold exact. intros Heq Hp. rewrite <- (round_Qeq p q Heq), Hp.
  f_equal. apply Qred_complete, Heq.
Qed.

(** An addition whose exact result is a double. *)
Lemma add_exact (a b target : Q) :
  (a + b == target)%Q -> exact target ->
  Double.add (JSLib.Finite a) (JSLib.Finite b) = JSLib.Finite (Qred target).
Proof. intros Heq Hexact. cbn [Double.add]. rewrite (round_Qeq _ _ Heq). exact Hexact. Qed.

Lemma orZero_finite (q : Q) :
  exists q', Double.orZero (JSLib.Finite q) = JSLib.Finite q' /\ q' == q.
Proof.
  cbn [Double.orZero]. destruct (Qeq_bool q 0) eqn:H0.
  - exists 0%Q. split; [reflexivity|]. symmetry. apply Qeq_bool_eq, H0.
  - exists q. split; reflexivity.
Qed.

Lemma subsums_sublist (amounts sub : list Q) :
  sublist sub amounts -> exists s, In s (subsums amounts) /\ s == sumQ sub.
Proof.
  induction 1 as [|x sub amounts _ (s & Hin & Hs)|x sub amounts _ (s & Hin & Hs)].
  - exists 0%Q. split; [left; reflexivity|reflexivity].
  - exists (x + s)%Q. split.
    + cbn [subsums]. apply in_or_app. right. apply in_map, Hin.
    + cbn [sumQ fold_right]. fold (sumQ sub). rewrite Hs. reflexivity.
  - exists s. split; [|exact Hs]. cbn [subsums]. apply in_or_app. left. exact Hin.
Qed.

Lemma sublist_List_filter {A : Type} (f : A -> bool) (l : list A) :
  sublist (List.filter f l) l.
Proof.
  induction l as [|x l IH]; [constructor|]. simpl.
  destruct (f x); [apply sublist_skip|apply sublist_cons]; exact IH.
Qed.

Section ExactSums.

(** A collection of which every sum of some of the amounts is a double. *)
Variable trades : list Trade.t.
Hypothesis Hexact : exactSums (pnlOf <$> trades) = true.

Lemma exact_sublist (sub : list Trade.t) : sublist sub trades -> exact (sumBy pnlOf sub).
Proof.
  intros Hsub.
  destruct (subsums_sublist (pnlOf <$> trades) (pnlOf <$> sub)) as (s & Hin & Hs);
    [apply fmap_sublist, Hsub|].
  apply (exact_Qeq s); [rewrite Hs; symmetry; apply sumBy_sumQ|].
  apply exactb_exact. unfold exactSums in Hexact. rewrite forallb_forall in Hexact.
  apply Hexact, Hin.
Qed.

Lemma exact_amount (trade : Trade.t) :
  In trade trades -> Engine.profitLoss trade = JSLib.Finite (Qred (pnlOf trade)).
Proof.
  intros Hin. apply (exact_Qeq (sumBy pnlOf [trade])).
  - unfold sumBy. simpl. apply Qplus_0_l.
  - apply exact_sublist. apply singleton_sublist_l, list_elem_of_In, Hin.
Qed.

(** The sum the engine forms over some of the records, in their order. *)
Lemma engine_sumBy_exact (sub : list Trade.t) :
  sublist sub trades ->
  Engine.sumBy Engine.profitLoss sub = JSLib.Finite (Qred (sumBy pnlOf sub)).
Proof.
  induction sub as [|trade sub IH] using rev_ind; intros Hsub; [reflexivity|].
  unfold Engine.sumBy. rewrite fold_left_app. cbn [fold_left].
  fold (Engine.sumBy Engine.profitLoss sub).
  rewrite IH by (etrans; [apply sublist_inserts_r; reflexivity|exact Hsub]).
  rewrite exact_amount.
  - apply add_exact; [|apply exact_sublist, Hsub].
    rewrite !Qred_correct. symmetry. apply sumBy_snoc.
  - apply list_elem_of_In. apply (elem_of_sublist (sub ++ [trade])); [|exact Hsub].
    apply elem_of_app. right. left.
Qed.

End ExactSums.

(** ** The daily totals of the engine *)

Lemma key_length (n : Z) :
  fourDigitYear n -> String.length (formatDateKey (JS.Day n)) = 10%nat.
Proof.
  intros Hn. rewrite formatDateKey_Day. pose proof (civil_fourDigitYear n Hn) as H.
  destruct (JS.civil_from_days n) as [[y m] d]. apply keyOf_length; tauto.
Qed.

(** The keys [formatDateKey] writes are not names that objects inherit. *)
Lemma key_not_inherited (n : Z) : fourDigitYear n -> formatDateKey (JS.Day n) ∉ JS.inherited.
Proof.
  intros Hn Hin. pose proof (key_length n Hn) as Hlen.
  apply list_elem_of_In in Hin. unfold JS.inherited in Hin. cbn [In] in Hin.
  repeat (destruct Hin as [Hin|Hin]; [rewrite <- Hin in Hlen; discriminate|]). exact Hin.
Qed.

Lemma engine_addToDay_other (acc : gmap string JSLib.float) (trade : Trade.t) (key : string) :
  Trade.date trade <> key -> Engine.addToDay acc trade !! key = acc !! key.
Proof.
  intros Hne. unfold Engine.addToDay.
  destruct (decide _); [reflexivity|]. destruct (decide _); [reflexivity|].
  destruct (bool_decide _); apply lookup_insert_ne, Hne.
Qed.

Lemma engine_addToDay_same (acc : gmap string JSLib.float) (trade : Trade.t) :
  Trade.date trade <> EmptyString -> Trade.date trade ∉ JS.inherited ->
  Engine.addToDay acc trade !! Trade.date trade
  = Some (Double.add (Engine.totalOr0 (acc !! Trade.date trade)) (Engine.profitLoss trade)).
Proof.
  intros Hne Hplain. unfold Engine.addToDay. destruct (decide _); [contradiction|].
  destruct (decide (Trade.date trade = "__proto__")) as [Hp|_].
  { exfalso. apply Hplain. rewrite Hp. apply (bool_decide_unpack _). vm_compute. exact I. }
  rewrite bool_decide_eq_false_2 by exact Hplain. apply lookup_insert_eq.
Qed.

(** The keys of the totals are the dates of the records. *)
Lemma engine_dailyTotals_key (l : list Trade.t) (key : string) :
  (forall trade, In trade l -> Trade.date trade ∉ JS.inherited) ->
  is_Some (Engine.dailyTotals l !! key)
  <-> key <> EmptyString /\ exists trade, In trade l /\ Trade.date trade = key.
Proof.
  induction l as [|trade l IH] using rev_ind; intros Hplain.
  - unfold Engine.dailyTotals. cbn [fold_left]. rewrite lookup_empty. split.
    + intros [x Hx]. discriminate.
    + intros (_ & t & [] & _).
  - assert (IH' := IH (fun t Ht => Hplain t (in_or_app _ _ _ (or_introl Ht)))).
    assert (Hlast : Trade.date trade ∉ JS.inherited)
      by (apply Hplain, in_or_app; right; left; reflexivity).
    unfold Engine.dailyTotals in *. rewrite fold_left_app. cbn [fold_left].
    destruct (decide (Trade.date trade = key)) as [Heq|Hne].
    + subst key. destruct (decide (Trade.date trade = EmptyString)) as [Hempty|Hfull].
      * unfold Engine.addToDay. destruct (decide _); [|contradiction]. rewrite IH'.
        split; intros [H _]; contradiction.
      * rewrite engine_addToDay_same by assumption. split; [|eauto].
        intros _. split; [exact Hfull|]. exists trade. split; [|reflexivity].
        apply in_or_app. right. left. reflexivity.
    + rewrite engine_addToDay_other by exact Hne. rewrite IH'. split.
      * intros (Hk & t & Hin & Hd). split; [exact Hk|]. exists t. split; [|exact Hd].
        apply in_or_app. left. exact Hin.
      * intros (Hk & t & Hin & Hd). split; [exact Hk|]. exists t. split; [|exact Hd].
        apply in_app_or in Hin as [Hin|[<-|[]]]; [exact Hin|contradiction].
Qed.

Lemma orZero_canonical (q : Q) :
  Double.orZero (JSLib.Finite (Qred q)) = JSLib.Finite (Qred q).
Proof.
  cbn [Double.orZero]. destruct (Qeq_bool (Qred q) 0) eqn:H0; [|reflexivity].
  apply Qeq_bool_eq in H0. f_equal. rewrite <- (Qred_canonical q).
  symmetry. apply (Qred_complete _ 0 H0).
Qed.

(** Where no sum is rounded, the total kept under a date key is the P&L of
    the records dated with it. *)
Lemma engine_dailyTotals_lookup (trades l : list Trade.t) (key : string) :
  exactSums (pnlOf <$> trades) = true -> sublist l trades ->
  (forall trade, In trade l -> Trade.date trade ∉ JS.inherited) ->
  key <> EmptyString ->
  Engine.dailyTotals l !! key
  = match datedOn key l with
    | [] => None
    | _ => Some (JSLib.Finite (Qred (sumBy pnlOf (datedOn key l))))
    end.
Proof.
  intros Hexact Hsub Hplain Hkey. induction l as [|trade l IH] using rev_ind; [reflexivity|].
  assert (Hsub' : sublist l trades)
    by (etrans; [apply sublist_inserts_r; reflexivity|exact Hsub]).
  assert (IH' := IH Hsub' (fun t Ht => Hplain t (in_or_app _ _ _ (or_introl Ht)))).
  assert (Hlast : Trade.date trade ∉ JS.inherited)
    by (apply Hplain, in_or_app; right; left; reflexivity).
  assert (Hin : In trade trades).
  { apply list_elem_of_In, (elem_of_sublist (l ++ [trade])); [|exact Hsub].
    apply elem_of_app. right. left. }
  unfold Engine.dailyTotals in *. rewrite fold_left_app. cbn [fold_left].
  rewrite datedOn_snoc. destruct (String.eqb_spec (Trade.date trade) key) as [Heq|Hne].
  - subst key. rewrite engine_addToDay_same by assumption. rewrite IH'.
    rewrite (exact_amount trades Hexact trade Hin).
    assert (Htarget : exact (sumBy pnlOf (datedOn (Trade.date trade) l ++ [trade]))).
    { apply (exact_sublist trades Hexact).
      etrans; [|exact Hsub]. apply sublist_app; [apply sublist_List_filter|reflexivity]. }
    destruct (datedOn (Trade.date trade) l) as [|m ms] eqn:Hmembers.
    + cbn [Engine.totalOr0 app]. f_equal. apply add_exact; [|exact Htarget].
      rewrite Qred_correct. unfold sumBy. simpl. reflexivity.
    + cbn [Engine.totalOr0]. rewrite orZero_canonical.
      change ((m :: ms) ++ [trade]) with (m :: ms ++ [trade]). cbv iota. f_equal.
      apply add_exact; [|exact Htarget].
      rewrite !Qred_correct. symmetry. apply (sumBy_snoc pnlOf (m :: ms) trade).
  - rewrite engine_addToDay_other by exact Hne. exact IH'.
Qed.

Lemma engine_total_of_day (trades : list Trade.t) (key : string) :
  exactSums (pnlOf <$> trades) = true ->
  (forall trade, In trade trades -> Trade.date trade ∉ JS.inherited) ->
  key <> EmptyString ->
  Engine.totalOr0 (Engine.dailyTotals trades !! key)
  = JSLib.Finite (Qred (sumBy pnlOf (datedOn key trades))).
Proof.
  intros Hexact Hplain Hkey.
  rewrite (engine_dailyTotals_lookup trades trades key Hexact) by (reflexivity || assumption).
  destruct (datedOn key trades) as [|m ms]; [reflexivity|].
  cbn [Engine.totalOr0]. apply orZero_canonical.
Qed.

(** ** The sorted keys of the engine *)

Lemma engine_sortedKeys_elem (totals : gmap string JSLib.float) (key : string) :
  key ∈ Engine.sortedKeys totals <-> is_Some (totals !! key).
Proof.
  unfold Engine.sortedKeys. rewrite merge_sort_Permutation, list_elem_of_fmap. split.
  - intros ([k v] & -> & Hin). apply elem_of_map_to_list in Hin. simpl. eauto.
  - intros [v Hv]. exists (key, v). split; [reflexivity|]. apply elem_of_map_to_list, Hv.
Qed.

Lemma engine_sortedKeys_sorted (totals : gmap string JSLib.float) :
  StronglySorted String.le (Engine.sortedKeys totals).
Proof. apply StronglySorted_merge_sort; apply _. Qed.

(** ** Sums by day *)

Lemma datedWithin_none (n0 : Z) (trades : list Trade.t) : datedWithin n0 0 trades = [].
Proof.
  unfold datedWithin. induction trades as [|trade trades IH]; [reflexivity|].
  cbn [List.filter]. rewrite bool_decide_eq_false_2 by apply not_elem_of_nil. exact IH.
Qed.

(** The records of one more day add the total of that day. *)
Lemma datedWithin_succ (n0 : Z) (k : nat) (trades : list Trade.t) :
  firstDay <= n0 -> n0 + Z.of_nat k <= lastDay ->
  sumBy pnlOf (datedWithin n0 (S k) trades)
  == sumBy pnlOf (datedWithin n0 k trades)
     + sumBy pnlOf (datedOn (formatDateKey (JS.Day (n0 + Z.of_nat k))) trades).
Proof.
  intros Hn0 Hk.
  assert (Hkeys : (fun n => formatDateKey (JS.Day n)) <$> seqZ n0 (Z.of_nat (S k))
                  = ((fun n => formatDateKey (JS.Day n)) <$> seqZ n0 (Z.of_nat k))
                    ++ [formatDateKey (JS.Day (n0 + Z.of_nat k))]).
  { rewrite Nat2Z.inj_succ, <- Z.add_1_r, seqZ_app by lia. rewrite fmap_app. reflexivity. }
  assert (Hfresh : formatDateKey (JS.Day (n0 + Z.of_nat k))
                   ∉ (fun n => formatDateKey (JS.Day n)) <$> seqZ n0 (Z.of_nat k)).
  { intros Hin. apply list_elem_of_fmap in Hin as (n & Heq & Hn). apply elem_of_seqZ in Hn.
    apply key_inj in Heq; lia. }
  unfold datedWithin, datedOn. rewrite Hkeys.
  induction trades as [|trade trades IH]; [reflexivity|].
  cbn [List.filter].
  destruct (decide (Trade.date trade ∈ (fun n => formatDateKey (JS.Day n)) <$> seqZ n0 (Z.of_nat k)))
    as [Hin|Hout].
  - rewrite (bool_decide_eq_true_2 _ Hin).
    rewrite bool_decide_eq_true_2 by (apply elem_of_app; left; exact Hin).
    destruct (String.eqb_spec (Trade.date trade) (formatDateKey (JS.Day (n0 + Z.of_nat k))))
      as [Heq|_]; [rewrite Heq in Hin; contradiction|].
    rewrite !sumBy_cons, IH. ring.
  - rewrite (bool_decide_eq_false_2 _ Hout).
    destruct (String.eqb_spec (Trade.date trade) (formatDateKey (JS.Day (n0 + Z.of_nat k))))
      as [Heq|Hne].
    + rewrite bool_decide_eq_true_2
        by (apply elem_of_app; right; rewrite Heq; apply list_elem_of_singleton; reflexivity).
      rewrite !sumBy_cons, IH. ring.
    + rewrite bool_decide_eq_false_2; [exact IH|].
      intros Hin. apply elem_of_app in Hin as [Hin|Hin]; [contradiction|].
      apply list_elem_of_singleton in Hin. contradiction.
Qed.

Lemma startOfToday_ofDay (zone : Zoned.Zone) (today : Z) :
  Engine.startOfToday zone today = Zoned.ofDay zone (startOfDay (JS.Day today)).
Proof.
  unfold Engine.startOfToday. unfold Zoned.new_Date. unfold startOfDay.
  generalize (JS.getFullYear (JS.Day today)), (JS.getMonth (JS.Day today)),
    (JS.getDate (JS.Day today)).
  reflexivity.
Qed.

Section EngineCanonical.

(** A collection whose date strings are all canonical, none after today,
    with no sum of amounts rounded, read on a day that is a date. *)
Variables (zone : Zoned.Zone) (today : Z) (trades : list Trade.t).
Hypothesis canonical :
  forall trade, In trade trades -> canonicalDate today (Trade.date trade).
Hypothesis Hexact : exactSums (pnlOf <$> trades) = true.
Hypothesis Htoday : startOfDay (JS.Day today) = JS.Day today.

Lemma canonical_plain (trade : Trade.t) :
  In trade trades -> Trade.date trade ∉ JS.inherited.
Proof.
  intros Hin. destruct (canonical trade Hin) as (n & -> & Hn & _).
  apply key_not_inherited, Hn.
Qed.

Lemma engine_rangeFiltered : Engine.rangeFilteredTrades zone trades allDays = trades.
Proof.
  apply filter_all. intros trade Hin.
  destruct (canonical trade Hin) as (n & -> & Hn & _).
  rewrite parseISODate_ofDay, parseISODate_key by exact Hn. reflexivity.
Qed.

Lemma engine_date_is_key (trade : Trade.t) :
  In trade trades -> Trade.date trade ∈ Engine.sortedKeys (Engine.dailyTotals trades).
Proof.
  intros Hin. apply engine_sortedKeys_elem, engine_dailyTotals_key; [apply canonical_plain|].
  destruct (canonical trade Hin) as (n & Hd & _).
  split; [rewrite Hd; apply key_nonempty|]. exists trade. tauto.
Qed.

Lemma engine_key_is_day (key : string) :
  key ∈ Engine.sortedKeys (Engine.dailyTotals trades) ->
  exists trade, In trade trades /\ Trade.date trade = key.
Proof.
  intros Hin. apply engine_sortedKeys_elem, engine_dailyTotals_key in Hin as (_ & H);
    [exact H|apply canonical_plain].
Qed.

Lemma engine_startOfToday : Engine.startOfToday zone today = Zoned.ofDay zone (JS.Day today).
Proof.
  rewrite startOfToday_ofDay, Htoday. reflexivity.
Qed.

(** With at least one record the series runs from the midnight of the
    earliest to the midnight of the latest day of the collection, and every
    date lies between them. *)
Lemma engine_canonical_endpoints :
  trades <> [] ->
  exists n0 n1,
    Engine.seriesStart zone today (Engine.sortedKeys (Engine.dailyTotals trades)) allDays
    = Zoned.ofDay zone (JS.Day n0)
    /\ Engine.seriesEnd zone today (Engine.sortedKeys (Engine.dailyTotals trades)) allDays
       = Zoned.ofDay zone (JS.Day n1)
    /\ firstDay <= n0 /\ n0 <= n1 /\ n1 <= lastDay
    /\ (exists a, In a trades /\ tradedOn a n0)
    /\ (exists b, In b trades /\ tradedOn b n1)
    /\ forall trade, In trade trades ->
         exists n, Trade.date trade = formatDateKey (JS.Day n) /\ n0 <= n <= n1.
Proof.
  intros Hne. set (keys := Engine.sortedKeys (Engine.dailyTotals trades)).
  pose proof (engine_sortedKeys_sorted (Engine.dailyTotals trades)) as Hsorted.
  fold keys in Hsorted.
  destruct (head keys) as [first|] eqn:Hhead; cycle 1.
  { assert (Hsome : exists trade, In trade trades)
      by (clear -Hne; destruct trades; [congruence|eexists; left; reflexivity]).
    destruct Hsome as [trade Hin]. apply engine_date_is_key in Hin. fold keys in Hin.
    destruct keys; [apply elem_of_nil in Hin as []|discriminate]. }
  destruct (last keys) as [final|] eqn:Hlast; cycle 1.
  { destruct keys; [discriminate|]. apply last_None in Hlast. discriminate. }
  assert (Hfirst : first ∈ keys)
    by (destruct keys; [discriminate|]; injection Hhead as ->; left).
  assert (Hfinal : final ∈ keys) by (apply last_Some_elem_of, Hlast).
  destruct (engine_key_is_day first Hfirst) as (a & Ha & Hda).
  destruct (engine_key_is_day final Hfinal) as (b & Hb & Hdb).
  destruct (canonical a Ha) as (n0 & Hk0 & Hn0 & Ht0).
  destruct (canonical b Hb) as (n1 & Hk1 & Hn1 & Ht1).
  rewrite Hk0 in Hda. rewrite Hk1 in Hdb. subst first final.
  assert (Hbetween : forall key, key ∈ keys ->
            exists n, key = formatDateKey (JS.Day n) /\ n0 <= n <= n1).
  { intros key Hin. destruct (engine_key_is_day key Hin) as (t & Ht & Hdt).
    destruct (canonical t Ht) as (n & Hk & Hn & _). rewrite Hk in Hdt. subst key.
    exists n. split; [reflexivity|]. split; apply key_le_inv; try assumption.
    - apply (sorted_first_least keys); assumption.
    - apply (sorted_last_greatest keys); assumption. }
  assert (Hord : n0 <= n1).
  { destruct (Hbetween _ Hfirst) as (n & Heq & Hn).
    apply key_inj in Heq; [lia|assumption|lia]. }
  exists n0, n1. split; [|split; [|split; [lia|split; [lia|split; [lia|split; [|split]]]]]].
  - unfold Engine.seriesStart, Engine.defaultStart, allDays. cbn [Engine.DateRange.start].
    destruct keys as [|k keys']; [discriminate|]. injection Hhead as ->.
    rewrite dayOfKey_ofDay, dayOfKey_key, engine_startOfToday, gt_ofDay by exact Hn0.
    cbn [JS.date_gt JS.date_lt]. destruct (Z.ltb_spec today n0); [lia|reflexivity].
  - unfold Engine.seriesEnd, Engine.seriesStart, Engine.defaultEnd, Engine.defaultStart, allDays.
    cbn [Engine.DateRange.start Engine.DateRange.end_]. rewrite Hlast.
    destruct keys as [|k keys']; [discriminate|]. injection Hhead as ->.
    rewrite !dayOfKey_ofDay, !dayOfKey_key, engine_startOfToday, !gt_ofDay by assumption.
    cbn [JS.date_gt JS.date_lt].
    destruct (Z.ltb_spec today n0); [lia|]. destruct (Z.ltb_spec today n1); [lia|].
    rewrite lt_ofDay. cbn [JS.date_lt]. destruct (Z.ltb_spec n1 n0); [lia|reflexivity].
  - exists a. split; [exact Ha|]. split; [exact Hn0|exact Hk0].
  - exists b. split; [exact Hb|]. split; [exact Hn1|exact Hk1].
  - intros trade Hin. apply Hbetween, engine_date_is_key, Hin.
Qed.

(** The running total of the engine over the first [k] days from [n0] is
    the P&L of the records dated on these days. *)
Lemma engine_running_total (n0 : Z) (k : nat) :
  firstDay <= n0 -> n0 + Z.of_nat k <= lastDay + 1 ->
  fold_left Double.add
    (Engine.Entry.pnl <$> (entryOfDay' (Engine.dailyTotals trades) <$> seqZ n0 (Z.of_nat k)))
    (JSLib.Finite 0)
  = JSLib.Finite (Qred (sumBy pnlOf (datedWithin n0 k trades))).
Proof.
  intros Hn0. induction k as [|k IH]; intros Hk.
  - rewrite datedWithin_none. reflexivity.
  - rewrite Nat2Z.inj_succ, <- Z.add_1_r, seqZ_app by lia.
    rewrite !fmap_app, fold_left_app, IH by lia.
    cbn [seqZ fmap list_fmap fold_left]. change (seqZ (n0 + Z.of_nat k) 1) with [n0 + Z.of_nat k].
    cbn [fmap list_fmap fold_left entryOfDay' Engine.entryOf Engine.Entry.pnl].
    change (Engine.formatDateKey (Zoned.At (n0 + Z.of_nat k) 0))
      with (formatDateKey (JS.Day (n0 + Z.of_nat k))).
    rewrite engine_total_of_day; [|exact Hexact|apply canonical_plain|apply key_nonempty].
    apply add_exact.
    + rewrite !Qred_correct. symmetry. apply datedWithin_succ; lia.
    + apply (exact_sublist trades Hexact), sublist_List_filter.
Qed.

End EngineCanonical.

(** With no record the series is the single entry of today, with total 0. *)
Lemma engine_series_empty (zone : Zoned.Zone) (today : Z) :
  startOfDay (JS.Day today) = JS.Day today ->
  exists lastEntry,
    last (Engine.cumulativePnLData (Engine.dailyPnLData zone today [] allDays)) = Some lastEntry
    /\ Engine.CumEntry.cumulative lastEntry = JSLib.Finite 0.
Proof.
  intros Htoday. unfold Engine.dailyPnLData.
  change (Engine.sortedKeys (Engine.dailyTotals [])) with (@nil string).
  unfold Engine.seriesEnd, Engine.seriesStart, Engine.defaultEnd, Engine.defaultStart, allDays.
  cbn [Engine.DateRange.start Engine.DateRange.end_ last].
  rewrite (engine_startOfToday zone today Htoday). cbn [Zoned.ofDay].
  unfold Zoned.resolve. set (ms := if 0 <? zone today then 0 + zone today else 0).
  cbn [Zoned.gt Zoned.lt]. rewrite !Z.ltb_irrefl, Z.eqb_refl. cbn [orb andb Zoned.lt].
  rewrite ?Z.ltb_irrefl, ?Z.eqb_refl. cbn [orb andb].
  replace (today - today + 1) with 1 by lia.
  change (Z.to_nat 1) with 1%nat. cbn [Engine.walk Zoned.le].
  rewrite Z.ltb_irrefl, Z.eqb_refl, Z.leb_refl. cbn [orb andb].
  eexists. split; [reflexivity|]. reflexivity.
Qed.

(** C10 (amended): when every date string is the zero-padded YYYY-MM-DD
    key of a day on or before today - today a date that [startOfDay] leaves
    in place, as any day of the clock is -, the time zone skips no midnight
    between the dates of two records, and every sum of some of the [profitLoss]
    amounts (a missing one counting 0) is a double, so that no addition is
    rounded, then under the all-time range with every filter "all" the last
    cumulative value of the daily series is the net P&L of the metrics, and
    both are the sum of the amounts over all records. *)
Theorem C10_cumulative_matches_netPnL (zone : Zoned.Zone) (today : Z) (trades : list Trade.t)
    (search : string) :
  (forall trade, In trade trades -> canonicalDate today (Trade.date trade)) ->
  startOfDay (JS.Day today) = JS.Day today ->
  noGapBetween zone trades ->
  exactSums (pnlOf <$> trades) = true ->
  let filtered :=
    App.filteredTrades (Engine.rangeFilteredTrades zone trades allDays) (allFilters search) in
  let series := Engine.cumulativePnLData (Engine.dailyPnLData zone today filtered allDays) in
  let netPnL := Engine.Metrics.netPnL (Engine.metrics filtered) in
  netPnL = JSLib.Finite (Qred (sumQ (pnlOf <$> trades)))
  /\ exists lastEntry,
       last series = Some lastEntry /\ Engine.CumEntry.cumulative lastEntry = netPnL.
Proof.
  intros canonical Htoday Hzone Hexact. cbv zeta.
  rewrite (engine_rangeFiltered zone today trades canonical), filteredTrades_allFilters.
  unfold Engine.metrics. cbn [Engine.Metrics.netPnL].
  rewrite (engine_sumBy_exact trades Hexact trades) by reflexivity.
  split; [f_equal; apply Qred_complete, sumBy_sumQ|].
  destruct (decide (trades = [])) as [->|Hne]; [apply engine_series_empty, Htoday|].
  destruct (engine_canonical_endpoints zone today trades canonical Htoday Hne)
    as (n0 & n1 & Hstart & Hend & Hn0 & Hord & Hn1 & (a & Ha & Hda) & (b & Hb & Hdb) & Hall).
  assert (Hgap : forall n, n0 <= n <= n1 -> zone n = 0)
    by (intros n Hn; apply (Hzone a b n0 n1 n); assumption).
  assert (Hmid : forall n, n0 <= n <= n1 -> Zoned.ofDay zone (JS.Day n) = Zoned.At n 0).
  { intros n Hn. cbn [Zoned.ofDay]. unfold Zoned.resolve. rewrite (Hgap n Hn). reflexivity. }
  rewrite (Hmid n0) in Hstart by lia. rewrite (Hmid n1) in Hend by lia.
  destruct (engine_dailyPnLData_days zone today trades allDays n0 n1 0 0 Hstart Hend Hgap)
    as (_ & _ & _ & Hwalk).
  unfold Engine.dailyPnLData. rewrite Hstart, Hend, Hwalk by reflexivity.
  destruct (engine_cumulate_last
              (entryOfDay' (Engine.dailyTotals trades) <$> seqZ n0 (n1 - n0 + 1)) (JSLib.Finite 0))
    as (lastEntry & Hlast & Hcum).
  { rewrite seqZ_cons by lia. discriminate. }
  exists lastEntry. split; [exact Hlast|]. rewrite Hcum.
  replace (n1 - n0 + 1) with (Z.of_nat (Z.to_nat (n1 - n0 + 1))) by lia.
  rewrite (engine_running_total today trades canonical Hexact n0) by lia.
  f_equal. f_equal. f_equal. apply filter_all. intros trade Hin.
  destruct (Hall trade Hin) as (n & -> & Hn). apply bool_decide_eq_true_2.
  apply list_elem_of_fmap. exists n. split; [reflexivity|]. apply elem_of_seqZ. lia.
Qed.

Lemma C10_witness :
  Engine.Metrics.netPnL
    (Engine.metrics (App.filteredTrades (Engine.rangeFilteredTrades noGap (scenario 1 2) allDays)
                                        (allFilters "")))
  = JSLib.Finite (Qred (sumQ (pnlOf <$> scenario 1 2)))
  /\ exists lastEntry,
       last (Engine.cumulativePnLData
               (Engine.dailyPnLData noGap 20000
                  (App.filteredTrades (Engine.rangeFilteredTrades noGap (scenario 1 2) allDays)
                                      (allFilters ""))
                  allDays))
       = Some lastEntry
       /\ Engine.CumEntry.cumulative lastEntry
          = Engine.Metrics.netPnL
              (Engine.metrics
                 (App.filteredTrades (Engine.rangeFilteredTrades noGap (scenario 1 2) allDays)
                                     (allFilters ""))).
Proof.
  apply (C10_cumulative_matches_netPnL noGap 20000 (scenario 1 2) "").
  - intros trade [<-|[<-|[]]]; exists 19724; vm_compute; repeat split; discriminate.
  - vm_compute. reflexivity.
  - intros a b na nb n _ _ _ _ _. reflexivity.
  - vm_compute. reflexivity.
Defined.

(** C10, as stated, fails in three ways.  A date string that parses but is
    not zero-padded: the record dated "2024-1-2" has its total under the key
    "2024-1-2", the series looks up "2024-01-02", and the last cumulative
    value is 0 where the net P&L is 100.  Sums that are rounded: 0.3, 0.2 and
    0.1 entered on 3, 2 and 1 January add up to 0.6 in the order of the
    records and to the next double, 0.6000000000000001 (in lowest terms
    1351079888211149 / 2^51, one unit of 2^-53 above), in the order of the
    days.  A skipped midnight: where the clocks go forward at 00:00 on
    3 January, the cursor reaches 4 January at 01:00, after the end of the
    series, and the 50 of that day is missing from the last cumulative
    value. *)
Lemma C10_counterexample :
  let run zone trades :=
    let filtered :=
      App.filteredTrades (Engine.rangeFilteredTrades zone trades allDays) (allFilters "") in
    (Engine.Metrics.netPnL (Engine.metrics filtered),
     Engine.CumEntry.cumulative
       <$> last (Engine.cumulativePnLData (Engine.dailyPnLData zone 20000 filtered allDays))) in
  (parseISODate (Trade.date unpaddedDate) = Some (JS.Day 19724)
   /\ exactSums (pnlOf <$> [unpaddedDate]) = true
   /\ run noGap [unpaddedDate] = (JSLib.Finite 100, Some (JSLib.Finite 0)))
  /\ (Trade.date <$> tenths = (fun n => formatDateKey (JS.Day n)) <$> [19725; 19724; 19723]
      /\ exactSums (pnlOf <$> tenths) = false
      /\ run noGap tenths
         = (Double.round (6 # 10),
            Some (JSLib.Finite (1351079888211149 # 2251799813685248)))
      /\ Double.round (6 # 10) = JSLib.Finite (5404319552844595 # 9007199254740992))
  /\ (Trade.date <$> twoDaysApart = (fun n => formatDateKey (JS.Day n)) <$> [19724; 19726]
      /\ exactSums (pnlOf <$> twoDaysApart) = true
      /\ gapAt 19725 19725 = 3600000
      /\ run (gapAt 19725) twoDaysApart = (JSLib.Finite 150, Some (JSLib.Finite 100))
      /\ run noGap twoDaysApart = (JSLib.Finite 150, Some (JSLib.Finite 150))).
Proof.
  cbv zeta. split; [|split].
  - split; [vm_compute; reflexivity|]. split; vm_compute; reflexivity.
  - split; [vm_compute; reflexivity|]. split; [vm_compute; reflexivity|].
    split; vm_compute; reflexivity.
  - split; [vm_compute; reflexivity|]. split; [vm_compute; reflexivity|].
    split; [vm_compute; reflexivity|]. split; vm_compute; reflexivity.
Qed.

(** ** The month menu of the engine *)

(** What the engine builds from midnights is the midnight of what the
    day-by-day model builds. *)
Lemma engine_earliestMonth_ofDay (zone : Zoned.Zone) (acc : option JS.Date) (trade : Trade.t) :
  Engine.earliestMonth zone (Zoned.ofDay zone <$> acc) trade
  = Zoned.ofDay zone <$> earliestMonth acc trade.
Proof.
  unfold Engine.earliestMonth, earliestMonth. rewrite parseISODate_ofDay.
  destruct (parseISODate (Trade.date trade)) as [parsed|]; [|reflexivity].
  cbn [fmap option_fmap option_map]. cbv zeta.
  unfold Zoned.getFullYear, Zoned.getMonth, Zoned.new_Date. rewrite day_ofDay.
  destruct acc as [earliest|]; cbn [fmap option_fmap option_map]; [|reflexivity].
  rewrite lt_ofDay. destruct (JS.date_lt _ earliest); reflexivity.
Qed.

Lemma engine_earliestMonth_fold (zone : Zoned.Zone) (trades : list Trade.t)
    (acc : option JS.Date) :
  fold_left (Engine.earliestMonth zone) trades (Zoned.ofDay zone <$> acc)
  = Zoned.ofDay zone <$> fold_left earliestMonth trades acc.
Proof.
  revert acc. induction trades as [|trade trades IH]; intros acc; [reflexivity|].
  cbn [fold_left]. rewrite engine_earliestMonth_ofDay. apply IH.
Qed.

Lemma engine_nowStart_ofDay (zone : Zoned.Zone) (now : Z) :
  Engine.nowStart zone now = Zoned.ofDay zone (nowStart now).
Proof.
  unfold Engine.nowStart. unfold Zoned.new_Date. unfold nowStart.
  generalize (JS.getFullYear (JS.Day now)), (JS.getMonth (JS.Day now)). reflexivity.
Qed.

Lemma engine_startPoint_ofDay (zone : Zoned.Zone) (now : Z) (trades : list Trade.t) :
  Engine.startPoint zone now trades = Zoned.ofDay zone (startPoint now trades).
Proof.
  unfold Engine.startPoint, startPoint. cbv zeta.
  rewrite engine_nowStart_ofDay.
  rewrite (engine_earliestMonth_fold zone trades None
           : fold_left (Engine.earliestMonth zone) trades None = _).
  unfold Zoned.getFullYear, Zoned.getMonth, Zoned.new_Date. rewrite day_ofDay.
  destruct (fold_left earliestMonth trades None) as [earliest|];
    cbn [fmap option_fmap option_map]; [|reflexivity].
  rewrite lt_ofDay. destruct (JS.date_lt earliest _); reflexivity.
Qed.

Lemma ofDay_monthStart (zone : Zoned.Zone) (i : Z) :
  zone (monthStart i) = 0 ->
  Zoned.ofDay zone (JS.Day (monthStart i)) = Zoned.At (monthStart i) 0.
Proof. intros Hz. cbn [Zoned.ofDay]. unfold Zoned.resolve. rewrite Hz. reflexivity. Qed.

(** The option the loop pushes at a midnight has the key and the label of
    the option of the day-by-day model. *)
Lemma option_At (n : Z) :
  Engine.MonthOption.mk
    (JS.show (Zoned.getFullYear (Zoned.At n 0)) +:+ "-"
     +:+ JS.show (Zoned.getMonth (Zoned.At n 0)))
    (monthLabel (Zoned.day (Zoned.At n 0))) (Zoned.At n 0)
  = let option :=
      MonthOption.mk (JS.show (JS.getFullYear (JS.Day n)) +:+ "-"
                      +:+ JS.show (JS.getMonth (JS.Day n)))
                     (monthLabel (JS.Day n)) (JS.Day n) in
    Engine.MonthOption.mk (MonthOption.key option) (MonthOption.label option) (Zoned.At n 0).
Proof. reflexivity. Qed.

(** The loop of the menu, from month [k] down to month [low], where the
    first of each of these months has its midnight. *)
Lemma engine_monthsDown_months (zone : Zoned.Zone) (fuel : nat) (k low : Z) :
  (forall i, low <= i <= k -> zone (monthStart i) = 0) ->
  11989 <= low -> k <= 119999 -> (Z.to_nat (k - low + 1) <= fuel)%nat ->
  Engine.monthsDown zone fuel (Zoned.ofDay zone (JS.Day (monthStart k)))
                    (Zoned.At (monthStart low) 0)
  = (fun i => monthOptionAt (k - i)) <$> seqZ 0 (k - low + 1).
Proof.
  revert k. induction fuel as [|fuel IH]; intros k Hzone Hlow Hk Hfuel.
  - rewrite seqZ_nil by lia. reflexivity.
  - cbn [Engine.monthsDown Zoned.ofDay]. unfold Zoned.resolve at 1.
    cbn [Zoned.ge Zoned.le]. rewrite monthStart_ltb.
    destruct (Z.ltb_spec low k) as [Hlt|Hge].
    + cbn [orb]. rewrite (seqZ_cons 0 (k - low + 1)) by lia.
      rewrite fmap_cons, Z.sub_0_r. unfold Zoned.resolve. rewrite (Hzone k) by lia.
      cbn [Z.ltb Z.compare]. f_equal.
      * rewrite option_At, monthOption_cursor. reflexivity.
      * cbn [Zoned.setMonth Zoned.getMonth Zoned.day].
        rewrite setMonth_monthStart by lia.
        change (Zoned.resolve zone (monthStart (k - 1)) 0)
          with (Zoned.ofDay zone (JS.Day (monthStart (k - 1)))).
        rewrite IH; [|intros i Hi; apply Hzone; lia|lia|lia|lia].
        replace (Z.pred (k - low + 1)) with (k - 1 - low + 1) by lia.
        rewrite (seqZ_shift (Z.succ 0)), <- list_fmap_compose.
        apply list_fmap_ext. intros i index Hindex. cbn [compose]. f_equal. lia.
    + cbn [orb]. destruct (Z.eqb_spec (monthStart low) (monthStart k)) as [Heq|Hne].
      * assert (low = k).
        { pose proof (monthStart_ltb low k) as H1. pose proof (monthStart_ltb k low) as H2.
          rewrite Heq, Z.ltb_irrefl in H1. rewrite Heq, Z.ltb_irrefl in H2.
          symmetry in H1, H2. apply Z.ltb_ge in H1, H2. lia. }
        subst low. unfold Zoned.resolve. rewrite (Hzone k) by lia.
        cbn [Z.ltb Z.compare Z.leb andb].
        replace (k - k + 1) with 1 by lia. cbn [seqZ]. change (seqZ 0 1) with [0].
        cbn [fmap list_fmap]. rewrite Z.sub_0_r. f_equal.
        -- rewrite option_At, monthOption_cursor. reflexivity.
        -- cbn [Zoned.setMonth Zoned.getMonth Zoned.day].
           rewrite setMonth_monthStart by lia.
           change (Zoned.resolve zone (monthStart (k - 1)) 0)
             with (Zoned.ofDay zone (JS.Day (monthStart (k - 1)))).
           destruct fuel as [|fuel']; [reflexivity|].
           cbn [Engine.monthsDown Zoned.ofDay]. unfold Zoned.resolve.
           cbn [Zoned.ge Zoned.le]. rewrite monthStart_ltb.
           destruct (Z.ltb_spec k (k - 1)); [lia|].
           destruct (Z.eqb_spec (monthStart k) (monthStart (k - 1))) as [Heq'|_]; [|reflexivity].
           pose proof (monthStart_mono (k - 1) k ltac:(lia)). lia.
      * cbn [andb]. rewrite seqZ_nil; [reflexivity|].
        destruct (Z.eq_dec low k) as [->|]; [congruence|lia].
Qed.

Section EngineMonthMenu.

(** The menu built in a zone on the day [now] of month [k] from records
    dated on [days]; its last month is [low], and the first of each month
    from [low] to [k] has its midnight. *)
Variables (zone : Zoned.Zone) (now k low : Z) (trades : list Trade.t) (days : list Z).
Hypothesis Hnow : fourDigitYear now.
Hypothesis Hdated : Forall2 tradedOn trades days.
Hypothesis Ek : monthOf now = k.
Hypothesis Elow : foldr Z.min (k - 11) (monthOf <$> days) = low.
Hypothesis Hzone : forall i, low <= i <= k -> zone (monthStart i) = 0.

Lemma engine_menu_options :
  Engine.buildMonthOptions zone now trades
  = (fun i => monthOptionAt (k - i)) <$> seqZ 0 (k - low + 1).
Proof.
  pose proof (menu_bounds now k low trades days Hnow Hdated Ek Elow) as [Hk Hlow].
  unfold Engine.buildMonthOptions.
  rewrite engine_nowStart_ofDay, engine_startPoint_ofDay.
  rewrite (menu_nowStart now k Hnow Ek), (menu_startPoint now k low trades days Hnow Hdated Ek Elow).
  rewrite !ofDay_monthStart by (apply Hzone; lia).
  rewrite <- (ofDay_monthStart zone k) at 1 by (apply Hzone; lia).
  apply engine_monthsDown_months; [exact Hzone|lia|lia|].
  pose proof (monthStart_mono low k ltac:(lia)). lia.
Qed.

Lemma engine_menu_earliest :
  Engine.earliestAvailableMonth (Engine.buildMonthOptions zone now trades)
  = Some (Zoned.At (monthStart low) 0).
Proof.
  pose proof (menu_bounds now k low trades days Hnow Hdated Ek Elow) as [Hk Hlow].
  rewrite engine_menu_options. unfold Engine.earliestAvailableMonth.
  rewrite last_lookup, length_fmap, length_seqZ, !list_lookup_fmap.
  assert (Hlast : seqZ 0 (k - low + 1) !! Nat.pred (Z.to_nat (k - low + 1)) = Some (k - low))
    by (apply lookup_seqZ; lia).
  rewrite Hlast. cbn [fmap option_fmap option_map monthOptionAt Engine.MonthOption.date].
  repeat f_equal. lia.
Qed.

End EngineMonthMenu.

(** X28: with the menu built on a day of a four-digit year from records
    dated on such days, in a time zone where the first of every month of the
    menu has its midnight, and a month of the menu shown, [handleMonthChange]
    with an offset of at most twelve months either way shows the month that
    many months away when the menu lists it and leaves the month shown
    otherwise; the arrows never leave the menu. *)
Theorem handleMonthChange_menu (zone : Zoned.Zone) (now : Z) (trades : list Trade.t)
    (days : list Z) (j offset : Z) :
  fourDigitYear now -> Forall2 tradedOn trades days ->
  let k := monthOf now in
  let low := foldr Z.min (k - 11) (monthOf <$> days) in
  let menu := Engine.buildMonthOptions zone now trades in
  (forall i, low <= i <= k -> zone (monthStart i) = 0) ->
  low <= j <= k -> -12 <= offset <= 12 ->
  let next := if (low <=? j + offset) && (j + offset <=? k) then j + offset else j in
  Engine.handleMonthChange zone offset (Engine.nowStart zone now)
                           (Engine.earliestAvailableMonth menu) (Zoned.At (monthStart j) 0)
  = Zoned.At (monthStart next) 0
  /\ monthOptionAt next ∈ menu.
Proof.
  intros Hnow Hdated k low menu.
  assert (Ek : monthOf now = k) by reflexivity.
  assert (Elow : foldr Z.min (k - 11) (monthOf <$> days) = low) by reflexivity.
  clearbody k low. intros Hzone.
  pose proof (menu_bounds now k low trades days Hnow Hdated Ek Elow) as [Hk Hlow].
  pose proof (engine_menu_options zone now k low trades days Hnow Hdated Ek Elow Hzone) as Hmenu.
  pose proof (engine_menu_earliest zone now k low trades days Hnow Hdated Ek Elow Hzone)
    as Hearliest.
  fold menu in Hmenu, Hearliest. clearbody menu.
  intros Hj Hoffset next. split.
  - assert (Hmove :
      JS.new_Date (JS.getFullYear (JS.Day (monthStart j)))
                  (JS.add (JS.getMonth (JS.Day (monthStart j))) (JS.of_Z offset)) (JS.of_Z 1)
      = JS.Day (monthStart (j + offset))).
    { rewrite getMonth_monthStart.
      apply (new_Date_from_month j offset); [apply Qeq_add_Z|lia|lia]. }
    unfold Engine.handleMonthChange. cbv zeta.
    unfold Zoned.getFullYear, Zoned.getMonth, Zoned.new_Date. cbn [Zoned.day].
    rewrite Hmove, Hearliest, engine_nowStart_ofDay, (menu_nowStart now k Hnow Ek).
    rewrite <- (ofDay_monthStart zone low) by (apply Hzone; lia).
    rewrite gt_ofDay, lt_ofDay.
    unfold JS.date_gt, JS.date_lt. rewrite !monthStart_ltb. subst next.
    destruct (Z.ltb_spec k (j + offset)) as [Hgt|Hle].
    + destruct (Z.leb_spec (j + offset) k); [lia|]. rewrite andb_false_r. reflexivity.
    + destruct (Z.leb_spec (j + offset) k); [|lia]. rewrite andb_true_r.
      destruct (Z.ltb_spec (j + offset) low); destruct (Z.leb_spec low (j + offset));
        try lia; [reflexivity|].
      apply ofDay_monthStart, Hzone. lia.
  - assert (Hnext : low <= next <= k).
    { subst next. destruct (Z.leb_spec low (j + offset)); destruct (Z.leb_spec (j + offset) k);
        cbn [andb]; lia. }
    rewrite Hmenu. apply list_elem_of_fmap. exists (k - next). split; [f_equal; lia|].
    apply elem_of_seqZ. lia.
Qed.

Lemma handleMonthChange_menu_witness :
  Engine.handleMonthChange noGap 1 (Engine.nowStart noGap 19724)
    (Engine.earliestAvailableMonth
       (Engine.buildMonthOptions noGap 19724 [tradeOn 19000 "win" 100]))
    (Zoned.At (monthStart 24280) 0)
  = Zoned.At (monthStart 24281) 0.
Proof.
  assert (Hnow : fourDigitYear 19724) by (unfold fourDigitYear; vm_compute; split; discriminate).
  assert (Hday : fourDigitYear 19000) by (unfold fourDigitYear; vm_compute; split; discriminate).
  assert (Hdated : Forall2 tradedOn [tradeOn 19000 "win" 100] [19000])
    by (constructor; [split; [exact Hday|reflexivity]|constructor]).
  exact (proj1 (handleMonthChange_menu noGap 19724 [tradeOn 19000 "win" 100] [19000] 24280 1
                  Hnow Hdated (fun _ _ => eq_refl)
                  ltac:(vm_compute; split; discriminate) ltac:(lia))).
Defined.

(** Where the clocks go forward at 00:00 on the first of a month of the
    menu, the cursor of the loop is at 01:00 from then on, and so is the
    earliest available month: the arrow back from the month after it builds
    the midnight of the earliest month, which lies before, and the month
    shown stays where it is. *)
Lemma handleMonthChange_skipped_midnight :
  let zone := gapAt (monthStart 24285) in
  let menu := Engine.buildMonthOptions zone 19724 [] in
  monthOf 19724 = 24288
  /\ Engine.MonthOption.key <$> menu = (fun i => MonthOption.key (monthOption (24288 - i))) <$> seqZ 0 12
  /\ Engine.earliestAvailableMonth menu = Some (Zoned.At (monthStart 24277) 3600000)
  /\ Engine.handleMonthChange zone (-1) (Engine.nowStart zone 19724)
                              (Engine.earliestAvailableMonth menu)
                              (Zoned.At (monthStart 24278) 0)
     = Zoned.At (monthStart 24278) 0.
Proof.
  cbv zeta. split; [vm_compute; reflexivity|]. split; [vm_compute; reflexivity|].
  split; vm_compute; reflexivity.
Qed.
